(** * SFTP client core (sftp.c): a shallow embedding and its properties

    The development follows the layout of sftp.c: machine integers, the
    packet codec, the request registry, the error channel, the protocol
    primitives and the pipelined transfer engine.  Stateful code is written
    in a small state-and-fault monad over [sftp_state]; a C run-time fault
    (null dereference, read past a buffer, failed assertion) is an explicit
    [Fault] outcome. *)

From Stdlib Require Import ZArith Lia String.
From stdpp Require Import base numbers option list sorting gmap.

Local Open Scope Z_scope.

(** ** Machine integers

    [unsigned], [unsigned long] and [int] are 32 bits wide on the Windows
    targets of this code base; their wrap-around is written out. *)

Definition UINT_MOD : Z := 2 ^ 32.
Definition INT_MAX : Z := 2 ^ 31 - 1.
Definition ULONG_MAX : Z := 2 ^ 32 - 1.

(** Conversion to a 32-bit unsigned value. *)
Definition u32 (z : Z) : Z := z mod UINT_MOD.

(** Conversion to [int] (two's complement). *)
Definition s32 (z : Z) : Z := (z + 2 ^ 31) mod UINT_MOD - 2 ^ 31.

(** The cast [(unsigned char)]. *)
Definition uchar (z : Z) : Z := Z.land z 255.

(** Modelled from the spec: the macros GET_32BIT and PUT_32BIT of misc.h,
    which is not among the sources; the spec fixes a u32 as big-endian.
    [GET_32BIT cp off] reads the four bytes at [cp + off]; [None] when one of
    them lies outside the buffer. *)
Definition GET_32BIT (cp : list Z) (off : Z) : option Z :=
  match cp !! Z.to_nat off, cp !! Z.to_nat (off + 1),
        cp !! Z.to_nat (off + 2), cp !! Z.to_nat (off + 3) with
  | Some b0, Some b1, Some b2, Some b3 =>
      Some (Z.lor (Z.lor (Z.lor (Z.shiftl (uchar b0) 24) (Z.shiftl (uchar b1) 16))
                         (Z.shiftl (uchar b2) 8))
                  (uchar b3))
  | _, _, _, _ => None
  end.

(** The four bytes PUT_32BIT stores, most significant first. *)
Definition PUT_32BIT (value : Z) : list Z :=
  [uchar (Z.shiftr value 24); uchar (Z.shiftr value 16);
   uchar (Z.shiftr value 8); uchar value].

(** PUT_32BIT into an existing buffer at [cp + off]. *)
Definition PUT_32BIT_at (cp : list Z) (off : Z) (value : Z) : list Z :=
  <[Z.to_nat (off + 3) := uchar value]>
    (<[Z.to_nat (off + 2) := uchar (Z.shiftr value 8)]>
       (<[Z.to_nat (off + 1) := uchar (Z.shiftr value 16)]>
          (<[Z.to_nat off := uchar (Z.shiftr value 24)]> cp))).

(** Modelled from the spec: the type uint64 of int64.h, which is not among
    the sources; the spec describes it as a handrolled pair of 32-bit words
    holding a 64-bit unsigned value, and sftp.c reads its fields [hi] and
    [lo]. *)
Record uint64 := mk_uint64 { hi : Z; lo : Z }.

Definition uint64_make (h l : Z) : uint64 := mk_uint64 (u32 h) (u32 l).

Definition uint64_val (x : uint64) : Z := hi x * UINT_MOD + lo x.

(** 64-bit addition of an [unsigned long], wrapping at 2^64. *)
Definition uint64_add32 (x : uint64) (y : Z) : uint64 :=
  let l := u32 (lo x + u32 y) in
  mk_uint64 (u32 (hi x + (if l <? u32 y then 1 else 0))) l.

Definition uint64_compare (x y : uint64) : Z :=
  if hi x <? hi y then -1
  else if hi y <? hi x then 1
  else if lo x <? lo y then -1
  else if lo y <? lo x then 1
  else 0.

(** ** Protocol constants (sftp.h; the values are those of the wire protocol). *)

Definition SSH_FXP_INIT : Z := 1.
Definition SSH_FXP_VERSION : Z := 2.
Definition SSH_FXP_OPEN : Z := 3.
Definition SSH_FXP_CLOSE : Z := 4.
Definition SSH_FXP_READ : Z := 5.
Definition SSH_FXP_WRITE : Z := 6.
Definition SSH_FXP_FSTAT : Z := 8.
Definition SSH_FXP_OPENDIR : Z := 11.
Definition SSH_FXP_READDIR : Z := 12.
Definition SSH_FXP_STATUS : Z := 101.
Definition SSH_FXP_HANDLE : Z := 102.
Definition SSH_FXP_DATA : Z := 103.
Definition SSH_FXP_NAME : Z := 104.
Definition SSH_FXP_ATTRS : Z := 105.

Definition SSH_FX_OK : Z := 0.
Definition SSH_FX_EOF : Z := 1.

Definition SSH_FILEXFER_ATTR_SIZE : Z := 1.
Definition SSH_FILEXFER_ATTR_UIDGID : Z := 2.
Definition SSH_FILEXFER_ATTR_PERMISSIONS : Z := 4.
Definition SSH_FILEXFER_ATTR_ACMODTIME : Z := 8.
Definition SSH_FILEXFER_ATTR_EXTENDED : Z := 2147483648.

Definition REQUEST_ID_OFFSET : Z := 256.

(** ** Data model *)

(** [struct sftp_packet].  [pkt_data] holds the bytes of the buffer that
    carry content (the first [pkt_length] ones); [pkt_maxlen] is the
    capacity the C code tracks. *)
Record sftp_packet := mk_packet {
  pkt_data : list Z;
  pkt_length : Z;
  pkt_maxlen : Z;
  pkt_savedpos : Z;
  pkt_type : Z
}.

(** [struct sftp_request]; [rq_userdata] is NULL or the address of a
    [struct req] of the transfer engine. *)
Record sftp_request := mk_request {
  rq_id : Z;
  rq_registered : Z;
  rq_userdata : option nat
}.

(** [struct fxp_handle]: [hstring] is the NUL-terminated copy, [hlen] the
    length without the terminator. *)
Record fxp_handle := mk_handle { hstring : list Z; hlen : Z }.

(** [struct fxp_attrs] (sftp.h), with the fields sftp.c reads and writes. *)
Record fxp_attrs := mk_attrs {
  at_flags : Z;
  at_size : uint64;
  at_uid : Z;
  at_gid : Z;
  at_permissions : Z;
  at_atime : Z;
  at_mtime : Z
}.

Record fxp_name := mk_name {
  filename : list Z;
  longname : list Z;
  nm_attrs : fxp_attrs
}.

Record fxp_names := mk_names { nnames : Z; names : list fxp_name }.

(** [struct req] of the transfer engine.  [rr_buffer] is NULL or a block,
    represented by the bytes written to it so far. *)
Record req := mk_req {
  rr_buffer : option (list Z);
  rr_len : Z;
  rr_retlen : Z;
  rr_complete : Z;
  rr_offset : uint64;
  rr_next : option nat;
  rr_prev : option nat
}.

(** [struct fxp_xfer]. *)
Record fxp_xfer := mk_xfer {
  x_offset : uint64;
  x_furthestdata : uint64;
  x_filesize : uint64;
  req_totalsize : Z;
  req_maxsize : Z;
  x_eof : Z;
  x_err : Z;
  x_fh : fxp_handle;
  x_head : option nat;
  x_tail : option nat
}.

(** Memory events the properties below speak about. *)
Inductive event :=
  | EvPktFree (p : sftp_packet)        (* sftp_pkt_free(pkt) *)
  | EvPktHeaderFree (p : sftp_packet)  (* sfree(pkt) alone *)
  | EvReqFree (r : sftp_request)       (* sfree(req) *)
  | EvAllocNames (n : Z)               (* snewn(n, struct fxp_name) *)
  | EvHandleFree (h : fxp_handle).

(** The process-wide state of sftp.c together with the memory and the
    transport it acts on. *)
Record sftp_state := mk_state {
  sftp_requests : option (list sftp_request);
  fxp_error_message : string;
  fxp_errtype : Z;
  heap : gmap nat req;
  brk : nat;
  link_up : bool;
  wire : list Z;
  trace : list event
}.

(** ** The monad *)

Inductive fault := NullDeref | Overrun | AssertFail | OutOfFuel | BadPointer.

Inductive outcome (A : Type) :=
  | Ok (a : A)
  | Fault (f : fault).
Arguments Ok {A} a.
Arguments Fault {A} f.

Definition M (A : Type) : Type := sftp_state -> outcome (A * sftp_state).

Definition ret {A} (a : A) : M A := fun s => Ok (a, s).

Definition bind {A B} (m : M A) (k : A -> M B) : M B :=
  fun s => match m s with
           | Ok (a, s') => k a s'
           | Fault f => Fault f
           end.

Definition raise {A} (f : fault) : M A := fun _ => Fault f.

Declare Scope sftp_scope.
Delimit Scope sftp_scope with sftp.
Notation "x <- c1 ;; c2" := (bind c1 (fun x => c2))
  (at level 100, c1 at next level, right associativity) : sftp_scope.
Notation "c1 ;;; c2" := (bind c1 (fun _ => c2))
  (at level 100, right associativity) : sftp_scope.
Local Open Scope sftp_scope.

Definition get : M sftp_state := fun s => Ok (s, s).
Definition modify (f : sftp_state -> sftp_state) : M unit := fun s => Ok (tt, f s).

Definition put_event (e : event) (s : sftp_state) : sftp_state :=
  mk_state (sftp_requests s) (fxp_error_message s) (fxp_errtype s)
           (heap s) (brk s) (link_up s) (wire s) (trace s ++ [e]).

Definition put_requests (t : option (list sftp_request)) (s : sftp_state) : sftp_state :=
  mk_state t (fxp_error_message s) (fxp_errtype s)
           (heap s) (brk s) (link_up s) (wire s) (trace s).

Definition put_error (ty : Z) (msg : string) (s : sftp_state) : sftp_state :=
  mk_state (sftp_requests s) msg ty
           (heap s) (brk s) (link_up s) (wire s) (trace s).

Definition put_heap (h : gmap nat req) (s : sftp_state) : sftp_state :=
  mk_state (sftp_requests s) (fxp_error_message s) (fxp_errtype s)
           h (brk s) (link_up s) (wire s) (trace s).

Definition put_wire (w : list Z) (s : sftp_state) : sftp_state :=
  mk_state (sftp_requests s) (fxp_error_message s) (fxp_errtype s)
           (heap s) (brk s) (link_up s) w (trace s).

Definition log (e : event) : M unit := modify (put_event e).

Definition set_requests (t : option (list sftp_request)) : M unit :=
  modify (put_requests t).

Definition set_error (ty : Z) (msg : string) : M unit := modify (put_error ty msg).

Definition set_heap (h : gmap nat req) : M unit := modify (put_heap h).

(** [snew(struct req)]: a fresh address holding [r]. *)
Definition new_req (r : req) : M nat :=
  fun s => Ok (brk s,
               mk_state (sftp_requests s) (fxp_error_message s) (fxp_errtype s)
                        (<[brk s := r]> (heap s)) (S (brk s)) (link_up s) (wire s) (trace s)).

(** Read through a [struct req *]. *)
Definition load_req (a : nat) : M req :=
  fun s => match heap s !! a with
           | Some r => Ok (r, s)
           | None => Fault BadPointer
           end.

(** Write through a [struct req *]. *)
Definition store_req (a : nat) (r : req) : M unit :=
  fun s => match heap s !! a with
           | Some _ => set_heap (<[a := r]> (heap s)) s
           | None => Fault BadPointer
           end.

(** [sfree(rr)] for a [struct req *]. *)
Definition free_req (a : nat) : M unit :=
  fun s => match heap s !! a with
           | Some _ => set_heap (delete a (heap s)) s
           | None => Fault BadPointer
           end.

(** Modelled from the spec: sftp_senddata, the embedder's transport
    ([send_bytes(handle, bytes) -> bool]); it is not among the sources.  The
    bytes reach the wire when the link is up, and the call reports failure
    otherwise. *)
Definition sftp_senddata (bytes : list Z) : M bool :=
  fun s => if link_up s
           then Ok (true, put_wire (wire s ++ bytes) s)
           else Ok (false, s).

(** Faults of pure code, and their lifting into [M]. *)
Definition obind {A B} (m : outcome A) (k : A -> outcome B) : outcome B :=
  match m with
  | Ok a => k a
  | Fault f => Fault f
  end.

Notation "x <~ c1 ;; c2" := (obind c1 (fun x => c2))
  (at level 100, c1 at next level, right associativity) : sftp_scope.

Definition lift {A} (o : outcome A) : M A :=
  fun s => match o with
           | Ok a => Ok (a, s)
           | Fault f => Fault f
           end.

(** ** SFTP packet construction functions *)

Definition with_data (pkt : sftp_packet) (d : list Z) : sftp_packet :=
  mk_packet d (pkt_length pkt) (pkt_maxlen pkt) (pkt_savedpos pkt) (pkt_type pkt).

Definition with_savedpos (pkt : sftp_packet) (pos : Z) : sftp_packet :=
  mk_packet (pkt_data pkt) (pkt_length pkt) (pkt_maxlen pkt) pos (pkt_type pkt).

Definition sftp_pkt_ensure (pkt : sftp_packet) (length : Z) : sftp_packet :=
  if s32 (pkt_maxlen pkt) <? length
  then mk_packet (pkt_data pkt) (pkt_length pkt) (u32 (length + 256))
                 (pkt_savedpos pkt) (pkt_type pkt)
  else pkt.

(** [memcpy] of [len] bytes of [data] to the end of the content written so
    far ([pkt->data + pkt->length - len] is the old end).  [pkt_data] lists
    the bytes written, [pkt_maxlen] is the size of the buffer: when
    [sftp_pkt_ensure] has left the buffer as it was although the new length
    exceeds it (the [int] cast of a length of 2^31 or more is negative), the
    result has [pkt_maxlen] below [pkt_length], and the bytes beyond
    [pkt_maxlen] are written outside the buffer. *)
Definition sftp_pkt_adddata (pkt : sftp_packet) (data : list Z) (len : Z) : sftp_packet :=
  let pkt1 := mk_packet (pkt_data pkt) (u32 (pkt_length pkt + len)) (pkt_maxlen pkt)
                        (pkt_savedpos pkt) (pkt_type pkt) in
  let pkt2 := sftp_pkt_ensure pkt1 (s32 (pkt_length pkt1)) in
  with_data pkt2 (pkt_data pkt2 ++ take (Z.to_nat len) data).

Definition sftp_pkt_addbyte (pkt : sftp_packet) (byte : Z) : sftp_packet :=
  sftp_pkt_adddata pkt [uchar byte] 1.

(** [pkt->type] is left unset by the C code; it is 0 here. *)
Definition sftp_pkt_init (pkt_type : Z) : sftp_packet :=
  sftp_pkt_addbyte (mk_packet [] 0 0 (u32 (-1)) 0) (uchar pkt_type).

Definition sftp_pkt_adduint32 (pkt : sftp_packet) (value : Z) : sftp_packet :=
  sftp_pkt_adddata pkt (PUT_32BIT value) 4.

Definition sftp_pkt_adduint64 (pkt : sftp_packet) (value : uint64) : sftp_packet :=
  sftp_pkt_adddata pkt (PUT_32BIT (hi value) ++ PUT_32BIT (lo value)) 8.

Definition sftp_pkt_addstring_start (pkt : sftp_packet) : sftp_packet :=
  let pkt1 := sftp_pkt_adduint32 pkt 0 in
  with_savedpos pkt1 (pkt_length pkt1).

(** The length word at [pkt->data + pkt->savedpos - 4] is patched only when
    it lies inside the buffer; a write outside it is not modelled. *)
Definition patch_length (pkt : sftp_packet) : sftp_packet :=
  let off := pkt_savedpos pkt - 4 in
  if (0 <=? off) && (off + 4 <=? Z.of_nat (length (pkt_data pkt)))
  then with_data pkt (PUT_32BIT_at (pkt_data pkt) off
                                   (u32 (pkt_length pkt - pkt_savedpos pkt)))
  else pkt.

Definition sftp_pkt_addstring_data (pkt : sftp_packet) (data : list Z) (len : Z)
  : sftp_packet :=
  patch_length (sftp_pkt_adddata pkt data len).

Definition sftp_pkt_addattrs (pkt : sftp_packet) (attrs : fxp_attrs) : sftp_packet :=
  let pkt := sftp_pkt_adduint32 pkt (at_flags attrs) in
  let pkt := if Z.land (at_flags attrs) SSH_FILEXFER_ATTR_SIZE =? 0 then pkt
             else sftp_pkt_adduint32 (sftp_pkt_adduint32 pkt (hi (at_size attrs)))
                                     (lo (at_size attrs)) in
  let pkt := if Z.land (at_flags attrs) SSH_FILEXFER_ATTR_UIDGID =? 0 then pkt
             else sftp_pkt_adduint32 (sftp_pkt_adduint32 pkt (at_uid attrs))
                                     (at_gid attrs) in
  let pkt := if Z.land (at_flags attrs) SSH_FILEXFER_ATTR_PERMISSIONS =? 0 then pkt
             else sftp_pkt_adduint32 pkt (at_permissions attrs) in
  if Z.land (at_flags attrs) SSH_FILEXFER_ATTR_ACMODTIME =? 0 then pkt
  else sftp_pkt_adduint32 (sftp_pkt_adduint32 pkt (at_atime attrs)) (at_mtime attrs).

(** ** SFTP packet decode functions

    A getter returns the value it stored through its out-parameter ([None]
    when it returned 0) and the packet with its cursor moved.  Reading a byte
    that the buffer does not hold is the fault [Overrun]. *)

Definition sftp_pkt_getbyte (pkt : sftp_packet) : outcome (option Z * sftp_packet) :=
  if u32 (pkt_length pkt - pkt_savedpos pkt) <? 1 then Ok (None, pkt)
  else match pkt_data pkt !! Z.to_nat (pkt_savedpos pkt) with
       | Some b => Ok (Some (uchar b), with_savedpos pkt (u32 (pkt_savedpos pkt + 1)))
       | None => Fault Overrun
       end.

Definition sftp_pkt_getuint32 (pkt : sftp_packet) : outcome (option Z * sftp_packet) :=
  if u32 (pkt_length pkt - pkt_savedpos pkt) <? 4 then Ok (None, pkt)
  else match GET_32BIT (pkt_data pkt) (pkt_savedpos pkt) with
       | Some v => Ok (Some v, with_savedpos pkt (u32 (pkt_savedpos pkt + 4)))
       | None => Fault Overrun
       end.

(** What [sftp_pkt_getstring] leaves behind: its return value, [*p] (NULL or
    an offset into the packet buffer) and [*length] ([None] while it has not
    been written). *)
Record getstring_result := mk_gs {
  gs_ret : Z;
  gs_p : option Z;
  gs_length : option Z;
  gs_pkt : sftp_packet
}.

Definition sftp_pkt_getstring (pkt : sftp_packet) : outcome getstring_result :=
  if u32 (pkt_length pkt - pkt_savedpos pkt) <? 4 then Ok (mk_gs 0 None None pkt)
  else match GET_32BIT (pkt_data pkt) (pkt_savedpos pkt) with
       | None => Fault Overrun
       | Some v =>
           let length := s32 v in
           let pkt1 := with_savedpos pkt (u32 (pkt_savedpos pkt + 4)) in
           if (s32 (u32 (pkt_length pkt1 - pkt_savedpos pkt1)) <? length) || (length <? 0)
           then Ok (mk_gs 0 None (Some 0) pkt1)
           else Ok (mk_gs 1 (Some (pkt_savedpos pkt1)) (Some length)
                          (with_savedpos pkt1 (u32 (pkt_savedpos pkt1 + length))))
       end.

(** The bytes a borrow [(p, len)] into the packet buffer denotes. *)
Definition borrowed (pkt : sftp_packet) (p len : Z) : list Z :=
  take (Z.to_nat len) (drop (Z.to_nat p) (pkt_data pkt)).

Definition attrs0 : fxp_attrs := mk_attrs 0 (mk_uint64 0 0) 0 0 0 0 0.

(** The loop [while (count--)] over extended attribute pairs. *)
Fixpoint getattrs_extended (fuel : nat) (count : Z) (pkt : sftp_packet)
  : outcome (Z * sftp_packet) :=
  if count =? 0 then Ok (1, pkt)
  else match fuel with
       | O => Fault OutOfFuel
       | S fuel' =>
           g1 <~ sftp_pkt_getstring pkt ;;
           if gs_ret g1 =? 0 then Ok (0, gs_pkt g1)
           else g2 <~ sftp_pkt_getstring (gs_pkt g1) ;;
                if gs_ret g2 =? 0 then Ok (0, gs_pkt g2)
                else getattrs_extended fuel' (u32 (count - 1)) (gs_pkt g2)
       end.

(** One field of [sftp_pkt_getattrs]: when [flag] is set in the flags
    word, read a u32 and store it with [set]; [false] stands for
    [return 0]. *)
Definition getattrs_field (flag : Z) (set : fxp_attrs -> Z -> fxp_attrs)
    (st : bool * fxp_attrs * sftp_packet) : outcome (bool * fxp_attrs * sftp_packet) :=
  match st with
  | (false, a, pkt) => Ok (false, a, pkt)
  | (true, a, pkt) =>
      if Z.land (at_flags a) flag =? 0 then Ok (true, a, pkt)
      else r <~ sftp_pkt_getuint32 pkt ;;
           match r with
           | (None, pkt1) => Ok (false, a, pkt1)
           | (Some v, pkt1) => Ok (true, set a v, pkt1)
           end
  end.

Definition set_flags (a : fxp_attrs) (v : Z) : fxp_attrs :=
  mk_attrs v (at_size a) (at_uid a) (at_gid a) (at_permissions a) (at_atime a) (at_mtime a).

Definition set_uid (a : fxp_attrs) (v : Z) : fxp_attrs :=
  mk_attrs (at_flags a) (at_size a) v (at_gid a) (at_permissions a) (at_atime a) (at_mtime a).

Definition set_gid (a : fxp_attrs) (v : Z) : fxp_attrs :=
  mk_attrs (at_flags a) (at_size a) (at_uid a) v (at_permissions a) (at_atime a) (at_mtime a).

Definition set_permissions (a : fxp_attrs) (v : Z) : fxp_attrs :=
  mk_attrs (at_flags a) (at_size a) (at_uid a) (at_gid a) v (at_atime a) (at_mtime a).

Definition set_atime (a : fxp_attrs) (v : Z) : fxp_attrs :=
  mk_attrs (at_flags a) (at_size a) (at_uid a) (at_gid a) (at_permissions a) v (at_mtime a).

Definition set_mtime (a : fxp_attrs) (v : Z) : fxp_attrs :=
  mk_attrs (at_flags a) (at_size a) (at_uid a) (at_gid a) (at_permissions a) (at_atime a) v.

(** The size field: two words read into locals, stored only when both
    were read. *)
Definition getattrs_size (st : bool * fxp_attrs * sftp_packet)
  : outcome (bool * fxp_attrs * sftp_packet) :=
  match st with
  | (false, a, pkt) => Ok (false, a, pkt)
  | (true, a, pkt) =>
      if Z.land (at_flags a) SSH_FILEXFER_ATTR_SIZE =? 0 then Ok (true, a, pkt)
      else r1 <~ sftp_pkt_getuint32 pkt ;;
           match r1 with
           | (None, pkt1) => Ok (false, a, pkt1)
           | (Some h, pkt1) =>
               r2 <~ sftp_pkt_getuint32 pkt1 ;;
               match r2 with
               | (None, pkt2) => Ok (false, a, pkt2)
               | (Some l, pkt2) =>
                   Ok (true,
                       mk_attrs (at_flags a) (uint64_make h l) (at_uid a) (at_gid a)
                                (at_permissions a) (at_atime a) (at_mtime a),
                       pkt2)
               end
           end
  end.

(** [sftp_pkt_getattrs]: the return value, the record as far as it was
    filled in (starting from [a]), and the packet. *)
Definition sftp_pkt_getattrs (pkt : sftp_packet) (a : fxp_attrs)
  : outcome (Z * fxp_attrs * sftp_packet) :=
  r <~ sftp_pkt_getuint32 pkt ;;
  match r with
  | (None, pkt) => Ok (0, a, pkt)
  | (Some flags, pkt) =>
      st <~ getattrs_size (true, set_flags a flags, pkt) ;;
      st <~ getattrs_field SSH_FILEXFER_ATTR_UIDGID set_uid st ;;
      st <~ getattrs_field SSH_FILEXFER_ATTR_UIDGID set_gid st ;;
      st <~ getattrs_field SSH_FILEXFER_ATTR_PERMISSIONS set_permissions st ;;
      st <~ getattrs_field SSH_FILEXFER_ATTR_ACMODTIME set_atime st ;;
      st <~ getattrs_field SSH_FILEXFER_ATTR_ACMODTIME set_mtime st ;;
      match st with
      | (false, a, pkt) => Ok (0, a, pkt)
      | (true, a, pkt) =>
          if Z.land (at_flags a) SSH_FILEXFER_ATTR_EXTENDED =? 0 then Ok (1, a, pkt)
          else r <~ sftp_pkt_getuint32 pkt ;;
               match r with
               | (None, pkt) => Ok (0, a, pkt)
               | (Some count, pkt) =>
                   r <~ getattrs_extended (S (length (pkt_data pkt))) count pkt ;;
                   Ok (fst r, a, snd r)
               end
      end
  end.

Definition sftp_pkt_free (pkt : sftp_packet) : M unit := log (EvPktFree pkt).

(** ** Send and receive packet functions *)

Definition sftp_send (pkt : sftp_packet) : M Z :=
  r1 <- sftp_senddata (PUT_32BIT (pkt_length pkt)) ;;
  r2 <- (if r1 : bool
         then sftp_senddata (take (Z.to_nat (pkt_length pkt)) (pkt_data pkt))
         else ret false) ;;
  sftp_pkt_free pkt ;;;
  ret (if r1 && r2 then 1 else 0).

(** ** Request ID allocation and temporary dispatch routines *)

(** Modelled from the spec: the counted 2-3-4 tree of tree234.c, which is
    not among the sources.  The spec describes the registry as an ordered
    container keyed by request id with [insert], [remove], [find-by-id],
    [index(k)] returning the k-th element in id order, and [count]; it is a
    list kept in increasing id order here. *)
Definition count234 (t : list sftp_request) : Z := Z.of_nat (length t).

Definition index234 (t : list sftp_request) (index : Z) : option sftp_request :=
  if index <? 0 then None else t !! Z.to_nat index.

Definition find234 (t : list sftp_request) (i : Z) : option sftp_request :=
  List.find (fun r => rq_id r =? i) t.

Fixpoint add234 (t : list sftp_request) (e : sftp_request) : list sftp_request :=
  match t with
  | [] => [e]
  | x :: t' =>
      if rq_id e <? rq_id x then e :: x :: t'
      else if rq_id x <? rq_id e then x :: add234 t' e
      else x :: t'
  end.

Fixpoint del234 (t : list sftp_request) (e : sftp_request) : list sftp_request :=
  match t with
  | [] => []
  | x :: t' => if rq_id x =? rq_id e then t' else x :: del234 t' e
  end.

(** The binary search of [sftp_alloc_request] on [unsigned low, high, mid]. *)
Fixpoint alloc_search (fuel : nat) (t : list sftp_request) (low high : Z) : outcome Z :=
  if 1 <? u32 (high - low) then
    match fuel with
    | O => Fault OutOfFuel
    | S fuel' =>
        let mid := u32 (high + low) / 2 in
        match index234 t (s32 mid) with
        | None => Fault NullDeref
        | Some r =>
            if rq_id r =? u32 (mid + REQUEST_ID_OFFSET)
            then alloc_search fuel' t mid high
            else alloc_search fuel' t low mid
        end
    end
  else Ok low.

Definition sftp_alloc_request : M sftp_request :=
  s <- get ;;
  t <- match sftp_requests s with
       | None => set_requests (Some []) ;;; ret []
       | Some t => ret t
       end ;;
  let tsize := s32 (count234 t) in
  low <- lift (alloc_search (S (length t)) t (u32 (-1)) (u32 tsize)) ;;
  let i := u32 (low + 1 + REQUEST_ID_OFFSET) in
  match find234 t i with
  | Some _ => raise AssertFail
  | None =>
      let r := mk_request i 0 None in
      set_requests (Some (add234 t r)) ;;; ret r
  end.

Definition sftp_cleanup_request : M unit :=
  s <- get ;;
  match sftp_requests s with
  | Some _ => set_requests None
  | None => ret tt
  end.

(** A request pointer is represented by the record it points to; while the
    request is in the registry, the registry entry with its id is that
    object, so a write through the pointer also updates the entry. *)
Definition update_request (r : sftp_request) : M unit :=
  s <- get ;;
  match sftp_requests s with
  | Some t => set_requests
                (Some (List.map (fun x => if rq_id x =? rq_id r then r else x) t))
  | None => ret tt
  end.

Definition sftp_register (req : sftp_request) : M sftp_request :=
  let req' := mk_request (rq_id req) 1 (rq_userdata req) in
  update_request req' ;;; ret req'.

Definition nl : string := String (Ascii.ascii_of_nat 10) EmptyString.

Definition fxp_internal_error (msg : string) : M unit := set_error (-1) msg.

Definition sftp_find_request (pktin : option sftp_packet)
  : M (option sftp_request * option sftp_packet) :=
  match pktin with
  | None =>
      fxp_internal_error ("did not receive a valid SFTP packet" ++ nl)%string ;;;
      ret (None, None)
  | Some pkt =>
      r <- lift (sftp_pkt_getuint32 pkt) ;;
      match r with
      | (None, pkt1) =>
          fxp_internal_error ("did not receive a valid SFTP packet" ++ nl)%string ;;;
          ret (None, Some pkt1)
      | (Some id, pkt1) =>
          s <- get ;;
          match sftp_requests s with
          | None => raise NullDeref
          | Some t =>
              match find234 t id with
              | Some req =>
                  if rq_registered req =? 0
                  then fxp_internal_error ("request ID mismatch" ++ nl)%string ;;;
                       sftp_pkt_free pkt1 ;;;
                       ret (None, Some pkt1)
                  else set_requests (Some (del234 t req)) ;;;
                       ret (Some req, Some pkt1)
              | None =>
                  fxp_internal_error ("request ID mismatch" ++ nl)%string ;;;
                  sftp_pkt_free pkt1 ;;;
                  ret (None, Some pkt1)
              end
          end
      end
  end.

(** ** String handling routines *)

(** [mkstr(s, len)] where [s] points [off] bytes into [buf]: a fresh block
    of [len + 1] bytes.  The source computes [len + 1] in [int]; this is the
    block it allocates for every [len] below INT_MAX. *)
Definition mkstr (buf : list Z) (off : option Z) (len : Z) : outcome (list Z) :=
  match off with
  | None => if len =? 0 then Ok [0] else Fault NullDeref
  | Some p =>
      if (0 <=? len) && (p + len <=? Z.of_nat (length buf))
      then Ok (take (Z.to_nat len) (drop (Z.to_nat p) buf) ++ [0])
      else Fault Overrun
  end.

(** ** SFTP primitives *)

Definition messages : list string :=
  ["unexpected OK response"; "end of file"; "no such file or directory";
   "permission denied"; "failure"; "bad message"; "no connection";
   "connection lost"; "operation unsupported"]%string.

Definition status_result : M Z :=
  s <- get ;;
  ret (if fxp_errtype s =? SSH_FX_OK then 1
       else if fxp_errtype s =? SSH_FX_EOF then 0
       else -1).

Definition fxp_got_status (pktin : sftp_packet) : M (Z * sftp_packet) :=
  if negb (pkt_type pktin =? SSH_FXP_STATUS)
  then set_error (-1) "expected FXP_STATUS packet" ;;;
       v <- status_result ;; ret (v, pktin)
  else r <- lift (sftp_pkt_getuint32 pktin) ;;
       match r with
       | (None, pkt1) =>
           set_error (-1) "malformed FXP_STATUS packet" ;;;
           v <- status_result ;; ret (v, pkt1)
       | (Some ul, pkt1) =>
           let e := s32 ul in
           set_error e (if (e <? 0) || (Z.of_nat (length messages) <=? e)
                        then "unknown error code"%string
                        else nth (Z.to_nat e) messages ""%string) ;;;
           v <- status_result ;; ret (v, pkt1)
       end.

Definition fxp_error : M string := s <- get ;; ret (fxp_error_message s).

Definition fxp_error_type : M Z := s <- get ;; ret (fxp_errtype s).

(** The arm shared by the receivers for a reply of another type. *)
Definition status_and_free (pktin : sftp_packet) : M Z :=
  r <- fxp_got_status pktin ;;
  sftp_pkt_free (snd r) ;;;
  ret (fst r).

Definition recv_handle (what : string) (pktin : sftp_packet) (req : sftp_request)
  : M (option fxp_handle) :=
  log (EvReqFree req) ;;;
  if pkt_type pktin =? SSH_FXP_HANDLE then
    g <- lift (sftp_pkt_getstring pktin) ;;
    if gs_ret g =? 0 then
      fxp_internal_error (what ++ " returned malformed FXP_HANDLE" ++ nl)%string ;;;
      sftp_pkt_free (gs_pkt g) ;;;
      ret None
    else
      let len := default 0 (gs_length g) in
      hs <- lift (mkstr (pkt_data (gs_pkt g)) (gs_p g) len) ;;
      sftp_pkt_free (gs_pkt g) ;;;
      ret (Some (mk_handle hs len))
  else
    status_and_free pktin ;;; ret None.

Definition fxp_open_recv (pktin : sftp_packet) (req : sftp_request)
  : M (option fxp_handle) :=
  recv_handle "OPEN" pktin req.

Definition fxp_opendir_recv (pktin : sftp_packet) (req : sftp_request)
  : M (option fxp_handle) :=
  recv_handle "OPENDIR" pktin req.

(** The start every [*_send] on a handle shares: the type byte, the
    request id and the handle string. *)
Definition handle_packet (ty : Z) (req : sftp_request) (handle : fxp_handle)
  : sftp_packet :=
  let pktout := sftp_pkt_init ty in
  let pktout := sftp_pkt_adduint32 pktout (rq_id req) in
  let pktout := sftp_pkt_addstring_start pktout in
  sftp_pkt_addstring_data pktout (hstring handle) (hlen handle).

Definition fxp_close_send (handle : fxp_handle) : M sftp_request :=
  req <- sftp_alloc_request ;;
  sftp_send (handle_packet SSH_FXP_CLOSE req handle) ;;;
  log (EvHandleFree handle) ;;;
  ret req.

Definition fxp_close_recv (pktin : sftp_packet) (req : sftp_request) : M unit :=
  log (EvReqFree req) ;;;
  status_and_free pktin ;;; ret tt.

Definition fxp_fstat_send (handle : fxp_handle) : M sftp_request :=
  req <- sftp_alloc_request ;;
  sftp_send (handle_packet SSH_FXP_FSTAT req handle) ;;;
  ret req.

Definition fxp_read_send (handle : fxp_handle) (offset : uint64) (len : Z)
  : M sftp_request :=
  req <- sftp_alloc_request ;;
  let pktout := handle_packet SSH_FXP_READ req handle in
  let pktout := sftp_pkt_adduint64 pktout offset in
  let pktout := sftp_pkt_adduint32 pktout len in
  sftp_send pktout ;;;
  ret req.

(** [memcpy(buffer, src, n)] into a block of the transfer engine; [src] is
    what can be read at the source. *)
Definition memcpy_to (buffer : option (list Z)) (src : list Z) (n : Z)
  : outcome (option (list Z)) :=
  if Z.of_nat (length src) <? n then Fault Overrun
  else match buffer with
       | None => if n =? 0 then Ok None else Fault NullDeref
       | Some b => Ok (Some (take (Z.to_nat n) src ++ drop (Z.to_nat n) b))
       end.

(** [fxp_read_recv]: the return value and the caller's buffer afterwards. *)
Definition fxp_read_recv (pktin : sftp_packet) (req : sftp_request)
    (buffer : option (list Z)) (len : Z) : M (Z * option (list Z)) :=
  log (EvReqFree req) ;;;
  if pkt_type pktin =? SSH_FXP_DATA then
    g <- lift (sftp_pkt_getstring pktin) ;;
    if gs_ret g =? 0 then
      fxp_internal_error "READ returned malformed SSH_FXP_DATA packet" ;;;
      sftp_pkt_free (gs_pkt g) ;;;
      ret (-1, buffer)
    else
      let rlen := default 0 (gs_length g) in
      if (len <? rlen) || (rlen <? 0) then
        fxp_internal_error "READ returned more bytes than requested" ;;;
        sftp_pkt_free (gs_pkt g) ;;;
        ret (-1, buffer)
      else
        buffer' <- lift (memcpy_to buffer
                           (borrowed (gs_pkt g) (default 0 (gs_p g)) rlen) rlen) ;;
        sftp_pkt_free (gs_pkt g) ;;;
        ret (rlen, buffer')
  else
    status_and_free pktin ;;; ret (-1, buffer).

Definition fxp_readdir_send (handle : fxp_handle) : M sftp_request :=
  req <- sftp_alloc_request ;;
  sftp_send (handle_packet SSH_FXP_READDIR req handle) ;;;
  ret req.

(** The body of the [for] loop of [fxp_readdir_recv], [n] names to go:
    [None] when a name is malformed. *)
Fixpoint readdir_names (n : nat) (pktin : sftp_packet) (acc : list fxp_name)
  : outcome (option (list fxp_name) * sftp_packet) :=
  match n with
  | O => Ok (Some acc, pktin)
  | S n' =>
      g1 <~ sftp_pkt_getstring pktin ;;
      if gs_ret g1 =? 0 then Ok (None, gs_pkt g1)
      else
        g2 <~ sftp_pkt_getstring (gs_pkt g1) ;;
        if gs_ret g2 =? 0 then Ok (None, gs_pkt g2)
        else
          r <~ sftp_pkt_getattrs (gs_pkt g2) attrs0 ;;
          match r with
          | (ok, a, pkt3) =>
              if ok =? 0 then Ok (None, pkt3)
              else
                f <~ mkstr (pkt_data pkt3) (gs_p g1) (default 0 (gs_length g1)) ;;
                l <~ mkstr (pkt_data pkt3) (gs_p g2) (default 0 (gs_length g2)) ;;
                readdir_names n' pkt3 (acc ++ [mk_name f l a])
          end
  end.

Section Readdir.

(** [sizeof(struct fxp_name)]: the layout of sftp.h's struct is not among
    the sources. *)
Variable sizeof_fxp_name : Z.

Definition fxp_readdir_recv (pktin : sftp_packet) (req : sftp_request)
  : M (option fxp_names) :=
  log (EvReqFree req) ;;;
  if pkt_type pktin =? SSH_FXP_NAME then
    r <- lift (sftp_pkt_getuint32 pktin) ;;
    match r with
    | (None, pkt1) =>
        fxp_internal_error "malformed FXP_NAME packet" ;;;
        sftp_pkt_free pkt1 ;;;
        ret None
    | (Some i, pkt1) =>
        if u32 (pkt_length pkt1 - pkt_savedpos pkt1) / 12 <? i then
          fxp_internal_error "malformed FXP_NAME packet" ;;;
          sftp_pkt_free pkt1 ;;;
          ret None
        else if INT_MAX / sizeof_fxp_name <? i then
          fxp_internal_error "unreasonably large FXP_NAME packet" ;;;
          sftp_pkt_free pkt1 ;;;
          ret None
        else
          let nnames := s32 i in
          log (EvAllocNames nnames) ;;;
          r <- lift (readdir_names (Z.to_nat nnames) pkt1 []) ;;
          match r with
          | (None, pkt2) =>
              fxp_internal_error "malformed FXP_NAME packet" ;;;
              log (EvPktHeaderFree pkt2) ;;;
              ret None
          | (Some l, pkt2) =>
              sftp_pkt_free pkt2 ;;;
              ret (Some (mk_names nnames l))
          end
    end
  else
    status_and_free pktin ;;; ret None.

End Readdir.

Definition fxp_write_send (handle : fxp_handle) (buffer : list Z) (offset : uint64)
    (len : Z) : M sftp_request :=
  req <- sftp_alloc_request ;;
  let pktout := handle_packet SSH_FXP_WRITE req handle in
  let pktout := sftp_pkt_adduint64 pktout offset in
  let pktout := sftp_pkt_addstring_start pktout in
  let pktout := sftp_pkt_addstring_data pktout buffer len in
  sftp_send pktout ;;;
  ret req.

Definition fxp_write_recv (pktin : sftp_packet) (req : sftp_request) : M Z :=
  log (EvReqFree req) ;;;
  status_and_free pktin ;;;
  s <- get ;;
  ret (if fxp_errtype s =? SSH_FX_OK then 1 else 0).

Definition fxp_get_userdata (req : option sftp_request) : M (option nat) :=
  match req with
  | None => raise NullDeref
  | Some r => ret (rq_userdata r)
  end.

Definition fxp_set_userdata (req : sftp_request) (data : option nat) : M sftp_request :=
  let req' := mk_request (rq_id req) (rq_registered req) data in
  update_request req' ;;; ret req'.

(** ** The transfer engine: queueing of multiple read/write requests *)

Definition with_rr_next (r : req) (n : option nat) : req :=
  mk_req (rr_buffer r) (rr_len r) (rr_retlen r) (rr_complete r) (rr_offset r)
         n (rr_prev r).

Definition with_rr_prev (r : req) (p : option nat) : req :=
  mk_req (rr_buffer r) (rr_len r) (rr_retlen r) (rr_complete r) (rr_offset r)
         (rr_next r) p.

Definition with_rr_complete (r : req) (c : Z) : req :=
  mk_req (rr_buffer r) (rr_len r) (rr_retlen r) c (rr_offset r)
         (rr_next r) (rr_prev r).

Definition with_rr_result (r : req) (retlen : Z) (buffer : option (list Z)) : req :=
  mk_req buffer (rr_len r) retlen (rr_complete r) (rr_offset r)
         (rr_next r) (rr_prev r).

Definition with_queue (x : fxp_xfer) (head tail : option nat) : fxp_xfer :=
  mk_xfer (x_offset x) (x_furthestdata x) (x_filesize x) (req_totalsize x)
          (req_maxsize x) (x_eof x) (x_err x) (x_fh x) head tail.

Definition with_progress (x : fxp_xfer) (offset : uint64) (totalsize : Z) : fxp_xfer :=
  mk_xfer offset (x_furthestdata x) (x_filesize x) totalsize
          (req_maxsize x) (x_eof x) (x_err x) (x_fh x) (x_head x) (x_tail x).

Definition with_eof (x : fxp_xfer) (e : Z) : fxp_xfer :=
  mk_xfer (x_offset x) (x_furthestdata x) (x_filesize x) (req_totalsize x)
          (req_maxsize x) e (x_err x) (x_fh x) (x_head x) (x_tail x).

Definition with_furthestdata (x : fxp_xfer) (f : uint64) : fxp_xfer :=
  mk_xfer (x_offset x) f (x_filesize x) (req_totalsize x)
          (req_maxsize x) (x_eof x) (x_err x) (x_fh x) (x_head x) (x_tail x).

Definition with_filesize (x : fxp_xfer) (f : uint64) : fxp_xfer :=
  mk_xfer (x_offset x) (x_furthestdata x) f (req_totalsize x)
          (req_maxsize x) (x_eof x) (x_err x) (x_fh x) (x_head x) (x_tail x).

(** [xfer->eof] is left unset by [xfer_init]; it is 0 here until the caller
    assigns it. *)
Definition xfer_init (fh : fxp_handle) (offset : uint64) : fxp_xfer :=
  mk_xfer offset (uint64_make 0 0) (uint64_make ULONG_MAX ULONG_MAX)
          0 1048576 0 0 fh None None.

Definition xfer_done (xfer : fxp_xfer) : Z :=
  if (negb (x_eof xfer =? 0) || negb (x_err xfer =? 0))
     && negb (bool_decide (is_Some (x_head xfer)))
  then 1 else 0.

Definition xfer_set_error (xfer : fxp_xfer) : fxp_xfer :=
  mk_xfer (x_offset xfer) (x_furthestdata xfer) (x_filesize xfer) (req_totalsize xfer)
          (req_maxsize xfer) (x_eof xfer) 1 (x_fh xfer) (x_head xfer) (x_tail xfer).

(** Link a new [struct req] at the tail of the queue. *)
Definition enqueue (xfer : fxp_xfer) (r : req) : M (nat * fxp_xfer) :=
  rr <- new_req (with_rr_next (with_rr_prev r (x_tail xfer)) None) ;;
  match x_tail xfer with
  | Some t =>
      tr <- load_req t ;;
      store_req t (with_rr_next tr (Some rr)) ;;;
      ret (rr, with_queue xfer (x_head xfer) (Some rr))
  | None => ret (rr, with_queue xfer (Some rr) (Some rr))
  end.

(** One round of the loop of [xfer_download_queue]: queue a new read
    request. *)
Definition download_queue_round (xfer : fxp_xfer) : M fxp_xfer :=
  q <- enqueue xfer (mk_req (Some []) 32768 0 0 (x_offset xfer) None None) ;;
  let rr := fst q in
  let xfer := snd q in
  r <- load_req rr ;;
  req <- fxp_read_send (x_fh xfer) (rr_offset r) (rr_len r) ;;
  req <- sftp_register req ;;
  fxp_set_userdata req (Some rr) ;;;
  ret (with_progress xfer (uint64_add32 (x_offset xfer) (rr_len r))
                     (s32 (req_totalsize xfer + rr_len r))).

(** The loop of [xfer_download_queue]. *)
Fixpoint download_queue_loop (fuel : nat) (xfer : fxp_xfer) : M fxp_xfer :=
  if (req_totalsize xfer <? req_maxsize xfer)
     && (x_eof xfer =? 0) && (x_err xfer =? 0)
  then
    match fuel with
    | O => raise OutOfFuel
    | S fuel' =>
        xfer <- download_queue_round xfer ;;
        download_queue_loop fuel' xfer
    end
  else ret xfer.

(** Each round adds 32768 to [req_totalsize], so this many rounds reach
    [req_maxsize]. *)
Definition download_queue_rounds (xfer : fxp_xfer) : nat :=
  Z.to_nat ((req_maxsize xfer - req_totalsize xfer + 32767) / 32768).

Definition xfer_download_queue (xfer : fxp_xfer) : M fxp_xfer :=
  download_queue_loop (download_queue_rounds xfer) xfer.

Definition xfer_download_init (fh : fxp_handle) (offset : uint64) : M fxp_xfer :=
  let xfer := xfer_init fh offset in
  xfer_download_queue (with_eof xfer 0).

(** [if (rr->retlen > 0 && uint64_compare(xfer->furthestdata, rr->offset) < 0)
    xfer->furthestdata = rr->offset;] *)
Definition note_furthestdata (xfer : fxp_xfer) (r : req) : fxp_xfer :=
  if (0 <? rr_retlen r) && (uint64_compare (x_furthestdata xfer) (rr_offset r) <? 0)
  then with_furthestdata xfer (rr_offset r)
  else xfer.

(** The short-block test: [if (rr->retlen < rr->len)] the file can be no
    longer than [rr->offset] plus the bytes returned. *)
Definition note_short_read (xfer : fxp_xfer) (r : req) : fxp_xfer :=
  if rr_retlen r <? rr_len r then
    let filesize := uint64_add32 (rr_offset r)
                                 (if rr_retlen r <? 0 then 0 else rr_retlen r) in
    if 0 <? uint64_compare (x_filesize xfer) filesize
    then with_filesize xfer filesize
    else xfer
  else xfer.

(** The part of [xfer_download_gotpkt] from [rr->complete = 1] on. *)
Definition download_gotpkt_rest (xfer : fxp_xfer) (rr : nat) : M (Z * fxp_xfer) :=
  r <- load_req rr ;;
  store_req rr (with_rr_complete r 1) ;;;
  let xfer := note_short_read (note_furthestdata xfer r) r in
  if 0 <? uint64_compare (x_furthestdata xfer) (x_filesize xfer) then
    set_error (-1) "received a short buffer from FXP_READ, but not at EOF" ;;;
    ret (-1, xfer_set_error xfer)
  else ret (1, xfer).

(** [xfer_download_gotpkt]: the return value and the transfer afterwards. *)
Definition xfer_download_gotpkt (xfer : fxp_xfer) (pktin : option sftp_packet)
  : M (Z * fxp_xfer) :=
  f <- sftp_find_request pktin ;;
  let rreq := fst f in
  ud <- fxp_get_userdata rreq ;;
  match ud, rreq, snd f with
  | None, _, _ => ret (0, xfer)
  | Some rr, Some rq, Some pkt =>
      r <- load_req rr ;;
      res <- fxp_read_recv pkt rq (rr_buffer r) (rr_len r) ;;
      let r := with_rr_result r (fst res) (snd res) in
      store_req rr r ;;;
      ety <- fxp_error_type ;;
      if ((rr_retlen r <? 0) && (ety =? SSH_FX_EOF)) || (rr_retlen r =? 0) then
        store_req rr (with_rr_complete r (-1)) ;;;
        download_gotpkt_rest (with_eof xfer 1) rr
      else if rr_retlen r <? 0 then
        store_req rr (with_rr_complete r (-1)) ;;;
        ret (-1, xfer_set_error xfer)
      else download_gotpkt_rest xfer rr
  | Some _, _, _ => raise NullDeref
  end.

(** The end of one round of the loop of [xfer_download_data]: unlink the
    head [rr], whose record is [r], and free it. *)
Definition download_data_pop (xfer : fxp_xfer) (rr : nat) (r : req) : M fxp_xfer :=
  xfer <- match rr_next r with
          | Some n =>
              nr <- load_req n ;;
              store_req n (with_rr_prev nr None) ;;;
              ret (with_queue xfer (Some n) (x_tail xfer))
          | None => ret (with_queue xfer None None)
          end ;;
  let xfer := with_progress xfer (x_offset xfer)
                            (s32 (req_totalsize xfer - rr_len r)) in
  free_req rr ;;;
  ret xfer.

(** The loop of [xfer_download_data]; [retbuf] and [retlen] are its
    locals. *)
Fixpoint download_data_loop (fuel : nat) (xfer : fxp_xfer)
    (retbuf : option (list Z)) (retlen : Z) : M (fxp_xfer * option (list Z) * Z) :=
  match x_head xfer, retbuf with
  | Some rr, None =>
      r <- load_req rr ;;
      if rr_complete r =? 0 then ret (xfer, retbuf, retlen)
      else
        match fuel with
        | O => raise OutOfFuel
        | S fuel' =>
            let retbuf := if 0 <? rr_complete r then rr_buffer r else retbuf in
            let retlen := if 0 <? rr_complete r then rr_retlen r else retlen in
            xfer <- download_data_pop xfer rr r ;;
            download_data_loop fuel' xfer retbuf retlen
        end
  | _, _ => ret (xfer, retbuf, retlen)
  end.

(** [xfer_download_data]: the return value, the transfer afterwards, and
    what it stored through [buf] and [len] when it returned 1.  Every round of the loop frees one
    [struct req], so the number of blocks bounds the rounds. *)
Definition xfer_download_data (xfer : fxp_xfer)
  : M (Z * fxp_xfer * option (list Z * Z)) :=
  s <- get ;;
  r <- download_data_loop (size (heap s)) xfer None 0 ;;
  match r with
  | (xfer, Some retbuf, retlen) => ret (1, xfer, Some (retbuf, retlen))
  | (xfer, None, _) => ret (0, xfer, None)
  end.


Definition xfer_upload_ready (xfer : fxp_xfer) : Z :=
  if req_totalsize xfer <? req_maxsize xfer then 1 else 0.


(** [xfer_upload_gotpkt]: the return value and the transfer afterwards. *)
Definition xfer_upload_gotpkt (xfer : fxp_xfer) (pktin : option sftp_packet)
  : M (Z * fxp_xfer) :=
  f <- sftp_find_request pktin ;;
  let rreq := fst f in
  ud <- fxp_get_userdata rreq ;;
  match ud, rreq, snd f with
  | None, _, _ => ret (0, xfer)
  | Some rr, Some rq, Some pkt =>
      ok <- fxp_write_recv pkt rq ;;
      r <- load_req rr ;;
      let prev := rr_prev r in
      let next := rr_next r in
      xfer <- match prev with
              | Some p =>
                  pr <- load_req p ;;
                  store_req p (with_rr_next pr next) ;;;
                  ret xfer
              | None => ret (with_queue xfer next (x_tail xfer))
              end ;;
      xfer <- match next with
              | Some n =>
                  nr <- load_req n ;;
                  store_req n (with_rr_prev nr prev) ;;;
                  ret xfer
              | None => ret (with_queue xfer (x_head xfer) prev)
              end ;;
      let xfer := with_progress xfer (x_offset xfer)
                                (s32 (req_totalsize xfer - rr_len r)) in
      free_req rr ;;;
      ret (if ok =? 0 then -1 else 1, xfer)
  | Some _, _, _ => raise NullDeref
  end.

(** The loop of [xfer_cleanup]. *)
Fixpoint cleanup_loop (fuel : nat) (head : option nat) : M unit :=
  match head with
  | None => ret tt
  | Some rr =>
      match fuel with
      | O => raise OutOfFuel
      | S fuel' =>
          r <- load_req rr ;;
          free_req rr ;;;
          cleanup_loop fuel' (rr_next r)
      end
  end.

Definition xfer_cleanup (xfer : fxp_xfer) : M unit :=
  s <- get ;;
  cleanup_loop (size (heap s)) (x_head xfer).

(** ** The rest of sftp.c

    The packet builders for C strings, the receive side of the framing, the
    version exchange, and the primitives that work on path names. *)

Definition SSH_FXP_SETSTAT : Z := 9.
Definition SSH_FXP_FSETSTAT : Z := 10.
Definition SSH_FXP_REMOVE : Z := 13.
Definition SSH_FXP_MKDIR : Z := 14.
Definition SSH_FXP_RMDIR : Z := 15.
Definition SSH_FXP_REALPATH : Z := 16.
Definition SSH_FXP_STAT : Z := 17.
Definition SSH_FXP_RENAME : Z := 18.

Definition SFTP_PROTO_VERSION : Z := 3.

(** [strlen] on the C string that starts [s]: the bytes before the first
    NUL.  A buffer that holds no NUL is read past its end. *)
Fixpoint strlen (s : list Z) : outcome Z :=
  match s with
  | [] => Fault Overrun
  | c :: s' => if uchar c =? 0 then Ok 0 else n <~ strlen s' ;; Ok (n + 1)
  end.

Definition sftp_pkt_addstring_str (pkt : sftp_packet) (data : list Z)
  : outcome sftp_packet :=
  n <~ strlen data ;;
  Ok (patch_length (sftp_pkt_adddata pkt data (s32 n))).

Definition sftp_pkt_addstring (pkt : sftp_packet) (data : list Z) : outcome sftp_packet :=
  sftp_pkt_addstring_str (sftp_pkt_addstring_start pkt) data.

(** Modelled from the spec: sftp_recvdata, the embedder's transport
    ([recv_exact_bytes(handle, out, len) -> bool]); it is not among the
    sources.  [input] is what the peer has sent and nobody has read yet; the
    call delivers exactly [len] bytes, or reports failure when the stream
    ends before that. *)
Definition sftp_recvdata (input : list Z) (len : Z) : option (list Z * list Z) :=
  if Z.of_nat (length input) <? len then None
  else Some (take (Z.to_nat len) input, drop (Z.to_nat len) input).

(** [sftp_recv]: the packet (NULL is [None]) and the input left unread. *)
Definition sftp_recv (input : list Z) : M (option sftp_packet * list Z) :=
  match sftp_recvdata input 4 with
  | None => ret (None, input)
  | Some (x, input1) =>
      match GET_32BIT x 0 with
      | None => raise Overrun
      | Some len =>
          let pkt := mk_packet [] len len 0 0 in
          match sftp_recvdata input1 (pkt_length pkt) with
          | None => sftp_pkt_free pkt ;;; ret (None, input1)
          | Some (d, input2) =>
              let pkt := with_data pkt d in
              r <- lift (sftp_pkt_getbyte pkt) ;;
              match r with
              | (None, pkt) => sftp_pkt_free pkt ;;; ret (None, input2)
              | (Some uc, pkt) =>
                  ret (Some (mk_packet (pkt_data pkt) (pkt_length pkt) (pkt_maxlen pkt)
                                       (pkt_savedpos pkt) uc),
                       input2)
              end
          end
      end
  end.

(** [fxp_init]: the return value and the input left unread. *)
Definition fxp_init (input : list Z) : M (Z * list Z) :=
  let pktout := sftp_pkt_init SSH_FXP_INIT in
  let pktout := sftp_pkt_adduint32 pktout SFTP_PROTO_VERSION in
  sftp_send pktout ;;;
  r <- sftp_recv input ;;
  match r with
  | (None, input) =>
      fxp_internal_error "could not connect" ;;;
      ret (0, input)
  | (Some pktin, input) =>
      if negb (pkt_type pktin =? SSH_FXP_VERSION) then
        fxp_internal_error "did not receive FXP_VERSION" ;;;
        sftp_pkt_free pktin ;;;
        ret (0, input)
      else
        g <- lift (sftp_pkt_getuint32 pktin) ;;
        match g with
        | (None, pktin) =>
            fxp_internal_error "malformed FXP_VERSION packet" ;;;
            sftp_pkt_free pktin ;;;
            ret (0, input)
        | (Some remotever, pktin) =>
            if SFTP_PROTO_VERSION <? remotever then
              fxp_internal_error "remote protocol is more advanced than we support" ;;;
              sftp_pkt_free pktin ;;;
              ret (0, input)
            else
              sftp_pkt_free pktin ;;;
              ret (1, input)
        end
  end.

(** The start every [*_send] on a path name shares: the type byte, the
    request id and the path as a string. *)
Definition path_packet (ty : Z) (req : sftp_request) (path : list Z)
  : outcome sftp_packet :=
  let pktout := sftp_pkt_init ty in
  let pktout := sftp_pkt_adduint32 pktout (rq_id req) in
  sftp_pkt_addstring pktout path.

Definition fxp_realpath_send (path : list Z) : M sftp_request :=
  req <- sftp_alloc_request ;;
  pktout <- lift (path_packet SSH_FXP_REALPATH req path) ;;
  sftp_send pktout ;;;
  ret req.

Definition fxp_realpath_recv (pktin : sftp_packet) (req : sftp_request)
  : M (option (list Z)) :=
  log (EvReqFree req) ;;;
  if pkt_type pktin =? SSH_FXP_NAME then
    r <- lift (sftp_pkt_getuint32 pktin) ;;
    match r with
    | (None, pktin) =>
        fxp_internal_error ("REALPATH did not return name count of 1" ++ nl)%string ;;;
        sftp_pkt_free pktin ;;;
        ret None
    | (Some count, pktin) =>
        if negb (count =? 1) then
          fxp_internal_error ("REALPATH did not return name count of 1" ++ nl)%string ;;;
          sftp_pkt_free pktin ;;;
          ret None
        else
          g <- lift (sftp_pkt_getstring pktin) ;;
          if gs_ret g =? 0 then
            fxp_internal_error ("REALPATH returned malformed FXP_NAME" ++ nl)%string ;;;
            sftp_pkt_free (gs_pkt g) ;;;
            ret None
          else
            path <- lift (mkstr (pkt_data (gs_pkt g)) (gs_p g) (default 0 (gs_length g))) ;;
            sftp_pkt_free (gs_pkt g) ;;;
            ret (Some path)
    end
  else
    status_and_free pktin ;;; ret None.

Definition fxp_open_send (path : list Z) (type : Z) : M sftp_request :=
  req <- sftp_alloc_request ;;
  pktout <- lift (path_packet SSH_FXP_OPEN req path) ;;
  let pktout := sftp_pkt_adduint32 pktout type in
  let pktout := sftp_pkt_adduint32 pktout 0 in
  sftp_send pktout ;;;
  ret req.

Definition fxp_opendir_send (path : list Z) : M sftp_request :=
  req <- sftp_alloc_request ;;
  pktout <- lift (path_packet SSH_FXP_OPENDIR req path) ;;
  sftp_send pktout ;;;
  ret req.

(** The receivers of the replies that carry only a status. *)
Definition recv_status (pktin : sftp_packet) (req : sftp_request) : M Z :=
  log (EvReqFree req) ;;;
  id <- status_and_free pktin ;;
  ret (if negb (id =? 1) then 0 else 1).

Definition fxp_mkdir_send (path : list Z) : M sftp_request :=
  req <- sftp_alloc_request ;;
  pktout <- lift (path_packet SSH_FXP_MKDIR req path) ;;
  let pktout := sftp_pkt_adduint32 pktout 0 in
  sftp_send pktout ;;;
  ret req.

Definition fxp_mkdir_recv (pktin : sftp_packet) (req : sftp_request) : M Z :=
  recv_status pktin req.

Definition fxp_rmdir_send (path : list Z) : M sftp_request :=
  req <- sftp_alloc_request ;;
  pktout <- lift (path_packet SSH_FXP_RMDIR req path) ;;
  sftp_send pktout ;;;
  ret req.

Definition fxp_rmdir_recv (pktin : sftp_packet) (req : sftp_request) : M Z :=
  recv_status pktin req.

Definition fxp_remove_send (fname : list Z) : M sftp_request :=
  req <- sftp_alloc_request ;;
  pktout <- lift (path_packet SSH_FXP_REMOVE req fname) ;;
  sftp_send pktout ;;;
  ret req.

Definition fxp_remove_recv (pktin : sftp_packet) (req : sftp_request) : M Z :=
  recv_status pktin req.

Definition fxp_rename_send (srcfname dstfname : list Z) : M sftp_request :=
  req <- sftp_alloc_request ;;
  pktout <- lift (pktout <~ path_packet SSH_FXP_RENAME req srcfname ;;
                  sftp_pkt_addstring pktout dstfname) ;;
  sftp_send pktout ;;;
  ret req.

Definition fxp_rename_recv (pktin : sftp_packet) (req : sftp_request) : M Z :=
  recv_status pktin req.

Definition fxp_stat_send (fname : list Z) : M sftp_request :=
  req <- sftp_alloc_request ;;
  pktout <- lift (path_packet SSH_FXP_STAT req fname) ;;
  sftp_send pktout ;;;
  ret req.

(** The receivers of an ATTRS reply: the return value and [*attrs]
    afterwards. *)
Definition recv_attrs (pktin : sftp_packet) (req : sftp_request) (attrs : fxp_attrs)
  : M (Z * fxp_attrs) :=
  log (EvReqFree req) ;;;
  if pkt_type pktin =? SSH_FXP_ATTRS then
    r <- lift (sftp_pkt_getattrs pktin attrs) ;;
    match r with
    | (ok, attrs, pktin) =>
        if ok =? 0 then
          fxp_internal_error "malformed SSH_FXP_ATTRS packet" ;;;
          sftp_pkt_free pktin ;;;
          ret (0, attrs)
        else
          sftp_pkt_free pktin ;;;
          ret (1, attrs)
    end
  else
    status_and_free pktin ;;; ret (0, attrs).

Definition fxp_stat_recv (pktin : sftp_packet) (req : sftp_request) (attrs : fxp_attrs)
  : M (Z * fxp_attrs) :=
  recv_attrs pktin req attrs.

Definition fxp_fstat_recv (pktin : sftp_packet) (req : sftp_request) (attrs : fxp_attrs)
  : M (Z * fxp_attrs) :=
  recv_attrs pktin req attrs.

Definition fxp_setstat_send (fname : list Z) (attrs : fxp_attrs) : M sftp_request :=
  req <- sftp_alloc_request ;;
  pktout <- lift (path_packet SSH_FXP_SETSTAT req fname) ;;
  let pktout := sftp_pkt_addattrs pktout attrs in
  sftp_send pktout ;;;
  ret req.

Definition fxp_setstat_recv (pktin : sftp_packet) (req : sftp_request) : M Z :=
  recv_status pktin req.

Definition fxp_fsetstat_send (handle : fxp_handle) (attrs : fxp_attrs) : M sftp_request :=
  req <- sftp_alloc_request ;;
  let pktout := handle_packet SSH_FXP_FSETSTAT req handle in
  let pktout := sftp_pkt_addattrs pktout attrs in
  sftp_send pktout ;;;
  ret req.

Definition fxp_fsetstat_recv (pktin : sftp_packet) (req : sftp_request) : M Z :=
  recv_status pktin req.

(** ** Predicates and data the statements below use *)

(** The buffer holds exactly [pkt_length] bytes, as after [sftp_recv]. *)
Definition pkt_buffer_ok (p : sftp_packet) : Prop :=
  pkt_length p = Z.of_nat (length (pkt_data p)) /\ pkt_length p < UINT_MOD.

(** The content written so far lies inside the buffer, whose size is an
    [int]: no byte of the packet was written outside it. *)
Definition pkt_fits (p : sftp_packet) : Prop :=
  0 <= pkt_length p <= pkt_maxlen p /\ pkt_maxlen p <= INT_MAX.

(** Bytes between the cursor and the end of the packet. *)
Definition remaining (p : sftp_packet) : Z := pkt_length p - pkt_savedpos p.

(** The length word under the cursor, as the [int] the string getter
    stores. *)
Definition declared_length (p : sftp_packet) : Z :=
  s32 (default 0 (GET_32BIT (pkt_data p) (pkt_savedpos p))).

Definition getstring_example_pkt : sftp_packet :=
  mk_packet [0; 0; 0; 2; 104; 105; 7] 7 7 0 SSH_FXP_HANDLE.

(** A received packet of 2^31 + 4 zero bytes: an empty string followed by
    2^31 further bytes. *)
Definition huge_pkt : sftp_packet :=
  mk_packet (replicate (Z.to_nat 2147483652) 0) 2147483652 2147483652 0 SSH_FXP_HANDLE.

(** The ids held by a registry, in tree order. *)
Definition ids (t : list sftp_request) : list Z := List.map rq_id t.

(** What every registry satisfies: the tree is in increasing id order (so
    the ids are distinct), every id is an [unsigned] at or above
    REQUEST_ID_OFFSET, and the element count fits the [int] that
    [count234] returns. *)
Definition registry_ok (t : list sftp_request) : Prop :=
  StronglySorted Z.lt (ids t) /\
  Forall (fun i => REQUEST_ID_OFFSET <= i < UINT_MOD) (ids t) /\
  Z.of_nat (length t) <= INT_MAX.

(** An idle connection: no registry yet, no error, empty memory, link up. *)
Definition initial_state : sftp_state :=
  mk_state None EmptyString 0 ∅ 0 true [] [].

(** A STATUS reply body for request [id] carrying [code]. *)
Definition status_packet (id code : Z) : sftp_packet :=
  mk_packet ([SSH_FXP_STATUS] ++ PUT_32BIT id ++ PUT_32BIT code) 9 9 1 SSH_FXP_STATUS.

(** Slot [i] of the tree belongs to the initial contiguous run: it holds
    the id [i + REQUEST_ID_OFFSET]. *)
Definition in_run (t : list sftp_request) (i : Z) : Prop :=
  exists r, t !! Z.to_nat i = Some r /\ rq_id r = i + REQUEST_ID_OFFSET.

(** A registry with a hole: 256 and 257 registered and in flight, 258
    free, 259 allocated but not yet registered. *)
Definition registry_example : list sftp_request :=
  [mk_request 256 1 None; mk_request 257 1 (Some 0%nat); mk_request 259 0 None].

(** The packet [pktin] names the outstanding, registered request [rq] of the
    registry in [s]. *)
Definition correlates (pktin : option sftp_packet) (s : sftp_state) (rq : sftp_request)
  : Prop :=
  exists p id p1 t,
    pktin = Some p /\ sftp_pkt_getuint32 p = Ok (Some id, p1) /\
    sftp_requests s = Some t /\ find234 t id = Some rq /\ rq_registered rq <> 0.

(** The packet does not name an outstanding registered request: there is
    no packet, or its payload is too short for an id, or the id is unknown
    to the registry, or the request with that id was never registered. *)
Definition uncorrelated (pktin : option sftp_packet) (s : sftp_state) : Prop :=
  pktin = None \/
  exists p, pktin = Some p /\
    (u32 (pkt_length p - pkt_savedpos p) < 4 \/
     exists id p1 t,
       sftp_pkt_getuint32 p = Ok (Some id, p1) /\ sftp_requests s = Some t /\
       (find234 t id = None \/ exists r, find234 t id = Some r /\ rq_registered r = 0)).

(** A 64-byte NAME reply to request 256 that declares 1,000,000 names; the
    cursor stands after the request id. *)
Definition malformed_name_packet : sftp_packet :=
  mk_packet ([SSH_FXP_NAME] ++ PUT_32BIT 256 ++ PUT_32BIT 1000000 ++ replicate 55 0)
            64 64 5 SSH_FXP_NAME.

(** After [run], started in [s], the wire carries one more packet whose
    body begins with the type byte, the request id, and the handle string [h]
    with its length word.  That body is the content of the packet [q] that
    [run] built and freed, and [q] lies inside its buffer. *)
Definition handle_echoed (ty : Z) (h : list Z) (s : sftp_state)
    (run : outcome (sftp_request * sftp_state)) : Prop :=
  exists r s' n body,
    run = Ok (r, s') /\
    wire s' = wire s ++ PUT_32BIT n ++ body /\
    take (9 + length h) body
    = [ty] ++ PUT_32BIT (rq_id r) ++ PUT_32BIT (Z.of_nat (length h)) ++ h /\
    exists q tr,
      trace s' = trace s ++ EvPktFree q :: tr /\
      n = pkt_length q /\ body = take (Z.to_nat n) (pkt_data q) /\
      pkt_fits q.

(** A HANDLE reply to request 256 whose handle string is 2^31 bytes long;
    the cursor stands after the request id. *)
Definition long_handle_pkt : sftp_packet :=
  mk_packet ([SSH_FXP_HANDLE] ++ PUT_32BIT 256 ++ PUT_32BIT 2147483648
             ++ replicate (Z.to_nat 2147483648) 0)
            2147483657 2147483657 5 SSH_FXP_HANDLE.

(** A HANDLE reply to request 256 carrying the three-byte handle 7, 0, 9. *)
Definition handle_reply_example : sftp_packet :=
  mk_packet ([SSH_FXP_HANDLE] ++ PUT_32BIT 256 ++ PUT_32BIT 3 ++ [7; 0; 9])
            12 12 5 SSH_FXP_HANDLE.

(** ** The download queue as a linked list in memory *)

(** Following [next] from [p] visits exactly the blocks [l], each a read
    of 32768 bytes, and ends at NULL. *)
Fixpoint chain (h : gmap nat req) (p : option nat) (l : list nat) : Prop :=
  match l with
  | [] => p = None
  | a :: l' =>
      p = Some a /\
      exists r, h !! a = Some r /\ rr_len r = 32768 /\ chain h (rr_next r) l'
  end.

(** The queue of [x] is the list [l] of blocks: [head] starts the chain,
    [tail] is its last block, and every block lies below the allocation
    mark. *)
Definition queue_inv (x : fxp_xfer) (s : sftp_state) (l : list nat) : Prop :=
  chain (heap s) (x_head x) l /\
  x_tail x = last l /\
  NoDup l /\
  (forall a, is_Some (heap s !! a) -> (a < brk s)%nat) /\
  req_maxsize x = 1048576.

(** The in-flight total is the sum of the queued read sizes, and at most
    32 reads are queued. *)
Definition download_inv (x : fxp_xfer) (s : sftp_state) : Prop :=
  exists l, queue_inv x s l /\
            req_totalsize x = 32768 * Z.of_nat (length l) /\
            (length l <= 32)%nat.

(** The states a download passes through: it starts with
    [xfer_download_init], and then the caller invokes the three entry points
    and [xfer_set_error] in any order, on any packets; in between, the rest
    of the program may change everything but the transfer's blocks. *)
Inductive download_run : fxp_xfer -> sftp_state -> Prop :=
  | run_init s fh offset x s' :
      (forall a, is_Some (heap s !! a) -> (a < brk s)%nat) ->
      xfer_download_init fh offset s = Ok (x, s') ->
      download_run x s'
  | run_queue x s x' s' :
      download_run x s ->
      xfer_download_queue x s = Ok (x', s') ->
      download_run x' s'
  | run_gotpkt x s pktin v x' s' :
      download_run x s ->
      xfer_download_gotpkt x pktin s = Ok ((v, x'), s') ->
      download_run x' s'
  | run_data x s v x' out s' :
      download_run x s ->
      xfer_download_data x s = Ok ((v, x', out), s') ->
      download_run x' s'
  | run_set_error x s :
      download_run x s ->
      download_run (xfer_set_error x) s
  | run_elsewhere x s s' :
      download_run x s ->
      heap s' = heap s -> brk s' = brk s ->
      download_run x s'.

(** A computation that leaves the transfer blocks and the allocation mark
    alone. *)
Definition heap_frame {A} (m : M A) : Prop :=
  forall s a s', m s = Ok (a, s') -> heap s' = heap s /\ brk s' = brk s.

(** [h'] has the same blocks as [h], each with its [len] and [next]
    unchanged. *)
Definition heap_similar (h h' : gmap nat req) : Prop :=
  forall a,
    match h !! a, h' !! a with
    | Some r, Some r' => rr_len r' = rr_len r /\ rr_next r' = rr_next r
    | None, None => True
    | _, _ => False
    end.

(** The queue fields of the transfer are untouched. *)
Definition same_queue (x x' : fxp_xfer) : Prop :=
  x_head x' = x_head x /\ x_tail x' = x_tail x /\
  req_totalsize x' = req_totalsize x /\ req_maxsize x' = req_maxsize x.

(** The handle of the examples. *)
Definition example_handle : fxp_handle := mk_handle [7; 0; 9; 0] 3.

(** A download started on an idle connection. *)
Definition download_start : outcome (fxp_xfer * sftp_state) :=
  xfer_download_init example_handle (uint64_make 0 0) initial_state.

(** The first reply to that download, for request 256. *)
Definition download_reply (pktin : sftp_packet) : outcome (Z * fxp_xfer * sftp_state) :=
  match download_start with
  | Ok (x, s) => xfer_download_gotpkt x (Some pktin) s
  | Fault f => Fault f
  end.

(** What [xfer_download_data] hands out after that reply. *)
Definition download_reply_then_data (pktin : sftp_packet)
  : outcome (Z * fxp_xfer * option (list Z * Z) * sftp_state) :=
  match download_reply pktin with
  | Ok (_, x, s) => xfer_download_data x s
  | Fault f => Fault f
  end.

(** A DATA reply for request [id] carrying the bytes [d]. *)
Definition data_packet (id : Z) (d : list Z) : sftp_packet :=
  mk_packet ([SSH_FXP_DATA] ++ PUT_32BIT id ++ PUT_32BIT (Z.of_nat (length d)) ++ d)
            (9 + Z.of_nat (length d)) (9 + Z.of_nat (length d)) 1 SSH_FXP_DATA.

(** Both words of a [uint64] are 32-bit values. *)
Definition uint64_ok (x : uint64) : Prop :=
  0 <= hi x < UINT_MOD /\ 0 <= lo x < UINT_MOD.

(** The READ reply [pktin] correlates with the block [rr], whose record is
    [r0] when the reply arrives, and [fxp_read_recv] returns [retlen] for
    it, leaving [ety] in the error channel. *)
Definition read_reply_for (pktin : option sftp_packet) (s : sftp_state)
    (rr : nat) (r0 : req) (retlen ety : Z) : Prop :=
  exists rq pk s1 buf s2,
    sftp_find_request pktin s = Ok ((Some rq, Some pk), s1) /\
    rq_userdata rq = Some rr /\
    heap s1 !! rr = Some r0 /\
    fxp_read_recv pk rq (rr_buffer r0) (rr_len r0) s1 = Ok ((retlen, buf), s2) /\
    ety = fxp_errtype s2.

(** The transfer and the state right after [download_start]. *)
Definition started_xfer : fxp_xfer :=
  match download_start with
  | Ok (x, _) => x
  | Fault _ => xfer_init example_handle (uint64_make 0 0)
  end.

Definition started_state : sftp_state :=
  match download_start with
  | Ok (_, s) => s
  | Fault _ => initial_state
  end.

(** The first block of that download as queued. *)
Definition first_block : req :=
  mk_req (Some []) 32768 0 0 (mk_uint64 0 0) (Some 1%nat) None.

(** Between [s] and [s'] the blocks kept their [len] and [next], none was
    allocated or freed, and the allocation mark stayed. *)
Definition benign (s s' : sftp_state) : Prop :=
  heap_similar (heap s) (heap s') /\ brk s' = brk s.

(** ** The wire as the peer sees it *)

(** The packet the peer holds after receiving the frame of [p]: the same
    bytes and length, the type read from the first byte, and the read cursor
    at [pos]. *)
Definition received (p : sftp_packet) (pos : Z) : sftp_packet :=
  mk_packet (pkt_data p) (pkt_length p) (pkt_length p) pos
            (uchar (default 0 (pkt_data p !! 0%nat))).

(** The frame [sftp_send] writes for [p]. *)
Definition frame (p : sftp_packet) : list Z :=
  PUT_32BIT (pkt_length p) ++ take (Z.to_nat (pkt_length p)) (pkt_data p).

(** Every field of the record holds a 32-bit value, as its C type says. *)
Definition attrs_ok (a : fxp_attrs) : Prop :=
  0 <= at_flags a < UINT_MOD /\ uint64_ok (at_size a) /\
  0 <= at_uid a < UINT_MOD /\ 0 <= at_gid a < UINT_MOD /\
  0 <= at_permissions a < UINT_MOD /\
  0 <= at_atime a < UINT_MOD /\ 0 <= at_mtime a < UINT_MOD.

(** The record a decoder that started from [b] holds after reading the
    encoding of [a]: the flags of [a], the fields those flags announce from
    [a], and the other fields as they were in [b]. *)
Definition attrs_merge (a b : fxp_attrs) : fxp_attrs :=
  let pick {A} (flag : Z) (x y : A) : A :=
    if Z.land (at_flags a) flag =? 0 then y else x in
  mk_attrs (at_flags a)
           (pick SSH_FILEXFER_ATTR_SIZE (at_size a) (at_size b))
           (pick SSH_FILEXFER_ATTR_UIDGID (at_uid a) (at_uid b))
           (pick SSH_FILEXFER_ATTR_UIDGID (at_gid a) (at_gid b))
           (pick SSH_FILEXFER_ATTR_PERMISSIONS (at_permissions a) (at_permissions b))
           (pick SSH_FILEXFER_ATTR_ACMODTIME (at_atime a) (at_atime b))
           (pick SSH_FILEXFER_ATTR_ACMODTIME (at_mtime a) (at_mtime b)).

(** A record with size, permissions and times, as a SETSTAT would carry. *)
Definition attrs_example : fxp_attrs :=
  mk_attrs 13 (mk_uint64 1 4096) 0 0 420 1700000000 1700000001.

(** A packet as [sftp_recv] hands it out and as the getters leave it: the
    buffer holds its whole length, which is at most INT_MAX, and the cursor
    stands inside it. *)
Definition pkt_in_bounds (p : sftp_packet) : Prop :=
  pkt_buffer_ok p /\ 0 <= pkt_savedpos p <= pkt_length p /\ pkt_length p <= INT_MAX.

(** [q] is the packet [p] with the cursor moved forward, or left where it
    was. *)
Definition advanced (p q : sftp_packet) : Prop :=
  pkt_data q = pkt_data p /\ pkt_length q = pkt_length p /\
  pkt_savedpos p <= pkt_savedpos q.

(** A NAME reply to request 256 with two names, "a" and "bc", each with a
    long name and an empty attribute record; the cursor stands behind the
    request id. *)
Definition name_reply_example : sftp_packet :=
  mk_packet ([SSH_FXP_NAME] ++ PUT_32BIT 256 ++ PUT_32BIT 2
             ++ PUT_32BIT 1 ++ [97] ++ PUT_32BIT 2 ++ [45; 97] ++ PUT_32BIT 0
             ++ PUT_32BIT 2 ++ [98; 99] ++ PUT_32BIT 1 ++ [45] ++ PUT_32BIT 0)
            39 39 5 SSH_FXP_NAME.

(** ** Linked queues in general *)

(** Following [next] from [p] visits exactly the blocks [l] and ends at
    NULL. *)
Fixpoint linked (h : gmap nat req) (p : option nat) (l : list nat) : Prop :=
  match l with
  | [] => p = None
  | a :: l' => p = Some a /\ exists r, h !! a = Some r /\ linked h (rr_next r) l'
  end.

(** The block at [a] is marked failed. *)
Definition failed_block (h : gmap nat req) (a : nat) : Prop :=
  exists r, h !! a = Some r /\ rr_complete r < 0.

(** [r'] is [r] up to its [prev] pointer. *)
Definition same_but_prev (r r' : req) : Prop :=
  rr_buffer r' = rr_buffer r /\ rr_len r' = rr_len r /\ rr_retlen r' = rr_retlen r /\
  rr_complete r' = rr_complete r /\ rr_offset r' = rr_offset r /\ rr_next r' = rr_next r.

(** From [h] to [h'] the blocks [gone] were freed, and every other block is
    what it was up to its [prev] pointer. *)
Definition freed (gone : list nat) (h h' : gmap nat req) : Prop :=
  forall a,
    if bool_decide (a ∈ gone) then h' !! a = None
    else match h !! a, h' !! a with
         | Some r, Some r' => same_but_prev r r'
         | None, None => True
         | _, _ => False
         end.

(** A download queue of two blocks: the first marked failed, the second
    complete with the two bytes "hi". *)
Definition failed_then_done : sftp_state :=
  mk_state None EmptyString 0
           (<[0%nat := mk_req (Some []) 32768 (-1) (-1) (mk_uint64 0 0) (Some 1%nat) None]>
              (<[1%nat := mk_req (Some [104; 105]) 32768 2 1 (mk_uint64 0 32768)
                                 None (Some 0%nat)]> ∅))
           2 true [] [].

Definition failed_then_done_xfer : fxp_xfer :=
  mk_xfer (mk_uint64 0 65536) (mk_uint64 0 32768) (mk_uint64 0 32770) 65536 1048576 0 0
          example_handle (Some 0%nat) (Some 1%nat).

(** ** The upload queue as a doubly linked list *)

(** Following [next] from [p] visits exactly the blocks [l] and arrives at
    [q]; the [prev] pointer of each block names the block before it, and
    that of the first is [prev]. *)
Fixpoint dseg (h : gmap nat req) (prev p : option nat) (l : list nat) (q : option nat)
  : Prop :=
  match l with
  | [] => p = q
  | a :: l' =>
      p = Some a /\
      exists r, h !! a = Some r /\ rr_prev r = prev /\ dseg h (Some a) (rr_next r) l' q
  end.

(** The bytes of the write requests [l]. *)
Definition queued_bytes (h : gmap nat req) (l : list nat) : Z :=
  foldr (fun a n => from_option rr_len 0 (h !! a) + n) 0 l.

(** The queue of the upload [x] is the list [l] of blocks, doubly linked
    from [head] to [tail]; every block lies below the allocation mark; [eof]
    is as [xfer_upload_init] sets it; and [req_totalsize] is the byte count
    of [l] in [int] arithmetic. *)
Definition upload_inv (x : fxp_xfer) (s : sftp_state) (l : list nat) : Prop :=
  dseg (heap s) None (x_head x) l None /\
  x_tail x = last l /\
  NoDup l /\
  (forall a, is_Some (heap s !! a) -> (a < brk s)%nat) /\
  x_eof x = 1 /\
  req_totalsize x = s32 (queued_bytes (heap s) l).

(** An upload with three writes of 3, 2 and 4 bytes in flight, as requests
    256, 257 and 258. *)
Definition three_writes : sftp_state :=
  mk_state (Some [mk_request 256 1 (Some 0%nat); mk_request 257 1 (Some 1%nat);
                  mk_request 258 1 (Some 2%nat)])
           EmptyString 0
           (<[0%nat := mk_req None 3 0 0 (mk_uint64 0 0) (Some 1%nat) None]>
              (<[1%nat := mk_req None 2 0 0 (mk_uint64 0 3) (Some 2%nat) (Some 0%nat)]>
                 (<[2%nat := mk_req None 4 0 0 (mk_uint64 0 5) None (Some 1%nat)]> ∅)))
           3 true [] [].

Definition three_writes_xfer : fxp_xfer :=
  mk_xfer (mk_uint64 0 9) (mk_uint64 0 0) (mk_uint64 ULONG_MAX ULONG_MAX) 9 1048576 1 0
          example_handle (Some 0%nat) (Some 2%nat).

(** ** Requests as they appear on the wire *)

(** A string as a packet holds it: the length word, then the bytes. *)
Definition wire_string (s : list Z) : list Z := PUT_32BIT (Z.of_nat (length s)) ++ s.

(** An attribute record as a packet holds it: the flags word, then the
    fields whose flag is set. *)
Definition wire_attrs (a : fxp_attrs) : list Z :=
  PUT_32BIT (at_flags a)
  ++ (if Z.land (at_flags a) SSH_FILEXFER_ATTR_SIZE =? 0 then []
      else PUT_32BIT (hi (at_size a)) ++ PUT_32BIT (lo (at_size a)))
  ++ (if Z.land (at_flags a) SSH_FILEXFER_ATTR_UIDGID =? 0 then []
      else PUT_32BIT (at_uid a) ++ PUT_32BIT (at_gid a))
  ++ (if Z.land (at_flags a) SSH_FILEXFER_ATTR_PERMISSIONS =? 0 then []
      else PUT_32BIT (at_permissions a))
  ++ (if Z.land (at_flags a) SSH_FILEXFER_ATTR_ACMODTIME =? 0 then []
      else PUT_32BIT (at_atime a) ++ PUT_32BIT (at_mtime a)).

(** [run], started in [s], returns a request under an id the registry did
    not hold, leaves it in the registry unregistered, and puts one frame on
    the wire: the length word and the body [body id].  The packet it built
    holds exactly that body inside its buffer, and is freed. *)
Definition sends (s : sftp_state) (run : outcome (sftp_request * sftp_state))
    (body : Z -> list Z) : Prop :=
  exists i s' q,
    run = Ok (mk_request i 0 None, s') /\
    (i ∉ ids (default [] (sftp_requests s))) /\
    sftp_requests s' = Some (add234 (default [] (sftp_requests s)) (mk_request i 0 None)) /\
    wire s' = wire s ++ PUT_32BIT (Z.of_nat (length (body i))) ++ body i /\
    pkt_data q = body i /\ pkt_fits q /\
    trace s' = trace s ++ [EvPktFree q].

(** * Properties *)

Lemma u32_range z : 0 <= u32 z < UINT_MOD.
Proof. unfold u32, UINT_MOD. apply Z.mod_pos_bound. lia. Qed.

Lemma u32_small z : 0 <= z < UINT_MOD -> u32 z = z.
Proof. intros H. unfold u32. apply Z.mod_small. exact H. Qed.

Lemma s32_small z : - 2 ^ 31 <= z < 2 ^ 31 -> s32 z = z.
Proof.
  intros H. unfold s32, UINT_MOD. rewrite Z.mod_small; lia.
Qed.

Lemma s32_high z : 2 ^ 31 <= z < UINT_MOD -> s32 z = z - UINT_MOD.
Proof.
  intros H. unfold s32, UINT_MOD in *.
  replace (z + 2 ^ 31) with ((z - 2 ^ 31) + 1 * 2 ^ 32) by lia.
  rewrite Z_mod_plus_full, Z.mod_small; lia.
Qed.

Lemma uchar_mod z : uchar z = z mod 256.
Proof. unfold uchar. change 255 with (Z.ones 8). rewrite Z.land_ones by lia. reflexivity. Qed.

Lemma uchar_range z : 0 <= uchar z < 256.
Proof. rewrite uchar_mod. apply Z.mod_pos_bound. lia. Qed.

Lemma lor_shifted a b n : 0 <= n -> 0 <= b < 2 ^ n -> Z.lor (Z.shiftl a n) b = a * 2 ^ n + b.
Proof.
  intros Hn Hb. rewrite Z.shiftl_mul_pow2 by lia.
  symmetry. apply Z.add_nocarry_lor.
  apply Z.bits_inj'. intros i Hi. rewrite Z.land_spec, Z.bits_0.
  destruct (Z.lt_ge_cases i n) as [Hlt|Hge].
  - rewrite Z.mul_pow2_bits_low by lia. reflexivity.
  - replace b with (b mod 2 ^ n) by (apply Z.mod_small; lia).
    rewrite Z.mod_pow2_bits_high by lia. apply andb_false_r.
Qed.

Lemma be32_value b0 b1 b2 b3 :
  Z.lor (Z.lor (Z.lor (Z.shiftl (uchar b0) 24) (Z.shiftl (uchar b1) 16))
               (Z.shiftl (uchar b2) 8)) (uchar b3)
  = uchar b0 * 2 ^ 24 + uchar b1 * 2 ^ 16 + uchar b2 * 2 ^ 8 + uchar b3.
Proof.
  pose proof (uchar_range b0). pose proof (uchar_range b1).
  pose proof (uchar_range b2). pose proof (uchar_range b3).
  assert (E1 : Z.lor (Z.shiftl (uchar b0) 24) (Z.shiftl (uchar b1) 16)
               = Z.shiftl (uchar b0 * 2 ^ 8 + uchar b1) 16).
  { rewrite <- (lor_shifted (uchar b0) (uchar b1) 8) by lia.
    rewrite Z.shiftl_lor, Z.shiftl_shiftl by lia. reflexivity. }
  rewrite E1.
  assert (E2 : Z.lor (Z.shiftl (uchar b0 * 2 ^ 8 + uchar b1) 16) (Z.shiftl (uchar b2) 8)
               = Z.shiftl ((uchar b0 * 2 ^ 8 + uchar b1) * 2 ^ 8 + uchar b2) 8).
  { rewrite <- (lor_shifted _ (uchar b2) 8) by lia.
    rewrite Z.shiftl_lor, Z.shiftl_shiftl by lia. reflexivity. }
  rewrite E2. rewrite lor_shifted by lia. lia.
Qed.

Lemma GET_32BIT_Some cp off :
  0 <= off -> off + 4 <= Z.of_nat (length cp) ->
  exists v, GET_32BIT cp off = Some v /\ 0 <= v < UINT_MOD.
Proof.
  intros H0 H4. unfold GET_32BIT.
  destruct (lookup_lt_is_Some_2 cp (Z.to_nat off)) as [b0 E0]; [lia|].
  destruct (lookup_lt_is_Some_2 cp (Z.to_nat (off + 1))) as [b1 E1]; [lia|].
  destruct (lookup_lt_is_Some_2 cp (Z.to_nat (off + 2))) as [b2 E2]; [lia|].
  destruct (lookup_lt_is_Some_2 cp (Z.to_nat (off + 3))) as [b3 E3]; [lia|].
  rewrite E0, E1, E2, E3. eexists. split; [reflexivity|].
  rewrite be32_value.
  pose proof (uchar_range b0). pose proof (uchar_range b1).
  pose proof (uchar_range b2). pose proof (uchar_range b3).
  unfold UINT_MOD. lia.
Qed.

(** ** The string getter *)




Lemma getstring_cases (p : sftp_packet) :
  pkt_buffer_ok p -> 0 <= pkt_savedpos p <= pkt_length p ->
  remaining p - 4 <= INT_MAX ->
  exists g, sftp_pkt_getstring p = Ok g /\
    ((gs_ret g = 0 /\ gs_p g = None /\
      (remaining p < 4 \/ declared_length p < 0 \/ remaining p - 4 < declared_length p))
     \/
     (gs_ret g = 1 /\ 4 <= remaining p /\ 0 <= declared_length p <= remaining p - 4 /\
      gs_p g = Some (pkt_savedpos p + 4) /\
      gs_length g = Some (declared_length p) /\
      pkt_savedpos (gs_pkt g) = pkt_savedpos p + 4 + declared_length p /\
      pkt_data (gs_pkt g) = pkt_data p /\ pkt_length (gs_pkt g) = pkt_length p /\
      pkt_type (gs_pkt g) = pkt_type p)).
Proof.
  intros [Hlen Hmax] Hpos Hint. unfold remaining, declared_length, INT_MAX in *.
  unfold sftp_pkt_getstring.
  rewrite (u32_small (pkt_length p - pkt_savedpos p)) by (unfold UINT_MOD in *; lia).
  destruct (Z.ltb_spec (pkt_length p - pkt_savedpos p) 4) as [Hshort|Hroom].
  - eexists. split; [reflexivity|]. left. simpl. auto.
  - destruct (GET_32BIT_Some (pkt_data p) (pkt_savedpos p)) as (v & Ev & Hv); [lia|lia|].
    rewrite Ev. simpl.
    rewrite (u32_small (pkt_savedpos p + 4)) by (unfold UINT_MOD in *; lia).
    rewrite (u32_small (pkt_length p - (pkt_savedpos p + 4))) by (unfold UINT_MOD in *; lia).
    rewrite (s32_small (pkt_length p - (pkt_savedpos p + 4))) by lia.
    assert (Hs : - 2 ^ 31 <= s32 v < 2 ^ 31).
    { unfold s32, UINT_MOD. pose proof (Z.mod_pos_bound (v + 2 ^ 31) (2 ^ 32)). lia. }
    destruct (Z.ltb_spec (pkt_length p - (pkt_savedpos p + 4)) (s32 v)) as [Hbig|Hfit].
    + eexists. split; [reflexivity|]. left. simpl. split; [reflexivity|]. split; [reflexivity|]. lia.
    + destruct (Z.ltb_spec (s32 v) 0) as [Hneg|Hnn].
      * eexists. split; [reflexivity|]. left. simpl. split; [reflexivity|]. split; [reflexivity|]. lia.
      * eexists. split; [reflexivity|]. right. simpl.
        rewrite (u32_small (pkt_savedpos p + 4 + s32 v)) by (unfold UINT_MOD in *; lia).
        repeat split; try reflexivity; lia.
Qed.

(** C7 (as amended): for every received packet whose cursor is within bounds
    and which has at most INT_MAX bytes after the length word,
    [sftp_pkt_getstring] returns without reading past the buffer; it returns
    0 exactly when fewer than 4 bytes remain, or the declared length is
    negative, or the declared length exceeds the bytes remaining after the
    length word; when it returns 1 the borrow starts right after the length
    word, has exactly the declared length, lies inside the buffer, and the
    cursor has moved past the string. *)
Theorem sftp_pkt_getstring_bounds_safe (p : sftp_packet) :
  pkt_buffer_ok p -> 0 <= pkt_savedpos p <= pkt_length p ->
  remaining p - 4 <= INT_MAX ->
  exists g, sftp_pkt_getstring p = Ok g /\
    (gs_ret g = 0 \/ gs_ret g = 1) /\
    (gs_ret g = 0 <->
       remaining p < 4 \/ declared_length p < 0 \/ remaining p - 4 < declared_length p) /\
    (gs_ret g = 1 ->
       gs_p g = Some (pkt_savedpos p + 4) /\
       gs_length g = Some (declared_length p) /\
       pkt_savedpos (gs_pkt g) = pkt_savedpos p + 4 + declared_length p /\
       pkt_savedpos p + 4 + declared_length p <= Z.of_nat (length (pkt_data p)) /\
       Z.of_nat (length (borrowed (gs_pkt g) (pkt_savedpos p + 4) (declared_length p)))
         = declared_length p).
Proof.
  intros Hok Hpos Hint.
  destruct (getstring_cases p Hok Hpos Hint) as (g & Eg & Hcase).
  exists g. split; [exact Eg|].
  destruct Hcase as [(Hr & _ & Hc) | (Hr & H4 & Hd & Hp & Hl & Hs & Hdata & _)].
  - split; [left; exact Hr|]. split; [tauto|]. intros H1. congruence.
  - split; [right; exact Hr|]. split.
    + split; [intros H0; congruence | intros Hc; unfold remaining in *; lia].
    + intros _. destruct Hok as [Hlen _]. unfold remaining in *.
      repeat split; try assumption; try lia.
      unfold borrowed. rewrite Hdata, length_take, length_drop. lia.
Qed.


Lemma sftp_pkt_getstring_bounds_safe_witness :
  exists g, sftp_pkt_getstring getstring_example_pkt = Ok g /\
    (gs_ret g = 0 \/ gs_ret g = 1) /\
    (gs_ret g = 0 <->
       remaining getstring_example_pkt < 4 \/ declared_length getstring_example_pkt < 0 \/
       remaining getstring_example_pkt - 4 < declared_length getstring_example_pkt) /\
    (gs_ret g = 1 ->
       gs_p g = Some (pkt_savedpos getstring_example_pkt + 4) /\
       gs_length g = Some (declared_length getstring_example_pkt) /\
       pkt_savedpos (gs_pkt g)
         = pkt_savedpos getstring_example_pkt + 4 + declared_length getstring_example_pkt /\
       pkt_savedpos getstring_example_pkt + 4 + declared_length getstring_example_pkt
         <= Z.of_nat (length (pkt_data getstring_example_pkt)) /\
       Z.of_nat (length (borrowed (gs_pkt g) (pkt_savedpos getstring_example_pkt + 4)
                                  (declared_length getstring_example_pkt)))
         = declared_length getstring_example_pkt).
Proof.
  apply (sftp_pkt_getstring_bounds_safe getstring_example_pkt).
  - split; [reflexivity | vm_compute; reflexivity].
  - vm_compute. split; discriminate.
  - vm_compute. discriminate.
Defined.


Lemma huge_pkt_word : GET_32BIT (pkt_data huge_pkt) 0 = Some 0.
Proof.
  unfold GET_32BIT, huge_pkt, pkt_data.
  rewrite !lookup_replicate_2 by lia. reflexivity.
Qed.

(** C7 (as stated) fails on a packet with more than INT_MAX bytes after the
    length word: none of the three failure conditions holds, yet the getter
    returns 0. *)
Lemma sftp_pkt_getstring_huge_packet :
  pkt_buffer_ok huge_pkt /\
  0 <= pkt_savedpos huge_pkt <= pkt_length huge_pkt /\
  ~ (remaining huge_pkt < 4 \/ declared_length huge_pkt < 0 \/
     remaining huge_pkt - 4 < declared_length huge_pkt) /\
  exists g, sftp_pkt_getstring huge_pkt = Ok g /\ gs_ret g = 0.
Proof.
  assert (Hd : declared_length huge_pkt = 0).
  { unfold declared_length. change (pkt_savedpos huge_pkt) with 0.
    rewrite huge_pkt_word. reflexivity. }
  split.
  { split.
    - unfold huge_pkt, pkt_length, pkt_data. rewrite length_replicate. lia.
    - reflexivity. }
  split; [split; discriminate|].
  split.
  { rewrite Hd. unfold remaining. change (pkt_length huge_pkt) with 2147483652.
    change (pkt_savedpos huge_pkt) with 0. lia. }
  unfold sftp_pkt_getstring.
  change (pkt_savedpos huge_pkt) with 0. change (pkt_length huge_pkt) with 2147483652.
  rewrite huge_pkt_word.
  eexists. split; [reflexivity|]. reflexivity.
Qed.

(** ** The error channel and STATUS replies *)

Lemma GET_32BIT_range cp off v : GET_32BIT cp off = Some v -> 0 <= v < UINT_MOD.
Proof.
  unfold GET_32BIT. intros H.
  destruct (cp !! Z.to_nat off) as [b0|]; [|discriminate].
  destruct (cp !! Z.to_nat (off + 1)) as [b1|]; [|discriminate].
  destruct (cp !! Z.to_nat (off + 2)) as [b2|]; [|discriminate].
  destruct (cp !! Z.to_nat (off + 3)) as [b3|]; [|discriminate].
  injection H as <-. rewrite be32_value.
  pose proof (uchar_range b0). pose proof (uchar_range b1).
  pose proof (uchar_range b2). pose proof (uchar_range b3).
  unfold UINT_MOD. lia.
Qed.

Lemma getuint32_Some_range pkt v pkt1 :
  sftp_pkt_getuint32 pkt = Ok (Some v, pkt1) -> 0 <= v < UINT_MOD.
Proof.
  unfold sftp_pkt_getuint32. intros H.
  destruct (u32 (pkt_length pkt - pkt_savedpos pkt) <? 4); [discriminate|].
  destruct (GET_32BIT (pkt_data pkt) (pkt_savedpos pkt)) as [w|] eqn:E; [|discriminate].
  injection H as <- _. eapply GET_32BIT_range, E.
Qed.

(** C6: [fxp_got_status] reads the status code as a u32.  A code in 0..8
    stores the matching entry of the nine-entry table, any other code stores
    "unknown error code"; the code is recorded in [fxp_errtype]; the result
    is 1 exactly for SSH_FX_OK, 0 exactly for SSH_FX_EOF, and -1 otherwise.
    A packet of another type, or a STATUS packet too short for the code,
    gives -1 with [fxp_errtype] -1. *)
Theorem fxp_got_status_mapping (s : sftp_state) (pktin : sftp_packet) :
  (pkt_type pktin <> SSH_FXP_STATUS ->
     fxp_got_status pktin s
     = Ok ((-1, pktin), put_error (-1) "expected FXP_STATUS packet" s)) /\
  (pkt_type pktin = SSH_FXP_STATUS ->
   u32 (pkt_length pktin - pkt_savedpos pktin) < 4 ->
     fxp_got_status pktin s
     = Ok ((-1, pktin), put_error (-1) "malformed FXP_STATUS packet" s)) /\
  (forall code pkt1,
     pkt_type pktin = SSH_FXP_STATUS ->
     sftp_pkt_getuint32 pktin = Ok (Some code, pkt1) ->
     exists v msg,
       fxp_got_status pktin s = Ok ((v, pkt1), put_error (s32 code) msg s) /\
       (code <= INT_MAX -> s32 code = code) /\
       (code <= 8 -> messages !! Z.to_nat code = Some msg) /\
       (8 < code -> msg = "unknown error code"%string) /\
       (v = 1 <-> code = SSH_FX_OK) /\
       (v = 0 <-> code = SSH_FX_EOF) /\
       (code <> SSH_FX_OK -> code <> SSH_FX_EOF -> v = -1)) /\
  messages = ["unexpected OK response"; "end of file"; "no such file or directory";
              "permission denied"; "failure"; "bad message"; "no connection";
              "connection lost"; "operation unsupported"]%string.
Proof.
  split; [|split; [|split; [|reflexivity]]].
  - intros Hty. unfold fxp_got_status.
    destruct (Z.eqb_spec (pkt_type pktin) SSH_FXP_STATUS) as [E|_]; [contradiction|].
    reflexivity.
  - intros Hty Hshort. unfold fxp_got_status.
    rewrite Hty, Z.eqb_refl. simpl negb. cbv iota.
    unfold bind at 1, lift, sftp_pkt_getuint32.
    destruct (Z.ltb_spec (u32 (pkt_length pktin - pkt_savedpos pktin)) 4); [|lia].
    reflexivity.
  - intros code pkt1 Hty Hget.
    pose proof (getuint32_Some_range _ _ _ Hget) as Hr.
    unfold fxp_got_status. rewrite Hty, Z.eqb_refl. simpl negb. cbv iota.
    unfold bind at 1, lift. rewrite Hget.
    unfold SSH_FX_OK, SSH_FX_EOF, INT_MAX, UINT_MOD in *.
    destruct (Z.le_gt_cases code 8) as [Hle|Hgt].
    + rewrite (s32_small code) by lia.
      assert (Hc : code = 0 \/ code = 1 \/ code = 2 \/ code = 3 \/ code = 4 \/
                   code = 5 \/ code = 6 \/ code = 7 \/ code = 8) by lia.
      destruct Hc as [->|[->|[->|[->|[->|[->|[->|[->| ->]]]]]]]];
        (eexists _, _; split; [reflexivity|]);
        (split; [reflexivity|]); (split; [intros _; reflexivity|]);
        (split; [intros; lia|]); (repeat split; intros; try reflexivity; try lia; try discriminate).
    + destruct (Z.lt_ge_cases code (2 ^ 31)) as [Hlo|Hhi].
      * exists (-1), "unknown error code"%string.
        split.
        { unfold bind, set_error, modify, status_result, get, ret, put_error. simpl.
          rewrite !(s32_small code) by lia.
          change (Z.of_nat 9) with 9. unfold SSH_FX_OK, SSH_FX_EOF.
          destruct (Z.ltb_spec code 0); [lia|].
          destruct (Z.leb_spec 9 code); [|lia]. simpl.
          destruct (Z.eqb_spec code 0); [lia|]. destruct (Z.eqb_spec code 1); [lia|].
          reflexivity. }
        rewrite (s32_small code) by lia.
        repeat split; intros; try reflexivity; try lia.
      * exists (-1), "unknown error code"%string.
        split.
        { unfold bind, set_error, modify, status_result, get, ret, put_error. simpl.
          rewrite !(s32_high code) by (unfold UINT_MOD; lia).
          unfold UINT_MOD, SSH_FX_OK, SSH_FX_EOF.
          destruct (Z.ltb_spec (code - 2 ^ 32) 0); [|lia]. simpl.
          destruct (Z.eqb_spec (code - 2 ^ 32) 0); [lia|].
          destruct (Z.eqb_spec (code - 2 ^ 32) 1); [lia|].
          reflexivity. }
        repeat split; intros; try reflexivity; try lia.
Qed.

Lemma fxp_got_status_mapping_witness :
  exists v msg,
    fxp_got_status (with_savedpos (status_packet 256 255) 5) initial_state
    = Ok ((v, with_savedpos (status_packet 256 255) 9),
          put_error (s32 255) msg initial_state) /\
    (255 <= INT_MAX -> s32 255 = 255) /\
    (255 <= 8 -> messages !! Z.to_nat 255 = Some msg) /\
    (8 < 255 -> msg = "unknown error code"%string) /\
    (v = 1 <-> 255 = SSH_FX_OK) /\
    (v = 0 <-> 255 = SSH_FX_EOF) /\
    (255 <> SSH_FX_OK -> 255 <> SSH_FX_EOF -> v = -1).
Proof.
  destruct (fxp_got_status_mapping initial_state (with_savedpos (status_packet 256 255) 5))
    as (_ & _ & H & _).
  apply H; reflexivity.
Defined.

(** ** The request registry *)

Lemma sorted_lookup_gap (l : list Z) :
  StronglySorted Z.lt l ->
  forall (i j : nat) a b, (i <= j)%nat -> l !! i = Some a -> l !! j = Some b ->
    a + Z.of_nat (j - i) <= b.
Proof.
  induction 1 as [|x l Hs IH Hall]; intros i j a b Hij Ha Hb.
  - rewrite lookup_nil in Ha. discriminate.
  - destruct i as [|i], j as [|j]; simpl in *.
    + assert (a = b) by congruence. lia.
    + injection Ha as ->.
      destruct l as [|c l']; [rewrite lookup_nil in Hb; discriminate|].
      assert (Hc : a < c) by (inversion Hall; assumption).
      specialize (IH 0%nat j c b ltac:(lia) eq_refl Hb). lia.
    + lia.
    + specialize (IH i j a b ltac:(lia) Ha Hb). lia.
Qed.

Lemma sorted_lookup_inj (l : list Z) (i j : nat) a :
  StronglySorted Z.lt l -> l !! i = Some a -> l !! j = Some a -> i = j.
Proof.
  intros Hs Hi Hj.
  destruct (Nat.lt_trichotomy i j) as [H|[H|H]]; [|exact H|].
  - pose proof (sorted_lookup_gap l Hs i j a a ltac:(lia) Hi Hj). lia.
  - pose proof (sorted_lookup_gap l Hs j i a a ltac:(lia) Hj Hi). lia.
Qed.

Lemma registry_lookup_ge (t : list sftp_request) (i : nat) a :
  StronglySorted Z.lt (ids t) ->
  Forall (fun i => REQUEST_ID_OFFSET <= i < UINT_MOD) (ids t) ->
  ids t !! i = Some a -> REQUEST_ID_OFFSET + Z.of_nat i <= a.
Proof.
  intros Hs Hr Ha.
  destruct (ids t !! 0%nat) as [c|] eqn:Ec.
  - pose proof (sorted_lookup_gap _ Hs 0%nat i c a ltac:(lia) Ec Ha).
    rewrite Forall_lookup in Hr. specialize (Hr _ _ Ec). simpl in Hr. lia.
  - apply lookup_ge_None in Ec. apply lookup_lt_Some in Ha. lia.
Qed.

Lemma ids_lookup (t : list sftp_request) (i : nat) :
  ids t !! i = rq_id <$> t !! i.
Proof. unfold ids. apply list_lookup_fmap. Qed.

Lemma ids_length (t : list sftp_request) : length (ids t) = length t.
Proof. unfold ids. apply length_map. Qed.

Lemma find234_None (t : list sftp_request) (i : Z) :
  find234 t i = None <-> i ∉ ids t.
Proof.
  unfold find234, ids. induction t as [|x t IH]; simpl.
  - split; [intros _; apply not_elem_of_nil | reflexivity].
  - rewrite not_elem_of_cons. destruct (Z.eqb_spec (rq_id x) i) as [E|E].
    + split; [discriminate | intros [H _]; congruence].
    + rewrite IH. split; [intros H; split; [congruence|exact H] | tauto].
Qed.

Lemma find234_Some (t : list sftp_request) (i : Z) r :
  find234 t i = Some r -> r ∈ t /\ rq_id r = i.
Proof.
  unfold find234. intros H. apply find_some in H as [Hin Heq].
  split; [apply list_elem_of_In; exact Hin | apply Z.eqb_eq; exact Heq].
Qed.

Lemma add234_fresh (t : list sftp_request) (r : sftp_request) :
  rq_id r ∉ ids t -> add234 t r ≡ₚ r :: t.
Proof.
  induction t as [|x t IH]; simpl; intros Hn; [reflexivity|].
  apply not_elem_of_cons in Hn as [Hne Hn].
  destruct (Z.ltb_spec (rq_id r) (rq_id x)); [reflexivity|].
  destruct (Z.ltb_spec (rq_id x) (rq_id r)); [|lia].
  rewrite (IH Hn). apply Permutation_swap.
Qed.

Lemma add234_elem (t : list sftp_request) (r z : sftp_request) :
  z ∈ add234 t r -> z = r \/ z ∈ t.
Proof.
  induction t as [|w t IH]; simpl; intros Hz.
  - apply list_elem_of_singleton in Hz. left. exact Hz.
  - destruct (rq_id r <? rq_id w).
    + apply elem_of_cons in Hz as [->|Hz]; [left; reflexivity | right; exact Hz].
    + destruct (rq_id w <? rq_id r); [|right; exact Hz].
      apply elem_of_cons in Hz as [->|Hz]; [right; left|].
      destruct (IH Hz) as [->|H]; [left; reflexivity | right; right; exact H].
Qed.

Lemma add234_sorted (t : list sftp_request) (r : sftp_request) :
  StronglySorted Z.lt (ids t) -> StronglySorted Z.lt (ids (add234 t r)).
Proof.
  unfold ids. induction t as [|x t IH]; simpl; intros Hs.
  - repeat constructor.
  - apply StronglySorted_cons in Hs as [Hall Hs].
    destruct (Z.ltb_spec (rq_id r) (rq_id x)) as [Hlt|Hge]; simpl.
    + apply StronglySorted_cons. split.
      * constructor; [exact Hlt|]. eapply Forall_impl; [exact Hall|]. simpl. intros; lia.
      * apply StronglySorted_cons. split; assumption.
    + destruct (Z.ltb_spec (rq_id x) (rq_id r)) as [Hlt|Heq]; simpl.
      * apply StronglySorted_cons. split; [|apply IH, Hs].
        rewrite Forall_forall. intros y Hy.
        apply list_elem_of_fmap in Hy as (z & -> & Hz).
        destruct (add234_elem _ _ _ Hz) as [->|Hz']; [exact Hlt|].
        rewrite Forall_forall in Hall. apply Hall.
        apply list_elem_of_fmap. exists z. split; [reflexivity|exact Hz'].
      * apply StronglySorted_cons. split; assumption.
Qed.

Lemma del234_sorted (t : list sftp_request) (e : sftp_request) :
  StronglySorted Z.lt (ids t) -> StronglySorted Z.lt (ids (del234 t e)).
Proof.
  unfold ids. induction t as [|x t IH]; simpl; intros Hs; [constructor|].
  apply StronglySorted_cons in Hs as [Hall Hs].
  destruct (rq_id x =? rq_id e); [exact Hs|]. simpl.
  apply StronglySorted_cons. split; [|apply IH, Hs].
  rewrite Forall_forall in *. intros y Hy. apply Hall.
  clear -Hy. induction t as [|w t IHt]; simpl in *; [exact Hy|].
  destruct (rq_id w =? rq_id e); [right; exact Hy|].
  simpl in Hy. apply elem_of_cons in Hy as [->|Hy]; [left | right; auto].
Qed.

Lemma del234_ids (t : list sftp_request) (e : sftp_request) (j : Z) :
  NoDup (ids t) -> e ∈ t ->
  j ∈ ids (del234 t e) <-> j ∈ ids t /\ j <> rq_id e.
Proof.
  unfold ids. induction t as [|x t IH]; simpl; intros Hnd He.
  - apply elem_of_nil in He. contradiction.
  - apply NoDup_cons in Hnd as [Hx Hnd].
    destruct (Z.eqb_spec (rq_id x) (rq_id e)) as [E|E].
    + rewrite elem_of_cons. split.
      * intros Hj. split; [right; exact Hj|]. intros ->. apply Hx. rewrite E. exact Hj.
      * intros [[->|Hj] Hne]; [congruence | exact Hj].
    + apply elem_of_cons in He as [->|He]; [contradiction|].
      simpl. rewrite !elem_of_cons, (IH Hnd He). split.
      * intros [->|[? ?]]; [split; [left; reflexivity | exact E] | split; [right|]; assumption].
      * intros [[->|?] ?]; [left; reflexivity | right; split; assumption].
Qed.

Lemma u32_sub_r a b : u32 (a - u32 b) = u32 (a - b).
Proof. unfold u32. apply Zminus_mod_idemp_r. Qed.

Lemma u32_add_r a b : u32 (a + u32 b) = u32 (a + b).
Proof. unfold u32. apply Zplus_mod_idemp_r. Qed.

Lemma u32_add_l a b : u32 (u32 a + b) = u32 (a + b).
Proof. unfold u32. apply Zplus_mod_idemp_l. Qed.

Lemma run_downward (t : list sftp_request) (m i : Z) :
  registry_ok t -> 0 <= i <= m -> in_run t m -> in_run t i.
Proof.
  intros (Hs & Hr & _) Hi (r & Er & Hid). unfold in_run.
  assert (Hlt : (Z.to_nat i < length t)%nat).
  { apply lookup_lt_Some in Er. lia. }
  destruct (lookup_lt_is_Some_2 t _ Hlt) as [q Eq].
  exists q. split; [exact Eq|].
  assert (Ei : ids t !! Z.to_nat i = Some (rq_id q)) by (rewrite ids_lookup, Eq; reflexivity).
  assert (Em : ids t !! Z.to_nat m = Some (rq_id r)) by (rewrite ids_lookup, Er; reflexivity).
  pose proof (registry_lookup_ge t _ _ Hs Hr Ei).
  pose proof (sorted_lookup_gap _ Hs (Z.to_nat i) (Z.to_nat m) _ _ ltac:(lia) Ei Em).
  lia.
Qed.

Lemma alloc_search_spec (t : list sftp_request) :
  registry_ok t ->
  forall (fuel : nat) (l h : Z),
    -1 <= l < h -> h <= Z.of_nat (length t) -> h - l <= Z.of_nat fuel + 1 ->
    (forall i, 0 <= i <= l -> in_run t i) ->
    (h < Z.of_nat (length t) -> ~ in_run t h) ->
    exists l', alloc_search fuel t (u32 l) h = Ok (u32 l') /\
      -1 <= l' < Z.of_nat (length t) /\
      (forall i, 0 <= i <= l' -> in_run t i) /\
      (l' + 1 < Z.of_nat (length t) -> ~ in_run t (l' + 1)).
Proof.
  intros Hok. pose proof Hok as (Hs & Hr & Hn). unfold INT_MAX in Hn.
  induction fuel as [|fuel IH]; intros l h Hl Hh Hf Hlow Hhigh.
  - assert (h = l + 1) by lia. subst h.
    exists l. simpl. rewrite u32_sub_r.
    replace (l + 1 - l) with 1 by lia. change (1 <? u32 1) with false. cbv iota.
    split; [reflexivity|]. split; [lia|]. split; assumption.
  - simpl. rewrite u32_sub_r, u32_add_r.
    rewrite (u32_small (h - l)) by (unfold UINT_MOD; lia).
    destruct (Z.ltb_spec 1 (h - l)) as [Hgo|Hstop].
    + rewrite (u32_small (h + l)) by (unfold UINT_MOD; lia).
      set (mid := (h + l) / 2).
      assert (Hmid : l < mid < h).
      { unfold mid. pose proof (Z_div_mod_eq_full (h + l) 2).
        pose proof (Z.mod_pos_bound (h + l) 2 ltac:(lia)). lia. }
      unfold index234. rewrite (s32_small mid) by lia.
      destruct (Z.ltb_spec mid 0); [lia|].
      destruct (lookup_lt_is_Some_2 t (Z.to_nat mid)) as [r Er]; [lia|].
      rewrite Er.
      rewrite (u32_small (mid + REQUEST_ID_OFFSET)) by (unfold UINT_MOD, REQUEST_ID_OFFSET; lia).
      destruct (Z.eqb_spec (rq_id r) (mid + REQUEST_ID_OFFSET)) as [Eid|Nid].
      * destruct (IH mid h) as (l' & E & Hrest); try lia.
        -- intros i Hi. apply (run_downward t mid i Hok Hi). exists r. split; assumption.
        -- exact Hhigh.
        -- rewrite (u32_small mid) in E by (unfold UINT_MOD; lia).
           exists l'. split; [exact E | exact Hrest].
      * apply IH; try lia.
        -- exact Hlow.
        -- intros _ (q & Eq & Hq). rewrite Er in Eq. injection Eq as <-. contradiction.
    + assert (h = l + 1) by lia. subst h.
      exists l. split; [reflexivity|]. split; [lia|]. split; assumption.
Qed.

Lemma first_fit_unused (t : list sftp_request) (l : Z) :
  registry_ok t -> -1 <= l < Z.of_nat (length t) ->
  (forall i, 0 <= i <= l -> in_run t i) ->
  (l + 1 < Z.of_nat (length t) -> ~ in_run t (l + 1)) ->
  (l + 1 + REQUEST_ID_OFFSET ∉ ids t) /\
  (forall j, REQUEST_ID_OFFSET <= j < l + 1 + REQUEST_ID_OFFSET -> j ∈ ids t).
Proof.
  intros (Hs & Hr & _) Hl Hlow Hhigh. split.
  - intros Hin. apply list_elem_of_lookup in Hin as [k Ek].
    pose proof (registry_lookup_ge t k _ Hs Hr Ek) as Hge.
    pose proof (lookup_lt_Some _ _ _ Ek) as Hk. rewrite ids_length in Hk.
    rewrite ids_lookup in Ek.
    destruct (t !! k) as [q|] eqn:Eq; [|discriminate]. injection Ek as Eid.
    destruct (Z.le_gt_cases (Z.of_nat k) l) as [Hle|Hgt].
    + destruct (Hlow (Z.of_nat k) ltac:(lia)) as (r & Er & Hid).
      rewrite Nat2Z.id, Eq in Er. injection Er as <-. lia.
    + assert (Z.of_nat k = l + 1) by lia.
      apply Hhigh; [lia|]. exists q. split; [|lia].
      replace (Z.to_nat (l + 1)) with k by lia. exact Eq.
  - intros j Hj. destruct (Hlow (j - REQUEST_ID_OFFSET) ltac:(lia)) as (r & Er & Hid).
    apply list_elem_of_lookup. exists (Z.to_nat (j - REQUEST_ID_OFFSET)).
    rewrite ids_lookup, Er. simpl. f_equal. lia.
Qed.

Lemma sorted_NoDup (l : list Z) : StronglySorted Z.lt l -> NoDup l.
Proof.
  induction 1 as [|x l Hs IH Hall]; [constructor|].
  apply NoDup_cons. split; [|exact IH].
  intros Hx. rewrite Forall_forall in Hall. specialize (Hall _ Hx). lia.
Qed.

(** What one run of [sftp_alloc_request] does on an orderly registry. *)
Lemma sftp_alloc_request_runs (s : sftp_state) (t : list sftp_request) :
  default [] (sftp_requests s) = t -> registry_ok t ->
  exists i,
    sftp_alloc_request s
    = Ok (mk_request i 0 None, put_requests (Some (add234 t (mk_request i 0 None))) s) /\
    REQUEST_ID_OFFSET <= i <= REQUEST_ID_OFFSET + Z.of_nat (length t) /\
    (i ∉ ids t) /\
    (forall j, REQUEST_ID_OFFSET <= j < i -> j ∈ ids t).
Proof.
  intros Ht Hok. pose proof Hok as (Hs & Hr & Hn). unfold INT_MAX in Hn.
  destruct (alloc_search_spec t Hok (S (length t)) (-1) (Z.of_nat (length t)))
    as (l & Esearch & Hl & Hlow & Hhigh); try lia.
  destruct (first_fit_unused t l Hok Hl Hlow Hhigh) as [Hfresh Hfull].
  set (i := l + 1 + REQUEST_ID_OFFSET) in *.
  assert (Ei : u32 (u32 l + 1 + REQUEST_ID_OFFSET) = i).
  { replace (u32 l + 1 + REQUEST_ID_OFFSET) with (u32 l + (1 + REQUEST_ID_OFFSET)) by lia.
    rewrite u32_add_l. unfold i, REQUEST_ID_OFFSET.
    rewrite u32_small by (unfold UINT_MOD; lia). lia. }
  assert (Esz : u32 (s32 (count234 t)) = Z.of_nat (length t)).
  { unfold count234. rewrite s32_small by lia. apply u32_small. unfold UINT_MOD. lia. }
  exists i. split; [|split; [unfold i; lia | split; assumption]].
  unfold sftp_alloc_request, bind, get.
  destruct (sftp_requests s) as [t'|] eqn:Es; simpl in Ht; subst t.
  - unfold ret at 1. unfold lift. rewrite Esz, Esearch, Ei.
    apply find234_None in Hfresh. rewrite Hfresh.
    unfold set_requests, modify, ret. reflexivity.
  - unfold set_requests at 1, modify, ret at 1. unfold lift.
    rewrite Esz, Esearch, Ei.
    apply find234_None in Hfresh. rewrite Hfresh.
    unfold set_requests, modify, ret, put_requests. simpl. reflexivity.
Qed.

(** C1: on a registry whose ids are distinct and at least
    REQUEST_ID_OFFSET, [sftp_alloc_request] returns a fresh unregistered
    descriptor whose id is the smallest id at or above REQUEST_ID_OFFSET that
    the registry does not hold, and inserts it.  When the registry holds
    exactly 256 .. 256+n-1 the id is 256+n; when it is that prefix with
    256+k removed, the id is 256+k. *)
Theorem sftp_alloc_request_first_fit (s : sftp_state) (t : list sftp_request) :
  default [] (sftp_requests s) = t -> registry_ok t ->
  exists r,
    sftp_alloc_request s = Ok (r, put_requests (Some (add234 t r)) s) /\
    rq_registered r = 0 /\ rq_userdata r = None /\
    REQUEST_ID_OFFSET <= rq_id r /\
    (rq_id r ∉ ids t) /\
    (forall j, REQUEST_ID_OFFSET <= j < rq_id r -> j ∈ ids t) /\
    add234 t r ≡ₚ r :: t /\
    (forall n, 0 <= n -> ids t = seqZ REQUEST_ID_OFFSET n ->
       rq_id r = REQUEST_ID_OFFSET + n) /\
    (forall t0 x n k, 0 <= k < n -> ids t0 = seqZ REQUEST_ID_OFFSET n ->
       x ∈ t0 -> rq_id x = REQUEST_ID_OFFSET + k -> t = del234 t0 x ->
       rq_id r = REQUEST_ID_OFFSET + k).
Proof.
  intros Ht Hok.
  destruct (sftp_alloc_request_runs s t Ht Hok) as (i & Erun & Hi & Hfresh & Hfull).
  exists (mk_request i 0 None).
  split; [exact Erun|]. split; [reflexivity|]. split; [reflexivity|].
  simpl rq_id.
  split; [lia|]. split; [exact Hfresh|]. split; [exact Hfull|].
  split; [apply add234_fresh; exact Hfresh|].
  assert (Hleast : forall (P : Z -> Prop) m,
             (forall j, j ∈ ids t <-> REQUEST_ID_OFFSET <= j /\ P j) ->
             REQUEST_ID_OFFSET <= m -> ~ P m -> (forall j, REQUEST_ID_OFFSET <= j < m -> P j) ->
             i = m).
  { intros P m HP Hm Hnm Hbelow.
    destruct (Z.lt_trichotomy i m) as [Hlt|[Heq|Hgt]]; [|exact Heq|].
    - exfalso. apply Hfresh. apply HP. split; [lia|]. apply Hbelow. lia.
    - exfalso. apply Hnm. apply (HP m). apply Hfull. lia. }
  split.
  - intros n Hn0 Hids.
    apply (Hleast (fun j => j < REQUEST_ID_OFFSET + n)); try lia.
    intros j. rewrite Hids, elem_of_seqZ. lia.
  - intros t0 x n k Hk Hids Hx Hxid ->.
    apply (Hleast (fun j => j < REQUEST_ID_OFFSET + n /\ j <> REQUEST_ID_OFFSET + k)); try lia.
    intros j. rewrite del234_ids; [|rewrite Hids; apply NoDup_seqZ | exact Hx].
    rewrite Hids, elem_of_seqZ, Hxid. lia.
Qed.

Lemma registry_example_ok : registry_ok registry_example.
Proof.
  split; [|split].
  - repeat (constructor; try lia).
  - repeat (constructor; try (unfold REQUEST_ID_OFFSET, UINT_MOD; simpl; lia)).
  - unfold INT_MAX. simpl. lia.
Defined.

Lemma sftp_alloc_request_first_fit_witness :
  exists r,
    sftp_alloc_request (put_requests (Some registry_example) initial_state)
    = Ok (r, put_requests (Some (add234 registry_example r))
                          (put_requests (Some registry_example) initial_state)) /\
    (rq_id r ∉ ids registry_example) /\
    (forall j, REQUEST_ID_OFFSET <= j < rq_id r -> j ∈ ids registry_example).
Proof.
  destruct (sftp_alloc_request_first_fit
              (put_requests (Some registry_example) initial_state) registry_example
              eq_refl registry_example_ok)
    as (r & Hrun & _ & _ & _ & Hfresh & Hfull & _).
  exists r. split; [exact Hrun|]. split; [exact Hfresh | exact Hfull].
Defined.

(** ** Reply correlation *)

Lemma sftp_find_request_null (s : sftp_state) :
  sftp_find_request None s
  = Ok ((None, None),
        put_error (-1) ("did not receive a valid SFTP packet" ++ nl) s).
Proof. reflexivity. Qed.

Lemma sftp_find_request_short (s : sftp_state) (p : sftp_packet) :
  u32 (pkt_length p - pkt_savedpos p) < 4 ->
  sftp_find_request (Some p) s
  = Ok ((None, Some p),
        put_error (-1) ("did not receive a valid SFTP packet" ++ nl) s).
Proof.
  intros Hshort. unfold sftp_find_request, bind, lift, sftp_pkt_getuint32.
  destruct (Z.ltb_spec (u32 (pkt_length p - pkt_savedpos p)) 4); [reflexivity | lia].
Qed.

Lemma sftp_find_request_mismatch (s : sftp_state) (p p1 : sftp_packet) (id : Z)
    (t : list sftp_request) :
  sftp_pkt_getuint32 p = Ok (Some id, p1) ->
  sftp_requests s = Some t ->
  (find234 t id = None \/ exists r, find234 t id = Some r /\ rq_registered r = 0) ->
  sftp_find_request (Some p) s
  = Ok ((None, Some p1),
        put_event (EvPktFree p1) (put_error (-1) ("request ID mismatch" ++ nl) s)).
Proof.
  intros Hget Ht Hfind. unfold sftp_find_request, bind, lift. rewrite Hget.
  unfold get. rewrite Ht.
  destruct Hfind as [-> | (r & -> & ->)]; reflexivity.
Qed.

Lemma sftp_find_request_found (s : sftp_state) (p p1 : sftp_packet) (id : Z)
    (t : list sftp_request) (r : sftp_request) :
  sftp_pkt_getuint32 p = Ok (Some id, p1) ->
  sftp_requests s = Some t ->
  find234 t id = Some r -> rq_registered r <> 0 ->
  sftp_find_request (Some p) s
  = Ok ((Some r, Some p1), put_requests (Some (del234 t r)) s).
Proof.
  intros Hget Ht Hfind Hreg. unfold sftp_find_request, bind, lift. rewrite Hget.
  unfold get. rewrite Ht, Hfind.
  destruct (Z.eqb_spec (rq_registered r) 0); [contradiction | reflexivity].
Qed.

(** Whenever [sftp_find_request] hands back a descriptor, the packet
    correlates. *)
Lemma sftp_find_request_Some (s s' : sftp_state) (pktin pk : option sftp_packet)
    (rq : sftp_request) :
  sftp_find_request pktin s = Ok ((Some rq, pk), s') -> correlates pktin s rq.
Proof.
  unfold sftp_find_request, correlates. destruct pktin as [p|]; [|discriminate].
  unfold bind, lift. destruct (sftp_pkt_getuint32 p) as [[[id|] p1]|f] eqn:Hget;
    try discriminate.
  unfold get. destruct (sftp_requests s) as [t|] eqn:Ht; [|discriminate].
  destruct (find234 t id) as [r|] eqn:Hfind; [|discriminate].
  destruct (Z.eqb_spec (rq_registered r) 0) as [E|E]; [discriminate|].
  intros H. injection H as <- <- <-.
  exists p, id, p1, t. repeat split; assumption.
Qed.

(** C3 (the defect): a packet too short to hold a request id is refused
    with a NULL result, yet the trace shows that it is not freed, whereas an
    unknown id on the same registry is refused and the packet freed. *)
Theorem sftp_find_request_short_packet_leaks :
  (exists s',
     sftp_find_request (Some (mk_packet [SSH_FXP_STATUS] 1 1 1 SSH_FXP_STATUS))
                       (put_requests (Some registry_example) initial_state)
     = Ok ((None, Some (mk_packet [SSH_FXP_STATUS] 1 1 1 SSH_FXP_STATUS)), s') /\
     fxp_errtype s' = -1 /\ trace s' = []) /\
  (exists s',
     sftp_find_request (Some (status_packet 300 0))
                       (put_requests (Some registry_example) initial_state)
     = Ok ((None, Some (with_savedpos (status_packet 300 0) 5)), s') /\
     fxp_errtype s' = -1 /\
     trace s' = [EvPktFree (with_savedpos (status_packet 300 0) 5)]).
Proof.
  split; eexists; (split; [reflexivity|]); split; reflexivity.
Qed.

(** ** Running monadic code: inversion lemmas *)

Lemma bind_Ok {A B} (m : M A) (k : A -> M B) (s s' : sftp_state) (b : B) :
  bind m k s = Ok (b, s') <-> exists a s1, m s = Ok (a, s1) /\ k a s1 = Ok (b, s').
Proof.
  unfold bind. split.
  - destruct (m s) as [[a s1]|f]; [|discriminate]. intros H. exists a, s1. auto.
  - intros (a & s1 & -> & H). exact H.
Qed.

Lemma ret_Ok {A} (a b : A) (s s' : sftp_state) :
  ret a s = Ok (b, s') <-> b = a /\ s' = s.
Proof. unfold ret. split; [intros H; injection H; auto | intros [-> ->]; reflexivity]. Qed.

Lemma get_Ok (s s' a : sftp_state) : get s = Ok (a, s') <-> a = s /\ s' = s.
Proof. unfold get. split; [intros H; injection H; auto | intros [-> ->]; reflexivity]. Qed.

Lemma modify_Ok (f : sftp_state -> sftp_state) (s s' : sftp_state) (u : unit) :
  modify f s = Ok (u, s') <-> s' = f s.
Proof.
  unfold modify. destruct u.
  split; [intros H; injection H; auto | intros ->; reflexivity].
Qed.

Lemma lift_Ok {A} (o : outcome A) (s s' : sftp_state) (a : A) :
  lift o s = Ok (a, s') <-> o = Ok a /\ s' = s.
Proof.
  unfold lift. destruct o as [x|f].
  - split; [intros H; injection H as -> ->; auto | intros [H ->]; injection H as ->; reflexivity].
  - split; [discriminate | intros [H _]; discriminate].
Qed.

Lemma load_req_Ok (a : nat) (r : req) (s s' : sftp_state) :
  load_req a s = Ok (r, s') <-> heap s !! a = Some r /\ s' = s.
Proof.
  unfold load_req. destruct (heap s !! a) as [q|].
  - split; [intros H; injection H as -> ->; auto | intros [H ->]; injection H as ->; reflexivity].
  - split; [discriminate | intros [H _]; discriminate].
Qed.

Lemma store_req_Ok (a : nat) (r : req) (s s' : sftp_state) (u : unit) :
  store_req a r s = Ok (u, s') <->
  is_Some (heap s !! a) /\ s' = put_heap (<[a := r]> (heap s)) s.
Proof.
  unfold store_req, set_heap. destruct (heap s !! a) as [q|].
  - rewrite modify_Ok. split; [intros ->; split; [eexists|]; reflexivity | intros [_ ->]; reflexivity].
  - split; [discriminate | intros [[q H] _]; discriminate].
Qed.

Lemma free_req_Ok (a : nat) (s s' : sftp_state) (u : unit) :
  free_req a s = Ok (u, s') <->
  is_Some (heap s !! a) /\ s' = put_heap (delete a (heap s)) s.
Proof.
  unfold free_req, set_heap. destruct (heap s !! a) as [q|].
  - rewrite modify_Ok. split; [intros ->; split; [eexists|]; reflexivity | intros [_ ->]; reflexivity].
  - split; [discriminate | intros [[q H] _]; discriminate].
Qed.

Lemma new_req_Ok (r : req) (s s' : sftp_state) (a : nat) :
  new_req r s = Ok (a, s') <->
  a = brk s /\
  s' = mk_state (sftp_requests s) (fxp_error_message s) (fxp_errtype s)
                (<[brk s := r]> (heap s)) (S (brk s)) (link_up s) (wire s) (trace s).
Proof.
  unfold new_req. split; [intros H; injection H; auto | intros [-> ->]; reflexivity].
Qed.

(** Decompose a hypothesis that a monadic computation ran to completion. *)
Ltac run_inv H :=
  repeat match type of H with
         | bind _ _ _ = Ok _ =>
             let a := fresh "a" in let s := fresh "s" in
             let H1 := fresh "Hrun" in
             apply bind_Ok in H as (a & s & H1 & H)
         end.

Ltac run_step H :=
  first
    [ apply ret_Ok in H as [? ?]
    | apply get_Ok in H as [? ?]
    | apply modify_Ok in H
    | apply lift_Ok in H as [H ?]
    | apply load_req_Ok in H as [H ?]
    | apply store_req_Ok in H as [H ?]
    | apply free_req_Ok in H as [H ?]
    | apply new_req_Ok in H as [? ?] ].

(** ** The arrival entry points need a correlating request *)

Lemma gotpkt_uncorrelated (xfer : fxp_xfer) (pktin pk : option sftp_packet)
    (s s' : sftp_state) :
  sftp_find_request pktin s = Ok ((None, pk), s') ->
  xfer_download_gotpkt xfer pktin s = Fault NullDeref /\
  xfer_upload_gotpkt xfer pktin s = Fault NullDeref.
Proof.
  intros H. unfold xfer_download_gotpkt, xfer_upload_gotpkt, bind. rewrite H.
  split; reflexivity.
Qed.

Lemma download_gotpkt_rest_nonzero (xfer x' : fxp_xfer) (rr : nat) (v : Z)
    (s s' : sftp_state) :
  download_gotpkt_rest xfer rr s = Ok ((v, x'), s') -> v <> 0.
Proof.
  unfold download_gotpkt_rest. intros H. run_inv H.
  destruct (0 <? uint64_compare _ _).
  - run_inv H. apply ret_Ok in H as [H _]. injection H as -> _. discriminate.
  - apply ret_Ok in H as [H _]. injection H as -> _. discriminate.
Qed.

Lemma download_gotpkt_zero (xfer x' : fxp_xfer) (pktin : option sftp_packet)
    (s s' : sftp_state) :
  xfer_download_gotpkt xfer pktin s = Ok ((0, x'), s') ->
  exists rq pk, sftp_find_request pktin s = Ok ((Some rq, pk), s') /\
                rq_userdata rq = None /\ x' = xfer.
Proof.
  unfold xfer_download_gotpkt. intros H.
  apply bind_Ok in H as ([rreq pk] & s1 & Hfind & H). simpl in H.
  apply bind_Ok in H as (ud & s2 & Hud & H).
  destruct rreq as [rq|]; [|discriminate]. simpl in Hud.
  apply ret_Ok in Hud as [-> ->].
  destruct (rq_userdata rq) as [rr|] eqn:Eud.
  - exfalso. destruct pk as [pkt|]; [|discriminate].
    run_inv H.
    match type of H with
    | (if ?c then _ else _) _ = _ => destruct c
    end.
    + run_inv H. exact (download_gotpkt_rest_nonzero _ _ _ _ _ _ H eq_refl).
    + match type of H with
      | (if ?c then _ else _) _ = _ => destruct c
      end.
      * run_inv H. apply ret_Ok in H as [H _]. discriminate.
      * exact (download_gotpkt_rest_nonzero _ _ _ _ _ _ H eq_refl).
  - apply ret_Ok in H as [H ->]. injection H as ->.
    exists rq, pk. auto.
Qed.

Lemma upload_gotpkt_zero (xfer x' : fxp_xfer) (pktin : option sftp_packet)
    (s s' : sftp_state) :
  xfer_upload_gotpkt xfer pktin s = Ok ((0, x'), s') ->
  exists rq pk, sftp_find_request pktin s = Ok ((Some rq, pk), s') /\
                rq_userdata rq = None /\ x' = xfer.
Proof.
  unfold xfer_upload_gotpkt. intros H.
  apply bind_Ok in H as ([rreq pk] & s1 & Hfind & H). simpl in H.
  apply bind_Ok in H as (ud & s2 & Hud & H).
  destruct rreq as [rq|]; [|discriminate]. simpl in Hud.
  apply ret_Ok in Hud as [-> ->].
  destruct (rq_userdata rq) as [rr|] eqn:Eud.
  - exfalso. destruct pk as [pkt|]; [|discriminate].
    run_inv H. apply ret_Ok in H as [H _].
    destruct (a =? 0); discriminate.
  - apply ret_Ok in H as [H ->]. injection H as ->.
    exists rq, pk. auto.
Qed.

Lemma download_gotpkt_Ok_correlates (xfer : fxp_xfer) (pktin : option sftp_packet)
    (s : sftp_state) (res : Z * fxp_xfer * sftp_state) :
  xfer_download_gotpkt xfer pktin s = Ok res -> exists rq, correlates pktin s rq.
Proof.
  destruct res as [res s']. unfold xfer_download_gotpkt. intros H.
  apply bind_Ok in H as ([rreq pk] & s1 & Hfind & H). simpl in H.
  apply bind_Ok in H as (ud & s2 & Hud & H).
  destruct rreq as [rq|]; [|discriminate].
  exists rq. eapply sftp_find_request_Some, Hfind.
Qed.

Lemma upload_gotpkt_Ok_correlates (xfer : fxp_xfer) (pktin : option sftp_packet)
    (s : sftp_state) (res : Z * fxp_xfer * sftp_state) :
  xfer_upload_gotpkt xfer pktin s = Ok res -> exists rq, correlates pktin s rq.
Proof.
  destruct res as [res s']. unfold xfer_upload_gotpkt. intros H.
  apply bind_Ok in H as ([rreq pk] & s1 & Hfind & H). simpl in H.
  apply bind_Ok in H as (ud & s2 & Hud & H).
  destruct rreq as [rq|]; [|discriminate].
  exists rq. eapply sftp_find_request_Some, Hfind.
Qed.

(** C9: [xfer_download_gotpkt] and [xfer_upload_gotpkt] hand the result of
    [sftp_find_request] straight to [fxp_get_userdata].  A packet that does
    not name an outstanding registered request (no packet, a payload too
    short for the id, an unknown id, an unregistered request) makes
    [sftp_find_request] return NULL, and both entry points then fault on the
    null descriptor.  The result 0 ("this packet isn't ours") arises only
    when correlation succeeded and the descriptor's userdata is NULL; and
    whenever an entry point returns at all, the packet named a registered
    request of the registry. *)
Theorem gotpkt_needs_correlation (xfer : fxp_xfer) (pktin : option sftp_packet)
    (s : sftp_state) :
  (uncorrelated pktin s ->
     exists pk s', sftp_find_request pktin s = Ok ((None, pk), s')) /\
  (forall pk s', sftp_find_request pktin s = Ok ((None, pk), s') ->
     xfer_download_gotpkt xfer pktin s = Fault NullDeref /\
     xfer_upload_gotpkt xfer pktin s = Fault NullDeref) /\
  (forall x' s', xfer_download_gotpkt xfer pktin s = Ok ((0, x'), s') ->
     exists rq pk, sftp_find_request pktin s = Ok ((Some rq, pk), s') /\
                   rq_userdata rq = None /\ x' = xfer) /\
  (forall x' s', xfer_upload_gotpkt xfer pktin s = Ok ((0, x'), s') ->
     exists rq pk, sftp_find_request pktin s = Ok ((Some rq, pk), s') /\
                   rq_userdata rq = None /\ x' = xfer) /\
  (forall res, xfer_download_gotpkt xfer pktin s = Ok res ->
     exists rq, correlates pktin s rq) /\
  (forall res, xfer_upload_gotpkt xfer pktin s = Ok res ->
     exists rq, correlates pktin s rq).
Proof.
  split; [|split; [|split; [|split; [|split]]]].
  - intros [-> | (p & -> & [Hshort | (id & p1 & t & Hget & Ht & Hfind)])].
    + eexists _, _. apply sftp_find_request_null.
    + eexists _, _. apply sftp_find_request_short, Hshort.
    + eexists _, _. eapply sftp_find_request_mismatch; eassumption.
  - intros pk s' H. eapply gotpkt_uncorrelated, H.
  - intros x' s'. apply download_gotpkt_zero.
  - intros x' s'. apply upload_gotpkt_zero.
  - intros res. apply download_gotpkt_Ok_correlates.
  - intros res. apply upload_gotpkt_Ok_correlates.
Qed.

Lemma gotpkt_needs_correlation_witness :
  xfer_download_gotpkt (xfer_init (mk_handle [104; 0] 1) (uint64_make 0 0))
                       (Some (status_packet 300 0))
                       (put_requests (Some registry_example) initial_state)
  = Fault NullDeref /\
  xfer_upload_gotpkt (xfer_init (mk_handle [104; 0] 1) (uint64_make 0 0))
                     (Some (status_packet 300 0))
                     (put_requests (Some registry_example) initial_state)
  = Fault NullDeref.
Proof.
  destruct (gotpkt_needs_correlation
              (xfer_init (mk_handle [104; 0] 1) (uint64_make 0 0))
              (Some (status_packet 300 0))
              (put_requests (Some registry_example) initial_state))
    as (Hnull & Hfault & _).
  destruct Hnull as (pk & s' & Hfind).
  - right. exists (status_packet 300 0). split; [reflexivity|]. right.
    exists 300, (with_savedpos (status_packet 300 0) 5), registry_example.
    split; [reflexivity|]. split; [reflexivity|]. left. reflexivity.
  - exact (Hfault pk s' Hfind).
Defined.

(** ** READDIR replies *)

Lemma getuint32_ok (p : sftp_packet) (v : Z) :
  pkt_buffer_ok p -> 0 <= pkt_savedpos p <= pkt_length p -> 4 <= remaining p ->
  GET_32BIT (pkt_data p) (pkt_savedpos p) = Some v ->
  sftp_pkt_getuint32 p = Ok (Some v, with_savedpos p (pkt_savedpos p + 4)).
Proof.
  intros [Hlen Hmax] Hpos Hrem Hget. unfold remaining in Hrem.
  unfold sftp_pkt_getuint32.
  rewrite (u32_small (pkt_length p - pkt_savedpos p)) by (unfold UINT_MOD in *; lia).
  destruct (Z.ltb_spec (pkt_length p - pkt_savedpos p) 4); [lia|].
  rewrite Hget, (u32_small (pkt_savedpos p + 4)) by (unfold UINT_MOD in *; lia).
  reflexivity.
Qed.

(** C8: on a NAME reply whose declared count exceeds the bytes remaining
    after the count word divided by 12, [fxp_readdir_recv] returns NULL with
    error type -1 and message "malformed FXP_NAME packet", having freed the
    request and the packet and allocated no name array; a count that passes
    this test but exceeds INT_MAX / sizeof(struct fxp_name) is likewise
    refused before any allocation; and a count that passes both tests is the
    size of the array allocated next. *)
Theorem fxp_readdir_recv_count_checked (sizeof_fxp_name : Z) (s : sftp_state)
    (pktin : sftp_packet) (req : sftp_request) (count : Z) :
  pkt_type pktin = SSH_FXP_NAME ->
  pkt_buffer_ok pktin -> 0 <= pkt_savedpos pktin <= pkt_length pktin ->
  4 <= remaining pktin ->
  GET_32BIT (pkt_data pktin) (pkt_savedpos pktin) = Some count ->
  let pkt1 := with_savedpos pktin (pkt_savedpos pktin + 4) in
  (remaining pkt1 / 12 < count ->
     fxp_readdir_recv sizeof_fxp_name pktin req s
     = Ok (None, put_event (EvPktFree pkt1)
                   (put_error (-1) "malformed FXP_NAME packet"
                      (put_event (EvReqFree req) s)))) /\
  (count <= remaining pkt1 / 12 -> INT_MAX / sizeof_fxp_name < count ->
     fxp_readdir_recv sizeof_fxp_name pktin req s
     = Ok (None, put_event (EvPktFree pkt1)
                   (put_error (-1) "unreasonably large FXP_NAME packet"
                      (put_event (EvReqFree req) s)))) /\
  (count <= remaining pkt1 / 12 -> count <= INT_MAX / sizeof_fxp_name ->
     forall res s', fxp_readdir_recv sizeof_fxp_name pktin req s = Ok (res, s') ->
       exists tl, trace s' = trace s ++ [EvReqFree req; EvAllocNames (s32 count)] ++ tl).
Proof.
  intros Hty Hok Hpos Hrem Hget pkt1.
  pose proof (getuint32_ok pktin count Hok Hpos Hrem Hget) as Hrd.
  assert (Hu : u32 (pkt_length pkt1 - pkt_savedpos pkt1) = remaining pkt1).
  { unfold remaining in *. subst pkt1. simpl. destruct Hok as [_ Hmax].
    apply u32_small. unfold UINT_MOD in *. lia. }
  split; [|split].
  - intros Hbig. unfold fxp_readdir_recv, bind, log, modify, lift.
    rewrite Hty, Z.eqb_refl, Hrd. fold pkt1. rewrite Hu.
    destruct (Z.ltb_spec (remaining pkt1 / 12) count); [|lia]. reflexivity.
  - intros Hfit Hhuge. unfold fxp_readdir_recv, bind, log, modify, lift.
    rewrite Hty, Z.eqb_refl, Hrd. fold pkt1. rewrite Hu.
    destruct (Z.ltb_spec (remaining pkt1 / 12) count); [lia|].
    destruct (Z.ltb_spec (INT_MAX / sizeof_fxp_name) count); [|lia]. reflexivity.
  - intros Hfit Hsmall res s' Hrun. unfold fxp_readdir_recv in Hrun.
    rewrite Hty, Z.eqb_refl in Hrun.
    apply bind_Ok in Hrun as (u0 & s0 & Hlog0 & Hrun).
    apply modify_Ok in Hlog0. subst s0.
    apply bind_Ok in Hrun as (r & s0 & Hget0 & Hrun).
    apply lift_Ok in Hget0 as [Hget0 ->]. rewrite Hrd in Hget0.
    injection Hget0 as <-. fold pkt1 in Hrun. rewrite Hu in Hrun.
    destruct (Z.ltb_spec (remaining pkt1 / 12) count); [lia|].
    destruct (Z.ltb_spec (INT_MAX / sizeof_fxp_name) count); [lia|].
    apply bind_Ok in Hrun as (u & s1 & Hlog & Hrun).
    apply modify_Ok in Hlog. subst s1.
    apply bind_Ok in Hrun as ([names pkt2] & s2 & Hnames & Hrun).
    apply lift_Ok in Hnames as [_ ->].
    destruct names as [l|].
    + apply bind_Ok in Hrun as (u1 & s3 & Hfree & Hrun).
      apply modify_Ok in Hfree. apply ret_Ok in Hrun as [_ ->]. subst s3.
      eexists. simpl. rewrite <- !app_assoc. reflexivity.
    + apply bind_Ok in Hrun as (u1 & s3 & Herr & Hrun).
      apply modify_Ok in Herr. subst s3.
      apply bind_Ok in Hrun as (u2 & s4 & Hfree & Hrun).
      apply modify_Ok in Hfree. apply ret_Ok in Hrun as [_ ->]. subst s4.
      eexists. simpl. rewrite <- !app_assoc. reflexivity.
Qed.

Lemma fxp_readdir_recv_count_checked_witness :
  fxp_readdir_recv 40 malformed_name_packet (mk_request 256 1 None) initial_state
  = Ok (None,
        put_event (EvPktFree (with_savedpos malformed_name_packet 9))
          (put_error (-1) "malformed FXP_NAME packet"
             (put_event (EvReqFree (mk_request 256 1 None)) initial_state))).
Proof.
  destruct (fxp_readdir_recv_count_checked 40 initial_state malformed_name_packet
              (mk_request 256 1 None) 1000000) as (H & _).
  - reflexivity.
  - split; [reflexivity | vm_compute; reflexivity].
  - vm_compute. split; discriminate.
  - vm_compute. discriminate.
  - reflexivity.
  - apply H. vm_compute. reflexivity.
Defined.

(** ** Handles: from the HANDLE reply back to the wire *)

Lemma be32_of_put (v : Z) :
  0 <= v < UINT_MOD ->
  uchar (uchar (Z.shiftr v 24)) * 2 ^ 24 + uchar (uchar (Z.shiftr v 16)) * 2 ^ 16
  + uchar (uchar (Z.shiftr v 8)) * 2 ^ 8 + uchar (uchar v) = v.
Proof.
  intros Hv. unfold UINT_MOD in Hv.
  rewrite !uchar_mod, !Z.shiftr_div_pow2 by lia.
  rewrite !Zmod_mod.
  change (2 ^ 24) with 16777216. change (2 ^ 16) with 65536. change (2 ^ 8) with 256.
  change (2 ^ 32) with 4294967296 in Hv.
  pose proof (Z_div_mod_eq_full v 16777216).
  pose proof (Z.mod_pos_bound v 16777216 ltac:(lia)).
  pose proof (Z_div_mod_eq_full v 65536).
  pose proof (Z.mod_pos_bound v 65536 ltac:(lia)).
  pose proof (Z_div_mod_eq_full v 256).
  pose proof (Z.mod_pos_bound v 256 ltac:(lia)).
  pose proof (Z_div_mod_eq_full (v / 16777216) 256).
  pose proof (Z.mod_pos_bound (v / 16777216) 256 ltac:(lia)).
  pose proof (Z_div_mod_eq_full (v / 65536) 256).
  pose proof (Z.mod_pos_bound (v / 65536) 256 ltac:(lia)).
  pose proof (Z_div_mod_eq_full (v / 256) 256).
  pose proof (Z.mod_pos_bound (v / 256) 256 ltac:(lia)).
  assert (v / 16777216 < 256) by (apply Z.div_lt_upper_bound; lia).
  assert (0 <= v / 16777216) by (apply Z.div_pos; lia).
  assert (E1 : v / 65536 = (v / 16777216) * 256 + (v / 65536) mod 256).
  { assert (v / 65536 / 256 = v / 16777216) by (rewrite Z.div_div by lia; reflexivity). lia. }
  assert (E2 : v / 256 = (v / 65536) * 256 + (v / 256) mod 256).
  { assert (v / 256 / 256 = v / 65536) by (rewrite Z.div_div by lia; reflexivity). lia. }
  lia.
Qed.

Lemma GET_PUT_32BIT (pre post : list Z) (v : Z) :
  0 <= v < UINT_MOD ->
  GET_32BIT (pre ++ PUT_32BIT v ++ post) (Z.of_nat (length pre)) = Some v.
Proof.
  intros Hv. unfold GET_32BIT.
  replace (Z.to_nat (Z.of_nat (length pre))) with (length pre + 0)%nat by lia.
  replace (Z.to_nat (Z.of_nat (length pre) + 1)) with (length pre + 1)%nat by lia.
  replace (Z.to_nat (Z.of_nat (length pre) + 2)) with (length pre + 2)%nat by lia.
  replace (Z.to_nat (Z.of_nat (length pre) + 3)) with (length pre + 3)%nat by lia.
  rewrite (lookup_app_r pre _ (length pre + 0)), (lookup_app_r pre _ (length pre + 1)),
    (lookup_app_r pre _ (length pre + 2)), (lookup_app_r pre _ (length pre + 3)) by lia.
  replace (length pre + 0 - length pre)%nat with 0%nat by lia.
  replace (length pre + 1 - length pre)%nat with 1%nat by lia.
  replace (length pre + 2 - length pre)%nat with 2%nat by lia.
  replace (length pre + 3 - length pre)%nat with 3%nat by lia.
  change ((PUT_32BIT v ++ post) !! 0%nat) with (Some (uchar (Z.shiftr v 24))).
  change ((PUT_32BIT v ++ post) !! 1%nat) with (Some (uchar (Z.shiftr v 16))).
  change ((PUT_32BIT v ++ post) !! 2%nat) with (Some (uchar (Z.shiftr v 8))).
  change ((PUT_32BIT v ++ post) !! 3%nat) with (Some (uchar v)).
  cbv iota beta.
  rewrite be32_value, be32_of_put by exact Hv. reflexivity.
Qed.

Lemma PUT_32BIT_at_app (pre w post : list Z) (v : Z) :
  length w = 4%nat ->
  PUT_32BIT_at (pre ++ w ++ post) (Z.of_nat (length pre)) v = pre ++ PUT_32BIT v ++ post.
Proof.
  intros Hw. destruct w as [|w0 [|w1 [|w2 [|w3 [|]]]]]; try discriminate.
  unfold PUT_32BIT_at, PUT_32BIT.
  replace (Z.to_nat (Z.of_nat (length pre))) with (length pre + 0)%nat by lia.
  replace (Z.to_nat (Z.of_nat (length pre) + 1)) with (length pre + 1)%nat by lia.
  replace (Z.to_nat (Z.of_nat (length pre) + 2)) with (length pre + 2)%nat by lia.
  replace (Z.to_nat (Z.of_nat (length pre) + 3)) with (length pre + 3)%nat by lia.
  rewrite !insert_app_r. reflexivity.
Qed.

Lemma take_PUT_32BIT_at (cp : list Z) (off v : Z) (n : nat) :
  Z.of_nat n <= off -> take n (PUT_32BIT_at cp off v) = take n cp.
Proof.
  intros Hn. unfold PUT_32BIT_at. rewrite !take_insert_ge by lia. reflexivity.
Qed.

Lemma length_PUT_32BIT_at (cp : list Z) (off v : Z) :
  length (PUT_32BIT_at cp off v) = length cp.
Proof. unfold PUT_32BIT_at. rewrite !length_insert. reflexivity. Qed.

(** Projections of the packet builders. *)
Lemma adddata_data p d n :
  pkt_data (sftp_pkt_adddata p d n) = pkt_data p ++ take (Z.to_nat n) d.
Proof. unfold sftp_pkt_adddata, sftp_pkt_ensure. simpl. destruct (_ <? _); reflexivity. Qed.

Lemma adddata_length p d n :
  pkt_length (sftp_pkt_adddata p d n) = u32 (pkt_length p + n).
Proof. unfold sftp_pkt_adddata, sftp_pkt_ensure. simpl. destruct (_ <? _); reflexivity. Qed.

Lemma adddata_savedpos p d n :
  pkt_savedpos (sftp_pkt_adddata p d n) = pkt_savedpos p.
Proof. unfold sftp_pkt_adddata, sftp_pkt_ensure. simpl. destruct (_ <? _); reflexivity. Qed.

Lemma patch_length_length p : pkt_length (patch_length p) = pkt_length p.
Proof. unfold patch_length. destruct (_ && _); reflexivity. Qed.

Lemma patch_length_savedpos p : pkt_savedpos (patch_length p) = pkt_savedpos p.
Proof. unfold patch_length. destruct (_ && _); reflexivity. Qed.

Lemma patch_length_take p (n : nat) :
  Z.of_nat n <= pkt_savedpos p - 4 ->
  take n (pkt_data (patch_length p)) = take n (pkt_data p).
Proof.
  intros Hn. unfold patch_length. destruct (_ && _); [|reflexivity].
  simpl. apply take_PUT_32BIT_at. exact Hn.
Qed.

Lemma patch_length_data_length p :
  length (pkt_data (patch_length p)) = length (pkt_data p).
Proof.
  unfold patch_length. destruct (_ && _); [|reflexivity].
  simpl. apply length_PUT_32BIT_at.
Qed.

Lemma adduint32_data p v : pkt_data (sftp_pkt_adduint32 p v) = pkt_data p ++ PUT_32BIT v.
Proof. unfold sftp_pkt_adduint32. rewrite adddata_data. reflexivity. Qed.

Lemma adduint32_length p v : pkt_length (sftp_pkt_adduint32 p v) = u32 (pkt_length p + 4).
Proof. unfold sftp_pkt_adduint32. apply adddata_length. Qed.

Lemma adduint32_savedpos p v : pkt_savedpos (sftp_pkt_adduint32 p v) = pkt_savedpos p.
Proof. unfold sftp_pkt_adduint32. apply adddata_savedpos. Qed.

Lemma adduint64_data p v :
  pkt_data (sftp_pkt_adduint64 p v) = pkt_data p ++ PUT_32BIT (hi v) ++ PUT_32BIT (lo v).
Proof. unfold sftp_pkt_adduint64. rewrite adddata_data. reflexivity. Qed.

Lemma adduint64_length p v : pkt_length (sftp_pkt_adduint64 p v) = u32 (pkt_length p + 8).
Proof. unfold sftp_pkt_adduint64. apply adddata_length. Qed.

Lemma addstring_start_data p :
  pkt_data (sftp_pkt_addstring_start p) = pkt_data p ++ PUT_32BIT 0.
Proof. unfold sftp_pkt_addstring_start, with_savedpos. cbn [pkt_data]. apply adduint32_data. Qed.

Lemma addstring_start_length p :
  pkt_length (sftp_pkt_addstring_start p) = u32 (pkt_length p + 4).
Proof.
  unfold sftp_pkt_addstring_start, with_savedpos. cbn [pkt_length]. apply adduint32_length.
Qed.

Lemma addstring_start_savedpos p :
  pkt_savedpos (sftp_pkt_addstring_start p) = u32 (pkt_length p + 4).
Proof.
  unfold sftp_pkt_addstring_start, with_savedpos. cbn [pkt_savedpos]. apply adduint32_length.
Qed.

(** Appends that stay inside the buffer. *)

Lemma adddata_fits (p : sftp_packet) (d : list Z) (len : Z) :
  pkt_fits p -> 0 <= len -> pkt_length p + len + 256 <= INT_MAX ->
  pkt_fits (sftp_pkt_adddata p d len) /\
  pkt_length (sftp_pkt_adddata p d len) = pkt_length p + len.
Proof.
  intros [[H0 Hl] Hm] Hlen Hroom. unfold INT_MAX in *.
  unfold pkt_fits, sftp_pkt_adddata, sftp_pkt_ensure. cbv zeta.
  cbn [pkt_length pkt_maxlen].
  rewrite (u32_small (pkt_length p + len)) by (unfold UINT_MOD; lia).
  rewrite (s32_small (pkt_length p + len)) by lia.
  rewrite (s32_small (pkt_maxlen p)) by lia.
  destruct (Z.ltb_spec (pkt_maxlen p) (pkt_length p + len));
    cbn [with_data pkt_length pkt_maxlen].
  - rewrite u32_small by (unfold UINT_MOD; lia). unfold INT_MAX. lia.
  - unfold INT_MAX. lia.
Qed.

Lemma init_fits (ty : Z) : pkt_fits (sftp_pkt_init ty) /\ pkt_length (sftp_pkt_init ty) = 1.
Proof.
  unfold sftp_pkt_init, sftp_pkt_addbyte.
  apply (adddata_fits (mk_packet [] 0 0 (u32 (-1)) 0)).
  - unfold pkt_fits, INT_MAX. cbn. lia.
  - lia.
  - unfold INT_MAX. cbn. lia.
Qed.

Lemma adduint32_fits (p : sftp_packet) (v : Z) :
  pkt_fits p -> pkt_length p + 4 + 256 <= INT_MAX ->
  pkt_fits (sftp_pkt_adduint32 p v) /\
  pkt_length (sftp_pkt_adduint32 p v) = pkt_length p + 4.
Proof. intros Hp Hroom. unfold sftp_pkt_adduint32. apply adddata_fits; [exact Hp | lia | lia]. Qed.

Lemma adduint64_fits (p : sftp_packet) (v : uint64) :
  pkt_fits p -> pkt_length p + 8 + 256 <= INT_MAX ->
  pkt_fits (sftp_pkt_adduint64 p v) /\
  pkt_length (sftp_pkt_adduint64 p v) = pkt_length p + 8.
Proof. intros Hp Hroom. unfold sftp_pkt_adduint64. apply adddata_fits; [exact Hp | lia | lia]. Qed.

Lemma addstring_fits (p : sftp_packet) (d : list Z) (len : Z) :
  pkt_fits p -> 0 <= len -> pkt_length p + 4 + len + 256 <= INT_MAX ->
  pkt_fits (sftp_pkt_addstring_data (sftp_pkt_addstring_start p) d len) /\
  pkt_length (sftp_pkt_addstring_data (sftp_pkt_addstring_start p) d len)
  = pkt_length p + 4 + len.
Proof.
  intros Hp Hlen Hroom.
  destruct (adduint32_fits p 0 Hp) as [H1 L1]; [lia|].
  assert (H2 : pkt_fits (sftp_pkt_addstring_start p)) by exact H1.
  assert (L2 : pkt_length (sftp_pkt_addstring_start p) = pkt_length p + 4) by exact L1.
  destruct (adddata_fits (sftp_pkt_addstring_start p) d len H2 Hlen) as [H3 L3]; [lia|].
  unfold sftp_pkt_addstring_data, pkt_fits.
  rewrite patch_length_length.
  replace (pkt_maxlen (patch_length (sftp_pkt_adddata (sftp_pkt_addstring_start p) d len)))
    with (pkt_maxlen (sftp_pkt_adddata (sftp_pkt_addstring_start p) d len))
    by (unfold patch_length; destruct (_ && _); reflexivity).
  split; [exact H3 | lia].
Qed.

Lemma handle_packet_fits (ty : Z) (req : sftp_request) (h term : list Z) :
  Z.of_nat (length h) + 9 + 256 <= INT_MAX ->
  pkt_fits (handle_packet ty req (mk_handle (h ++ term) (Z.of_nat (length h)))) /\
  pkt_length (handle_packet ty req (mk_handle (h ++ term) (Z.of_nat (length h))))
  = 9 + Z.of_nat (length h).
Proof.
  intros Hroom. unfold handle_packet. cbv zeta. cbn [hstring hlen].
  destruct (init_fits ty) as [H0 L0].
  destruct (adduint32_fits (sftp_pkt_init ty) (rq_id req) H0) as [H1 L1];
    [rewrite L0; unfold INT_MAX; lia|].
  destruct (addstring_fits _ (h ++ term) (Z.of_nat (length h)) H1) as [H2 L2];
    [lia | rewrite L1, L0; lia|].
  split; [exact H2 | rewrite L2, L1, L0; lia].
Qed.

(** The packet every send on a handle starts from. *)
Lemma handle_packet_shape (ty : Z) (req : sftp_request) (h : list Z) (term : list Z) :
  0 <= ty < 256 -> Z.of_nat (length h) <= INT_MAX ->
  let pkt := handle_packet ty req (mk_handle (h ++ term) (Z.of_nat (length h))) in
  pkt_data pkt
  = [ty] ++ PUT_32BIT (rq_id req) ++ PUT_32BIT (Z.of_nat (length h)) ++ h /\
  pkt_length pkt = 9 + Z.of_nat (length h) /\
  pkt_savedpos pkt = 9.
Proof.
  intros Hty Hlen pkt. unfold INT_MAX in Hlen.
  assert (Huc : uchar (uchar ty) = ty).
  { rewrite !uchar_mod, Zmod_mod. apply Z.mod_small. lia. }
  assert (Hsp : pkt_savedpos pkt = 9).
  { subst pkt. unfold handle_packet, sftp_pkt_addstring_data.
    rewrite patch_length_savedpos, adddata_savedpos. reflexivity. }
  assert (Hl : pkt_length pkt = 9 + Z.of_nat (length h)).
  { subst pkt. unfold handle_packet, sftp_pkt_addstring_data.
    rewrite patch_length_length, adddata_length. simpl hlen.
    change (pkt_length (sftp_pkt_addstring_start
                          (sftp_pkt_adduint32 (sftp_pkt_init ty) (rq_id req)))) with 9.
    apply u32_small. unfold UINT_MOD. lia. }
  split; [|split; assumption].
  subst pkt. unfold handle_packet, sftp_pkt_addstring_data. cbv zeta.
  cbn [hstring hlen].
  set (base := sftp_pkt_addstring_start (sftp_pkt_adduint32 (sftp_pkt_init ty) (rq_id req))).
  set (added := sftp_pkt_adddata base (h ++ term) (Z.of_nat (length h))).
  assert (Hbase : pkt_data base = [ty] ++ PUT_32BIT (rq_id req) ++ [0; 0; 0; 0]).
  { subst base. unfold sftp_pkt_addstring_start, with_savedpos. cbn [pkt_data].
    unfold sftp_pkt_adduint32. rewrite !adddata_data.
    unfold sftp_pkt_init, sftp_pkt_addbyte. rewrite adddata_data. cbn [pkt_data].
    rewrite Huc. reflexivity. }
  assert (Hadded : pkt_data added = ([ty] ++ PUT_32BIT (rq_id req)) ++ [0; 0; 0; 0] ++ h).
  { subst added. rewrite adddata_data, Hbase.
    rewrite Nat2Z.id, take_app_length. rewrite <- !app_assoc. reflexivity. }
  assert (Hsaved : pkt_savedpos added = 9).
  { subst added. rewrite adddata_savedpos. reflexivity. }
  assert (Hadl : pkt_length added = 9 + Z.of_nat (length h)).
  { subst added. rewrite adddata_length. change (pkt_length base) with 9.
    apply u32_small. unfold UINT_MOD. lia. }
  unfold patch_length. rewrite Hsaved, Hadl, Hadded.
  rewrite !length_app. cbn [length PUT_32BIT].
  destruct (Z.leb_spec 0 (9 - 4)); [|lia].
  destruct (Z.leb_spec (9 - 4 + 4) (Z.of_nat (1 + 4 + (4 + length h)))); [|lia].
  cbn [andb with_data pkt_data].
  replace (9 + Z.of_nat (length h) - 9) with (Z.of_nat (length h)) by lia.
  rewrite (u32_small (Z.of_nat (length h))) by (unfold UINT_MOD; lia).
  change (9 - 4) with (Z.of_nat (length ([ty] ++ PUT_32BIT (rq_id req)))).
  rewrite PUT_32BIT_at_app by reflexivity.
  rewrite <- !app_assoc. reflexivity.
Qed.

Lemma sftp_send_up (p : sftp_packet) (s : sftp_state) :
  link_up s = true ->
  sftp_send p s
  = Ok (1, put_event (EvPktFree p)
             (put_wire (wire s ++ PUT_32BIT (pkt_length p)
                        ++ take (Z.to_nat (pkt_length p)) (pkt_data p)) s)).
Proof.
  intros Hup. unfold sftp_send, bind, sftp_senddata. rewrite Hup.
  cbn [link_up put_wire]. rewrite Hup.
  unfold sftp_pkt_free, log, modify, ret, put_event, put_wire. cbn.
  rewrite <- app_assoc. reflexivity.
Qed.

(** Allocate a request, send the packet built for it, continue with [K]. *)
Lemma alloc_then_send {A} (build : sftp_request -> sftp_packet)
    (K : sftp_request -> M A) (s : sftp_state) :
  link_up s = true -> registry_ok (default [] (sftp_requests s)) ->
  exists i s',
    bind sftp_alloc_request (fun req => bind (sftp_send (build req)) (fun _ => K req)) s
    = K (mk_request i 0 None) s' /\
    wire s' = wire s ++ PUT_32BIT (pkt_length (build (mk_request i 0 None)))
              ++ take (Z.to_nat (pkt_length (build (mk_request i 0 None))))
                      (pkt_data (build (mk_request i 0 None))) /\
    trace s' = trace s ++ [EvPktFree (build (mk_request i 0 None))].
Proof.
  intros Hup Hok.
  destruct (sftp_alloc_request_runs s _ eq_refl Hok) as (i & Erun & _).
  exists i. eexists. unfold bind at 1. rewrite Erun.
  unfold bind at 1. rewrite sftp_send_up by exact Hup.
  split; [|split]; reflexivity.
Qed.

Lemma handle_echoed_intro (ty : Z) (h : list Z) (s s' : sftp_state) (r : sftp_request)
    (pkt : sftp_packet) (tr : list event) :
  wire s' = wire s ++ PUT_32BIT (pkt_length pkt)
            ++ take (Z.to_nat (pkt_length pkt)) (pkt_data pkt) ->
  trace s' = trace s ++ EvPktFree pkt :: tr ->
  pkt_fits pkt ->
  9 + Z.of_nat (length h) <= pkt_length pkt ->
  take (9 + length h) (pkt_data pkt)
  = [ty] ++ PUT_32BIT (rq_id r) ++ PUT_32BIT (Z.of_nat (length h)) ++ h ->
  handle_echoed ty h s (Ok (r, s')).
Proof.
  intros Hw Htr Hfits Hlen Htake.
  exists r, s', (pkt_length pkt), (take (Z.to_nat (pkt_length pkt)) (pkt_data pkt)).
  split; [reflexivity|]. split; [exact Hw|].
  split; [rewrite take_take, Nat.min_l by lia; exact Htake|].
  exists pkt, tr. auto.
Qed.

Lemma handle_packet_take (ty : Z) (req : sftp_request) (h term : list Z) :
  0 <= ty < 256 -> Z.of_nat (length h) <= INT_MAX ->
  take (9 + length h) (pkt_data (handle_packet ty req (mk_handle (h ++ term)
                                                          (Z.of_nat (length h)))))
  = [ty] ++ PUT_32BIT (rq_id req) ++ PUT_32BIT (Z.of_nat (length h)) ++ h.
Proof.
  intros Hty Hlen.
  destruct (handle_packet_shape ty req h term Hty Hlen) as (Hd & _ & _).
  rewrite Hd. apply take_ge. rewrite !length_app. simpl. lia.
Qed.

Section Echo.

Variables (s : sftp_state) (h term : list Z).
Hypothesis Hup : link_up s = true.
Hypothesis Hreg : registry_ok (default [] (sftp_requests s)).
Hypothesis Hfit : Z.of_nat (length h) + 21 + 256 <= INT_MAX.

Let handle : fxp_handle := mk_handle (h ++ term) (Z.of_nat (length h)).

Lemma fxp_fstat_send_echo : handle_echoed SSH_FXP_FSTAT h s (fxp_fstat_send handle s).
Proof.
  assert (Hlen : Z.of_nat (length h) <= INT_MAX) by lia.
  unfold fxp_fstat_send.
  destruct (alloc_then_send (fun req => handle_packet SSH_FXP_FSTAT req handle)
                            (fun req => ret req) s Hup Hreg) as (i & s' & -> & Hw & Htr).
  destruct (handle_packet_shape SSH_FXP_FSTAT (mk_request i 0 None) h term
              ltac:(unfold SSH_FXP_FSTAT; lia) Hlen) as (_ & Hl & _).
  eapply handle_echoed_intro; [exact Hw | exact Htr | | unfold handle; lia |].
  - apply handle_packet_fits. lia.
  - apply handle_packet_take; [unfold SSH_FXP_FSTAT; lia | exact Hlen].
Qed.

Lemma fxp_readdir_send_echo :
  handle_echoed SSH_FXP_READDIR h s (fxp_readdir_send handle s).
Proof.
  assert (Hlen : Z.of_nat (length h) <= INT_MAX) by lia.
  unfold fxp_readdir_send.
  destruct (alloc_then_send (fun req => handle_packet SSH_FXP_READDIR req handle)
                            (fun req => ret req) s Hup Hreg) as (i & s' & -> & Hw & Htr).
  destruct (handle_packet_shape SSH_FXP_READDIR (mk_request i 0 None) h term
              ltac:(unfold SSH_FXP_READDIR; lia) Hlen) as (_ & Hl & _).
  eapply handle_echoed_intro; [exact Hw | exact Htr | | unfold handle; lia |].
  - apply handle_packet_fits. lia.
  - apply handle_packet_take; [unfold SSH_FXP_READDIR; lia | exact Hlen].
Qed.

Lemma fxp_close_send_echo : handle_echoed SSH_FXP_CLOSE h s (fxp_close_send handle s).
Proof.
  assert (Hlen : Z.of_nat (length h) <= INT_MAX) by lia.
  unfold fxp_close_send.
  destruct (alloc_then_send (fun req => handle_packet SSH_FXP_CLOSE req handle)
                            (fun req => bind (log (EvHandleFree handle)) (fun _ => ret req))
                            s Hup Hreg) as (i & s' & -> & Hw & Htr).
  destruct (handle_packet_shape SSH_FXP_CLOSE (mk_request i 0 None) h term
              ltac:(unfold SSH_FXP_CLOSE; lia) Hlen) as (_ & Hl & _).
  unfold bind, log, modify, ret.
  eapply (handle_echoed_intro _ _ _ _ _ _ [EvHandleFree handle]);
    [exact Hw | | | unfold handle; lia |].
  - cbn [trace put_event]. rewrite Htr, <- app_assoc. reflexivity.
  - apply handle_packet_fits. lia.
  - apply handle_packet_take; [unfold SSH_FXP_CLOSE; lia | exact Hlen].
Qed.

Lemma fxp_read_send_echo (offset : uint64) (len : Z) :
  handle_echoed SSH_FXP_READ h s (fxp_read_send handle offset len s).
Proof.
  assert (Hlen : Z.of_nat (length h) <= INT_MAX) by lia.
  unfold fxp_read_send.
  destruct (alloc_then_send
              (fun req => sftp_pkt_adduint32
                            (sftp_pkt_adduint64 (handle_packet SSH_FXP_READ req handle) offset)
                            len)
              (fun req => ret req) s Hup Hreg) as (i & s' & -> & Hw & Htr).
  destruct (handle_packet_shape SSH_FXP_READ (mk_request i 0 None) h term
              ltac:(unfold SSH_FXP_READ; lia) Hlen) as (Hd & Hl & _).
  fold handle in Hd, Hl.
  destruct (handle_packet_fits SSH_FXP_READ (mk_request i 0 None) h term) as [Hf0 _];
    [lia|]. fold handle in Hf0.
  destruct (adduint64_fits _ offset Hf0) as [Hf1 Hl1]; [rewrite Hl; lia|].
  destruct (adduint32_fits _ len Hf1) as [Hf2 Hl2]; [rewrite Hl1, Hl; lia|].
  unfold INT_MAX in Hlen.
  eapply handle_echoed_intro; [exact Hw | exact Htr | exact Hf2 | |].
  - rewrite Hl2, Hl1, Hl. lia.
  - rewrite adduint32_data, adduint64_data.
    rewrite <- app_assoc, take_app_le by (rewrite Hd, !length_app; cbn [length PUT_32BIT]; lia).
    apply handle_packet_take; [unfold SSH_FXP_READ; lia | unfold INT_MAX; exact Hlen].
Qed.

Lemma fxp_write_send_echo (buffer : list Z) (offset : uint64) (len : Z) :
  0 <= len -> Z.of_nat (length h) + len + 21 + 256 <= INT_MAX ->
  handle_echoed SSH_FXP_WRITE h s (fxp_write_send handle buffer offset len s).
Proof.
  intros Hlen0 Hsum.
  assert (Hlen : Z.of_nat (length h) <= INT_MAX) by lia.
  unfold fxp_write_send.
  destruct (alloc_then_send
              (fun req => sftp_pkt_addstring_data
                            (sftp_pkt_addstring_start
                               (sftp_pkt_adduint64
                                  (handle_packet SSH_FXP_WRITE req handle) offset))
                            buffer len)
              (fun req => ret req) s Hup Hreg) as (i & s' & -> & Hw & Htr).
  destruct (handle_packet_shape SSH_FXP_WRITE (mk_request i 0 None) h term
              ltac:(unfold SSH_FXP_WRITE; lia) Hlen) as (Hd & Hl & _).
  fold handle in Hd, Hl.
  destruct (handle_packet_fits SSH_FXP_WRITE (mk_request i 0 None) h term) as [Hf0 _];
    [lia|]. fold handle in Hf0.
  set (p0 := handle_packet SSH_FXP_WRITE (mk_request i 0 None) handle) in *.
  destruct (adduint64_fits p0 offset Hf0) as [Hf1 Hl1']; [rewrite Hl; lia|].
  destruct (addstring_fits _ buffer len Hf1 Hlen0) as [Hf2 Hl2]; [rewrite Hl1', Hl; lia|].
  unfold INT_MAX in Hsum.
  assert (Hl1 : u32 (pkt_length (sftp_pkt_adduint64 p0 offset) + 4)
                = 21 + Z.of_nat (length h)).
  { rewrite adduint64_length, Hl.
    rewrite (u32_small (9 + Z.of_nat (length h) + 8)) by (unfold UINT_MOD; lia).
    rewrite u32_small by (unfold UINT_MOD; lia). lia. }
  eapply handle_echoed_intro; [exact Hw | exact Htr | exact Hf2 | |].
  - rewrite Hl2, Hl1', Hl. lia.
  - unfold sftp_pkt_addstring_data.
    rewrite patch_length_take
      by (rewrite adddata_savedpos, addstring_start_savedpos, Hl1; lia).
    rewrite adddata_data, addstring_start_data, adduint64_data.
    rewrite <- !app_assoc, take_app_le by (rewrite Hd, !length_app; cbn [length PUT_32BIT]; lia).
    apply handle_packet_take; [unfold SSH_FXP_WRITE; lia | exact Hlen].
Qed.

End Echo.

(** The receiver's side: the copy made from a HANDLE reply. *)
Lemma recv_handle_copy (what : string) (s : sftp_state) (pktin : sftp_packet)
    (req : sftp_request) (pre h post : list Z) :
  pkt_type pktin = SSH_FXP_HANDLE -> pkt_buffer_ok pktin ->
  pkt_data pktin = pre ++ PUT_32BIT (Z.of_nat (length h)) ++ h ++ post ->
  pkt_savedpos pktin = Z.of_nat (length pre) ->
  Z.of_nat (length h) <= INT_MAX -> remaining pktin - 4 <= INT_MAX ->
  exists s', recv_handle what pktin req s
             = Ok (Some (mk_handle (h ++ [0]) (Z.of_nat (length h))), s').
Proof.
  intros Hty Hok Hdata Hpos Hlen Hrem.
  assert (Hpos' : 0 <= pkt_savedpos pktin <= pkt_length pktin).
  { destruct Hok as [Hl _]. rewrite Hl, Hpos, Hdata, !length_app. lia. }
  assert (Hdecl : declared_length pktin = Z.of_nat (length h)).
  { unfold declared_length. rewrite Hdata, Hpos, GET_PUT_32BIT.
    - cbn [default]. unfold id. apply s32_small. unfold INT_MAX in Hlen. lia.
    - unfold INT_MAX, UINT_MOD in *. lia. }
  destruct (getstring_cases pktin Hok Hpos' Hrem) as (g & Eg & Hcase).
  destruct Hcase as [(_ & _ & Hbad) | (Hr & _ & _ & Hp & Hl & _ & Hd & _)].
  { exfalso. rewrite Hdecl in Hbad. unfold remaining in *. destruct Hok as [Hl _].
    rewrite Hl, Hpos, Hdata, !length_app in Hbad. cbn [length PUT_32BIT] in Hbad.
    unfold INT_MAX in Hlen. lia. }
  unfold recv_handle, bind, log, modify. rewrite Hty, Z.eqb_refl.
  unfold lift at 1. rewrite Eg, Hr. cbn [Z.eqb].
  rewrite Hl, Hp, Hd, Hdecl. cbn [default]. unfold id.
  assert (Emk : mkstr (pkt_data pktin) (Some (pkt_savedpos pktin + 4)) (Z.of_nat (length h))
                = Ok (h ++ [0])).
  { unfold mkstr. rewrite Hpos, Hdata.
    destruct (Z.leb_spec 0 (Z.of_nat (length h))); [|lia].
    destruct (Z.leb_spec (Z.of_nat (length pre) + 4 + Z.of_nat (length h))
                (Z.of_nat (length (pre ++ PUT_32BIT (Z.of_nat (length h)) ++ h ++ post))));
      [|rewrite !length_app in *; cbn [length PUT_32BIT] in *; lia].
    cbn [andb]. rewrite Nat2Z.id.
    replace (pre ++ PUT_32BIT (Z.of_nat (length h)) ++ h ++ post)
      with ((pre ++ PUT_32BIT (Z.of_nat (length h))) ++ h ++ post)
      by (rewrite <- app_assoc; reflexivity).
    rewrite drop_app_length' by (rewrite length_app; simpl; lia).
    rewrite take_app_length. reflexivity. }
  unfold lift. rewrite Emk. eexists. reflexivity.
Qed.

(** C10 (as amended): a HANDLE reply carrying a wire string [h] of at most
    2^31 - 278 bytes, NUL bytes included, in a packet with at most INT_MAX
    bytes after the length word, makes [fxp_open_recv] and [fxp_opendir_recv]
    return a handle whose [hstring] is [h] followed by one NUL and whose
    [hlen] is the length of [h]; and on a live link [fxp_close_send],
    [fxp_fstat_send], [fxp_readdir_send], [fxp_read_send] and, for data that
    keeps the request below 2^31 - 256 bytes, [fxp_write_send] put the type
    byte, the request id, the length word of [h] and exactly the bytes of [h]
    on the wire, from a packet that lies inside its buffer. *)
Theorem handle_round_trip (s : sftp_state) (pktin : sftp_packet) (req : sftp_request)
    (pre h post : list Z) :
  pkt_type pktin = SSH_FXP_HANDLE -> pkt_buffer_ok pktin ->
  pkt_data pktin = pre ++ PUT_32BIT (Z.of_nat (length h)) ++ h ++ post ->
  pkt_savedpos pktin = Z.of_nat (length pre) ->
  Z.of_nat (length h) + 21 + 256 <= INT_MAX -> remaining pktin - 4 <= INT_MAX ->
  exists handle,
    hstring handle = h ++ [0] /\ hlen handle = Z.of_nat (length h) /\
    (exists s', fxp_open_recv pktin req s = Ok (Some handle, s')) /\
    (exists s', fxp_opendir_recv pktin req s = Ok (Some handle, s')) /\
    forall s2,
      link_up s2 = true -> registry_ok (default [] (sftp_requests s2)) ->
      handle_echoed SSH_FXP_CLOSE h s2 (fxp_close_send handle s2) /\
      handle_echoed SSH_FXP_FSTAT h s2 (fxp_fstat_send handle s2) /\
      handle_echoed SSH_FXP_READDIR h s2 (fxp_readdir_send handle s2) /\
      (forall offset len,
         handle_echoed SSH_FXP_READ h s2 (fxp_read_send handle offset len s2)) /\
      (forall buffer offset len,
         0 <= len <= Z.of_nat (length buffer) ->
         Z.of_nat (length h) + len + 21 + 256 <= INT_MAX ->
         handle_echoed SSH_FXP_WRITE h s2 (fxp_write_send handle buffer offset len s2)).
Proof.
  intros Hty Hok Hdata Hpos Hfit Hrem.
  assert (Hlen : Z.of_nat (length h) <= INT_MAX) by lia.
  exists (mk_handle (h ++ [0]) (Z.of_nat (length h))).
  split; [reflexivity|]. split; [reflexivity|].
  split; [apply (recv_handle_copy "OPEN" s pktin req pre h post); assumption|].
  split; [apply (recv_handle_copy "OPENDIR" s pktin req pre h post); assumption|].
  intros s2 Hup Hreg.
  split; [apply fxp_close_send_echo; assumption|].
  split; [apply fxp_fstat_send_echo; assumption|].
  split; [apply fxp_readdir_send_echo; assumption|].
  split.
  - intros offset len. apply fxp_read_send_echo; assumption.
  - intros buffer offset len [H0 _] Hsum. apply fxp_write_send_echo; assumption.
Qed.

Lemma handle_round_trip_witness :
  exists handle,
    hstring handle = [7; 0; 9] ++ [0] /\ hlen handle = 3 /\
    (exists s', fxp_open_recv handle_reply_example (mk_request 256 1 None) initial_state
                = Ok (Some handle, s')) /\
    handle_echoed SSH_FXP_CLOSE [7; 0; 9] initial_state (fxp_close_send handle initial_state).
Proof.
  destruct (handle_round_trip initial_state handle_reply_example (mk_request 256 1 None)
              ([SSH_FXP_HANDLE] ++ PUT_32BIT 256) [7; 0; 9] [])
    as (handle & Hs & Hl & Hopen & _ & Hsend).
  - reflexivity.
  - split; [reflexivity | vm_compute; reflexivity].
  - reflexivity.
  - reflexivity.
  - vm_compute. discriminate.
  - vm_compute. discriminate.
  - assert (Hreg : registry_ok (default [] (sftp_requests initial_state))).
    { split; [constructor | split; [constructor | vm_compute; discriminate]]. }
    destruct (Hsend initial_state eq_refl Hreg) as (Hclose & _).
    exists handle. split; [exact Hs|]. split; [exact Hl|]. split; [exact Hopen|].
    exact Hclose.
Defined.

(** Beyond that bound the request leaves its buffer: for a handle of
    2^31 - 9 bytes or more the new length is negative as an [int], so
    [sftp_pkt_ensure] keeps the buffer of 257 bytes while the bytes of the
    handle are appended. *)
Lemma handle_packet_overrun (ty : Z) (req : sftp_request) (h term : list Z) :
  0 <= ty < 256 -> INT_MAX - 8 <= Z.of_nat (length h) <= INT_MAX ->
  let pkt := handle_packet ty req (mk_handle (h ++ term) (Z.of_nat (length h))) in
  pkt_maxlen pkt = 257 /\ pkt_length pkt = 9 + Z.of_nat (length h) /\ ~ pkt_fits pkt.
Proof.
  intros Hty Hh pkt.
  destruct (handle_packet_shape ty req h term Hty (proj2 Hh)) as (_ & Hl & _).
  fold pkt in Hl.
  assert (Hm : pkt_maxlen pkt = 257).
  { subst pkt. unfold handle_packet, sftp_pkt_addstring_data. cbv zeta. cbn [hstring hlen].
    set (base := sftp_pkt_addstring_start (sftp_pkt_adduint32 (sftp_pkt_init ty) (rq_id req))).
    replace (pkt_maxlen (patch_length (sftp_pkt_adddata base (h ++ term)
                                                        (Z.of_nat (length h)))))
      with (pkt_maxlen (sftp_pkt_adddata base (h ++ term) (Z.of_nat (length h))))
      by (unfold patch_length; destruct (_ && _); reflexivity).
    unfold sftp_pkt_adddata, sftp_pkt_ensure. cbv zeta. cbn [pkt_length pkt_maxlen].
    change (pkt_length base) with 9. change (pkt_maxlen base) with 257.
    unfold INT_MAX in Hh.
    rewrite (u32_small (9 + Z.of_nat (length h))) by (unfold UINT_MOD; lia).
    rewrite (s32_high (9 + Z.of_nat (length h))) by (unfold UINT_MOD; lia).
    rewrite (s32_small 257) by lia.
    destruct (Z.ltb_spec 257 (9 + Z.of_nat (length h) - UINT_MOD));
      [unfold UINT_MOD in *; lia | reflexivity]. }
  split; [exact Hm|]. split; [exact Hl|].
  intros [[_ Hfit] _]. rewrite Hm, Hl in Hfit. unfold INT_MAX in Hh. lia.
Qed.

Lemma long_handle_word :
  GET_32BIT (pkt_data long_handle_pkt) 5 = Some 2147483648.
Proof. reflexivity. Qed.

(** C10 (as stated) fails for a handle string of 2^31 bytes: the reply
    carries it whole, yet [fxp_open_recv] and [fxp_opendir_recv] return NULL
    and report a malformed packet. *)
Lemma handle_of_2G_bytes_refused :
  pkt_type long_handle_pkt = SSH_FXP_HANDLE /\
  pkt_buffer_ok long_handle_pkt /\
  pkt_data long_handle_pkt
  = [SSH_FXP_HANDLE] ++ PUT_32BIT 256 ++ PUT_32BIT 2147483648
    ++ replicate (Z.to_nat 2147483648) 0 /\
  Z.of_nat (length (replicate (Z.to_nat 2147483648) 0)) = 2147483648 /\
  pkt_savedpos long_handle_pkt = Z.of_nat (length ([SSH_FXP_HANDLE] ++ PUT_32BIT 256)) /\
  (exists s', fxp_open_recv long_handle_pkt (mk_request 256 1 None) initial_state
              = Ok (None, s') /\ fxp_errtype s' = -1) /\
  (exists s', fxp_opendir_recv long_handle_pkt (mk_request 256 1 None) initial_state
              = Ok (None, s') /\ fxp_errtype s' = -1).
Proof.
  assert (Hg : sftp_pkt_getstring long_handle_pkt
               = Ok (mk_gs 0 None (Some 0) (with_savedpos long_handle_pkt 9))).
  { unfold sftp_pkt_getstring.
    change (pkt_savedpos long_handle_pkt) with 5.
    change (pkt_length long_handle_pkt) with 2147483657.
    rewrite long_handle_word. reflexivity. }
  split; [reflexivity|]. split.
  { split.
    - unfold long_handle_pkt, pkt_length, pkt_data.
      rewrite !length_app, length_replicate. simpl length. lia.
    - reflexivity. }
  split; [reflexivity|].
  split; [rewrite length_replicate; lia|].
  split; [reflexivity|].
  split.
  - unfold fxp_open_recv, recv_handle, bind, log, modify.
    change (pkt_type long_handle_pkt =? SSH_FXP_HANDLE) with true. cbv iota.
    unfold lift. rewrite Hg. eexists. split; reflexivity.
  - unfold fxp_opendir_recv, recv_handle, bind, log, modify.
    change (pkt_type long_handle_pkt =? SSH_FXP_HANDLE) with true. cbv iota.
    unfold lift. rewrite Hg. eexists. split; reflexivity.
Qed.

(** ** The transfer engine: framing *)

Lemma heap_frame_ret {A} (a : A) : heap_frame (ret a).
Proof. intros s b s' H. apply ret_Ok in H as [_ ->]. auto. Qed.

Lemma heap_frame_raise {A} (f : fault) : heap_frame (@raise A f).
Proof. intros s b s' H. discriminate. Qed.

Lemma heap_frame_get : heap_frame get.
Proof. intros s b s' H. apply get_Ok in H as [_ ->]. auto. Qed.

Lemma heap_frame_lift {A} (o : outcome A) : heap_frame (lift o).
Proof. intros s b s' H. apply lift_Ok in H as [_ ->]. auto. Qed.

Lemma heap_frame_bind {A B} (m : M A) (k : A -> M B) :
  heap_frame m -> (forall a, heap_frame (k a)) -> heap_frame (bind m k).
Proof.
  intros Hm Hk s b s' H. apply bind_Ok in H as (a & s1 & H1 & H2).
  destruct (Hm _ _ _ H1) as [E1 E2]. destruct (Hk a _ _ _ H2) as [E3 E4].
  split; congruence.
Qed.

Lemma heap_frame_log (e : event) : heap_frame (log e).
Proof. intros s b s' H. apply modify_Ok in H. subst s'. auto. Qed.

Lemma heap_frame_set_requests t : heap_frame (set_requests t).
Proof. intros s b s' H. apply modify_Ok in H. subst s'. auto. Qed.

Lemma heap_frame_set_error ty msg : heap_frame (set_error ty msg).
Proof. intros s b s' H. apply modify_Ok in H. subst s'. auto. Qed.

Lemma heap_frame_senddata bytes : heap_frame (sftp_senddata bytes).
Proof.
  intros s b s' H. unfold sftp_senddata in H.
  destruct (link_up s); injection H as _ <-; auto.
Qed.

(** Discharge a framing goal by following the structure of the code. *)
Ltac frame :=
  repeat first
    [ match goal with H : _ |- heap_frame _ => apply H end
    | apply heap_frame_ret | apply heap_frame_raise | apply heap_frame_get
    | apply heap_frame_lift | apply heap_frame_log | apply heap_frame_set_requests
    | apply heap_frame_set_error | apply heap_frame_senddata
    | apply heap_frame_bind
    | progress intros
    | match goal with
      | |- heap_frame (match ?x with _ => _ end) => destruct x
      | |- heap_frame (let _ := _ in _) => cbv zeta
      end ].

Lemma heap_frame_pkt_free p : heap_frame (sftp_pkt_free p).
Proof. unfold sftp_pkt_free. frame. Qed.

Lemma heap_frame_send p : heap_frame (sftp_send p).
Proof. unfold sftp_send. pose proof heap_frame_pkt_free. frame. Qed.

Lemma heap_frame_alloc : heap_frame sftp_alloc_request.
Proof. unfold sftp_alloc_request. frame. Qed.

Lemma heap_frame_update_request r : heap_frame (update_request r).
Proof. unfold update_request. frame. Qed.

Lemma heap_frame_register r : heap_frame (sftp_register r).
Proof. unfold sftp_register. pose proof heap_frame_update_request. frame. Qed.

Lemma heap_frame_set_userdata r d : heap_frame (fxp_set_userdata r d).
Proof. unfold fxp_set_userdata. pose proof heap_frame_update_request. frame. Qed.

Lemma heap_frame_read_send fh offset len : heap_frame (fxp_read_send fh offset len).
Proof.
  unfold fxp_read_send. pose proof heap_frame_alloc. pose proof heap_frame_send. frame.
Qed.

Lemma heap_frame_find_request pktin : heap_frame (sftp_find_request pktin).
Proof.
  unfold sftp_find_request, fxp_internal_error. pose proof heap_frame_pkt_free. frame.
Qed.

Lemma heap_frame_got_status p : heap_frame (fxp_got_status p).
Proof. unfold fxp_got_status, status_result. frame. Qed.

Lemma heap_frame_status_and_free p : heap_frame (status_and_free p).
Proof.
  unfold status_and_free. pose proof heap_frame_got_status. pose proof heap_frame_pkt_free.
  frame.
Qed.

Lemma heap_frame_read_recv p rq buffer len : heap_frame (fxp_read_recv p rq buffer len).
Proof.
  unfold fxp_read_recv, fxp_internal_error.
  pose proof heap_frame_status_and_free. pose proof heap_frame_pkt_free. frame.
Qed.

Lemma heap_frame_error_type : heap_frame fxp_error_type.
Proof. unfold fxp_error_type. frame. Qed.

Lemma heap_frame_get_userdata r : heap_frame (fxp_get_userdata r).
Proof. unfold fxp_get_userdata. frame. Qed.

(** ** 64-bit offsets *)

Lemma uint64_compare_spec (x y : uint64) :
  uint64_ok x -> uint64_ok y ->
  (uint64_compare x y = -1 /\ uint64_val x < uint64_val y) \/
  (uint64_compare x y = 0 /\ uint64_val x = uint64_val y) \/
  (uint64_compare x y = 1 /\ uint64_val y < uint64_val x).
Proof.
  intros [Hxh Hxl] [Hyh Hyl]. unfold uint64_compare, uint64_val, UINT_MOD in *.
  destruct (Z.ltb_spec (hi x) (hi y)); [left; split; [reflexivity | nia]|].
  destruct (Z.ltb_spec (hi y) (hi x)); [right; right; split; [reflexivity | nia]|].
  assert (hi x = hi y) by lia.
  destruct (Z.ltb_spec (lo x) (lo y)); [left; split; [reflexivity | nia]|].
  destruct (Z.ltb_spec (lo y) (lo x)); [right; right; split; [reflexivity | nia]|].
  right; left. split; [reflexivity | nia].
Qed.

Lemma uint64_add32_spec (x : uint64) (y : Z) :
  uint64_ok x -> 0 <= y < UINT_MOD ->
  uint64_ok (uint64_add32 x y) /\
  uint64_val (uint64_add32 x y) = (uint64_val x + y) mod 2 ^ 64.
Proof.
  intros [Hh Hl] Hy. unfold uint64_add32, uint64_ok, uint64_val. cbn [hi lo].
  rewrite (u32_small y) by exact Hy.
  split; [split; apply u32_range|].
  unfold u32, UINT_MOD in *.
  destruct (Z.lt_ge_cases (lo x + y) (2 ^ 32)) as [Hnc|Hc].
  - rewrite (Z.mod_small (lo x + y)) by lia.
    destruct (Z.ltb_spec (lo x + y) y); [lia|].
    rewrite Z.add_0_r, (Z.mod_small (hi x)) by lia.
    rewrite Z.mod_small; [lia|]. change (2 ^ 64) with (2 ^ 32 * 2 ^ 32). nia.
  - assert (El : (lo x + y) mod 2 ^ 32 = lo x + y - 2 ^ 32).
    { replace (lo x + y) with ((lo x + y - 2 ^ 32) + 1 * 2 ^ 32) at 1 by lia.
      rewrite Z_mod_plus_full. apply Z.mod_small. lia. }
    rewrite El. destruct (Z.ltb_spec (lo x + y - 2 ^ 32) y); [|lia].
    destruct (Z.lt_ge_cases (hi x + 1) (2 ^ 32)) as [Hh1|Hh1].
    + rewrite (Z.mod_small (hi x + 1)) by lia.
      rewrite Z.mod_small; [lia|]. change (2 ^ 64) with (2 ^ 32 * 2 ^ 32). nia.
    + assert (hi x = 2 ^ 32 - 1) by lia.
      replace (hi x + 1) with (2 ^ 32) by lia. rewrite Z_mod_same_full.
      replace (hi x * 2 ^ 32 + lo x + y)
        with ((lo x + y - 2 ^ 32) + 1 * 2 ^ 64)
        by (change (2 ^ 64) with (2 ^ 32 * 2 ^ 32); nia).
      rewrite Z_mod_plus_full, Z.mod_small; [lia|].
      change (2 ^ 64) with (2 ^ 32 * 2 ^ 32). nia.
Qed.

(** ** Short reads *)

Lemma note_furthestdata_filesize xfer r :
  x_filesize (note_furthestdata xfer r) = x_filesize xfer.
Proof. unfold note_furthestdata. destruct (_ && _); reflexivity. Qed.

Lemma note_short_read_filesize (xfer : fxp_xfer) (r : req) :
  uint64_ok (x_filesize xfer) -> uint64_ok (rr_offset r) ->
  rr_retlen r < rr_len r -> rr_retlen r < UINT_MOD ->
  uint64_val (x_filesize (note_short_read xfer r))
  = Z.min (uint64_val (x_filesize xfer))
          ((uint64_val (rr_offset r) + Z.max 0 (rr_retlen r)) mod 2 ^ 64).
Proof.
  intros Hf Ho Hshort Hmax. unfold note_short_read.
  destruct (Z.ltb_spec (rr_retlen r) (rr_len r)); [|lia].
  assert (Ey : (if rr_retlen r <? 0 then 0 else rr_retlen r) = Z.max 0 (rr_retlen r)).
  { destruct (Z.ltb_spec (rr_retlen r) 0); lia. }
  rewrite Ey.
  destruct (uint64_add32_spec (rr_offset r) (Z.max 0 (rr_retlen r)) Ho) as [Hok Hval];
    [unfold UINT_MOD in *; lia|].
  cbv zeta.
  destruct (uint64_compare_spec (x_filesize xfer)
              (uint64_add32 (rr_offset r) (Z.max 0 (rr_retlen r))) Hf Hok)
    as [[-> Hlt] | [[-> Heq] | [-> Hgt]]]; cbn [Z.ltb Z.compare];
    cbn [x_filesize with_filesize]; rewrite <- Hval; lia.
Qed.

Lemma download_gotpkt_rest_run (xfer : fxp_xfer) (rr : nat) (r : req) (s : sftp_state) :
  heap s !! rr = Some r ->
  exists v x' s',
    download_gotpkt_rest xfer rr s = Ok ((v, x'), s') /\
    x_filesize x' = x_filesize (note_short_read (note_furthestdata xfer r) r).
Proof.
  intros Hr. unfold download_gotpkt_rest, bind, load_req, store_req. rewrite Hr.
  cbv beta iota. rewrite Hr.
  unfold set_heap, modify. cbv zeta.
  destruct (0 <? uint64_compare _ _); eexists _, _, _; split; reflexivity.
Qed.

(** C4 (as amended): when [xfer_download_gotpkt] processes a READ reply for
    a block at offset X that asked for R bytes, and [fxp_read_recv] returns
    r < R, then, unless the reply is an error other than EOF (r < 0 with an
    error type other than SSH_FX_EOF, where the function returns -1 at
    once), the believed file size becomes the smaller of its old value and
    (X + max(0, r)) mod 2^64; hence it is at most X + max(0, r). *)
Theorem short_read_bounds_filesize (xfer : fxp_xfer) (pktin : option sftp_packet)
    (s : sftp_state) (rr : nat) (r0 : req) (retlen ety : Z) :
  read_reply_for pktin s rr r0 retlen ety ->
  uint64_ok (x_filesize xfer) -> uint64_ok (rr_offset r0) ->
  retlen < rr_len r0 -> rr_len r0 <= INT_MAX ->
  (0 <= retlen \/ ety = SSH_FX_EOF) ->
  exists v x' s',
    xfer_download_gotpkt xfer pktin s = Ok ((v, x'), s') /\
    uint64_val (x_filesize x')
    = Z.min (uint64_val (x_filesize xfer))
            ((uint64_val (rr_offset r0) + Z.max 0 retlen) mod 2 ^ 64) /\
    uint64_val (x_filesize x') <= uint64_val (rr_offset r0) + Z.max 0 retlen.
Proof.
  intros (rq & pk & s1 & buf & s2 & Hfind & Hud & Hr0 & Hrecv & Hety) Hf Ho Hshort Hint Hok.
  destruct (heap_frame_read_recv _ _ _ _ _ _ _ Hrecv) as [Hheap _].
  assert (Hmod : (uint64_val (rr_offset r0) + Z.max 0 retlen) mod 2 ^ 64
                 <= uint64_val (rr_offset r0) + Z.max 0 retlen).
  { apply Z.mod_le; [|lia]. destruct Ho as [? ?]. unfold uint64_val, UINT_MOD in *. nia. }
  set (r1 := with_rr_result r0 retlen buf).
  assert (Hfs : forall x r, rr_retlen r = retlen -> rr_len r = rr_len r0 ->
                  rr_offset r = rr_offset r0 -> x_filesize x = x_filesize xfer ->
                  uint64_val (x_filesize (note_short_read (note_furthestdata x r) r))
                  = Z.min (uint64_val (x_filesize xfer))
                          ((uint64_val (rr_offset r0) + Z.max 0 retlen) mod 2 ^ 64)).
  { intros x r E1 E2 E3 E4.
    rewrite note_short_read_filesize; rewrite ?note_furthestdata_filesize, ?E1, ?E2, ?E3, ?E4;
      try assumption; try reflexivity. unfold INT_MAX, UINT_MOD in *. lia. }
  unfold xfer_download_gotpkt, bind. rewrite Hfind. cbn [fst snd fxp_get_userdata].
  unfold ret at 1. rewrite Hud.
  unfold load_req at 1. rewrite Hr0, Hrecv. cbn [fst snd]. fold r1.
  unfold store_req at 1. rewrite Hheap, Hr0.
  unfold set_heap, modify. unfold fxp_error_type, bind, get, ret.
  cbn [fxp_errtype put_heap]. rewrite <- Hety.
  change (rr_retlen r1) with retlen.
  destruct (((retlen <? 0) && (ety =? SSH_FX_EOF)) || (retlen =? 0)) eqn:Heof.
  - unfold store_req. cbn [heap put_heap]. rewrite lookup_insert_eq.
    unfold set_heap, modify.
    match goal with
    | |- context [download_gotpkt_rest ?x rr ?st] =>
        destruct (download_gotpkt_rest_run x rr (with_rr_complete r1 (-1)) st)
          as (v & x' & s' & Hrun & Hx)
    end.
    { cbn [heap put_heap]. apply lookup_insert_eq. }
    rewrite Hrun. exists v, x', s'. split; [reflexivity|].
    rewrite Hx, Hfs by reflexivity. split; [reflexivity | lia].
  - destruct (Z.ltb_spec retlen 0) as [Hneg|Hnn].
    + exfalso. destruct Hok as [Hge | Heq]; [lia|].
      apply orb_false_iff in Heof as [Heof _].
      apply andb_false_iff in Heof as [Heof | Heof].
      * discriminate.
      * apply Z.eqb_neq in Heof. contradiction.
    + match goal with
      | |- context [download_gotpkt_rest ?x rr ?st] =>
          destruct (download_gotpkt_rest_run x rr r1 st) as (v & x' & s' & Hrun & Hx)
      end.
      { cbn [heap put_heap]. apply lookup_insert_eq. }
      rewrite Hrun. exists v, x', s'. split; [reflexivity|].
      rewrite Hx, Hfs by reflexivity. split; [reflexivity | lia].
Qed.

Lemma short_read_bounds_filesize_witness :
  exists v x' s',
    xfer_download_gotpkt started_xfer (Some (data_packet 256 [1; 2; 3])) started_state
    = Ok ((v, x'), s') /\
    uint64_val (x_filesize x')
    = Z.min (uint64_val (x_filesize started_xfer))
            ((uint64_val (rr_offset first_block) + Z.max 0 3) mod 2 ^ 64) /\
    uint64_val (x_filesize x') <= uint64_val (rr_offset first_block) + Z.max 0 3.
Proof.
  apply (short_read_bounds_filesize started_xfer (Some (data_packet 256 [1; 2; 3]))
           started_state 0%nat first_block 3 0).
  - eexists _, _, _, _, _.
    split; [vm_compute; reflexivity|].
    split; [reflexivity|]. split; [vm_compute; reflexivity|].
    split; [vm_compute; reflexivity | reflexivity].
  - vm_compute. repeat split; discriminate.
  - vm_compute. repeat split; discriminate.
  - vm_compute. reflexivity.
  - vm_compute. discriminate.
  - left. lia.
Defined.

(** C4 (as stated) fails for a reply that is an error other than EOF: the
    first block of a fresh download, at offset 0, gets the status FAILURE;
    [fxp_read_recv] returns -1 < 32768, and the believed file size stays at
    2^64 - 1, above 0 + max(0, -1). *)
Lemma failure_reply_keeps_filesize :
  read_reply_for (Some (status_packet 256 4)) started_state 0%nat first_block (-1) 4 /\
  exists x' s',
    xfer_download_gotpkt started_xfer (Some (status_packet 256 4)) started_state
    = Ok ((-1, x'), s') /\
    uint64_val (x_filesize x') = 2 ^ 64 - 1 /\
    ~ uint64_val (x_filesize x') <= uint64_val (rr_offset first_block) + Z.max 0 (-1).
Proof.
  split.
  - eexists _, _, _, _, _.
    split; [vm_compute; reflexivity|].
    split; [reflexivity|]. split; [vm_compute; reflexivity|].
    split; [vm_compute; reflexivity | reflexivity].
  - eexists _, _. split; [vm_compute; reflexivity|].
    split; [vm_compute; reflexivity|].
    vm_compute. intros H. apply H. reflexivity.
Qed.

(** ** The download window *)

Lemma heap_similar_refl h : heap_similar h h.
Proof. intros a. destruct (h !! a); auto. Qed.

Lemma heap_similar_trans h1 h2 h3 :
  heap_similar h1 h2 -> heap_similar h2 h3 -> heap_similar h1 h3.
Proof.
  intros H12 H23 a. specialize (H12 a). specialize (H23 a).
  destruct (h1 !! a), (h2 !! a), (h3 !! a); try tauto.
  destruct H12, H23. split; congruence.
Qed.

Lemma heap_similar_insert h a r r' :
  h !! a = Some r -> rr_len r' = rr_len r -> rr_next r' = rr_next r ->
  heap_similar h (<[a := r']> h).
Proof.
  intros Ha Hl Hn b. destruct (decide (a = b)) as [->|Hne].
  - rewrite lookup_insert_eq, Ha. auto.
  - rewrite lookup_insert_ne by exact Hne. destruct (h !! b); auto.
Qed.

Lemma benign_refl s : benign s s.
Proof. split; [apply heap_similar_refl | reflexivity]. Qed.

Lemma benign_trans s1 s2 s3 : benign s1 s2 -> benign s2 s3 -> benign s1 s3.
Proof.
  intros [H12 B12] [H23 B23]. split; [eapply heap_similar_trans; eassumption | congruence].
Qed.

Lemma frame_benign {A} (m : M A) s a s' :
  heap_frame m -> m s = Ok (a, s') -> benign s s'.
Proof.
  intros Hm H. destruct (Hm _ _ _ H) as [Hh Hb]. split; [|exact Hb].
  rewrite Hh. apply heap_similar_refl.
Qed.

Lemma store_req_benign a r r' s u s' :
  heap s !! a = Some r -> rr_len r' = rr_len r -> rr_next r' = rr_next r ->
  store_req a r' s = Ok (u, s') -> benign s s'.
Proof.
  intros Ha Hl Hn H. apply store_req_Ok in H as [_ ->].
  split; [|reflexivity]. cbn [heap put_heap]. eapply heap_similar_insert; eassumption.
Qed.

Lemma chain_similar h h' p l : heap_similar h h' -> chain h p l -> chain h' p l.
Proof.
  intros Hs. revert p. induction l as [|a l IH]; intros p; cbn [chain]; [auto|].
  intros (-> & r & Hr & Hlen & Hc). split; [reflexivity|].
  specialize (Hs a). rewrite Hr in Hs.
  destruct (h' !! a) as [r'|]; [|contradiction]. destruct Hs as [Hl Hn].
  exists r'. split; [reflexivity|]. split; [congruence|]. rewrite Hn. apply IH, Hc.
Qed.

Lemma queue_inv_benign x x' s s' l :
  queue_inv x s l ->
  x_head x' = x_head x -> x_tail x' = x_tail x -> req_maxsize x' = req_maxsize x ->
  benign s s' -> queue_inv x' s' l.
Proof.
  intros (Hc & Ht & Hnd & Hdom & Hmax) Eh Et Em [Hs Hb].
  split; [rewrite Eh; eapply chain_similar; eassumption|].
  split; [congruence|]. split; [exact Hnd|]. split; [|congruence].
  intros a [r' Ha]. rewrite Hb. apply Hdom.
  specialize (Hs a). rewrite Ha in Hs. destruct (heap s !! a); [eexists; reflexivity | contradiction].
Qed.

Lemma download_inv_benign x x' s s' :
  download_inv x s -> same_queue x x' -> benign s s' -> download_inv x' s'.
Proof.
  intros (l & Hq & Htot & Hlen) (Eh & Et & Ets & Em) Hben. exists l.
  split; [eapply queue_inv_benign; eassumption|].
  split; [congruence | exact Hlen].
Qed.

Lemma same_queue_refl x : same_queue x x.
Proof. repeat split. Qed.

Lemma same_queue_trans x1 x2 x3 : same_queue x1 x2 -> same_queue x2 x3 -> same_queue x1 x3.
Proof.
  intros (A1 & A2 & A3 & A4) (B1 & B2 & B3 & B4). repeat split; congruence.
Qed.

Lemma same_queue_notes x r : same_queue x (note_short_read (note_furthestdata x r) r).
Proof.
  unfold note_short_read, note_furthestdata.
  destruct (_ <? _); [cbv zeta; destruct (0 <? _)|]; destruct (_ && _); repeat split.
Qed.

Lemma download_gotpkt_rest_benign x rr s v x' s' :
  download_gotpkt_rest x rr s = Ok ((v, x'), s') -> same_queue x x' /\ benign s s'.
Proof.
  unfold download_gotpkt_rest. intros H.
  apply bind_Ok in H as (r & s1 & Hload & H). apply load_req_Ok in Hload as [Hr ->].
  apply bind_Ok in H as (u & s2 & Hstore & H).
  assert (Hb : benign s s2).
  { eapply store_req_benign; [exact Hr | | | exact Hstore]; reflexivity. }
  cbv zeta in H.
  pose proof (same_queue_notes x r) as Hsame.
  destruct (0 <? uint64_compare _ _).
  - apply bind_Ok in H as (u' & s3 & Herr & H). apply ret_Ok in H as [E ->].
    injection E as _ ->. apply modify_Ok in Herr. subst s3.
    split.
    + eapply same_queue_trans; [exact Hsame|]. repeat split.
    + eapply benign_trans; [exact Hb|]. split; [apply heap_similar_refl | reflexivity].
  - apply ret_Ok in H as [E ->]. injection E as _ ->. split; assumption.
Qed.

Lemma download_gotpkt_benign x pktin s v x' s' :
  xfer_download_gotpkt x pktin s = Ok ((v, x'), s') -> same_queue x x' /\ benign s s'.
Proof.
  unfold xfer_download_gotpkt. intros H.
  apply bind_Ok in H as ([rreq pk] & s1 & Hfind & H). cbn [fst snd] in H.
  pose proof (frame_benign _ _ _ _ (heap_frame_find_request pktin) Hfind) as B1.
  apply bind_Ok in H as (ud & s2 & Hud & H).
  pose proof (frame_benign _ _ _ _ (heap_frame_get_userdata rreq) Hud) as B2.
  pose proof (benign_trans _ _ _ B1 B2) as B12.
  destruct ud as [rr|].
  2:{ apply ret_Ok in H as [E ->]. injection E as _ ->.
      split; [apply same_queue_refl | exact B12]. }
  destruct rreq as [rq|]; [|discriminate]. destruct pk as [pkt|]; [|discriminate].
  apply bind_Ok in H as (r & s3 & Hload & H). apply load_req_Ok in Hload as [Hr ->].
  apply bind_Ok in H as (res & s4 & Hrecv & H).
  pose proof (frame_benign _ _ _ _ (heap_frame_read_recv _ _ _ _) Hrecv) as B3.
  destruct (heap_frame_read_recv _ _ _ _ _ _ _ Hrecv) as [Hh4 _].
  apply bind_Ok in H as (u & s5 & Hstore & H).
  assert (B4 : benign s4 s5).
  { eapply store_req_benign; [rewrite Hh4; exact Hr | | | exact Hstore]; reflexivity. }
  pose proof (Hstore) as Hstore'. apply store_req_Ok in Hstore' as [_ Es5].
  apply bind_Ok in H as (ety & s6 & Hety & H).
  pose proof (frame_benign _ _ _ _ heap_frame_error_type Hety) as B5.
  destruct (heap_frame_error_type _ _ _ Hety) as [Hh6 _].
  assert (B : benign s s6).
  { eapply benign_trans; [exact B12|]. eapply benign_trans; [exact B3|].
    eapply benign_trans; eassumption. }
  assert (Hcur : heap s6 !! rr = Some (with_rr_result r (fst res) (snd res))).
  { rewrite Hh6, Es5. cbn [heap put_heap]. apply lookup_insert_eq. }
  destruct (_ || _).
  - apply bind_Ok in H as (u' & s7 & Hst & H).
    assert (B6 : benign s6 s7).
    { eapply store_req_benign; [exact Hcur | | | exact Hst]; reflexivity. }
    apply download_gotpkt_rest_benign in H as [Hsame B7].
    split.
    + eapply same_queue_trans; [|exact Hsame]. repeat split.
    + eapply benign_trans; [exact B|]. eapply benign_trans; eassumption.
  - destruct (_ <? 0).
    + apply bind_Ok in H as (u' & s7 & Hst & H).
      assert (B6 : benign s6 s7).
      { eapply store_req_benign; [exact Hcur | | | exact Hst]; reflexivity. }
      apply ret_Ok in H as [E ->]. injection E as _ ->.
      split; [repeat split | eapply benign_trans; eassumption].
    + apply download_gotpkt_rest_benign in H as [Hsame B7].
      split; [exact Hsame | eapply benign_trans; eassumption].
Qed.

Lemma chain_in_heap h p l b : chain h p l -> b ∈ l -> is_Some (h !! b).
Proof.
  revert p. induction l as [|a l IH]; intros p Hc Hb.
  - apply elem_of_nil in Hb. contradiction.
  - cbn [chain] in Hc. destruct Hc as (_ & r & Hr & _ & Hc).
    apply elem_of_cons in Hb as [->|Hb]; [eexists; exact Hr | eapply IH; eassumption].
Qed.

Lemma chain_delete h p l a : chain h p l -> a ∉ l -> chain (delete a h) p l.
Proof.
  revert p. induction l as [|b l IH]; intros p Hc Ha; cbn [chain] in *; [exact Hc|].
  destruct Hc as (-> & r & Hr & Hlen & Hc). apply not_elem_of_cons in Ha as [Hne Ha].
  split; [reflexivity|]. exists r. rewrite lookup_delete_ne by exact Hne.
  split; [exact Hr|]. split; [exact Hlen|]. apply IH; assumption.
Qed.

Lemma chain_snoc h p l t tr a rnew :
  chain h p l -> last l = Some t -> NoDup l -> a ∉ l ->
  h !! t = Some tr -> rr_len rnew = 32768 -> rr_next rnew = None ->
  chain (<[t := with_rr_next tr (Some a)]> (<[a := rnew]> h)) p (l ++ [a]).
Proof.
  intros Hc Hlast Hnd Ha Ht Hlen Hnext. revert p Hc.
  induction l as [|b l IH]; intros p Hc; [discriminate|].
  cbn [chain] in Hc. destruct Hc as (-> & r & Hr & Hrl & Hc).
  apply NoDup_cons in Hnd as [Hb Hnd]. apply not_elem_of_cons in Ha as [Hab Ha].
  cbn [app chain]. split; [reflexivity|].
  destruct l as [|c l].
  - cbn [last] in Hlast. injection Hlast as ->. cbn [chain] in Hc.
    rewrite Ht in Hr. injection Hr as ->.
    exists (with_rr_next r (Some a)). rewrite lookup_insert_eq.
    split; [reflexivity|]. split; [exact Hrl|]. cbn [app chain rr_next with_rr_next].
    split; [reflexivity|]. exists rnew.
    rewrite lookup_insert_ne by congruence. rewrite lookup_insert_eq.
    split; [reflexivity|]. split; [exact Hlen|]. exact Hnext.
  - assert (Hbt : b <> t).
    { intros ->. apply Hb. apply last_Some_elem_of. exact Hlast. }
    exists r. rewrite lookup_insert_ne by congruence.
    rewrite lookup_insert_ne by congruence.
    split; [exact Hr|]. split; [exact Hrl|].
    apply IH; assumption.
Qed.

Lemma enqueue_inv x s l r a x1 s1 :
  queue_inv x s l -> rr_len r = 32768 ->
  enqueue x r s = Ok ((a, x1), s1) ->
  queue_inv x1 s1 (l ++ [a]) /\
  req_totalsize x1 = req_totalsize x /\
  exists r', heap s1 !! a = Some r' /\ rr_len r' = 32768.
Proof.
  intros (Hc & Ht & Hnd & Hdom & Hmax) Hlen H. unfold enqueue in H.
  apply bind_Ok in H as (a0 & s0 & Hnew & H). apply new_req_Ok in Hnew as [-> ->].
  set (rnew := with_rr_next (with_rr_prev r (x_tail x)) None) in *.
  assert (Hfresh : brk s ∉ l).
  { intros Hin. pose proof (Hdom _ (chain_in_heap _ _ _ _ Hc Hin)). lia. }
  assert (Hnd' : NoDup (l ++ [brk s])).
  { apply NoDup_app. split; [exact Hnd|]. split; [|apply NoDup_singleton].
    intros b Hb Hb'. apply list_elem_of_singleton in Hb'. subst b. contradiction. }
  destruct (x_tail x) as [t|] eqn:Etail.
  - apply bind_Ok in H as (tr & s2 & Hload & H). apply load_req_Ok in Hload as [Htr ->].
    apply bind_Ok in H as (u & s3 & Hstore & H). apply store_req_Ok in Hstore as [_ ->].
    apply ret_Ok in H as [E ->]. injection E as -> ->.
    cbn [heap] in Htr.
    assert (Htl : t ∈ l) by (apply last_Some_elem_of; congruence).
    assert (Hta : t <> brk s) by (intros ->; contradiction).
    rewrite lookup_insert_ne in Htr by congruence.
    split; [|split; [reflexivity|]].
    + split; [|split; [|split; [exact Hnd'|split]]].
      * cbn [heap put_heap x_head with_queue].
        apply chain_snoc; try assumption; try reflexivity. congruence.
      * cbn [x_tail with_queue]. rewrite last_snoc. reflexivity.
      * cbn [heap put_heap brk]. intros b [rb Hb].
        destruct (decide (b = t)) as [->|Hbt].
        { pose proof (Hdom t ltac:(eexists; exact Htr)). lia. }
        rewrite lookup_insert_ne in Hb by congruence.
        destruct (decide (b = brk s)) as [->|Hba]; [lia|].
        rewrite lookup_insert_ne in Hb by congruence.
        pose proof (Hdom b ltac:(eexists; exact Hb)). lia.
      * exact Hmax.
    + exists rnew. cbn [heap put_heap].
      rewrite lookup_insert_ne by congruence. rewrite lookup_insert_eq.
      split; [reflexivity | exact Hlen].
  - apply ret_Ok in H as [E ->]. injection E as -> ->.
    assert (l = []) as -> by (apply last_None; congruence).
    cbn [chain] in Hc.
    split; [|split; [reflexivity|]].
    + split; [|split; [|split; [exact Hnd'|split]]].
      * cbn [heap x_head with_queue app chain]. split; [reflexivity|].
        exists rnew. rewrite lookup_insert_eq. split; [reflexivity|].
        split; [exact Hlen | reflexivity].
      * reflexivity.
      * cbn [heap brk]. intros b [rb Hb].
        destruct (decide (b = brk s)) as [->|Hba]; [lia|].
        rewrite lookup_insert_ne in Hb by congruence.
        pose proof (Hdom b ltac:(eexists; exact Hb)). lia.
      * exact Hmax.
    + exists rnew. cbn [heap]. rewrite lookup_insert_eq. split; [reflexivity | exact Hlen].
Qed.

Lemma download_queue_round_inv x s x' s' :
  download_inv x s -> req_totalsize x < req_maxsize x ->
  download_queue_round x s = Ok (x', s') ->
  download_inv x' s' /\
  req_totalsize x' = req_totalsize x + 32768 /\ req_maxsize x' = req_maxsize x.
Proof.
  intros (l & Hq & Htot & Hlen) Hcond H.
  pose proof Hq as (_ & _ & _ & _ & Hmax).
  unfold download_queue_round in H.
  apply bind_Ok in H as ([a x1] & s1 & Henq & H). cbn [fst snd] in H.
  pose proof (fun E => enqueue_inv _ _ _ _ _ _ _ Hq E Henq) as Henq'.
  destruct (Henq' eq_refl) as (Hq1 & Htot1 & r' & Hr' & Hlen'). clear Henq'.
  apply bind_Ok in H as (r & s2 & Hload & H). apply load_req_Ok in Hload as [Hr ->].
  rewrite Hr' in Hr. injection Hr as <-.
  apply bind_Ok in H as (rq & s3 & Hsend & H).
  pose proof (frame_benign _ _ _ _ (heap_frame_read_send _ _ _) Hsend) as B1.
  apply bind_Ok in H as (rq2 & s4 & Hreg & H).
  pose proof (frame_benign _ _ _ _ (heap_frame_register _) Hreg) as B2.
  apply bind_Ok in H as (rq3 & s5 & Hset & H).
  pose proof (frame_benign _ _ _ _ (heap_frame_set_userdata _ _) Hset) as B3.
  apply ret_Ok in H as [-> ->].
  rewrite Htot, Hmax in Hcond.
  assert (Hq5 : queue_inv (with_progress x1 (uint64_add32 (x_offset x1) (rr_len r'))
                              (s32 (req_totalsize x1 + rr_len r'))) s5 (l ++ [a])).
  { eapply queue_inv_benign; [exact Hq1 | reflexivity | reflexivity | reflexivity |].
    eapply benign_trans; [exact B1|]. eapply benign_trans; eassumption. }
  assert (Etot : s32 (req_totalsize x1 + rr_len r') = req_totalsize x + 32768).
  { rewrite Htot1, Htot, Hlen'. apply s32_small. lia. }
  split; [|split].
  - exists (l ++ [a]). split; [exact Hq5|]. cbn [req_totalsize with_progress].
    rewrite Etot, Htot, length_app. cbn [length]. split; lia.
  - exact Etot.
  - destruct Hq5 as (_ & _ & _ & _ & Hmax5). congruence.
Qed.

Lemma download_queue_loop_inv (fuel : nat) :
  forall x s x' s',
    download_inv x s -> download_queue_loop fuel x s = Ok (x', s') -> download_inv x' s'.
Proof.
  induction fuel as [|fuel IH]; intros x s x' s' Hinv H; cbn [download_queue_loop] in H.
  - destruct (_ && _); [discriminate|]. apply ret_Ok in H as [-> ->]. exact Hinv.
  - destruct ((req_totalsize x <? req_maxsize x) && (x_eof x =? 0) && (x_err x =? 0))
      eqn:Hcond; [|apply ret_Ok in H as [-> ->]; exact Hinv].
    apply andb_true_iff in Hcond as [Hcond _]. apply andb_true_iff in Hcond as [Hcond _].
    apply Z.ltb_lt in Hcond.
    apply bind_Ok in H as (x1 & s1 & Hround & H).
    eapply IH; [|exact H].
    eapply download_queue_round_inv; eassumption.
Qed.

Lemma download_data_pop_spec x s l rr r :
  queue_inv x s (rr :: l) ->
  req_totalsize x = 32768 * Z.of_nat (length (rr :: l)) -> (length (rr :: l) <= 32)%nat ->
  heap s !! rr = Some r ->
  exists x' s',
    download_data_pop x rr r s = Ok (x', s') /\
    queue_inv x' s' l /\ req_totalsize x' = 32768 * Z.of_nat (length l) /\
    size (heap s') = pred (size (heap s)).
Proof.
  intros (Hc & Ht & Hnd & Hdom & Hmax) Htot Hlen Hr.
  cbn [chain] in Hc. destruct Hc as (Eh & r0 & Hr0 & Hrl & Hc).
  rewrite Hr in Hr0. injection Hr0 as <-.
  apply NoDup_cons in Hnd as [Hrr Hnd].
  assert (Hstep : exists x1 s1,
             match rr_next r with
             | Some n =>
                 bind (load_req n)
                      (fun nr => bind (store_req n (with_rr_prev nr None))
                                      (fun _ => ret (with_queue x (Some n) (x_tail x))))
             | None => ret (with_queue x None None)
             end s = Ok (x1, s1) /\
             benign s s1 /\ size (heap s1) = size (heap s) /\
             x_head x1 = rr_next r /\ x_tail x1 = last l /\
             req_maxsize x1 = req_maxsize x /\ req_totalsize x1 = req_totalsize x).
  { destruct (rr_next r) as [n|] eqn:Enext.
    - destruct l as [|c l]; [discriminate|].
      cbn [chain] in Hc. destruct Hc as (En & nr & Hnr & _ & _). injection En as ->.
      eexists _, _. split.
      { unfold bind, load_req, store_req. rewrite Hnr. cbv beta iota. rewrite Hnr.
        reflexivity. }
      split.
      { split; [|reflexivity]. cbn [heap put_heap].
        eapply heap_similar_insert; [exact Hnr | reflexivity | reflexivity]. }
      split.
      { cbn [heap put_heap]. apply map_size_insert_Some. eexists. exact Hnr. }
      split; [reflexivity|]. split; [|split; reflexivity].
      cbn [x_tail with_queue]. rewrite Ht. reflexivity.
    - cbn [chain] in Hc. destruct l as [|c l]; [|destruct Hc; discriminate].
      eexists _, _. split; [reflexivity|]. split; [apply benign_refl|]. repeat split. }
  destruct Hstep as (x1 & s1 & Hrun & [Hs Hb] & Hsz & Eh1 & Et1 & Em1 & Ets1).
  assert (Hrr1 : is_Some (heap s1 !! rr)).
  { specialize (Hs rr). rewrite Hr in Hs. destruct (heap s1 !! rr); [eexists; reflexivity | contradiction]. }
  eexists _, _. split.
  { unfold download_data_pop. unfold bind at 1. rewrite Hrun. cbv zeta.
    unfold bind, free_req. destruct Hrr1 as [q ->]. reflexivity. }
  cbn [length] in *. split; [|split].
  - split; [|split; [|split; [exact Hnd|split]]].
    + cbn [heap put_heap x_head with_progress]. rewrite Eh1.
      apply chain_delete; [|exact Hrr]. eapply chain_similar; eassumption.
    + cbn [x_tail with_progress]. exact Et1.
    + cbn [heap put_heap brk]. intros a [ra Ha]. rewrite Hb. apply Hdom.
      destruct (decide (rr = a)) as [->|Hne]; [rewrite lookup_delete_eq in Ha; discriminate|].
      rewrite lookup_delete_ne in Ha by exact Hne.
      specialize (Hs a). rewrite Ha in Hs.
      destruct (heap s !! a); [eexists; reflexivity | contradiction].
    + cbn [req_maxsize with_progress]. congruence.
  - cbn [req_totalsize with_progress]. rewrite Ets1, Htot, Hrl.
    rewrite s32_small by lia. lia.
  - cbn [heap put_heap]. rewrite map_size_delete_Some by exact Hrr1. congruence.
Qed.

Lemma download_data_loop_inv (fuel : nat) :
  forall x rb rl s x' rb' rl' s',
    download_inv x s ->
    download_data_loop fuel x rb rl s = Ok ((x', rb', rl'), s') ->
    download_inv x' s'.
Proof.
  induction fuel as [|fuel IH]; intros x rb rl s x' rb' rl' s' Hinv H.
  - cbn [download_data_loop] in H.
    destruct (x_head x) as [rr|]; [|apply ret_Ok in H as [E ->]; injection E as -> _ _; exact Hinv].
    destruct rb; [apply ret_Ok in H as [E ->]; injection E as -> _ _; exact Hinv|].
    apply bind_Ok in H as (r & s1 & Hload & H). apply load_req_Ok in Hload as [_ ->].
    destruct (rr_complete r =? 0); [|discriminate].
    apply ret_Ok in H as [E ->]. injection E as -> _ _. exact Hinv.
  - cbn [download_data_loop] in H.
    destruct (x_head x) as [rr|] eqn:Ehead;
      [|apply ret_Ok in H as [E ->]; injection E as -> _ _; exact Hinv].
    destruct rb; [apply ret_Ok in H as [E ->]; injection E as -> _ _; exact Hinv|].
    apply bind_Ok in H as (r & s1 & Hload & H). apply load_req_Ok in Hload as [Hr ->].
    destruct (rr_complete r =? 0);
      [apply ret_Ok in H as [E ->]; injection E as -> _ _; exact Hinv|].
    destruct Hinv as (l & Hq & Htot & Hlen).
    destruct l as [|b l].
    { destruct Hq as (Hc & _). rewrite Ehead in Hc. discriminate. }
    assert (b = rr) as ->.
    { destruct Hq as (Hc & _). rewrite Ehead in Hc. destruct Hc as (E & _). congruence. }
    destruct (download_data_pop_spec _ _ _ _ _ Hq Htot Hlen Hr)
      as (x1 & s1 & Hpop & Hq1 & Htot1 & _).
    cbv zeta in H. unfold bind at 1 in H. rewrite Hpop in H.
    eapply IH; [|exact H]. exists l. split; [exact Hq1|]. split; [exact Htot1|].
    cbn [length] in Hlen. lia.
Qed.

Lemma chain_length_le_size h p l : chain h p l -> NoDup l -> (length l <= size h)%nat.
Proof.
  revert h p. induction l as [|a l IH]; intros h p Hc Hnd; cbn [length]; [lia|].
  cbn [chain] in Hc. destruct Hc as (_ & r & Hr & _ & Hc).
  apply NoDup_cons in Hnd as [Ha Hnd].
  pose proof (IH (delete a h) _ (chain_delete _ _ _ _ Hc Ha) Hnd) as Hle.
  rewrite map_size_delete_Some in Hle by (eexists; exact Hr).
  assert (size h <> 0%nat).
  { intros E. apply map_size_empty_inv in E. rewrite E, lookup_empty in Hr. discriminate. }
  lia.
Qed.

Lemma download_data_loop_returns (fuel : nat) :
  forall x rb rl s l,
    queue_inv x s l -> req_totalsize x = 32768 * Z.of_nat (length l) ->
    (length l <= 32)%nat -> (length l <= fuel)%nat ->
    exists res s', download_data_loop fuel x rb rl s = Ok (res, s').
Proof.
  induction fuel as [|fuel IH]; intros x rb rl s l Hq Htot Hlen Hfuel.
  - assert (l = []) as -> by (destruct l; [reflexivity | cbn in Hfuel; lia]).
    destruct Hq as (Hc & _). cbn [chain] in Hc.
    cbn [download_data_loop]. rewrite Hc. eexists _, _. reflexivity.
  - cbn [download_data_loop].
    destruct (x_head x) as [rr|] eqn:Ehead; [|eexists _, _; reflexivity].
    destruct rb; [eexists _, _; reflexivity|].
    destruct l as [|b l].
    { destruct Hq as (Hc & _). rewrite Ehead in Hc. discriminate. }
    assert (b = rr) as ->.
    { destruct Hq as (Hc & _). rewrite Ehead in Hc. destruct Hc as (E & _). congruence. }
    pose proof Hq as (Hc & _). rewrite Ehead in Hc. cbn [chain] in Hc.
    destruct Hc as (_ & r & Hr & _ & _).
    unfold bind at 1. unfold load_req. rewrite Hr.
    destruct (rr_complete r =? 0); [eexists _, _; reflexivity|].
    destruct (download_data_pop_spec _ _ _ _ _ Hq Htot Hlen Hr)
      as (x1 & s1 & Hpop & Hq1 & Htot1 & _).
    cbv zeta. unfold bind at 1. rewrite Hpop.
    cbn [length] in Hlen, Hfuel. eapply IH; [exact Hq1 | exact Htot1 | lia | lia].
Qed.

(** [xfer_download_data] always returns on the queue of a download. *)
Lemma xfer_download_data_returns x s :
  download_inv x s ->
  exists v x' out s', xfer_download_data x s = Ok ((v, x', out), s').
Proof.
  intros (l & Hq & Htot & Hlen).
  pose proof Hq as (Hc & _ & Hnd & _).
  pose proof (chain_length_le_size _ _ _ Hc Hnd) as Hsz.
  destruct (download_data_loop_returns (size (heap s)) x None 0 s l Hq Htot Hlen Hsz)
    as ([[x1 rb] rl] & s1 & Hloop).
  unfold xfer_download_data, bind, get. rewrite Hloop.
  destruct rb; eexists _, _, _, _; reflexivity.
Qed.

Lemma download_data_inv x s v x' out s' :
  download_inv x s -> xfer_download_data x s = Ok ((v, x', out), s') -> download_inv x' s'.
Proof.
  intros Hinv H. unfold xfer_download_data in H.
  apply bind_Ok in H as (s0 & s1 & Hget & H). apply get_Ok in Hget as [-> ->].
  apply bind_Ok in H as ([[x1 rb] rl] & s2 & Hloop & H).
  apply download_data_loop_inv in Hloop; [|exact Hinv].
  destruct rb; apply ret_Ok in H as [E ->]; injection E as _ -> _; exact Hloop.
Qed.

Lemma download_init_inv fh offset s x s' :
  (forall a, is_Some (heap s !! a) -> (a < brk s)%nat) ->
  xfer_download_init fh offset s = Ok (x, s') -> download_inv x s'.
Proof.
  intros Hdom H. unfold xfer_download_init, xfer_download_queue in H.
  eapply download_queue_loop_inv; [|exact H].
  exists []. split; [|split; [reflexivity | cbn; lia]].
  split; [reflexivity|]. split; [reflexivity|]. split; [constructor|].
  split; [exact Hdom | reflexivity].
Qed.

(** ** The queueing loop returns *)

Lemma registry_ok_add (t : list sftp_request) (i : Z) :
  registry_ok t -> Z.of_nat (length t) < INT_MAX ->
  (i ∉ ids t) -> REQUEST_ID_OFFSET <= i <= REQUEST_ID_OFFSET + Z.of_nat (length t) ->
  registry_ok (add234 t (mk_request i 0 None)) /\
  length (add234 t (mk_request i 0 None)) = S (length t).
Proof.
  intros (Hs & Hr & Hn) Hroom Hfresh Hi.
  pose proof (add234_fresh t (mk_request i 0 None) Hfresh) as Hp.
  assert (Hl : length (add234 t (mk_request i 0 None)) = S (length t)).
  { rewrite Hp. reflexivity. }
  split; [|exact Hl]. split; [apply add234_sorted; exact Hs|]. split.
  - unfold ids. rewrite Hp. cbn [List.map rq_id]. constructor; [|exact Hr].
    unfold REQUEST_ID_OFFSET, UINT_MOD, INT_MAX in *. lia.
  - rewrite Hl. lia.
Qed.

Lemma ids_update (t : list sftp_request) (r : sftp_request) :
  ids (List.map (fun x => if rq_id x =? rq_id r then r else x) t) = ids t.
Proof.
  unfold ids. induction t as [|x t IH]; [reflexivity|]. cbn [List.map]. rewrite IH.
  destruct (Z.eqb_spec (rq_id x) (rq_id r)) as [E|E]; [rewrite E|]; reflexivity.
Qed.

Lemma registry_ok_update (t : list sftp_request) (r : sftp_request) :
  registry_ok t ->
  registry_ok (List.map (fun x => if rq_id x =? rq_id r then r else x) t).
Proof.
  intros (Hs & Hr & Hn). unfold registry_ok. rewrite ids_update, length_map. auto.
Qed.

Lemma update_request_runs (r : sftp_request) (s : sftp_state) :
  exists s', update_request r s = Ok (tt, s') /\
    heap s' = heap s /\ brk s' = brk s /\
    (registry_ok (default [] (sftp_requests s)) ->
     registry_ok (default [] (sftp_requests s'))) /\
    length (default [] (sftp_requests s')) = length (default [] (sftp_requests s)).
Proof.
  unfold update_request, bind, get. destruct (sftp_requests s) as [t|] eqn:Et.
  - eexists. split; [reflexivity|]. cbn. split; [reflexivity|]. split; [reflexivity|].
    split; [apply registry_ok_update | apply length_map].
  - exists s. split; [reflexivity|]. rewrite Et. auto.
Qed.






Lemma download_run_inv x s : download_run x s -> download_inv x s.
Proof.
  induction 1 as [s fh offset x s' Hdom Hinit | x s x' s' _ IH Hq
                 | x s pktin v x' s' _ IH Hg | x s v x' out s' _ IH Hd
                 | x s _ IH | x s s' _ IH Hh Hb].
  - eapply download_init_inv; eassumption.
  - eapply download_queue_loop_inv; [exact IH | exact Hq].
  - apply download_gotpkt_benign in Hg as [Hsame Hben].
    eapply download_inv_benign; eassumption.
  - eapply download_data_inv; eassumption.
  - eapply download_inv_benign; [exact IH | repeat split | apply benign_refl].
  - eapply download_inv_benign; [exact IH | apply same_queue_refl |].
    split; [rewrite Hh; apply heap_similar_refl | exact Hb].
Qed.

(** C5: in every state a download passes through - after
    [xfer_download_init] and after every call of [xfer_download_queue],
    [xfer_download_gotpkt] and [xfer_download_data] - the in-flight total
    satisfies [req_totalsize <= req_maxsize + 32768 - 1], with
    [req_maxsize = 1048576]; it is never negative, and it is 32768 times the
    number of queued reads. *)
Theorem download_window_bounded (x : fxp_xfer) (s : sftp_state) :
  download_run x s ->
  req_totalsize x <= req_maxsize x + 32768 - 1 /\
  req_maxsize x = 1048576 /\
  0 <= req_totalsize x /\
  exists l, chain (heap s) (x_head x) l /\
            req_totalsize x = 32768 * Z.of_nat (length l).
Proof.
  intros Hrun. apply download_run_inv in Hrun as (l & (Hc & _ & _ & _ & Hmax) & Htot & Hlen).
  split; [lia|]. split; [exact Hmax|]. split; [lia|].
  exists l. split; assumption.
Qed.

Lemma download_start_runs : download_run started_xfer started_state.
Proof.
  apply (run_init initial_state example_handle (uint64_make 0 0)).
  - intros a [r Hr]. cbn [heap initial_state] in Hr. rewrite lookup_empty in Hr. discriminate.
  - vm_compute. reflexivity.
Defined.

Lemma download_window_bounded_witness :
  req_totalsize started_xfer <= req_maxsize started_xfer + 32768 - 1 /\
  req_maxsize started_xfer = 1048576 /\
  0 <= req_totalsize started_xfer /\
  exists l, chain (heap started_state) (x_head started_xfer) l /\
            req_totalsize started_xfer = 32768 * Z.of_nat (length l).
Proof.
  apply (download_window_bounded started_xfer started_state).
  exact download_start_runs.
Defined.

(** ** End of file on a download *)

(** C2 (the defect): the first block of a fresh download gets an EOF
    status, or a DATA reply of length 0.  [xfer_download_gotpkt] sets [eof]
    and stores -1 in [complete], but then falls through to
    [rr->complete = 1]; the block ends up marked as a success, and
    [xfer_download_data] hands its buffer to the caller, with length -1 or
    0, instead of skipping it. *)
Theorem eof_block_is_handed_back :
  (exists x s r,
     download_reply (status_packet 256 SSH_FX_EOF) = Ok ((1, x), s) /\
     x_eof x = 1 /\ heap s !! 0%nat = Some r /\
     rr_retlen r = -1 /\ rr_complete r = 1) /\
  (exists x s,
     download_reply_then_data (status_packet 256 SSH_FX_EOF)
     = Ok ((1, x, Some ([], -1)), s)) /\
  (exists x s r,
     download_reply (data_packet 256 []) = Ok ((1, x), s) /\
     x_eof x = 1 /\ heap s !! 0%nat = Some r /\
     rr_retlen r = 0 /\ rr_complete r = 1) /\
  (exists x s,
     download_reply_then_data (data_packet 256 []) = Ok ((1, x, Some ([], 0)), s)).
Proof.
  split; [|split; [|split]].
  - eexists _, _, _. split; [vm_compute; reflexivity|].
    split; [reflexivity|]. split; [vm_compute; reflexivity|]. split; reflexivity.
  - eexists _, _. vm_compute. reflexivity.
  - eexists _, _, _. split; [vm_compute; reflexivity|].
    split; [reflexivity|]. split; [vm_compute; reflexivity|]. split; reflexivity.
  - eexists _, _. vm_compute. reflexivity.
Qed.

(** ** The codec: what the builders write, the getters read back *)

Lemma uchar_shiftr_u32 (v k : Z) :
  0 <= k <= 24 -> uchar (Z.shiftr (u32 v) k) = uchar (Z.shiftr v k).
Proof.
  intros Hk. unfold uchar, u32, UINT_MOD. apply Z.bits_inj'. intros i Hi.
  rewrite !Z.land_spec, !Z.shiftr_spec by lia.
  destruct (Z.lt_ge_cases i 8) as [Hlt|Hge].
  - rewrite Z.mod_pow2_bits_low by lia. reflexivity.
  - change 255 with (Z.ones 8). rewrite Z.ones_spec_high by lia.
    rewrite !andb_false_r. reflexivity.
Qed.

Lemma PUT_32BIT_u32 (v : Z) : PUT_32BIT (u32 v) = PUT_32BIT v.
Proof.
  pose proof (uchar_shiftr_u32 v 0 ltac:(lia)) as H0. rewrite !Z.shiftr_0_r in H0.
  unfold PUT_32BIT. rewrite !uchar_shiftr_u32 by lia. rewrite H0. reflexivity.
Qed.

Lemma GET_PUT_32BIT_any (pre post : list Z) (v : Z) :
  GET_32BIT (pre ++ PUT_32BIT v ++ post) (Z.of_nat (length pre)) = Some (u32 v).
Proof.
  rewrite <- PUT_32BIT_u32. apply GET_PUT_32BIT. apply u32_range.
Qed.

(** A u32 under the cursor of a packet whose buffer holds its whole length. *)
Lemma getuint32_at (q : sftp_packet) (pre post : list Z) (v : Z) :
  pkt_buffer_ok q ->
  pkt_data q = pre ++ PUT_32BIT v ++ post ->
  pkt_savedpos q = Z.of_nat (length pre) ->
  sftp_pkt_getuint32 q = Ok (Some (u32 v), with_savedpos q (pkt_savedpos q + 4)).
Proof.
  intros Hok Hd Hpos. apply getuint32_ok.
  - exact Hok.
  - destruct Hok as [Hl _]. rewrite Hl, Hd, Hpos, !length_app. lia.
  - destruct Hok as [Hl _]. unfold remaining. rewrite Hl, Hd, Hpos, !length_app.
    cbn [length PUT_32BIT]. lia.
  - rewrite Hd, Hpos. apply GET_PUT_32BIT_any.
Qed.

Lemma received_buffer_ok (p : sftp_packet) (pos : Z) :
  pkt_buffer_ok p -> pkt_buffer_ok (received p pos).
Proof. intros H. exact H. Qed.

Lemma adduint32_buffer_ok (p : sftp_packet) (v : Z) :
  pkt_buffer_ok p -> pkt_length p + 4 < UINT_MOD ->
  pkt_buffer_ok (sftp_pkt_adduint32 p v) /\
  pkt_length (sftp_pkt_adduint32 p v) = pkt_length p + 4.
Proof.
  intros [Hl Hm] H4.
  assert (E : pkt_length (sftp_pkt_adduint32 p v) = pkt_length p + 4).
  { rewrite adduint32_length. apply u32_small. lia. }
  split; [|exact E]. split; [|lia].
  rewrite E, adduint32_data, length_app, Hl. cbn [length PUT_32BIT]. lia.
Qed.

(** X1: a u32 appended by [sftp_pkt_adduint32] is what [sftp_pkt_getuint32]
    reads when the peer's cursor stands where the word was appended: the
    value modulo 2^32, with the cursor moved past the four bytes. *)
Theorem adduint32_getuint32 (p : sftp_packet) (v : Z) :
  pkt_buffer_ok p -> pkt_length p + 4 < UINT_MOD ->
  sftp_pkt_getuint32 (received (sftp_pkt_adduint32 p v) (pkt_length p))
  = Ok (Some (u32 v), received (sftp_pkt_adduint32 p v) (pkt_length p + 4)).
Proof.
  intros Hok H4. destruct (adduint32_buffer_ok p v Hok H4) as [Hok' _].
  apply (getuint32_at (received (sftp_pkt_adduint32 p v) (pkt_length p))
                      (pkt_data p) [] v).
  - apply received_buffer_ok, Hok'.
  - cbn [received pkt_data]. rewrite adduint32_data, app_nil_r. reflexivity.
  - destruct Hok as [Hl _]. exact Hl.
Qed.

Lemma adduint32_getuint32_witness :
  sftp_pkt_getuint32 (received (sftp_pkt_adduint32 (sftp_pkt_init SSH_FXP_CLOSE) 4294967553) 1)
  = Ok (Some 257, received (sftp_pkt_adduint32 (sftp_pkt_init SSH_FXP_CLOSE) 4294967553) 5).
Proof.
  apply (adduint32_getuint32 (sftp_pkt_init SSH_FXP_CLOSE) 4294967553).
  - split; [reflexivity | vm_compute; reflexivity].
  - vm_compute. reflexivity.
Defined.

(** X2: the two words [sftp_pkt_adduint64] appends are read back by two
    calls of [sftp_pkt_getuint32], high word first; together they make up the
    64-bit value that was written. *)
Theorem adduint64_getuint32 (p : sftp_packet) (v : uint64) :
  pkt_buffer_ok p -> pkt_length p + 8 < UINT_MOD -> uint64_ok v ->
  let q := sftp_pkt_adduint64 p v in
  sftp_pkt_getuint32 (received q (pkt_length p))
  = Ok (Some (hi v), received q (pkt_length p + 4)) /\
  sftp_pkt_getuint32 (received q (pkt_length p + 4))
  = Ok (Some (lo v), received q (pkt_length p + 8)) /\
  uint64_make (hi v) (lo v) = v.
Proof.
  intros [Hl Hm] H8 [Hhi Hlo] q.
  assert (Hq : pkt_buffer_ok q).
  { subst q. split.
    - rewrite adduint64_length, adduint64_data, !length_app, u32_small by lia.
      cbn [length PUT_32BIT]. lia.
    - rewrite adduint64_length. apply u32_range. }
  split; [|split].
  - rewrite <- (u32_small (hi v)) at 1 by exact Hhi.
    apply (getuint32_at (received q (pkt_length p)) (pkt_data p) (PUT_32BIT (lo v)) (hi v)).
    + exact Hq.
    + subst q. cbn [received pkt_data]. apply adduint64_data.
    + exact Hl.
  - rewrite <- (u32_small (lo v)) at 1 by exact Hlo.
    replace (pkt_length p + 8) with (pkt_length p + 4 + 4) by lia.
    apply (getuint32_at (received q (pkt_length p + 4))
                        (pkt_data p ++ PUT_32BIT (hi v)) [] (lo v)).
    + exact Hq.
    + subst q. cbn [received pkt_data]. rewrite adduint64_data, app_nil_r, <- app_assoc.
      reflexivity.
    + cbn [received pkt_savedpos]. rewrite length_app. cbn [length PUT_32BIT]. lia.
  - unfold uint64_make. rewrite !u32_small by assumption. destruct v. reflexivity.
Qed.

Lemma adduint64_getuint32_witness :
  let q := sftp_pkt_adduint64 (sftp_pkt_init SSH_FXP_READ) (mk_uint64 1 32768) in
  sftp_pkt_getuint32 (received q 1) = Ok (Some 1, received q 5) /\
  sftp_pkt_getuint32 (received q 5) = Ok (Some 32768, received q 9) /\
  uint64_make 1 32768 = mk_uint64 1 32768.
Proof.
  apply (adduint64_getuint32 (sftp_pkt_init SSH_FXP_READ) (mk_uint64 1 32768)).
  - split; [reflexivity | vm_compute; reflexivity].
  - vm_compute. reflexivity.
  - unfold uint64_ok, UINT_MOD. cbn. lia.
Defined.

(** *** Attribute records that stay inside the buffer *)

Ltac establish_fits t :=
  lazymatch t with
  | sftp_pkt_adduint32 ?q ?v =>
      establish_fits q;
      let H := fresh "Hf" in
      let L := fresh "Hfl" in
      destruct (adduint32_fits q v) as [H L]; [assumption | lia | ]
  | _ => idtac
  end.

Lemma addattrs_fits (p : sftp_packet) (a : fxp_attrs) :
  pkt_fits p -> pkt_length p + 32 + 256 <= INT_MAX ->
  pkt_fits (sftp_pkt_addattrs p a).
Proof.
  intros Hp Hroom. unfold sftp_pkt_addattrs. cbv zeta.
  destruct (Z.land (at_flags a) SSH_FILEXFER_ATTR_SIZE =? 0);
    destruct (Z.land (at_flags a) SSH_FILEXFER_ATTR_UIDGID =? 0);
    destruct (Z.land (at_flags a) SSH_FILEXFER_ATTR_PERMISSIONS =? 0);
    destruct (Z.land (at_flags a) SSH_FILEXFER_ATTR_ACMODTIME =? 0);
    match goal with |- pkt_fits ?t => establish_fits t; assumption end.
Qed.

(** *** Strings *)

(** The packet after [sftp_pkt_addstring_start] and
    [sftp_pkt_addstring_data]. *)
Lemma addstring_shape (p : sftp_packet) (d : list Z) (len : Z) :
  pkt_buffer_ok p -> 0 <= len <= Z.of_nat (length d) ->
  pkt_length p + 4 + len < UINT_MOD ->
  let q := sftp_pkt_addstring_data (sftp_pkt_addstring_start p) d len in
  pkt_data q = pkt_data p ++ PUT_32BIT len ++ take (Z.to_nat len) d /\
  pkt_length q = pkt_length p + 4 + len /\
  pkt_savedpos q = pkt_length p + 4.
Proof.
  intros [Hl Hm] Hlen Hroom. cbv zeta. unfold sftp_pkt_addstring_data.
  pose proof (adddata_data (sftp_pkt_addstring_start p) d len) as Hadded.
  pose proof (adddata_length (sftp_pkt_addstring_start p) d len) as Hal.
  pose proof (adddata_savedpos (sftp_pkt_addstring_start p) d len) as Hsp.
  rewrite addstring_start_data, <- app_assoc in Hadded.
  rewrite addstring_start_length, (u32_small (pkt_length p + 4)) in Hal by lia.
  rewrite (u32_small (pkt_length p + 4 + len)) in Hal by lia.
  rewrite addstring_start_savedpos, (u32_small (pkt_length p + 4)) in Hsp by lia.
  generalize dependent (sftp_pkt_adddata (sftp_pkt_addstring_start p) d len).
  intros added Hadded Hal Hsp.
  rewrite patch_length_length, patch_length_savedpos.
  split; [|split; assumption].
  unfold patch_length. rewrite Hsp, Hal, Hadded.
  match goal with
  | |- context [(?a <=? ?b) && (?c <=? ?e)] =>
      replace (a <=? b) with true by (symmetry; apply Z.leb_le; lia);
      replace (c <=? e) with true
        by (symmetry; apply Z.leb_le; rewrite !length_app, length_take;
            cbn [length PUT_32BIT]; lia)
  end.
  cbn [andb]. unfold with_data. cbn [pkt_data].
  replace (pkt_length p + 4 + len - (pkt_length p + 4)) with len by lia.
  replace (pkt_length p + 4 - 4) with (Z.of_nat (length (pkt_data p))) by lia.
  rewrite PUT_32BIT_at_app by reflexivity.
  rewrite PUT_32BIT_u32. reflexivity.
Qed.

(** A string under the cursor. *)
Lemma getstring_at (q : sftp_packet) (pre str post : list Z) :
  pkt_buffer_ok q ->
  pkt_data q = pre ++ PUT_32BIT (Z.of_nat (length str)) ++ str ++ post ->
  pkt_savedpos q = Z.of_nat (length pre) ->
  Z.of_nat (length str) + Z.of_nat (length post) <= INT_MAX ->
  sftp_pkt_getstring q
  = Ok (mk_gs 1 (Some (pkt_savedpos q + 4)) (Some (Z.of_nat (length str)))
              (with_savedpos q (pkt_savedpos q + 4 + Z.of_nat (length str)))) /\
  borrowed q (pkt_savedpos q + 4) (Z.of_nat (length str)) = str.
Proof.
  intros Hok Hd Hpos Hint. pose proof Hok as [Hl Hm].
  assert (Hlen : pkt_length q
                 = Z.of_nat (length pre) + 4 + Z.of_nat (length str) + Z.of_nat (length post)).
  { rewrite Hl, Hd, !length_app. cbn [length PUT_32BIT]. lia. }
  assert (Hdecl : declared_length q = Z.of_nat (length str)).
  { unfold declared_length. rewrite Hd, Hpos, GET_PUT_32BIT_any. cbn [default]. unfold id.
    unfold INT_MAX in Hint.
    rewrite u32_small by (unfold UINT_MOD; lia). apply s32_small. lia. }
  split.
  - unfold sftp_pkt_getstring. unfold INT_MAX in Hint.
    rewrite (u32_small (pkt_length q - pkt_savedpos q)) by (unfold UINT_MOD in *; lia).
    destruct (Z.ltb_spec (pkt_length q - pkt_savedpos q) 4); [lia|].
    fold (declared_length q) in Hdecl.
    assert (Eg : GET_32BIT (pkt_data q) (pkt_savedpos q) = Some (Z.of_nat (length str))).
    { rewrite Hd, Hpos, GET_PUT_32BIT_any. f_equal. apply u32_small.
      unfold UINT_MOD. lia. }
    rewrite Eg. cbv zeta. cbn [with_savedpos pkt_length pkt_savedpos].
    rewrite (s32_small (Z.of_nat (length str))) by lia.
    rewrite (u32_small (pkt_savedpos q + 4)) by (unfold UINT_MOD in *; lia).
    rewrite (u32_small (pkt_length q - (pkt_savedpos q + 4))) by (unfold UINT_MOD in *; lia).
    rewrite (s32_small (pkt_length q - (pkt_savedpos q + 4))) by lia.
    destruct (Z.ltb_spec (pkt_length q - (pkt_savedpos q + 4)) (Z.of_nat (length str)));
      [lia|].
    destruct (Z.ltb_spec (Z.of_nat (length str)) 0); [lia|].
    cbn [orb pkt_data pkt_maxlen pkt_type].
    rewrite (u32_small (pkt_savedpos q + 4 + Z.of_nat (length str)))
      by (unfold UINT_MOD in *; lia).
    reflexivity.
  - unfold borrowed. rewrite Hd, Hpos, Nat2Z.id.
    replace (Z.to_nat (Z.of_nat (length pre) + 4))
      with (length (pre ++ PUT_32BIT (Z.of_nat (length str))))
      by (rewrite length_app; cbn [length PUT_32BIT]; lia).
    rewrite app_assoc, drop_app_length, take_app_length. reflexivity.
Qed.

Lemma addstring_getstring_run (p : sftp_packet) (d : list Z) (len : Z) :
  pkt_buffer_ok p -> 0 <= len <= Z.of_nat (length d) -> len <= INT_MAX ->
  pkt_length p + 4 + len < UINT_MOD ->
  let q := sftp_pkt_addstring_data (sftp_pkt_addstring_start p) d len in
  sftp_pkt_getstring (received q (pkt_length p))
  = Ok (mk_gs 1 (Some (pkt_length p + 4)) (Some len)
              (received q (pkt_length p + 4 + len))) /\
  borrowed (received q (pkt_length p)) (pkt_length p + 4) len = take (Z.to_nat len) d.
Proof.
  intros Hok Hlen Hint Hroom q.
  destruct (addstring_shape p d len Hok Hlen Hroom) as (Hd & Hql & _). fold q in Hd, Hql.
  clearbody q.
  assert (Etake : Z.of_nat (length (take (Z.to_nat len) d)) = len).
  { rewrite length_take. lia. }
  destruct (getstring_at (received q (pkt_length p)) (pkt_data p)
                         (take (Z.to_nat len) d) []) as [Hg Hb].
  - split; cbn [received pkt_length pkt_data].
    + rewrite Hql, Hd, !length_app, !Nat2Z.inj_add, Etake. destruct Hok as [Hl _].
      cbn [length PUT_32BIT]. lia.
    + lia.
  - cbn [received pkt_data]. rewrite Hd, Etake, app_nil_r. reflexivity.
  - destruct Hok as [Hl _]. exact Hl.
  - cbn [length]. lia.
  - rewrite Etake in Hg, Hb. cbn [received pkt_savedpos] in Hg, Hb.
    split; [rewrite Hg; reflexivity | exact Hb].
Qed.

(** X3: a string written by [sftp_pkt_addstring_start] and
    [sftp_pkt_addstring_data] into a packet that stays below 2^31 - 256
    bytes is read back by [sftp_pkt_getstring].  Within that size every
    append grows the buffer as needed, so the packet built lies inside its
    buffer; the getter returns 1 with the same length, the borrow starts
    after the length word and holds exactly the bytes written, and the cursor
    ends behind them. *)
Theorem addstring_getstring (p : sftp_packet) (d : list Z) (len : Z) :
  pkt_buffer_ok p -> pkt_fits p -> 0 <= len <= Z.of_nat (length d) ->
  pkt_length p + 4 + len + 256 <= INT_MAX ->
  let q := sftp_pkt_addstring_data (sftp_pkt_addstring_start p) d len in
  pkt_fits q /\
  sftp_pkt_getstring (received q (pkt_length p))
  = Ok (mk_gs 1 (Some (pkt_length p + 4)) (Some len)
              (received q (pkt_length p + 4 + len))) /\
  borrowed (received q (pkt_length p)) (pkt_length p + 4) len = take (Z.to_nat len) d.
Proof.
  intros Hok Hfits Hlen Hroom q.
  destruct (addstring_fits p d len Hfits (proj1 Hlen) Hroom) as [Hq _].
  split; [exact Hq|].
  destruct Hfits as [[H0 _] _].
  apply (addstring_getstring_run p d len Hok Hlen); unfold INT_MAX, UINT_MOD in *; lia.
Qed.

Lemma addstring_getstring_witness :
  let q := sftp_pkt_addstring_data
             (sftp_pkt_addstring_start (sftp_pkt_init SSH_FXP_CLOSE)) [7; 0; 9; 0] 3 in
  pkt_fits q /\
  sftp_pkt_getstring (received q 1) = Ok (mk_gs 1 (Some 5) (Some 3) (received q 8)) /\
  borrowed (received q 1) 5 3 = [7; 0; 9].
Proof.
  apply (addstring_getstring (sftp_pkt_init SSH_FXP_CLOSE) [7; 0; 9; 0] 3).
  - split; [reflexivity | vm_compute; reflexivity].
  - apply init_fits.
  - cbn. lia.
  - vm_compute. discriminate.
Defined.

(** *** C strings *)

Lemma strlen_spec (str rest : list Z) :
  Forall (fun c => uchar c <> 0) str ->
  strlen (str ++ 0 :: rest) = Ok (Z.of_nat (length str)).
Proof.
  induction 1 as [|c str Hc _ IH]; [reflexivity|].
  cbn [app strlen]. destruct (Z.eqb_spec (uchar c) 0) as [E|_]; [contradiction|].
  rewrite IH. cbn [obind length]. f_equal. lia.
Qed.

Lemma strlen_no_NUL (s : list Z) :
  Forall (fun c => uchar c <> 0) s -> strlen s = Fault Overrun.
Proof.
  induction 1 as [|c s Hc _ IH]; [reflexivity|].
  cbn [strlen]. destruct (Z.eqb_spec (uchar c) 0) as [E|_]; [contradiction|].
  rewrite IH. reflexivity.
Qed.

(** X4: [sftp_pkt_addstring] writes a C string as the bytes before its
    first NUL, preceded by their count.  While the packet stays below
    2^31 - 256 bytes it lies inside its buffer, [sftp_pkt_getstring] reads
    exactly those bytes back, and what follows the NUL in the caller's buffer
    never reaches the packet.  On a buffer without a NUL, [strlen] runs off
    its end. *)
Theorem addstring_cstring (p : sftp_packet) (str rest : list Z) :
  pkt_buffer_ok p -> pkt_fits p -> Forall (fun c => uchar c <> 0) str ->
  pkt_length p + 4 + Z.of_nat (length str) + 256 <= INT_MAX ->
  (exists q,
     sftp_pkt_addstring p (str ++ 0 :: rest) = Ok q /\
     pkt_fits q /\
     pkt_data q = pkt_data p ++ PUT_32BIT (Z.of_nat (length str)) ++ str /\
     sftp_pkt_getstring (received q (pkt_length p))
     = Ok (mk_gs 1 (Some (pkt_length p + 4)) (Some (Z.of_nat (length str)))
                 (received q (pkt_length q))) /\
     borrowed (received q (pkt_length p)) (pkt_length p + 4) (Z.of_nat (length str)) = str) /\
  sftp_pkt_addstring p str = Fault Overrun.
Proof.
  intros Hok Hfits Hstr Hroom0.
  assert (Hint : Z.of_nat (length str) <= INT_MAX).
  { destruct Hfits as [[H0 _] _]. lia. }
  assert (Hroom : pkt_length p + 4 + Z.of_nat (length str) < UINT_MOD).
  { unfold INT_MAX, UINT_MOD in *. lia. }
  split.
  - set (d := str ++ 0 :: rest).
    assert (Hlen : 0 <= Z.of_nat (length str) <= Z.of_nat (length d)).
    { subst d. rewrite length_app. lia. }
    assert (Etake : take (Z.to_nat (Z.of_nat (length str))) d = str).
    { subst d. rewrite Nat2Z.id, take_app_length. reflexivity. }
    exists (sftp_pkt_addstring_data (sftp_pkt_addstring_start p) d (Z.of_nat (length str))).
    split.
    { unfold sftp_pkt_addstring, sftp_pkt_addstring_str. subst d.
      rewrite strlen_spec by exact Hstr. cbn [obind].
      rewrite s32_small by (unfold INT_MAX in Hint; lia).
      unfold sftp_pkt_addstring_data. reflexivity. }
    destruct (addstring_fits p d _ Hfits (proj1 Hlen) Hroom0) as [Hq _].
    split; [exact Hq|].
    destruct (addstring_shape p d _ Hok Hlen Hroom) as (Hd & Hql & _).
    destruct (addstring_getstring_run p d _ Hok Hlen Hint Hroom) as [Hg Hb].
    rewrite Etake in Hd, Hb. rewrite Hql.
    split; [exact Hd|]. split; [exact Hg | exact Hb].
  - unfold sftp_pkt_addstring, sftp_pkt_addstring_str.
    rewrite strlen_no_NUL by exact Hstr. reflexivity.
Qed.

Lemma addstring_cstring_witness :
  (exists q,
     sftp_pkt_addstring (sftp_pkt_init SSH_FXP_STAT) ([47; 97] ++ 0 :: [98]) = Ok q /\
     pkt_fits q /\
     pkt_data q = pkt_data (sftp_pkt_init SSH_FXP_STAT) ++ PUT_32BIT 2 ++ [47; 97] /\
     sftp_pkt_getstring (received q 1)
     = Ok (mk_gs 1 (Some 5) (Some 2) (received q (pkt_length q))) /\
     borrowed (received q 1) 5 2 = [47; 97]) /\
  sftp_pkt_addstring (sftp_pkt_init SSH_FXP_STAT) [47; 97] = Fault Overrun.
Proof.
  apply (addstring_cstring (sftp_pkt_init SSH_FXP_STAT) [47; 97] [98]).
  - split; [reflexivity | vm_compute; reflexivity].
  - apply init_fits.
  - repeat constructor; vm_compute; discriminate.
  - vm_compute. discriminate.
Defined.

(** *** Attribute records *)

(** One optional word of the record, under the cursor when its flag is
    set in the flags word [fl] read before. *)
Lemma getattrs_field_step (flag : Z) (set : fxp_attrs -> Z -> fxp_attrs)
    (a : fxp_attrs) (fl : Z) (Q : sftp_packet) (pre post : list Z) (v : Z) :
  at_flags a = fl -> pkt_buffer_ok Q ->
  pkt_data Q = pre ++ (if Z.land fl flag =? 0 then [] else PUT_32BIT v) ++ post ->
  0 <= v < UINT_MOD ->
  getattrs_field flag set (true, a, received Q (Z.of_nat (length pre)))
  = Ok (true,
        (if Z.land fl flag =? 0 then a else set a v),
        received Q (Z.of_nat
                      (length (pre ++ (if Z.land fl flag =? 0 then []
                                       else PUT_32BIT v))))).
Proof.
  intros Hfl Hok Hd Hv. unfold getattrs_field. rewrite Hfl.
  destruct (Z.land fl flag =? 0).
  - rewrite app_nil_r. reflexivity.
  - rewrite (getuint32_at (received Q (Z.of_nat (length pre))) pre post v);
      [| exact Hok | exact Hd | reflexivity].
    cbn [obind]. rewrite u32_small by exact Hv.
    rewrite length_app. cbn [length PUT_32BIT received with_savedpos pkt_savedpos
                                    pkt_data pkt_length pkt_maxlen pkt_type].
    repeat f_equal. lia.
Qed.

(** The two words of the size, under the cursor when SIZE is set. *)
Lemma getattrs_size_step (a : fxp_attrs) (fl : Z) (Q : sftp_packet) (pre post : list Z)
    (h l : Z) :
  at_flags a = fl -> pkt_buffer_ok Q ->
  pkt_data Q
  = pre ++ (if Z.land fl SSH_FILEXFER_ATTR_SIZE =? 0 then []
            else PUT_32BIT h ++ PUT_32BIT l) ++ post ->
  0 <= h < UINT_MOD -> 0 <= l < UINT_MOD ->
  getattrs_size (true, a, received Q (Z.of_nat (length pre)))
  = Ok (true,
        (if Z.land fl SSH_FILEXFER_ATTR_SIZE =? 0 then a
         else mk_attrs (at_flags a) (mk_uint64 h l) (at_uid a) (at_gid a)
                       (at_permissions a) (at_atime a) (at_mtime a)),
        received Q (Z.of_nat
                      (length (pre ++ (if Z.land fl SSH_FILEXFER_ATTR_SIZE =? 0
                                       then [] else PUT_32BIT h ++ PUT_32BIT l))))).
Proof.
  intros Hfl Hok Hd Hh Hl. unfold getattrs_size. rewrite Hfl.
  destruct (Z.land fl SSH_FILEXFER_ATTR_SIZE =? 0).
  - rewrite app_nil_r. reflexivity.
  - rewrite (getuint32_at (received Q (Z.of_nat (length pre))) pre (PUT_32BIT l ++ post) h);
      [| exact Hok | cbn [received pkt_data]; rewrite Hd, <- app_assoc; reflexivity
       | reflexivity].
    cbn [obind].
    change (with_savedpos (received Q (Z.of_nat (length pre)))
                          (pkt_savedpos (received Q (Z.of_nat (length pre))) + 4))
      with (received Q (Z.of_nat (length pre) + 4)).
    rewrite (getuint32_at (received Q (Z.of_nat (length pre) + 4))
                          (pre ++ PUT_32BIT h) post l);
      [| exact Hok
       | cbn [received pkt_data]; rewrite Hd, <- !app_assoc; reflexivity
       | cbn [received pkt_savedpos]; rewrite length_app; cbn [length PUT_32BIT]; lia].
    cbn [obind with_savedpos received pkt_savedpos pkt_data pkt_length pkt_maxlen pkt_type].
    rewrite (u32_small h), (u32_small l) by assumption.
    unfold uint64_make. rewrite (u32_small h), (u32_small l) by assumption.
    unfold with_savedpos, received. cbn [pkt_data pkt_length pkt_maxlen pkt_type].
    rewrite !length_app. cbn [length PUT_32BIT].
    repeat f_equal. lia.
Qed.

Lemma addattrs_data (p : sftp_packet) (a : fxp_attrs) :
  pkt_data (sftp_pkt_addattrs p a)
  = pkt_data p ++ PUT_32BIT (at_flags a)
    ++ (if Z.land (at_flags a) SSH_FILEXFER_ATTR_SIZE =? 0 then []
        else PUT_32BIT (hi (at_size a)) ++ PUT_32BIT (lo (at_size a)))
    ++ (if Z.land (at_flags a) SSH_FILEXFER_ATTR_UIDGID =? 0 then []
        else PUT_32BIT (at_uid a))
    ++ (if Z.land (at_flags a) SSH_FILEXFER_ATTR_UIDGID =? 0 then []
        else PUT_32BIT (at_gid a))
    ++ (if Z.land (at_flags a) SSH_FILEXFER_ATTR_PERMISSIONS =? 0 then []
        else PUT_32BIT (at_permissions a))
    ++ (if Z.land (at_flags a) SSH_FILEXFER_ATTR_ACMODTIME =? 0 then []
        else PUT_32BIT (at_atime a))
    ++ (if Z.land (at_flags a) SSH_FILEXFER_ATTR_ACMODTIME =? 0 then []
        else PUT_32BIT (at_mtime a)).
Proof.
  unfold sftp_pkt_addattrs. cbv zeta.
  destruct (Z.land (at_flags a) SSH_FILEXFER_ATTR_SIZE =? 0);
    destruct (Z.land (at_flags a) SSH_FILEXFER_ATTR_UIDGID =? 0);
    destruct (Z.land (at_flags a) SSH_FILEXFER_ATTR_PERMISSIONS =? 0);
    destruct (Z.land (at_flags a) SSH_FILEXFER_ATTR_ACMODTIME =? 0);
    rewrite !adduint32_data, <- ?app_assoc, ?app_nil_l, ?app_nil_r; reflexivity.
Qed.

Lemma length_PUT_32BIT (v : Z) : length (PUT_32BIT v) = 4%nat.
Proof. reflexivity. Qed.

Lemma length_opt_word (c : bool) (v : Z) :
  (length (if c then [] else PUT_32BIT v) <= 4)%nat.
Proof. destruct c; cbn; lia. Qed.

Ltac establish_adduint32 t :=
  lazymatch t with
  | sftp_pkt_adduint32 ?q ?v =>
      establish_adduint32 q;
      let H := fresh "Hb" in
      let L := fresh "Hl" in
      destruct (adduint32_buffer_ok q v) as [H L]; [assumption | lia | ]
  | _ => idtac
  end.

Lemma addattrs_buffer_ok (p : sftp_packet) (a : fxp_attrs) :
  pkt_buffer_ok p -> pkt_length p + 32 < UINT_MOD ->
  pkt_buffer_ok (sftp_pkt_addattrs p a).
Proof.
  intros Hok Hroom. unfold sftp_pkt_addattrs. cbv zeta.
  destruct (Z.land (at_flags a) SSH_FILEXFER_ATTR_SIZE =? 0);
    destruct (Z.land (at_flags a) SSH_FILEXFER_ATTR_UIDGID =? 0);
    destruct (Z.land (at_flags a) SSH_FILEXFER_ATTR_PERMISSIONS =? 0);
    destruct (Z.land (at_flags a) SSH_FILEXFER_ATTR_ACMODTIME =? 0);
    match goal with |- pkt_buffer_ok ?t => establish_adduint32 t; assumption end.
Qed.

Lemma getuint32_at_end (Q : sftp_packet) :
  pkt_buffer_ok Q ->
  sftp_pkt_getuint32 (received Q (pkt_length Q)) = Ok (None, received Q (pkt_length Q)).
Proof.
  intros _. unfold sftp_pkt_getuint32. cbn [received pkt_length pkt_savedpos].
  rewrite Z.sub_diag. reflexivity.
Qed.

Lemma if_set_size (c : bool) (a : fxp_attrs) (sz : uint64) :
  (if c then a
   else mk_attrs (at_flags a) sz (at_uid a) (at_gid a) (at_permissions a)
                 (at_atime a) (at_mtime a))
  = mk_attrs (at_flags a) (if c then at_size a else sz) (at_uid a) (at_gid a)
             (at_permissions a) (at_atime a) (at_mtime a).
Proof. destruct a, c; reflexivity. Qed.

Lemma if_set_uid (c : bool) (a : fxp_attrs) (v : Z) :
  (if c then a else set_uid a v)
  = mk_attrs (at_flags a) (at_size a) (if c then at_uid a else v) (at_gid a)
             (at_permissions a) (at_atime a) (at_mtime a).
Proof. destruct a, c; reflexivity. Qed.

Lemma if_set_gid (c : bool) (a : fxp_attrs) (v : Z) :
  (if c then a else set_gid a v)
  = mk_attrs (at_flags a) (at_size a) (at_uid a) (if c then at_gid a else v)
             (at_permissions a) (at_atime a) (at_mtime a).
Proof. destruct a, c; reflexivity. Qed.

Lemma if_set_permissions (c : bool) (a : fxp_attrs) (v : Z) :
  (if c then a else set_permissions a v)
  = mk_attrs (at_flags a) (at_size a) (at_uid a) (at_gid a)
             (if c then at_permissions a else v) (at_atime a) (at_mtime a).
Proof. destruct a, c; reflexivity. Qed.

Lemma if_set_atime (c : bool) (a : fxp_attrs) (v : Z) :
  (if c then a else set_atime a v)
  = mk_attrs (at_flags a) (at_size a) (at_uid a) (at_gid a)
             (at_permissions a) (if c then at_atime a else v) (at_mtime a).
Proof. destruct a, c; reflexivity. Qed.

Lemma if_set_mtime (c : bool) (a : fxp_attrs) (v : Z) :
  (if c then a else set_mtime a v)
  = mk_attrs (at_flags a) (at_size a) (at_uid a) (at_gid a)
             (at_permissions a) (at_atime a) (if c then at_mtime a else v).
Proof. destruct a, c; reflexivity. Qed.

Ltac attrs_step :=
  cbn [obind];
  rewrite ?if_set_size, ?if_set_uid, ?if_set_gid, ?if_set_permissions,
    ?if_set_atime, ?if_set_mtime;
  cbn [at_flags at_size at_uid at_gid at_permissions at_atime at_mtime set_flags].

(** What [sftp_pkt_getattrs] makes of the record [sftp_pkt_addattrs]
    wrote. *)
Lemma addattrs_getattrs_run (p : sftp_packet) (a b : fxp_attrs) :
  pkt_buffer_ok p -> pkt_length p + 32 < UINT_MOD -> attrs_ok a ->
  let q := sftp_pkt_addattrs p a in
  sftp_pkt_getattrs (received q (pkt_length p)) b
  = Ok (if Z.land (at_flags a) SSH_FILEXFER_ATTR_EXTENDED =? 0 then 1 else 0,
        attrs_merge a b, received q (pkt_length q)).
Proof.
  intros Hok Hroom Ha q.
  pose proof (addattrs_buffer_ok p a Hok Hroom) as Hq. fold q in Hq.
  pose proof (addattrs_data p a) as Hd. fold q in Hd.
  destruct a as [fl [h l] uid gid perm at_ mt].
  destruct Ha as (Hfl & [Hh Hl] & Huid & Hgid & Hperm & Hat & Hmt).
  cbn [at_flags at_size at_uid at_gid at_permissions at_atime at_mtime hi lo] in *.
  rewrite <- (app_nil_r (if Z.land fl SSH_FILEXFER_ATTR_ACMODTIME =? 0 then []
                         else PUT_32BIT mt)) in Hd.
  assert (Hlq : pkt_length q = Z.of_nat (length (pkt_data q))) by apply Hq.
  clearbody q.
  destruct Hok as [Hlp _].
  unfold sftp_pkt_getattrs. rewrite Hlp.
  erewrite (getuint32_at (received q (Z.of_nat (length (pkt_data p)))) (pkt_data p) _ fl);
    [| exact Hq | exact Hd | reflexivity].
  cbn [obind]. rewrite (u32_small fl) by exact Hfl.
  change (with_savedpos (received q (Z.of_nat (length (pkt_data p))))
            (pkt_savedpos (received q (Z.of_nat (length (pkt_data p)))) + 4))
    with (received q (Z.of_nat (length (pkt_data p)) + 4)).
  replace (Z.of_nat (length (pkt_data p)) + 4)
    with (Z.of_nat (length (pkt_data p ++ PUT_32BIT fl)))
    by (rewrite length_app; cbn [length PUT_32BIT]; lia).
  erewrite (getattrs_size_step _ fl);
    [| reflexivity | exact Hq | rewrite Hd, <- ?app_assoc; reflexivity | exact Hh | exact Hl].
  attrs_step.
  erewrite (getattrs_field_step SSH_FILEXFER_ATTR_UIDGID set_uid _ fl);
    [| reflexivity | exact Hq | rewrite Hd, <- ?app_assoc; reflexivity | exact Huid].
  attrs_step.
  erewrite (getattrs_field_step SSH_FILEXFER_ATTR_UIDGID set_gid _ fl);
    [| reflexivity | exact Hq | rewrite Hd, <- ?app_assoc; reflexivity | exact Hgid].
  attrs_step.
  erewrite (getattrs_field_step SSH_FILEXFER_ATTR_PERMISSIONS set_permissions _ fl);
    [| reflexivity | exact Hq | rewrite Hd, <- ?app_assoc; reflexivity | exact Hperm].
  attrs_step.
  erewrite (getattrs_field_step SSH_FILEXFER_ATTR_ACMODTIME set_atime _ fl);
    [| reflexivity | exact Hq | rewrite Hd, <- ?app_assoc; reflexivity | exact Hat].
  attrs_step.
  erewrite (getattrs_field_step SSH_FILEXFER_ATTR_ACMODTIME set_mtime _ fl _ _ []);
    [| reflexivity | exact Hq | rewrite Hd, <- ?app_assoc; reflexivity | exact Hmt].
  attrs_step.
  match goal with
  | |- context [received q (Z.of_nat (length ?x))] =>
      replace x with (pkt_data q) by (rewrite Hd, <- ?app_assoc, ?app_nil_r; reflexivity)
  end.
  rewrite <- Hlq. clear Hd.
  destruct (Z.land fl SSH_FILEXFER_ATTR_EXTENDED =? 0);
    [reflexivity | rewrite (getuint32_at_end q Hq); reflexivity].
Qed.

(** X5: an attribute record without the EXTENDED flag that
    [sftp_pkt_addattrs] wrote is accepted by [sftp_pkt_getattrs], which
    returns 1, consumes exactly the record, and stores the flags and every
    field the flags announce; fields whose flag is clear are neither sent nor
    touched in the caller's record. *)
Theorem addattrs_getattrs (p : sftp_packet) (a b : fxp_attrs) :
  pkt_buffer_ok p -> pkt_length p + 32 < UINT_MOD -> attrs_ok a ->
  Z.land (at_flags a) SSH_FILEXFER_ATTR_EXTENDED = 0 ->
  let q := sftp_pkt_addattrs p a in
  sftp_pkt_getattrs (received q (pkt_length p)) b
  = Ok (1, attrs_merge a b, received q (pkt_length q)).
Proof.
  intros Hok Hroom Ha Hext q.
  pose proof (addattrs_getattrs_run p a b Hok Hroom Ha) as Hrun.
  cbv zeta in Hrun. fold q in Hrun. rewrite Hext in Hrun. exact Hrun.
Qed.

Lemma addattrs_getattrs_witness :
  let q := sftp_pkt_addattrs (sftp_pkt_init SSH_FXP_ATTRS) attrs_example in
  sftp_pkt_getattrs (received q 1) attrs0
  = Ok (1, attrs_merge attrs_example attrs0, received q (pkt_length q)).
Proof.
  apply (addattrs_getattrs (sftp_pkt_init SSH_FXP_ATTRS) attrs_example attrs0).
  - split; [reflexivity | vm_compute; reflexivity].
  - vm_compute. reflexivity.
  - unfold attrs_ok, uint64_ok, UINT_MOD. cbn. lia.
  - reflexivity.
Defined.

(** X6: [sftp_pkt_addattrs] sends the flags word as it is but never any
    extended attributes, not even their count.  So a record whose flags
    carry EXTENDED, at the end of a packet, is refused by
    [sftp_pkt_getattrs]: it returns 0 after having stored the announced
    fields. *)
Theorem addattrs_extended_refused (p : sftp_packet) (a b : fxp_attrs) :
  pkt_buffer_ok p -> pkt_length p + 32 < UINT_MOD -> attrs_ok a ->
  Z.land (at_flags a) SSH_FILEXFER_ATTR_EXTENDED <> 0 ->
  let q := sftp_pkt_addattrs p a in
  sftp_pkt_getattrs (received q (pkt_length p)) b
  = Ok (0, attrs_merge a b, received q (pkt_length q)).
Proof.
  intros Hok Hroom Ha Hext q.
  pose proof (addattrs_getattrs_run p a b Hok Hroom Ha) as Hrun.
  cbv zeta in Hrun. fold q in Hrun.
  destruct (Z.eqb_spec (Z.land (at_flags a) SSH_FILEXFER_ATTR_EXTENDED) 0) as [E|_];
    [contradiction | exact Hrun].
Qed.

Lemma addattrs_extended_refused_witness :
  let a := mk_attrs 2147483652 (mk_uint64 0 0) 0 0 420 0 0 in
  let q := sftp_pkt_addattrs (sftp_pkt_init SSH_FXP_SETSTAT) a in
  sftp_pkt_getattrs (received q 1) attrs0
  = Ok (0, attrs_merge a attrs0, received q (pkt_length q)).
Proof.
  apply (addattrs_extended_refused (sftp_pkt_init SSH_FXP_SETSTAT)
           (mk_attrs 2147483652 (mk_uint64 0 0) 0 0 420 0 0) attrs0).
  - split; [reflexivity | vm_compute; reflexivity].
  - vm_compute. reflexivity.
  - unfold attrs_ok, uint64_ok, UINT_MOD. cbn. lia.
  - vm_compute. discriminate.
Defined.

(** ** Framing: [sftp_send] and [sftp_recv] *)

Lemma sftp_send_down (p : sftp_packet) (s : sftp_state) :
  link_up s = false -> sftp_send p s = Ok (0, put_event (EvPktFree p) s).
Proof.
  intros Hdown. unfold sftp_send, bind, sftp_senddata. rewrite Hdown. reflexivity.
Qed.

Lemma GET_32BIT_take (input : list Z) :
  GET_32BIT (take 4 input) 0 = GET_32BIT input 0.
Proof.
  unfold GET_32BIT.
  change (Z.to_nat 0) with 0%nat. change (Z.to_nat (0 + 1)) with 1%nat.
  change (Z.to_nat (0 + 2)) with 2%nat. change (Z.to_nat (0 + 3)) with 3%nat.
  rewrite !lookup_take_lt by lia. reflexivity.
Qed.

Lemma sftp_recvdata_short (input : list Z) (len : Z) :
  Z.of_nat (length input) < len -> sftp_recvdata input len = None.
Proof.
  intros H. unfold sftp_recvdata. destruct (Z.ltb_spec (Z.of_nat (length input)) len); [|lia].
  reflexivity.
Qed.

Lemma sftp_recvdata_enough (input : list Z) (len : Z) :
  len <= Z.of_nat (length input) ->
  sftp_recvdata input len = Some (take (Z.to_nat len) input, drop (Z.to_nat len) input).
Proof.
  intros H. unfold sftp_recvdata. destruct (Z.ltb_spec (Z.of_nat (length input)) len); [lia|].
  reflexivity.
Qed.

(** The outcomes of [sftp_recv] by the input at hand. *)
Lemma sftp_recv_outcomes (input : list Z) (s : sftp_state) :
  (Z.of_nat (length input) < 4 -> sftp_recv input s = Ok ((None, input), s)) /\
  (forall n, 4 <= Z.of_nat (length input) -> GET_32BIT input 0 = Some n ->
     (Z.of_nat (length input) - 4 < n \/ n = 0 ->
      exists pkt, pkt_length pkt = n /\
        sftp_recv input s = Ok ((None, drop 4 input), put_event (EvPktFree pkt) s)) /\
     (0 < n <= Z.of_nat (length input) - 4 ->
      sftp_recv input s
      = Ok ((Some (mk_packet (take (Z.to_nat n) (drop 4 input)) n n 1
                             (uchar (default 0 (input !! 4%nat)))),
             drop (4 + Z.to_nat n) input), s))).
Proof.
  split.
  - intros Hshort. unfold sftp_recv. rewrite sftp_recvdata_short by exact Hshort.
    reflexivity.
  - intros n H4 Hn. pose proof (GET_32BIT_range _ _ _ Hn) as Hrange.
    unfold sftp_recv. rewrite (sftp_recvdata_enough input 4) by exact H4.
    change (Z.to_nat 4) with 4%nat. rewrite GET_32BIT_take, Hn.
    cbv zeta. cbn [pkt_length].
    split.
    + intros [Hcut | ->].
      * rewrite sftp_recvdata_short by (rewrite length_drop; lia).
        eexists. split; [|reflexivity]. reflexivity.
      * rewrite sftp_recvdata_enough by lia.
        eexists. split; [|reflexivity]. reflexivity.
    + intros Hn'. rewrite sftp_recvdata_enough by (rewrite length_drop; lia).
      unfold bind, lift, sftp_pkt_getbyte, with_data.
      cbn [pkt_length pkt_savedpos pkt_data pkt_maxlen pkt_type].
      rewrite Z.sub_0_r, (u32_small n) by exact Hrange.
      destruct (Z.ltb_spec n 1); [lia|].
      change (Z.to_nat 0) with 0%nat.
      destruct (lookup_lt_is_Some_2 input 4) as [b Eb]; [lia|].
      rewrite lookup_take_lt by lia. rewrite lookup_drop, Nat.add_0_r, Eb.
      cbn [default]. unfold id, ret, with_savedpos. cbn [pkt_data pkt_length pkt_maxlen].
      rewrite drop_drop. reflexivity.
Qed.

(** X7: [sftp_recv] hands out a packet only for a complete frame of at
    least one byte: the length word counts the type byte and the payload, the
    packet holds exactly that many bytes, its type is the first of them and
    its cursor stands behind it.  With fewer than four bytes of input it
    returns NULL without allocating; when the body is cut short, or the
    frame is empty, it returns NULL after freeing the packet it had
    allocated. *)
Theorem sftp_recv_cases (input : list Z) (s : sftp_state) :
  (Z.of_nat (length input) < 4 -> sftp_recv input s = Ok ((None, input), s)) /\
  (forall n, 4 <= Z.of_nat (length input) -> GET_32BIT input 0 = Some n ->
     (Z.of_nat (length input) - 4 < n \/ n = 0 ->
      exists pkt, pkt_length pkt = n /\
        sftp_recv input s = Ok ((None, drop 4 input), put_event (EvPktFree pkt) s)) /\
     (0 < n <= Z.of_nat (length input) - 4 ->
      sftp_recv input s
      = Ok ((Some (mk_packet (take (Z.to_nat n) (drop 4 input)) n n 1
                             (uchar (default 0 (input !! 4%nat)))),
             drop (4 + Z.to_nat n) input), s))).
Proof. exact (sftp_recv_outcomes input s). Qed.

Lemma sftp_recv_cases_witness :
  sftp_recv [0; 0; 0; 5; 2; 0; 0; 0; 3; 101] initial_state
  = Ok ((Some (mk_packet [2; 0; 0; 0; 3] 5 5 1 2), [101]), initial_state) /\
  exists pkt, pkt_length pkt = 0 /\
    sftp_recv [0; 0; 0; 0; 2] initial_state
    = Ok ((None, [2]), put_event (EvPktFree pkt) initial_state).
Proof.
  split.
  - apply (proj2 (sftp_recv_cases [0; 0; 0; 5; 2; 0; 0; 0; 3; 101] initial_state) 5);
      [cbn; lia | reflexivity | cbn; lia].
  - apply (proj2 (sftp_recv_cases [0; 0; 0; 0; 2] initial_state) 0);
      [cbn; lia | reflexivity | right; reflexivity].
Defined.

(** The frame of a packet, as input. *)
Lemma sftp_recv_frame (p : sftp_packet) (rest : list Z) (s : sftp_state) :
  pkt_buffer_ok p -> 1 <= pkt_length p ->
  sftp_recv (frame p ++ rest) s = Ok ((Some (received p 1), rest), s).
Proof.
  intros [Hl Hm] H1.
  assert (Htake : take (Z.to_nat (pkt_length p)) (pkt_data p) = pkt_data p).
  { apply take_ge. lia. }
  assert (Hlen : length (frame p ++ rest) = (4 + (length (pkt_data p) + length rest))%nat).
  { unfold frame. rewrite Htake, !length_app. reflexivity. }
  assert (Hn : GET_32BIT (frame p ++ rest) 0 = Some (pkt_length p)).
  { unfold frame. rewrite <- app_assoc.
    apply (GET_PUT_32BIT [] _ (pkt_length p)). lia. }
  destruct (sftp_recv_outcomes (frame p ++ rest) s) as [_ Hcases].
  destruct (Hcases (pkt_length p)) as [_ Hgood]; [lia | exact Hn |].
  rewrite Hgood by lia. unfold frame. rewrite Htake, <- app_assoc.
  change (PUT_32BIT (pkt_length p) ++ pkt_data p ++ rest)
    with ([uchar (Z.shiftr (pkt_length p) 24); uchar (Z.shiftr (pkt_length p) 16);
           uchar (Z.shiftr (pkt_length p) 8); uchar (pkt_length p)]
          ++ pkt_data p ++ rest).
  rewrite (drop_app_length' _ _ 4) by reflexivity.
  replace (4 + Z.to_nat (pkt_length p))%nat
    with (length ([uchar (Z.shiftr (pkt_length p) 24); uchar (Z.shiftr (pkt_length p) 16);
                   uchar (Z.shiftr (pkt_length p) 8); uchar (pkt_length p)]
                  ++ pkt_data p))
    by (rewrite length_app; cbn [length]; lia).
  rewrite app_assoc, drop_app_length, <- app_assoc.
  rewrite (lookup_app_r _ _ 4) by (cbn [length]; lia).
  change (4 - length [uchar (Z.shiftr (pkt_length p) 24); uchar (Z.shiftr (pkt_length p) 16);
                      uchar (Z.shiftr (pkt_length p) 8); uchar (pkt_length p)])%nat
    with 0%nat.
  replace (Z.to_nat (pkt_length p)) with (length (pkt_data p)) by lia.
  rewrite take_app_length.
  unfold received.
  destruct (pkt_data p) as [|b d] eqn:Ed; [cbn [length] in Hl; lia|].
  reflexivity.
Qed.

(** X8: what [sftp_send] puts on a live link, [sftp_recv] reads back as
    the same packet: the wire grows by the frame of the packet, the packet
    is freed, and feeding that frame to [sftp_recv] yields the bytes, the
    length and the type byte that were sent, with the cursor behind the
    type.  On a dead link [sftp_send] returns 0, writes nothing, and still
    frees the packet. *)
Theorem sftp_send_recv (p : sftp_packet) (s : sftp_state) :
  pkt_buffer_ok p -> 1 <= pkt_length p ->
  (link_up s = true ->
   sftp_send p s = Ok (1, put_event (EvPktFree p) (put_wire (wire s ++ frame p) s))) /\
  (link_up s = false -> sftp_send p s = Ok (0, put_event (EvPktFree p) s)) /\
  (forall rest s0, sftp_recv (frame p ++ rest) s0 = Ok ((Some (received p 1), rest), s0)).
Proof.
  intros Hok H1. split; [|split].
  - intros Hup. apply sftp_send_up. exact Hup.
  - apply sftp_send_down.
  - intros rest s0. apply sftp_recv_frame; assumption.
Qed.

Lemma sftp_send_recv_witness :
  let p := sftp_pkt_adduint32 (sftp_pkt_init SSH_FXP_INIT) SFTP_PROTO_VERSION in
  sftp_send p initial_state
  = Ok (1, put_event (EvPktFree p) (put_wire (wire initial_state ++ frame p) initial_state)) /\
  sftp_recv (frame p ++ [9]) initial_state = Ok ((Some (received p 1), [9]), initial_state).
Proof.
  destruct (sftp_send_recv
              (sftp_pkt_adduint32 (sftp_pkt_init SSH_FXP_INIT) SFTP_PROTO_VERSION)
              initial_state) as (Hup & _ & Hrecv).
  - split; [reflexivity | vm_compute; reflexivity].
  - vm_compute. discriminate.
  - split; [apply Hup; reflexivity | apply Hrecv].
Defined.

(** ** The version exchange *)

(** The INIT packet and what [fxp_init] does before it reads the reply. *)
Lemma fxp_init_send (s : sftp_state) :
  exists v s1,
    sftp_send (sftp_pkt_adduint32 (sftp_pkt_init SSH_FXP_INIT) SFTP_PROTO_VERSION) s
    = Ok (v, s1) /\
    fxp_errtype s1 = fxp_errtype s /\ fxp_error_message s1 = fxp_error_message s /\
    sftp_requests s1 = sftp_requests s /\ heap s1 = heap s /\
    (link_up s = true -> wire s1 = wire s ++ [0; 0; 0; 5; 1; 0; 0; 0; 3]) /\
    (link_up s = false -> wire s1 = wire s) /\
    exists e, trace s1 = trace s ++ [e].
Proof.
  destruct (link_up s) eqn:Hup.
  - rewrite sftp_send_up by exact Hup. eexists _, _. split; [reflexivity|].
    repeat split; try discriminate; eauto.
  - rewrite sftp_send_down by exact Hup. eexists _, _. split; [reflexivity|].
    repeat split; try discriminate; eauto.
Qed.

(** X9: [fxp_init] succeeds exactly on a VERSION reply that carries a
    version of at most 3.  It then leaves the error channel alone and has
    freed the reply; extension data after the version is ignored.  A higher
    version gives 0 with the error "remote protocol is more advanced than we
    support".  On a live link the INIT frame 00 00 00 05 01 00 00 00 03 went
    out first; whether it could be sent has no influence on the result. *)
Theorem fxp_init_version (s : sftp_state) (v : Z) (ext rest : list Z) :
  0 <= v < UINT_MOD -> Z.of_nat (length ext) + 5 < UINT_MOD ->
  let body := [SSH_FXP_VERSION] ++ PUT_32BIT v ++ ext in
  exists s',
    fxp_init (PUT_32BIT (Z.of_nat (length body)) ++ body ++ rest) s
    = Ok ((if v <=? SFTP_PROTO_VERSION then 1 else 0, rest), s') /\
    (v <= SFTP_PROTO_VERSION ->
     fxp_errtype s' = fxp_errtype s /\ fxp_error_message s' = fxp_error_message s) /\
    (SFTP_PROTO_VERSION < v ->
     fxp_errtype s' = -1 /\
     fxp_error_message s'
     = "remote protocol is more advanced than we support"%string) /\
    (exists pkt, pkt_data pkt = body /\ last (trace s') = Some (EvPktFree pkt)) /\
    (link_up s = true -> wire s' = wire s ++ [0; 0; 0; 5; 1; 0; 0; 0; 3]).
Proof.
  intros Hv Hext body.
  set (p := mk_packet body (Z.of_nat (length body)) (Z.of_nat (length body)) 0 0).
  assert (Hbody : Z.of_nat (length body) = Z.of_nat (length ext) + 5).
  { subst body. rewrite !length_app. cbn [length PUT_32BIT]. lia. }
  assert (Hp : pkt_buffer_ok p) by (split; [reflexivity | cbn [p pkt_length]; lia]).
  assert (Hframe : PUT_32BIT (Z.of_nat (length body)) ++ body ++ rest = frame p ++ rest).
  { unfold frame. cbn [p pkt_length pkt_data]. rewrite Nat2Z.id, firstn_all, <- app_assoc.
    reflexivity. }
  destruct (fxp_init_send s) as (r0 & s1 & Esend & Hty & Hmsg & _ & _ & Hw & _ & _).
  unfold fxp_init. cbv zeta. unfold bind at 1. rewrite Esend.
  unfold bind at 1. rewrite Hframe, (sftp_recv_frame p rest s1 Hp) by (cbn [p pkt_length]; lia).
  assert (Hty2 : pkt_type (received p 1) = SSH_FXP_VERSION) by reflexivity.
  rewrite Hty2, Z.eqb_refl. cbn [negb].
  unfold bind at 1, lift at 1.
  rewrite (getuint32_at (received p 1) [SSH_FXP_VERSION] ext v);
    [| exact Hp | reflexivity | reflexivity].
  rewrite (u32_small v) by exact Hv.
  destruct (Z.leb_spec v SFTP_PROTO_VERSION) as [Hle|Hgt].
  - destruct (Z.ltb_spec SFTP_PROTO_VERSION v) as [Hlt|_]; [lia|].
    eexists. split; [reflexivity|].
    split; [intros _; split; assumption|]. split; [lia|].
    split; [|exact Hw].
    eexists. split; [|cbn [trace put_event]; apply last_snoc]. reflexivity.
  - destruct (Z.ltb_spec SFTP_PROTO_VERSION v) as [_|Hge]; [|lia].
    eexists. split; [reflexivity|].
    split; [lia|]. split; [intros _; split; reflexivity|].
    split; [|exact Hw].
    eexists. split; [|cbn [trace put_event]; apply last_snoc]. reflexivity.
Qed.

Lemma fxp_init_version_witness :
  exists s',
    fxp_init (PUT_32BIT 5 ++ ([SSH_FXP_VERSION] ++ PUT_32BIT 3 ++ []) ++ []) initial_state
    = Ok ((1, []), s') /\
    wire s' = [0; 0; 0; 5; 1; 0; 0; 0; 3].
Proof.
  destruct (fxp_init_version initial_state 3 [] [])
    as (s' & Hrun & _ & _ & _ & Hw).
  - unfold UINT_MOD. lia.
  - unfold UINT_MOD. cbn. lia.
  - exists s'. split; [exact Hrun | apply Hw; reflexivity].
Defined.

(** X10: the ways [fxp_init] fails before it looks at the version.  No
    complete frame arrives: the input ends inside the length word, or inside
    the body the length word announces, or the frame is empty ("could not
    connect"); the reply is of another type ("did not receive FXP_VERSION");
    the VERSION reply is too short for a version word ("malformed FXP_VERSION
    packet").  Each returns 0 with error type -1, and a reply that was
    received has been freed. *)
Theorem fxp_init_failures (s : sftp_state) (input : list Z) (p : sftp_packet)
    (rest : list Z) :
  (Z.of_nat (length input) < 4 ->
   exists s', fxp_init input s = Ok ((0, input), s') /\
     fxp_errtype s' = -1 /\ fxp_error_message s' = "could not connect"%string) /\
  (forall n, 4 <= Z.of_nat (length input) -> GET_32BIT input 0 = Some n ->
   Z.of_nat (length input) - 4 < n \/ n = 0 ->
   exists s', fxp_init input s = Ok ((0, drop 4 input), s') /\
     fxp_errtype s' = -1 /\ fxp_error_message s' = "could not connect"%string) /\
  (pkt_buffer_ok p -> 1 <= pkt_length p ->
   pkt_type (received p 1) <> SSH_FXP_VERSION ->
   exists s', fxp_init (frame p ++ rest) s = Ok ((0, rest), s') /\
     fxp_errtype s' = -1 /\
     fxp_error_message s' = "did not receive FXP_VERSION"%string /\
     last (trace s') = Some (EvPktFree (received p 1))) /\
  (pkt_buffer_ok p -> 1 <= pkt_length p < 5 ->
   pkt_type (received p 1) = SSH_FXP_VERSION ->
   exists s', fxp_init (frame p ++ rest) s = Ok ((0, rest), s') /\
     fxp_errtype s' = -1 /\
     fxp_error_message s' = "malformed FXP_VERSION packet"%string /\
     last (trace s') = Some (EvPktFree (received p 1))).
Proof.
  destruct (fxp_init_send s) as (r0 & s1 & Esend & _).
  split; [|split; [|split]].
  - intros Hshort. unfold fxp_init. cbv zeta. unfold bind at 1. rewrite Esend.
    unfold bind at 1.
    rewrite (proj1 (sftp_recv_outcomes input s1) Hshort).
    eexists. split; [reflexivity|]. split; reflexivity.
  - intros n H4 Hn Hcut. unfold fxp_init. cbv zeta. unfold bind at 1. rewrite Esend.
    unfold bind at 1.
    destruct (proj1 (proj2 (sftp_recv_outcomes input s1) n H4 Hn) Hcut) as (pkt & _ & ->).
    eexists. split; [reflexivity|]. split; reflexivity.
  - intros Hp H1 Hty. unfold fxp_init. cbv zeta. unfold bind at 1. rewrite Esend.
    unfold bind at 1. rewrite (sftp_recv_frame p rest s1 Hp H1).
    destruct (Z.eqb_spec (pkt_type (received p 1)) SSH_FXP_VERSION) as [E|_];
      [contradiction|].
    eexists. split; [reflexivity|]. split; [reflexivity|]. split; [reflexivity|].
    cbn [trace put_event put_error]. apply last_snoc.
  - intros Hp H1 Hty. unfold fxp_init. cbv zeta. unfold bind at 1. rewrite Esend.
    unfold bind at 1. rewrite (sftp_recv_frame p rest s1 Hp) by lia.
    rewrite Hty, Z.eqb_refl. cbn [negb].
    unfold bind at 1, lift at 1, sftp_pkt_getuint32.
    cbn [received pkt_length pkt_savedpos].
    destruct Hp as [_ Hm].
    rewrite (u32_small (pkt_length p - 1)) by (unfold UINT_MOD in *; lia).
    destruct (Z.ltb_spec (pkt_length p - 1) 4); [|lia].
    eexists. split; [reflexivity|]. split; [reflexivity|]. split; [reflexivity|].
    cbn [trace put_event put_error]. apply last_snoc.
Qed.

Lemma fxp_init_failures_witness :
  (exists s', fxp_init [0; 0; 0; 5; 2] initial_state = Ok ((0, drop 4 [0; 0; 0; 5; 2]), s') /\
     fxp_errtype s' = -1 /\ fxp_error_message s' = "could not connect"%string) /\
  exists s', fxp_init (frame (status_packet 256 0) ++ []) initial_state = Ok ((0, []), s') /\
    fxp_errtype s' = -1 /\
    fxp_error_message s' = "did not receive FXP_VERSION"%string /\
    last (trace s') = Some (EvPktFree (received (status_packet 256 0) 1)).
Proof.
  split.
  - apply (proj1 (proj2 (fxp_init_failures initial_state [0; 0; 0; 5; 2]
                           (status_packet 256 0) [])) 5).
    + cbn. lia.
    + reflexivity.
    + left. cbn. lia.
  - apply (proj1 (proj2 (proj2 (fxp_init_failures initial_state [] (status_packet 256 0) [])))).
    + split; [reflexivity | vm_compute; reflexivity].
    + vm_compute. discriminate.
    + vm_compute. discriminate.
Defined.

(** ** The registry: allocate, register, correlate *)

Lemma update_noop (t : list sftp_request) (r : sftp_request) :
  rq_id r ∉ ids t ->
  List.map (fun x => if rq_id x =? rq_id r then r else x) t = t.
Proof.
  unfold ids. induction t as [|x t IH]; [reflexivity|].
  cbn [List.map]. intros Hn. apply not_elem_of_cons in Hn as [Hne Hn].
  destruct (Z.eqb_spec (rq_id x) (rq_id r)) as [E|_]; [congruence|].
  rewrite (IH Hn). reflexivity.
Qed.

Lemma find234_add234 (t : list sftp_request) (r : sftp_request) :
  rq_id r ∉ ids t -> find234 (add234 t r) (rq_id r) = Some r.
Proof.
  unfold ids, find234. induction t as [|x t IH]; cbn [List.map add234]; intros Hn.
  - cbn [List.find]. rewrite Z.eqb_refl. reflexivity.
  - apply not_elem_of_cons in Hn as [Hne Hn].
    destruct (Z.ltb_spec (rq_id r) (rq_id x)).
    + cbn [List.find]. rewrite Z.eqb_refl. reflexivity.
    + destruct (Z.ltb_spec (rq_id x) (rq_id r)); [|lia].
      cbn [List.find]. destruct (Z.eqb_spec (rq_id x) (rq_id r)); [lia|].
      apply IH, Hn.
Qed.

Lemma find234_update (t : list sftp_request) (r r' : sftp_request) :
  rq_id r' = rq_id r -> find234 t (rq_id r) = Some r ->
  find234 (List.map (fun x => if rq_id x =? rq_id r' then r' else x) t) (rq_id r)
  = Some r'.
Proof.
  intros Eid. unfold find234. rewrite Eid.
  induction t as [|x t IH]; [discriminate|].
  cbn [List.map List.find].
  destruct (Z.eqb_spec (rq_id x) (rq_id r)) as [E|E].
  - intros _. rewrite Eid, Z.eqb_refl. reflexivity.
  - destruct (Z.eqb_spec (rq_id x) (rq_id r)); [contradiction|]. exact IH.
Qed.

Lemma del234_update_add234 (t : list sftp_request) (r r' : sftp_request) :
  rq_id r ∉ ids t -> rq_id r' = rq_id r ->
  del234 (List.map (fun x => if rq_id x =? rq_id r' then r' else x) (add234 t r)) r' = t.
Proof.
  intros Hn Eid. revert Hn. unfold ids.
  induction t as [|x t IH]; cbn [List.map add234]; intros Hn.
  - cbn [List.map del234]. rewrite Eid, Z.eqb_refl, <- Eid, Z.eqb_refl. reflexivity.
  - apply not_elem_of_cons in Hn as [Hne Hn].
    destruct (Z.ltb_spec (rq_id r) (rq_id x)).
    + cbn [List.map del234]. rewrite Eid, Z.eqb_refl, <- Eid, Z.eqb_refl.
      destruct (Z.eqb_spec (rq_id x) (rq_id r')); [lia|].
      f_equal. apply update_noop. rewrite Eid. exact Hn.
    + destruct (Z.ltb_spec (rq_id x) (rq_id r)); [|lia].
      cbn [List.map del234].
      destruct (Z.eqb_spec (rq_id x) (rq_id r')); [lia|].
      destruct (Z.eqb_spec (rq_id x) (rq_id r')); [lia|].
      f_equal. apply IH, Hn.
Qed.

Lemma find234_del234 (t : list sftp_request) (r : sftp_request) :
  StronglySorted Z.lt (ids t) -> r ∈ t -> find234 (del234 t r) (rq_id r) = None.
Proof.
  intros Hs Hr. apply find234_None. rewrite del234_ids; [|apply sorted_NoDup, Hs | exact Hr].
  intros [_ H]. apply H. reflexivity.
Qed.

Lemma sftp_register_run (req : sftp_request) (s : sftp_state) (t : list sftp_request) :
  sftp_requests s = Some t ->
  sftp_register req s
  = Ok (mk_request (rq_id req) 1 (rq_userdata req),
        put_requests
          (Some (List.map (fun x => if rq_id x =? rq_id req
                                     then mk_request (rq_id req) 1 (rq_userdata req)
                                     else x) t)) s).
Proof.
  intros Ht. unfold sftp_register, update_request, bind, get. cbv beta zeta iota.
  rewrite Ht. reflexivity.
Qed.

Lemma fxp_set_userdata_run (req : sftp_request) (d : option nat) (s : sftp_state)
    (t : list sftp_request) :
  sftp_requests s = Some t ->
  fxp_set_userdata req d s
  = Ok (mk_request (rq_id req) (rq_registered req) d,
        put_requests
          (Some (List.map (fun x => if rq_id x =? rq_id req
                                     then mk_request (rq_id req) (rq_registered req) d
                                     else x) t)) s).
Proof.
  intros Ht. unfold fxp_set_userdata, update_request, bind, get. cbv beta zeta iota.
  rewrite Ht. reflexivity.
Qed.

(** X11: a reply finds its request exactly when the request was
    registered.  Right after [sftp_alloc_request] a reply carrying the new id
    is refused with "request ID mismatch" and freed; after [sftp_register]
    and [fxp_set_userdata] the same reply makes [sftp_find_request] return
    the descriptor, marked registered and carrying the user data, and the
    registry is again what it was before the allocation. *)
Theorem register_then_find (s : sftp_state) (t : list sftp_request) (data : option nat) :
  default [] (sftp_requests s) = t -> registry_ok t ->
  exists req s1 s2 s3,
    sftp_alloc_request s = Ok (req, s1) /\
    sftp_register req s1 = Ok (mk_request (rq_id req) 1 None, s2) /\
    fxp_set_userdata (mk_request (rq_id req) 1 None) data s2
    = Ok (mk_request (rq_id req) 1 data, s3) /\
    forall p p1, sftp_pkt_getuint32 p = Ok (Some (rq_id req), p1) ->
      sftp_find_request (Some p) s1
      = Ok ((None, Some p1),
            put_event (EvPktFree p1) (put_error (-1) ("request ID mismatch" ++ nl) s1)) /\
      sftp_find_request (Some p) s3
      = Ok ((Some (mk_request (rq_id req) 1 data), Some p1), put_requests (Some t) s3) /\
      fxp_get_userdata (Some (mk_request (rq_id req) 1 data)) (put_requests (Some t) s3)
      = Ok (data, put_requests (Some t) s3).
Proof.
  intros Ht Hok.
  destruct (sftp_alloc_request_runs s t Ht Hok) as (i & Ealloc & Hi & Hfresh & _).
  set (r := mk_request i 0 None) in *.
  set (r1 := mk_request i 1 None).
  set (r2 := mk_request i 1 data).
  set (upd := fun r' : sftp_request => fun x => if rq_id x =? rq_id r' then r' else x).
  set (s1 := put_requests (Some (add234 t r)) s) in *.
  set (s2 := put_requests (Some (List.map (upd r1) (add234 t r))) s1).
  set (s3 := put_requests (Some (List.map (upd r2) (List.map (upd r1) (add234 t r)))) s2).
  exists r, s1, s2, s3.
  split; [exact Ealloc|].
  split; [apply (sftp_register_run r s1 _ eq_refl)|].
  split; [apply (fxp_set_userdata_run r1 data s2 _ eq_refl)|].
  intros p p1 Hget. cbn [rq_id r] in Hget.
  assert (Hf0 : find234 (add234 t r) i = Some r) by (apply (find234_add234 t r), Hfresh).
  assert (Hf1 : find234 (List.map (upd r1) (add234 t r)) i = Some r1).
  { apply (find234_update _ r r1 eq_refl Hf0). }
  assert (Hf2 : find234 (List.map (upd r2) (List.map (upd r1) (add234 t r))) i = Some r2).
  { apply (find234_update _ r1 r2 eq_refl Hf1). }
  assert (Hupd : List.map (upd r2) (List.map (upd r1) (add234 t r))
                 = List.map (upd r2) (add234 t r)).
  { rewrite List.map_map. apply List.map_ext. intros x. unfold upd. cbn [rq_id r1 r2].
    destruct (rq_id x =? i) eqn:E; cbn [rq_id]; rewrite ?Z.eqb_refl, ?E; reflexivity. }
  split; [|split].
  - apply (sftp_find_request_mismatch s1 p p1 i (add234 t r) Hget eq_refl).
    right. exists r. split; [exact Hf0 | reflexivity].
  - rewrite (sftp_find_request_found s3 p p1 i _ r2 Hget eq_refl Hf2) by discriminate.
    rewrite Hupd. unfold upd.
    rewrite (del234_update_add234 t r r2 Hfresh eq_refl). reflexivity.
  - reflexivity.
Qed.

Lemma register_then_find_witness :
  exists req s1 s2 s3,
    sftp_alloc_request (put_requests (Some registry_example) initial_state) = Ok (req, s1) /\
    sftp_register req s1 = Ok (mk_request (rq_id req) 1 None, s2) /\
    fxp_set_userdata (mk_request (rq_id req) 1 None) (Some 7%nat) s2
    = Ok (mk_request (rq_id req) 1 (Some 7%nat), s3) /\
    forall p p1, sftp_pkt_getuint32 p = Ok (Some (rq_id req), p1) ->
      sftp_find_request (Some p) s1
      = Ok ((None, Some p1),
            put_event (EvPktFree p1) (put_error (-1) ("request ID mismatch" ++ nl) s1)) /\
      sftp_find_request (Some p) s3
      = Ok ((Some (mk_request (rq_id req) 1 (Some 7%nat)), Some p1),
            put_requests (Some registry_example) s3) /\
      fxp_get_userdata (Some (mk_request (rq_id req) 1 (Some 7%nat)))
                       (put_requests (Some registry_example) s3)
      = Ok (Some 7%nat, put_requests (Some registry_example) s3).
Proof.
  apply (register_then_find (put_requests (Some registry_example) initial_state)
                            registry_example (Some 7%nat) eq_refl registry_example_ok).
Defined.

(** X12: a reply is consumed at most once.  When [sftp_find_request] has
    handed out the descriptor for a reply, a second packet carrying the same
    request id is refused with "request ID mismatch" and freed, and the
    registry stays as it is. *)
Theorem reply_consumed_once (s s' : sftp_state) (p q q1 : sftp_packet)
    (pk : option sftp_packet) (rq : sftp_request) :
  registry_ok (default [] (sftp_requests s)) ->
  sftp_find_request (Some p) s = Ok ((Some rq, pk), s') ->
  sftp_pkt_getuint32 q = Ok (Some (rq_id rq), q1) ->
  sftp_find_request (Some q) s'
  = Ok ((None, Some q1),
        put_event (EvPktFree q1) (put_error (-1) ("request ID mismatch" ++ nl) s')).
Proof.
  intros (Hs & _ & _) Hfind Hget.
  pose proof (sftp_find_request_Some _ _ _ _ _ Hfind) as (p0 & id & p1 & t & E & Hg & Ht & Hf & Hreg).
  injection E as <-.
  rewrite (sftp_find_request_found s p p1 id t rq Hg Ht Hf Hreg) in Hfind.
  injection Hfind as _ <-.
  rewrite Ht in Hs. cbn [default] in Hs. unfold Datatypes.id in Hs.
  apply find234_Some in Hf as [Hin Hid].
  apply (sftp_find_request_mismatch (put_requests (Some (del234 t rq)) s) q q1
           (rq_id rq) (del234 t rq) Hget eq_refl).
  left. apply find234_del234; assumption.
Qed.

Lemma reply_consumed_once_witness :
  sftp_find_request (Some (status_packet 257 0))
    (put_requests (Some (del234 registry_example (mk_request 257 1 (Some 0%nat))))
                  (put_requests (Some registry_example) initial_state))
  = Ok ((None, Some (with_savedpos (status_packet 257 0) (1 + 4))),
        put_event (EvPktFree (with_savedpos (status_packet 257 0) (1 + 4)))
          (put_error (-1) ("request ID mismatch" ++ nl)
             (put_requests (Some (del234 registry_example (mk_request 257 1 (Some 0%nat))))
                           (put_requests (Some registry_example) initial_state)))).
Proof.
  apply (reply_consumed_once (put_requests (Some registry_example) initial_state) _
           (status_packet 257 1) (status_packet 257 0) _
           (Some (with_savedpos (status_packet 257 1) (1 + 4)))
           (mk_request 257 1 (Some 0%nat))).
  - exact registry_example_ok.
  - reflexivity.
  - reflexivity.
Defined.

Lemma del234_length (t : list sftp_request) (r : sftp_request) :
  (length (del234 t r) <= length t)%nat.
Proof.
  induction t as [|x t IH]; [reflexivity|]. cbn [del234].
  destruct (rq_id x =? rq_id r); cbn [length]; lia.
Qed.

Lemma del234_ids_sub (t : list sftp_request) (r : sftp_request) (j : Z) :
  j ∈ ids (del234 t r) -> j ∈ ids t.
Proof.
  unfold ids. induction t as [|x t IH]; cbn [del234 List.map]; [auto|].
  destruct (rq_id x =? rq_id r).
  - intros H. right. exact H.
  - cbn [List.map]. rewrite !elem_of_cons. intros [->|H]; [left; reflexivity | right; auto].
Qed.

Lemma registry_ok_del (t : list sftp_request) (r : sftp_request) :
  registry_ok t -> registry_ok (del234 t r).
Proof.
  intros (Hs & Hr & Hn). split; [apply del234_sorted, Hs|]. split.
  - rewrite Forall_forall in *. intros j Hj. apply Hr. eapply del234_ids_sub, Hj.
  - pose proof (del234_length t r). lia.
Qed.

(** X13: the shape of the registry is an invariant of everything that
    touches it.  If its ids are in increasing order (hence distinct), lie in
    [256, 2^32) and number at most INT_MAX, the same holds after
    [sftp_register], [fxp_set_userdata], [sftp_find_request] and
    [sftp_cleanup_request], and, while fewer than INT_MAX requests are
    outstanding, after [sftp_alloc_request]. *)
Theorem registry_ok_invariant (s : sftp_state) :
  registry_ok (default [] (sftp_requests s)) ->
  (forall req r s', sftp_register req s = Ok (r, s') ->
     registry_ok (default [] (sftp_requests s'))) /\
  (forall req d r s', fxp_set_userdata req d s = Ok (r, s') ->
     registry_ok (default [] (sftp_requests s'))) /\
  (forall pktin r s', sftp_find_request pktin s = Ok (r, s') ->
     registry_ok (default [] (sftp_requests s'))) /\
  (forall s', sftp_cleanup_request s = Ok (tt, s') ->
     registry_ok (default [] (sftp_requests s'))) /\
  (Z.of_nat (length (default [] (sftp_requests s))) < INT_MAX ->
   exists r s', sftp_alloc_request s = Ok (r, s') /\
     registry_ok (default [] (sftp_requests s'))).
Proof.
  intros Hok. split; [|split; [|split; [|split]]].
  - intros req r s' H. unfold sftp_register in H.
    apply bind_Ok in H as (u & s1 & Hup & H). apply ret_Ok in H as [_ ->].
    destruct (update_request_runs (mk_request (rq_id req) 1 (rq_userdata req)) s)
      as (s2 & E & _ & _ & Hkeep & _).
    rewrite E in Hup. injection Hup as _ <-. apply Hkeep, Hok.
  - intros req d r s' H. unfold fxp_set_userdata in H.
    apply bind_Ok in H as (u & s1 & Hup & H). apply ret_Ok in H as [_ ->].
    destruct (update_request_runs (mk_request (rq_id req) (rq_registered req) d) s)
      as (s2 & E & _ & _ & Hkeep & _).
    rewrite E in Hup. injection Hup as _ <-. apply Hkeep, Hok.
  - intros pktin r s' H. unfold sftp_find_request in H.
    destruct pktin as [p|].
    + unfold bind, lift in H.
      destruct (sftp_pkt_getuint32 p) as [[[id|] p1]|f]; try discriminate.
      * unfold get in H. destruct (sftp_requests s) as [t|] eqn:Ht; [|discriminate].
        cbn [default] in Hok.
        destruct (find234 t id) as [rq|].
        -- destruct (rq_registered rq =? 0).
           ++ injection H as _ <-. cbn. rewrite Ht. exact Hok.
           ++ injection H as _ <-. cbn. apply registry_ok_del, Hok.
        -- injection H as _ <-. cbn. rewrite Ht. exact Hok.
      * injection H as _ <-. exact Hok.
    + injection H as _ <-. exact Hok.
  - intros s' H. unfold sftp_cleanup_request, bind, get in H.
    destruct (sftp_requests s) as [t|] eqn:Ht.
    + injection H as <-. cbn. repeat constructor. unfold INT_MAX. cbn. lia.
    + injection H as <-. rewrite Ht. exact Hok.
  - intros Hroom.
    destruct (sftp_alloc_request_runs s _ eq_refl Hok) as (i & Ealloc & Hi & Hfresh & _).
    destruct (registry_ok_add _ i Hok Hroom Hfresh Hi) as [Hok' _].
    eexists _, _. split; [exact Ealloc | exact Hok'].
Qed.

Lemma registry_ok_invariant_witness :
  exists r s',
    sftp_alloc_request (put_requests (Some registry_example) initial_state) = Ok (r, s') /\
    registry_ok (default [] (sftp_requests s')).
Proof.
  apply (registry_ok_invariant (put_requests (Some registry_example) initial_state)
                               registry_example_ok).
  unfold INT_MAX. cbn. lia.
Defined.

(** ** The receivers *)

Lemma s32_zero (code : Z) : 0 <= code < UINT_MOD -> (s32 code = 0 <-> code = 0).
Proof.
  intros Hc. unfold UINT_MOD in Hc.
  destruct (Z.lt_ge_cases code (2 ^ 31)).
  - rewrite s32_small by lia. reflexivity.
  - rewrite s32_high by (unfold UINT_MOD; lia). unfold UINT_MOD. lia.
Qed.

(** What [fxp_got_status] leaves behind, whatever the packet.  [r] is what
    the cursor of the packet would yield as a status code. *)
Lemma fxp_got_status_run (pktin : sftp_packet) (s : sftp_state) (r : option Z)
    (p1 : sftp_packet) :
  sftp_pkt_getuint32 pktin = Ok (r, p1) ->
  exists v pk ety msg,
    fxp_got_status pktin s = Ok ((v, pk), put_error ety msg s) /\
    (pk = pktin \/ pk = p1) /\
    (v = 1 /\ ety = 0 \/ v = 0 /\ ety = 1 \/ v = -1 /\ ety <> 0 /\ ety <> 1) /\
    (ety = 0 <-> pkt_type pktin = SSH_FXP_STATUS /\ r = Some 0) /\
    (ety = 0 -> msg = "unexpected OK response"%string).
Proof.
  intros Hget. unfold fxp_got_status.
  destruct (Z.eqb_spec (pkt_type pktin) SSH_FXP_STATUS) as [Hty|Hty]; cbn [negb].
  - unfold bind at 1, lift. rewrite Hget. destruct r as [code|].
    + pose proof (getuint32_Some_range _ _ _ Hget) as Hr.
      pose proof (s32_zero code Hr) as Hz.
      eexists _, p1, (s32 code), _. split; [reflexivity|].
      split; [right; reflexivity|].
      cbn [fxp_errtype put_error]. unfold SSH_FX_OK, SSH_FX_EOF.
      split.
      { destruct (Z.eqb_spec (s32 code) 0) as [E|E]; [left; split; [reflexivity | exact E]|].
        right. destruct (Z.eqb_spec (s32 code) 1) as [E1|E1]; [left | right]; auto. }
      split.
      { rewrite Hz. split; [intros ->; auto | intros [_ E]; congruence]. }
      intros E. rewrite E. reflexivity.
    + eexists _, p1, (-1), _. split; [reflexivity|].
      split; [right; reflexivity|].
      split; [right; right; repeat split; discriminate|].
      split; [|discriminate].
      split; [discriminate | intros [_ E]; discriminate].
  - eexists _, pktin, (-1), _. split; [reflexivity|].
    split; [left; reflexivity|].
    split; [right; right; repeat split; discriminate|].
    split; [|discriminate].
    split; [discriminate | intros [E _]; contradiction].
Qed.

(** X14: the seven receivers of a bare status reply ([fxp_mkdir_recv],
    [fxp_rmdir_recv], [fxp_remove_recv], [fxp_rename_recv],
    [fxp_setstat_recv], [fxp_fsetstat_recv] and [fxp_write_recv], which
    tests the recorded error type instead of the result of [fxp_got_status])
    agree: each returns 1 exactly when the reply is a STATUS packet whose
    code is SSH_FX_OK and 0 otherwise, and each frees the request and then
    the packet, and nothing else. *)
Theorem status_receivers_agree (pktin : sftp_packet) (req : sftp_request)
    (s : sftp_state) (r : option Z) (p1 : sftp_packet) :
  sftp_pkt_getuint32 pktin = Ok (r, p1) ->
  exists v s' pk,
    fxp_mkdir_recv pktin req s = Ok (v, s') /\
    fxp_rmdir_recv pktin req s = Ok (v, s') /\
    fxp_remove_recv pktin req s = Ok (v, s') /\
    fxp_rename_recv pktin req s = Ok (v, s') /\
    fxp_setstat_recv pktin req s = Ok (v, s') /\
    fxp_fsetstat_recv pktin req s = Ok (v, s') /\
    fxp_write_recv pktin req s = Ok (v, s') /\
    (v = 1 <-> pkt_type pktin = SSH_FXP_STATUS /\ r = Some SSH_FX_OK) /\
    (v = 0 <-> ~ (pkt_type pktin = SSH_FXP_STATUS /\ r = Some SSH_FX_OK)) /\
    trace s' = trace s ++ [EvReqFree req; EvPktFree pk] /\
    pkt_data pk = pkt_data pktin.
Proof.
  intros Hget.
  destruct (fxp_got_status_run pktin (put_event (EvReqFree req) s) r p1 Hget)
    as (v0 & pk & ety & msg & Erun & Hpk & Hv & Hety & _).
  assert (Hdata : pkt_data pk = pkt_data pktin).
  { destruct Hpk as [->| ->]; [reflexivity|].
    unfold sftp_pkt_getuint32 in Hget.
    destruct (_ <? 4); [injection Hget as _ <-; reflexivity|].
    destruct (GET_32BIT _ _); [injection Hget as _ <-; reflexivity | discriminate]. }
  assert (Estat : recv_status pktin req s
                  = Ok (if negb (v0 =? 1) then 0 else 1,
                        put_event (EvPktFree pk)
                          (put_error ety msg (put_event (EvReqFree req) s)))).
  { unfold recv_status, status_and_free, bind, log, modify. rewrite Erun. reflexivity. }
  assert (Ewrite : fxp_write_recv pktin req s
                   = Ok (if ety =? SSH_FX_OK then 1 else 0,
                         put_event (EvPktFree pk)
                           (put_error ety msg (put_event (EvReqFree req) s)))).
  { unfold fxp_write_recv, status_and_free, bind, log, modify. rewrite Erun. reflexivity. }
  assert (Esame : (if negb (v0 =? 1) then 0 else 1) = (if ety =? SSH_FX_OK then 1 else 0)).
  { unfold SSH_FX_OK.
    destruct Hv as [[-> ->] | [[-> ->] | (-> & H0 & H1)]]; try reflexivity.
    destruct (Z.eqb_spec ety 0); [contradiction | reflexivity]. }
  rewrite <- Esame in Ewrite.
  eexists _, _, pk.
  repeat (split; [first [exact Estat | exact Ewrite]|]).
  unfold SSH_FX_OK. rewrite <- Hety.
  split; [|split; [|split; [|exact Hdata]]].
  - destruct Hv as [[-> ->] | [[-> ->] | (-> & H0 & H1)]]; cbn; split; intros; try lia;
      try reflexivity; try contradiction; try discriminate.
  - destruct Hv as [[-> ->] | [[-> ->] | (-> & H0 & H1)]]; cbn; split; intros; try lia;
      try reflexivity; try contradiction; try discriminate; try tauto.
  - cbn [trace put_event put_error]. rewrite <- app_assoc. reflexivity.
Qed.

Lemma status_receivers_agree_witness :
  exists v s' pk,
    fxp_mkdir_recv (with_savedpos (status_packet 256 0) 5) (mk_request 256 1 None)
                   initial_state = Ok (v, s') /\
    fxp_write_recv (with_savedpos (status_packet 256 0) 5) (mk_request 256 1 None)
                   initial_state = Ok (v, s') /\
    (v = 1 <-> pkt_type (with_savedpos (status_packet 256 0) 5) = SSH_FXP_STATUS /\
               Some 0 = Some SSH_FX_OK) /\
    trace s' = trace initial_state ++ [EvReqFree (mk_request 256 1 None); EvPktFree pk].
Proof.
  destruct (status_receivers_agree (with_savedpos (status_packet 256 0) 5)
              (mk_request 256 1 None) initial_state (Some 0)
              (with_savedpos (status_packet 256 0) 9) eq_refl)
    as (v & s' & pk & H1 & _ & _ & _ & _ & _ & H7 & Hv & _ & Htr & _).
  exists v, s', pk. repeat split; try assumption; apply Hv.
Defined.

Lemma fxp_got_status_OK (pktin p1 : sftp_packet) (s : sftp_state) :
  pkt_type pktin = SSH_FXP_STATUS ->
  sftp_pkt_getuint32 pktin = Ok (Some SSH_FX_OK, p1) ->
  fxp_got_status pktin s = Ok ((1, p1), put_error 0 "unexpected OK response" s).
Proof.
  intros Hty Hget. unfold fxp_got_status. rewrite Hty, Z.eqb_refl. cbn [negb].
  unfold bind at 1, lift. rewrite Hget. reflexivity.
Qed.

(** X15: a receiver that expects data treats a STATUS reply with code
    SSH_FX_OK as a failure.  [fxp_open_recv], [fxp_opendir_recv],
    [fxp_realpath_recv] and [fxp_readdir_recv] return NULL, [fxp_stat_recv]
    and [fxp_fstat_recv] return 0 and leave [*attrs] alone, [fxp_read_recv]
    returns -1 and leaves the buffer alone; the error message is "unexpected
    OK response" while the error type is SSH_FX_OK; request and packet are
    freed. *)
Theorem unexpected_OK_is_failure (sizeof_fxp_name : Z) (pktin p1 : sftp_packet)
    (req : sftp_request) (s : sftp_state) (attrs : fxp_attrs)
    (buffer : option (list Z)) (len : Z) :
  pkt_type pktin = SSH_FXP_STATUS ->
  sftp_pkt_getuint32 pktin = Ok (Some SSH_FX_OK, p1) ->
  let s' := put_event (EvPktFree p1)
              (put_error SSH_FX_OK "unexpected OK response" (put_event (EvReqFree req) s)) in
  fxp_open_recv pktin req s = Ok (None, s') /\
  fxp_opendir_recv pktin req s = Ok (None, s') /\
  fxp_realpath_recv pktin req s = Ok (None, s') /\
  fxp_readdir_recv sizeof_fxp_name pktin req s = Ok (None, s') /\
  fxp_stat_recv pktin req attrs s = Ok ((0, attrs), s') /\
  fxp_fstat_recv pktin req attrs s = Ok ((0, attrs), s') /\
  fxp_read_recv pktin req buffer len s = Ok ((-1, buffer), s').
Proof.
  intros Hty Hget s'.
  pose proof (fxp_got_status_OK pktin p1 (put_event (EvReqFree req) s) Hty Hget) as Erun.
  unfold fxp_open_recv, fxp_opendir_recv, recv_handle, fxp_realpath_recv,
    fxp_readdir_recv, fxp_stat_recv, fxp_fstat_recv, recv_attrs, fxp_read_recv.
  unfold bind at 1 3 5 7 9 11 13. unfold log, modify.
  rewrite Hty.
  change (SSH_FXP_STATUS =? SSH_FXP_HANDLE) with false.
  change (SSH_FXP_STATUS =? SSH_FXP_NAME) with false.
  change (SSH_FXP_STATUS =? SSH_FXP_ATTRS) with false.
  change (SSH_FXP_STATUS =? SSH_FXP_DATA) with false.
  cbv iota. unfold status_and_free, bind. rewrite Erun.
  repeat split; reflexivity.
Qed.

Lemma unexpected_OK_is_failure_witness :
  fxp_read_recv (with_savedpos (status_packet 256 0) 5) (mk_request 256 1 None)
                (Some []) 32768 initial_state
  = Ok ((-1, Some []),
        put_event (EvPktFree (with_savedpos (status_packet 256 0) 9))
          (put_error SSH_FX_OK "unexpected OK response"
             (put_event (EvReqFree (mk_request 256 1 None)) initial_state))).
Proof.
  apply (unexpected_OK_is_failure 1 (with_savedpos (status_packet 256 0) 5)
           (with_savedpos (status_packet 256 0) 9) (mk_request 256 1 None)
           initial_state attrs0 (Some []) 32768 eq_refl eq_refl).
Defined.

Lemma getuint32_total (p : sftp_packet) :
  pkt_buffer_ok p -> 0 <= pkt_savedpos p <= pkt_length p ->
  exists r p1, sftp_pkt_getuint32 p = Ok (r, p1) /\
    pkt_data p1 = pkt_data p /\ pkt_length p1 = pkt_length p /\
    pkt_type p1 = pkt_type p /\
    pkt_savedpos p <= pkt_savedpos p1 <= pkt_length p.
Proof.
  intros [Hl Hm] Hpos. unfold sftp_pkt_getuint32.
  rewrite (u32_small (pkt_length p - pkt_savedpos p)) by (unfold UINT_MOD in *; lia).
  destruct (Z.ltb_spec (pkt_length p - pkt_savedpos p) 4).
  - eexists _, _. split; [reflexivity|]. repeat split; lia.
  - destruct (GET_32BIT_Some (pkt_data p) (pkt_savedpos p)) as (v & Ev & _); [lia|lia|].
    rewrite Ev. eexists _, _. split; [reflexivity|].
    cbn [with_savedpos pkt_data pkt_length pkt_type pkt_savedpos].
    rewrite u32_small by (unfold UINT_MOD in *; lia).
    repeat split; lia.
Qed.

(** X16: [fxp_read_recv] never stores more than [len] bytes.  On a
    received packet of at most INT_MAX bytes it returns -1 or a count between
    0 and [len].  A count is returned only for a DATA reply, is the declared
    length of its string, and then the buffer starts with exactly the bytes
    of the string and is unchanged behind them; on -1 the buffer is
    untouched.  Either way the request and then the packet are freed. *)
Theorem fxp_read_recv_bounded (pktin : sftp_packet) (req : sftp_request)
    (b : list Z) (len : Z) (s : sftp_state) :
  pkt_buffer_ok pktin -> 0 <= pkt_savedpos pktin <= pkt_length pktin ->
  pkt_length pktin <= INT_MAX -> 0 <= len ->
  exists r buf' s' pk,
    fxp_read_recv pktin req (Some b) len s = Ok ((r, Some buf'), s') /\
    -1 <= r <= len /\
    (r = -1 -> buf' = b) /\
    (0 <= r ->
     pkt_type pktin = SSH_FXP_DATA /\ r = declared_length pktin /\
     Z.of_nat (length (borrowed pktin (pkt_savedpos pktin + 4) r)) = r /\
     buf' = borrowed pktin (pkt_savedpos pktin + 4) r ++ drop (Z.to_nat r) b) /\
    trace s' = trace s ++ [EvReqFree req; EvPktFree pk] /\
    pkt_data pk = pkt_data pktin.
Proof.
  intros Hok Hpos Hmax Hlen. unfold fxp_read_recv.
  unfold bind at 1. unfold log, modify.
  destruct (Z.eqb_spec (pkt_type pktin) SSH_FXP_DATA) as [Hty|Hty].
  - destruct (getstring_cases pktin Hok Hpos) as (g & Eg & Hcase).
    { unfold remaining. lia. }
    unfold bind at 1. unfold lift at 1. rewrite Eg.
    destruct Hcase as [(Hr & _ & _) | (Hr & H4 & Hd & Hp & Hgl & Hs & Hdata & Hgl' & _)].
    + rewrite Hr. cbn [Z.eqb].
      assert (Hdata : pkt_data (gs_pkt g) = pkt_data pktin).
      { unfold sftp_pkt_getstring in Eg.
        destruct (_ <? 4); [injection Eg as <-; reflexivity|].
        destruct (GET_32BIT _ _); [|discriminate].
        cbv zeta in Eg. destruct (_ || _); injection Eg as <-; reflexivity. }
      eexists (-1), b, _, (gs_pkt g). split; [reflexivity|].
      split; [lia|]. split.
      { intros _. reflexivity. }
      split; [lia|]. split; [|exact Hdata].
      cbn [trace put_event put_error]. rewrite <- app_assoc. reflexivity.
    + rewrite Hr, Hgl, Hp. cbn [Z.eqb default]. unfold id.
      destruct (Z.ltb_spec len (declared_length pktin)) as [Hbig|Hfit].
      * cbn [orb].
        eexists (-1), b, _, (gs_pkt g). split; [reflexivity|].
        split; [lia|]. split.
        { intros _. reflexivity. }
        split; [lia|]. split; [|exact Hdata].
        cbn [trace put_event put_error]. rewrite <- app_assoc. reflexivity.
      * destruct (Z.ltb_spec (declared_length pktin) 0); [lia|]. cbn [orb].
        assert (Hb : borrowed (gs_pkt g) (pkt_savedpos pktin + 4) (declared_length pktin)
                     = borrowed pktin (pkt_savedpos pktin + 4) (declared_length pktin)).
        { unfold borrowed. rewrite Hdata. reflexivity. }
        assert (Hbl : Z.of_nat (length (borrowed pktin (pkt_savedpos pktin + 4)
                                          (declared_length pktin)))
                      = declared_length pktin).
        { unfold borrowed. rewrite length_take, length_drop.
          destruct Hok as [Hl _]. unfold remaining in *. lia. }
        unfold bind at 1. unfold lift at 1, memcpy_to. rewrite Hb.
        destruct (Z.ltb_spec (Z.of_nat (length (borrowed pktin (pkt_savedpos pktin + 4)
                                                  (declared_length pktin))))
                             (declared_length pktin)); [lia|].
        rewrite (take_ge (borrowed pktin _ _)) by lia.
        eexists (declared_length pktin), _, _, (gs_pkt g). split; [reflexivity|].
        split; [lia|]. split; [lia|].
        split; [intros _; repeat split; assumption|].
        split; [|exact Hdata]. cbn [trace put_event]. rewrite <- app_assoc. reflexivity.
  - destruct (getuint32_total pktin Hok Hpos) as (r & p1 & Hget & Hd1 & _).
    destruct (fxp_got_status_run pktin (put_event (EvReqFree req) s) r p1 Hget)
      as (v0 & pk & ety & msg & Erun & Hpk & _).
    unfold status_and_free, bind. rewrite Erun.
    eexists (-1), b, _, pk. split; [reflexivity|].
    split; [lia|]. split; [intros _; reflexivity|].
    split; [lia|]. split.
    + cbn [trace put_event put_error]. rewrite <- app_assoc. reflexivity.
    + destruct Hpk as [->| ->]; [reflexivity | exact Hd1].
Qed.

Lemma fxp_read_recv_bounded_witness :
  exists r buf' s' pk,
    fxp_read_recv (with_savedpos (data_packet 256 [10; 20; 30]) 5) (mk_request 256 1 None)
                  (Some [1; 2; 3; 4]) 32768 initial_state
    = Ok ((r, Some buf'), s') /\
    -1 <= r <= 32768 /\
    (0 <= r ->
     r = declared_length (with_savedpos (data_packet 256 [10; 20; 30]) 5) /\
     buf' = borrowed (with_savedpos (data_packet 256 [10; 20; 30]) 5) (5 + 4) r
            ++ drop (Z.to_nat r) [1; 2; 3; 4]) /\
    trace s' = trace initial_state ++ [EvReqFree (mk_request 256 1 None); EvPktFree pk].
Proof.
  destruct (fxp_read_recv_bounded (with_savedpos (data_packet 256 [10; 20; 30]) 5)
              (mk_request 256 1 None) [1; 2; 3; 4] 32768 initial_state)
    as (r & buf' & s' & pk & Hrun & Hr & _ & Hgood & Htr & _).
  - split; [reflexivity | vm_compute; reflexivity].
  - cbn. lia.
  - vm_compute. discriminate.
  - lia.
  - exists r, buf', s', pk. split; [exact Hrun|]. split; [exact Hr|].
    split; [|exact Htr]. intros H0. destruct (Hgood H0) as (_ & E1 & _ & E2).
    split; assumption.
Defined.

Lemma mkstr_borrowed (pkt : sftp_packet) (p len : Z) :
  0 <= p -> 0 <= len -> p + len <= Z.of_nat (length (pkt_data pkt)) ->
  mkstr (pkt_data pkt) (Some p) len = Ok (borrowed pkt p len ++ [0]).
Proof.
  intros Hp Hlen Hfit. unfold mkstr, borrowed.
  destruct (Z.leb_spec 0 len); [|lia].
  destruct (Z.leb_spec (p + len) (Z.of_nat (length (pkt_data pkt)))); [|lia].
  reflexivity.
Qed.

(** X17: [fxp_realpath_recv] takes the path from a NAME reply of at most
    INT_MAX bytes that announces exactly one name: the result is a fresh copy
    of the first string with a NUL appended, whatever follows it in the
    reply, and the error channel is not touched.  Any other count gives NULL
    with the error "REALPATH did not return name count of 1".  In both cases
    the request and then the packet are freed. *)
Theorem fxp_realpath_recv_path (pktin : sftp_packet) (req : sftp_request)
    (s : sftp_state) (pre post : list Z) :
  pkt_type pktin = SSH_FXP_NAME -> pkt_buffer_ok pktin ->
  pkt_length pktin <= INT_MAX ->
  pkt_savedpos pktin = Z.of_nat (length pre) ->
  (forall str,
     pkt_data pktin = pre ++ PUT_32BIT 1 ++ PUT_32BIT (Z.of_nat (length str)) ++ str ++ post ->
     exists pk,
       fxp_realpath_recv pktin req s
       = Ok (Some (str ++ [0]), put_event (EvPktFree pk) (put_event (EvReqFree req) s)) /\
       pkt_data pk = pkt_data pktin) /\
  (forall count,
     pkt_data pktin = pre ++ PUT_32BIT count ++ post ->
     0 <= count < UINT_MOD -> count <> 1 ->
     exists pk,
       fxp_realpath_recv pktin req s
       = Ok (None,
             put_event (EvPktFree pk)
               (put_error (-1) ("REALPATH did not return name count of 1" ++ nl)
                          (put_event (EvReqFree req) s))) /\
       pkt_data pk = pkt_data pktin).
Proof.
  intros Hty Hok Hmax Hpos. split.
  - intros str Hd.
    assert (Hint : Z.of_nat (length str) + Z.of_nat (length post) <= INT_MAX).
    { destruct Hok as [Hl _]. rewrite Hl, Hd, !length_app in Hmax.
      cbn [length PUT_32BIT] in Hmax. lia. }
    unfold fxp_realpath_recv. unfold bind at 1. unfold log, modify.
    rewrite Hty, Z.eqb_refl.
    unfold bind at 1. unfold lift at 1.
    rewrite (getuint32_at pktin pre _ 1 Hok Hd Hpos).
    rewrite (u32_small 1) by (unfold UINT_MOD; lia).
    change (negb (1 =? 1)) with false. cbv iota.
    set (p1 := with_savedpos pktin (pkt_savedpos pktin + 4)).
    destruct (getstring_at p1 (pre ++ PUT_32BIT 1) str post) as [Hg Hb].
    + exact Hok.
    + cbn [p1 with_savedpos pkt_data]. rewrite Hd, <- app_assoc. reflexivity.
    + cbn [p1 with_savedpos pkt_savedpos]. rewrite Hpos, length_app.
      cbn [length PUT_32BIT]. lia.
    + exact Hint.
    + unfold bind at 1. unfold lift at 1. rewrite Hg.
      cbn [gs_ret gs_p gs_length gs_pkt default]. unfold id.
      change (1 =? 0) with false. cbv iota.
      set (p2 := with_savedpos p1 (pkt_savedpos p1 + 4 + Z.of_nat (length str))).
      assert (Emk : mkstr (pkt_data p2) (Some (pkt_savedpos p1 + 4)) (Z.of_nat (length str))
                    = Ok (str ++ [0])).
      { rewrite mkstr_borrowed.
        - change (borrowed p2 (pkt_savedpos p1 + 4) (Z.of_nat (length str)))
            with (borrowed p1 (pkt_savedpos p1 + 4) (Z.of_nat (length str))).
          rewrite Hb. reflexivity.
        - cbn [p1 with_savedpos pkt_savedpos]. lia.
        - lia.
        - cbn [p2 p1 with_savedpos pkt_data pkt_savedpos].
          rewrite Hd, Hpos, !length_app. cbn [length PUT_32BIT]. lia. }
      unfold bind at 1. unfold lift at 1. rewrite Emk.
      exists p2. split; reflexivity.
  - intros count Hd Hc Hne.
    unfold fxp_realpath_recv. unfold bind at 1. unfold log, modify.
    rewrite Hty, Z.eqb_refl.
    unfold bind at 1. unfold lift at 1.
    rewrite (getuint32_at pktin pre _ count Hok Hd Hpos).
    rewrite (u32_small count) by exact Hc.
    destruct (Z.eqb_spec count 1); [contradiction|]. cbn [negb].
    eexists. split; reflexivity.
Qed.

Lemma fxp_realpath_recv_path_witness :
  exists pk,
    fxp_realpath_recv
      (mk_packet ([SSH_FXP_NAME] ++ PUT_32BIT 256 ++ PUT_32BIT 1 ++ PUT_32BIT 2 ++ [47; 117]
                  ++ [0; 0; 0; 0; 0; 0; 0; 0])
                 23 23 5 SSH_FXP_NAME)
      (mk_request 256 1 None) initial_state
    = Ok (Some ([47; 117] ++ [0]),
          put_event (EvPktFree pk)
            (put_event (EvReqFree (mk_request 256 1 None)) initial_state)) /\
    pkt_data pk = [SSH_FXP_NAME] ++ PUT_32BIT 256 ++ PUT_32BIT 1 ++ PUT_32BIT 2 ++ [47; 117]
                  ++ [0; 0; 0; 0; 0; 0; 0; 0].
Proof.
  destruct (fxp_realpath_recv_path
              (mk_packet ([SSH_FXP_NAME] ++ PUT_32BIT 256 ++ PUT_32BIT 1 ++ PUT_32BIT 2
                          ++ [47; 117] ++ [0; 0; 0; 0; 0; 0; 0; 0])
                         23 23 5 SSH_FXP_NAME)
              (mk_request 256 1 None) initial_state
              ([SSH_FXP_NAME] ++ PUT_32BIT 256) [0; 0; 0; 0; 0; 0; 0; 0]) as [Hpath _].
  - reflexivity.
  - split; [reflexivity | vm_compute; reflexivity].
  - vm_compute. discriminate.
  - reflexivity.
  - apply (Hpath [47; 117]). reflexivity.
Defined.

Lemma init_adduint32_shape (ty id : Z) :
  0 <= ty < 256 ->
  let p := sftp_pkt_adduint32 (sftp_pkt_init ty) id in
  pkt_buffer_ok p /\ pkt_length p = 5 /\ pkt_data p = [ty] ++ PUT_32BIT id.
Proof.
  intros Hty p.
  assert (Huc : uchar (uchar ty) = ty).
  { rewrite !uchar_mod, Zmod_mod. apply Z.mod_small. lia. }
  assert (Hd : pkt_data p = [ty] ++ PUT_32BIT id).
  { subst p. rewrite adduint32_data. unfold sftp_pkt_init, sftp_pkt_addbyte.
    rewrite adddata_data. cbn [pkt_data]. rewrite Huc. reflexivity. }
  assert (Hl : pkt_length p = 5) by reflexivity.
  split; [|split; assumption].
  split; [rewrite Hl, Hd; reflexivity | rewrite Hl; reflexivity].
Qed.

(** X18: [fxp_stat_recv] and [fxp_fstat_recv] on an ATTRS reply.  When
    the reply carries a record as [sftp_pkt_addattrs] writes it (EXTENDED
    clear), they return 1 and [*attrs] holds the flags and the announced
    fields.  When the reply ends right behind a flags word that announces a
    size, they return 0 with the error "malformed SSH_FXP_ATTRS packet", and
    the caller's record has nevertheless been given the new flags.  The
    request and then the packet are freed in both cases. *)
Theorem fxp_stat_recv_attrs (id : Z) (a b : fxp_attrs) (req : sftp_request)
    (s : sftp_state) :
  attrs_ok a ->
  let p := sftp_pkt_adduint32 (sftp_pkt_init SSH_FXP_ATTRS) id in
  (Z.land (at_flags a) SSH_FILEXFER_ATTR_EXTENDED = 0 ->
   let q := sftp_pkt_addattrs p a in
   let s' := put_event (EvPktFree (received q (pkt_length q)))
                       (put_event (EvReqFree req) s) in
   fxp_stat_recv (received q 5) req b s = Ok ((1, attrs_merge a b), s') /\
   fxp_fstat_recv (received q 5) req b s = Ok ((1, attrs_merge a b), s')) /\
  (Z.land (at_flags a) SSH_FILEXFER_ATTR_SIZE <> 0 ->
   let q := sftp_pkt_adduint32 p (at_flags a) in
   let s' := put_event (EvPktFree (received q 9))
               (put_error (-1) "malformed SSH_FXP_ATTRS packet"
                          (put_event (EvReqFree req) s)) in
   fxp_stat_recv (received q 5) req b s = Ok ((0, set_flags b (at_flags a)), s') /\
   fxp_fstat_recv (received q 5) req b s = Ok ((0, set_flags b (at_flags a)), s')).
Proof.
  intros Ha p.
  destruct (init_adduint32_shape SSH_FXP_ATTRS id) as (Hp & Hpl & Hpd);
    [unfold SSH_FXP_ATTRS; lia|]. fold p in Hp, Hpl, Hpd.
  split.
  - intros Hext q s'.
    pose proof (addattrs_getattrs_run p a b Hp) as Hrun.
    rewrite Hpl in Hrun. specialize (Hrun ltac:(unfold UINT_MOD; lia) Ha).
    cbv zeta in Hrun. fold q in Hrun. rewrite Hext in Hrun.
    change (0 =? 0) with true in Hrun. cbv iota in Hrun.
    assert (Hty : pkt_type (received q 5) = SSH_FXP_ATTRS).
    { unfold received. cbn [pkt_type]. subst q. rewrite addattrs_data, Hpd. reflexivity. }
    assert (E : recv_attrs (received q 5) req b s = Ok ((1, attrs_merge a b), s')).
    { unfold recv_attrs. unfold bind at 1. unfold log, modify.
      rewrite Hty, Z.eqb_refl. unfold bind at 1. unfold lift at 1. rewrite Hrun.
      reflexivity. }
    split; exact E.
  - intros Hsize q s'.
    destruct Ha as (Hfl & _).
    destruct (adduint32_buffer_ok p (at_flags a) Hp) as [Hq Hql];
      [rewrite Hpl; unfold UINT_MOD; lia|].
    fold q in Hq, Hql. rewrite Hpl in Hql.
    assert (Hqd : pkt_data q = ([SSH_FXP_ATTRS] ++ PUT_32BIT id) ++ PUT_32BIT (at_flags a) ++ []).
    { subst q. rewrite adduint32_data, Hpd, app_nil_r. reflexivity. }
    assert (Hty : pkt_type (received q 5) = SSH_FXP_ATTRS).
    { unfold received. cbn [pkt_type]. rewrite Hqd. reflexivity. }
    assert (Hrun : sftp_pkt_getattrs (received q 5) b
                   = Ok (0, set_flags b (at_flags a), received q 9)).
    { unfold sftp_pkt_getattrs.
      rewrite (getuint32_at (received q 5) _ _ (at_flags a) Hq Hqd eq_refl).
      cbn [obind]. rewrite (u32_small (at_flags a)) by exact Hfl.
      change (with_savedpos (received q 5) (pkt_savedpos (received q 5) + 4))
        with (received q 9).
      unfold getattrs_size. cbn [at_flags set_flags].
      destruct (Z.eqb_spec (Z.land (at_flags a) SSH_FILEXFER_ATTR_SIZE) 0) as [E|_];
        [contradiction|].
      rewrite <- Hql at 1. rewrite (getuint32_at_end q Hq). rewrite Hql.
      reflexivity. }
    assert (E : recv_attrs (received q 5) req b s
                = Ok ((0, set_flags b (at_flags a)), s')).
    { unfold recv_attrs. unfold bind at 1. unfold log, modify.
      rewrite Hty, Z.eqb_refl. unfold bind at 1. unfold lift at 1. rewrite Hrun.
      reflexivity. }
    split; exact E.
Qed.

Lemma fxp_stat_recv_attrs_witness :
  let q := sftp_pkt_addattrs (sftp_pkt_adduint32 (sftp_pkt_init SSH_FXP_ATTRS) 256)
                             attrs_example in
  fxp_stat_recv (received q 5) (mk_request 256 1 None) attrs0 initial_state
  = Ok ((1, attrs_merge attrs_example attrs0),
        put_event (EvPktFree (received q (pkt_length q)))
                  (put_event (EvReqFree (mk_request 256 1 None)) initial_state)).
Proof.
  destruct (fxp_stat_recv_attrs 256 attrs_example attrs0 (mk_request 256 1 None)
              initial_state) as [Hgood _].
  - unfold attrs_ok, uint64_ok, UINT_MOD. cbn. lia.
  - destruct (Hgood eq_refl) as [Hstat _]. exact Hstat.
Defined.

(** ** The decoders stay inside the packet *)

Lemma advanced_refl (p : sftp_packet) : advanced p p.
Proof. repeat split; lia. Qed.

Lemma advanced_trans (p q r : sftp_packet) : advanced p q -> advanced q r -> advanced p r.
Proof.
  intros (Hd1 & Hl1 & Hs1) (Hd2 & Hl2 & Hs2).
  repeat split; [congruence | congruence | lia].
Qed.

Lemma getuint32_safe (p : sftp_packet) :
  pkt_in_bounds p ->
  exists r p1, sftp_pkt_getuint32 p = Ok (r, p1) /\ pkt_in_bounds p1 /\ advanced p p1 /\
    (r <> None -> pkt_savedpos p1 = pkt_savedpos p + 4).
Proof.
  intros ([Hl Hm] & Hpos & Hmax). unfold INT_MAX in Hmax. unfold sftp_pkt_getuint32.
  rewrite (u32_small (pkt_length p - pkt_savedpos p)) by (unfold UINT_MOD in *; lia).
  destruct (Z.ltb_spec (pkt_length p - pkt_savedpos p) 4).
  - exists None, p. split; [reflexivity|].
    split; [repeat split; assumption || (unfold INT_MAX; lia)|].
    split; [apply advanced_refl | intros H'; contradiction].
  - destruct (GET_32BIT_Some (pkt_data p) (pkt_savedpos p)) as (v & Ev & _); [lia|lia|].
    rewrite Ev. eexists _, _. split; [reflexivity|].
    unfold pkt_in_bounds, pkt_buffer_ok, advanced.
    cbn [with_savedpos pkt_data pkt_length pkt_savedpos].
    rewrite u32_small by (unfold UINT_MOD in *; lia).
    unfold INT_MAX. repeat split; try assumption; lia.
Qed.

Lemma getstring_safe (p : sftp_packet) :
  pkt_in_bounds p ->
  exists g, sftp_pkt_getstring p = Ok g /\ pkt_in_bounds (gs_pkt g) /\
    advanced p (gs_pkt g) /\
    (gs_ret g = 0 \/
     gs_ret g = 1 /\
     exists n, gs_p g = Some (pkt_savedpos p + 4) /\ gs_length g = Some n /\ 0 <= n /\
       pkt_savedpos (gs_pkt g) = pkt_savedpos p + 4 + n).
Proof.
  intros ([Hl Hm] & Hpos & Hmax). unfold INT_MAX in Hmax. unfold sftp_pkt_getstring.
  rewrite (u32_small (pkt_length p - pkt_savedpos p)) by (unfold UINT_MOD in *; lia).
  destruct (Z.ltb_spec (pkt_length p - pkt_savedpos p) 4).
  - eexists. split; [reflexivity|]. cbn [gs_pkt gs_ret].
    split; [repeat split; assumption || (unfold INT_MAX; lia)|].
    split; [apply advanced_refl | left; reflexivity].
  - destruct (GET_32BIT_Some (pkt_data p) (pkt_savedpos p)) as (v & Ev & _); [lia|lia|].
    rewrite Ev. cbv zeta. cbn [with_savedpos pkt_data pkt_length pkt_savedpos].
    rewrite (u32_small (pkt_savedpos p + 4)) by (unfold UINT_MOD in *; lia).
    rewrite (u32_small (pkt_length p - (pkt_savedpos p + 4))) by (unfold UINT_MOD in *; lia).
    rewrite (s32_small (pkt_length p - (pkt_savedpos p + 4))) by lia.
    destruct (Z.ltb_spec (pkt_length p - (pkt_savedpos p + 4)) (s32 v)).
    + eexists. split; [reflexivity|]. cbn [orb gs_pkt gs_ret].
      unfold pkt_in_bounds, pkt_buffer_ok, advanced.
      cbn [with_savedpos pkt_data pkt_length pkt_savedpos]. unfold INT_MAX.
      split; [repeat split; try assumption; lia|].
      split; [repeat split; lia | left; reflexivity].
    + destruct (Z.ltb_spec (s32 v) 0).
      * eexists. split; [reflexivity|]. cbn [orb gs_pkt gs_ret].
        unfold pkt_in_bounds, pkt_buffer_ok, advanced.
        cbn [with_savedpos pkt_data pkt_length pkt_savedpos]. unfold INT_MAX.
        split; [repeat split; try assumption; lia|].
        split; [repeat split; lia | left; reflexivity].
      * eexists. split; [reflexivity|]. cbn [orb gs_pkt gs_ret gs_p gs_length].
        unfold pkt_in_bounds, pkt_buffer_ok, advanced.
        cbn [with_savedpos pkt_data pkt_length pkt_savedpos].
        rewrite (u32_small (pkt_savedpos p + 4 + s32 v)) by (unfold UINT_MOD in *; lia).
        unfold INT_MAX.
        split; [repeat split; try assumption; lia|].
        split; [repeat split; lia|].
        right. split; [reflexivity|]. exists (s32 v). repeat split; lia.
Qed.

(** The loop over extended attribute pairs consumes at least eight bytes a
    round, so it ends within the fuel the buffer size gives it. *)
Lemma getattrs_extended_safe (fuel : nat) :
  forall count p, pkt_in_bounds p -> pkt_length p - pkt_savedpos p < 8 * Z.of_nat fuel ->
    exists v p', getattrs_extended fuel count p = Ok (v, p') /\
      (v = 0 \/ v = 1) /\ pkt_in_bounds p' /\ advanced p p'.
Proof.
  induction fuel as [|fuel IH]; intros count p Hin Hfuel.
  - destruct Hin as (_ & Hpos & _). lia.
  - cbn [getattrs_extended]. destruct (count =? 0).
    + exists 1, p. split; [reflexivity|]. split; [right; reflexivity|].
      split; [exact Hin | apply advanced_refl].
    + destruct (getstring_safe p Hin) as (g1 & E1 & Hin1 & Ha1 & Hc1).
      rewrite E1. cbn [obind].
      destruct Hc1 as [R1 | (R1 & n1 & _ & _ & Hn1 & Hs1)].
      { rewrite R1. cbn [Z.eqb]. eexists _, _. split; [reflexivity|].
        split; [left; reflexivity|]. split; assumption. }
      rewrite R1. change (1 =? 0) with false. cbv iota.
      destruct (getstring_safe _ Hin1) as (g2 & E2 & Hin2 & Ha2 & Hc2).
      rewrite E2. cbn [obind].
      destruct Hc2 as [R2 | (R2 & n2 & _ & _ & Hn2 & Hs2)].
      { rewrite R2. cbn [Z.eqb]. eexists _, _. split; [reflexivity|].
        split; [left; reflexivity|]. split; [assumption|].
        eapply advanced_trans; eassumption. }
      rewrite R2. change (1 =? 0) with false. cbv iota.
      destruct (IH (u32 (count - 1)) (gs_pkt g2) Hin2) as (v & p' & E & Hv & Hin' & Ha').
      { destruct Ha1 as (_ & L1 & _), Ha2 as (_ & L2 & _). lia. }
      exists v, p'. split; [exact E|]. split; [exact Hv|]. split; [exact Hin'|].
      eapply advanced_trans; [|exact Ha'].
      eapply advanced_trans; eassumption.
Qed.

Lemma getattrs_field_safe (flag : Z) (set : fxp_attrs -> Z -> fxp_attrs)
    (ok : bool) (a : fxp_attrs) (p : sftp_packet) :
  pkt_in_bounds p ->
  exists ok' a' p', getattrs_field flag set (ok, a, p) = Ok (ok', a', p') /\
    pkt_in_bounds p' /\ advanced p p'.
Proof.
  intros Hin. unfold getattrs_field. destruct ok.
  - destruct (Z.land (at_flags a) flag =? 0).
    + eexists _, _, _. split; [reflexivity|]. split; [exact Hin | apply advanced_refl].
    + destruct (getuint32_safe p Hin) as (r & p1 & E & Hin1 & Ha1 & _).
      rewrite E. cbn [obind].
      destruct r; eexists _, _, _; (split; [reflexivity|]); split; assumption.
  - eexists _, _, _. split; [reflexivity|]. split; [exact Hin | apply advanced_refl].
Qed.

Lemma getattrs_size_safe (ok : bool) (a : fxp_attrs) (p : sftp_packet) :
  pkt_in_bounds p ->
  exists ok' a' p', getattrs_size (ok, a, p) = Ok (ok', a', p') /\
    pkt_in_bounds p' /\ advanced p p'.
Proof.
  intros Hin. unfold getattrs_size. destruct ok.
  - destruct (Z.land (at_flags a) SSH_FILEXFER_ATTR_SIZE =? 0).
    + eexists _, _, _. split; [reflexivity|]. split; [exact Hin | apply advanced_refl].
    + destruct (getuint32_safe p Hin) as (r & p1 & E & Hin1 & Ha1 & _).
      rewrite E. cbn [obind].
      destruct r as [h|].
      * destruct (getuint32_safe p1 Hin1) as (r2 & p2 & E2 & Hin2 & Ha2 & _).
        rewrite E2. cbn [obind].
        destruct r2; eexists _, _, _; (split; [reflexivity|]);
          (split; [assumption | eapply advanced_trans; eassumption]).
      * eexists _, _, _. split; [reflexivity|]. split; assumption.
  - eexists _, _, _. split; [reflexivity|]. split; [exact Hin | apply advanced_refl].
Qed.

Lemma sftp_pkt_getattrs_run_safe (p : sftp_packet) (a : fxp_attrs) :
  pkt_in_bounds p ->
  exists v a' p', sftp_pkt_getattrs p a = Ok (v, a', p') /\
    (v = 0 \/ v = 1) /\ pkt_in_bounds p' /\ advanced p p'.
Proof.
  intros Hin. unfold sftp_pkt_getattrs.
  destruct (getuint32_safe p Hin) as (r & p1 & E & Hin1 & Ha1 & _).
  rewrite E. cbn [obind]. destruct r as [flags|].
  2:{ eexists _, _, _. split; [reflexivity|]. split; [left; reflexivity|].
      split; assumption. }
  destruct (getattrs_size_safe true (set_flags a flags) p1 Hin1)
    as (ok2 & a2 & p2 & E2 & Hin2 & Ha2).
  rewrite E2. cbn [obind].
  destruct (getattrs_field_safe SSH_FILEXFER_ATTR_UIDGID set_uid ok2 a2 p2 Hin2)
    as (ok3 & a3 & p3 & E3 & Hin3 & Ha3).
  rewrite E3. cbn [obind].
  destruct (getattrs_field_safe SSH_FILEXFER_ATTR_UIDGID set_gid ok3 a3 p3 Hin3)
    as (ok4 & a4 & p4 & E4 & Hin4 & Ha4).
  rewrite E4. cbn [obind].
  destruct (getattrs_field_safe SSH_FILEXFER_ATTR_PERMISSIONS set_permissions ok4 a4 p4 Hin4)
    as (ok5 & a5 & p5 & E5 & Hin5 & Ha5).
  rewrite E5. cbn [obind].
  destruct (getattrs_field_safe SSH_FILEXFER_ATTR_ACMODTIME set_atime ok5 a5 p5 Hin5)
    as (ok6 & a6 & p6 & E6 & Hin6 & Ha6).
  rewrite E6. cbn [obind].
  destruct (getattrs_field_safe SSH_FILEXFER_ATTR_ACMODTIME set_mtime ok6 a6 p6 Hin6)
    as (ok7 & a7 & p7 & E7 & Hin7 & Ha7).
  rewrite E7. cbn [obind].
  assert (Ha : advanced p p7).
  { repeat (eapply advanced_trans; [eassumption|]). apply advanced_refl. }
  destruct ok7.
  2:{ eexists _, _, _. split; [reflexivity|]. split; [left; reflexivity|].
      split; assumption. }
  destruct (Z.land (at_flags a7) SSH_FILEXFER_ATTR_EXTENDED =? 0).
  { eexists _, _, _. split; [reflexivity|]. split; [right; reflexivity|].
    split; assumption. }
  destruct (getuint32_safe p7 Hin7) as (r8 & p8 & E8 & Hin8 & Ha8 & _).
  rewrite E8. cbn [obind]. destruct r8 as [count|].
  2:{ eexists _, _, _. split; [reflexivity|]. split; [left; reflexivity|].
      split; [assumption | eapply advanced_trans; eassumption]. }
  destruct (getattrs_extended_safe (S (length (pkt_data p8))) count p8 Hin8)
    as (v & p9 & E9 & Hv & Hin9 & Ha9).
  { destruct Hin8 as ([Hl _] & Hpos & _). lia. }
  rewrite E9. cbn [obind fst snd].
  eexists _, _, _. split; [reflexivity|]. split; [exact Hv|].
  split; [assumption|].
  eapply advanced_trans; [exact Ha|]. eapply advanced_trans; eassumption.
Qed.

(** X19: [sftp_pkt_getattrs] never reads outside the packet.  On every
    packet of at most INT_MAX bytes whose cursor is in bounds, whatever its
    contents and whatever count of extended attributes it announces, it
    returns 0 or 1 after finitely many steps, and leaves the cursor in
    bounds and not before where it was. *)
Theorem sftp_pkt_getattrs_safe (p : sftp_packet) (a : fxp_attrs) :
  pkt_in_bounds p ->
  exists v a' p', sftp_pkt_getattrs p a = Ok (v, a', p') /\
    (v = 0 \/ v = 1) /\ pkt_in_bounds p' /\ advanced p p'.
Proof. apply sftp_pkt_getattrs_run_safe. Qed.

Lemma sftp_pkt_getattrs_safe_witness :
  exists v a' p',
    sftp_pkt_getattrs (with_savedpos (status_packet 256 2147483648) 5) attrs0
    = Ok (v, a', p') /\ (v = 0 \/ v = 1) /\
    pkt_in_bounds p' /\ advanced (with_savedpos (status_packet 256 2147483648) 5) p'.
Proof.
  apply (sftp_pkt_getattrs_safe (with_savedpos (status_packet 256 2147483648) 5) attrs0).
  split; [split; [reflexivity | vm_compute; reflexivity]|].
  split; [cbn; lia | vm_compute; discriminate].
Defined.

Lemma mkstr_safe (data : list Z) (p n : Z) :
  0 <= p -> 0 <= n -> p + n <= Z.of_nat (length data) ->
  exists str, mkstr data (Some p) n = Ok str /\ Z.of_nat (length str) = n + 1 /\
    last str = Some 0.
Proof.
  intros Hp Hn Hfit. unfold mkstr.
  destruct (Z.leb_spec 0 n); [|lia].
  destruct (Z.leb_spec (p + n) (Z.of_nat (length data))); [|lia].
  eexists. split; [reflexivity|]. split; [|apply last_snoc].
  rewrite length_app, length_take, length_drop. cbn [length]. lia.
Qed.

(** The string a successful [sftp_pkt_getstring] has borrowed can be copied
    out of any later state of the packet. *)
Lemma mkstr_after_getstring (p q : sftp_packet) (g : getstring_result) (n : Z) :
  pkt_in_bounds (gs_pkt g) -> advanced (gs_pkt g) q ->
  gs_p g = Some (pkt_savedpos p + 4) -> gs_length g = Some n -> 0 <= n ->
  pkt_savedpos (gs_pkt g) = pkt_savedpos p + 4 + n -> 0 <= pkt_savedpos p ->
  exists str, mkstr (pkt_data q) (gs_p g) (default 0 (gs_length g)) = Ok str /\
    last str = Some 0.
Proof.
  intros ([Hl _] & Hpos & _) (Hd & _ & _) Hp Hlen Hn Hs H0.
  rewrite Hp, Hlen. cbn [default]. unfold id.
  destruct (mkstr_safe (pkt_data q) (pkt_savedpos p + 4) n) as (str & E & _ & Hlast);
    [lia | lia | rewrite Hd; lia |].
  exists str. split; assumption.
Qed.

Lemma readdir_names_safe (n : nat) :
  forall p acc, pkt_in_bounds p ->
    exists r p', readdir_names n p acc = Ok (r, p') /\
      pkt_in_bounds p' /\ advanced p p' /\
      (forall l, r = Some l -> length l = (length acc + n)%nat).
Proof.
  induction n as [|n IH]; intros p acc Hin.
  - exists (Some acc), p. split; [reflexivity|]. split; [exact Hin|].
    split; [apply advanced_refl|]. intros l E. injection E as <-. lia.
  - cbn [readdir_names].
    destruct (getstring_safe p Hin) as (g1 & E1 & Hin1 & Ha1 & Hc1).
    rewrite E1. cbn [obind].
    destruct Hc1 as [R1 | (R1 & n1 & Hp1 & Hl1 & Hn1 & Hs1)].
    { rewrite R1. cbn [Z.eqb]. eexists _, _. split; [reflexivity|].
      split; [assumption|]. split; [assumption | discriminate]. }
    rewrite R1. change (1 =? 0) with false. cbv iota.
    destruct (getstring_safe _ Hin1) as (g2 & E2 & Hin2 & Ha2 & Hc2).
    rewrite E2. cbn [obind].
    destruct Hc2 as [R2 | (R2 & n2 & Hp2 & Hl2 & Hn2 & Hs2)].
    { rewrite R2. cbn [Z.eqb]. eexists _, _. split; [reflexivity|].
      split; [assumption|]. split; [eapply advanced_trans; eassumption | discriminate]. }
    rewrite R2. change (1 =? 0) with false. cbv iota.
    destruct (sftp_pkt_getattrs_run_safe (gs_pkt g2) attrs0 Hin2)
      as (v & a' & p3 & E3 & Hv & Hin3 & Ha3).
    rewrite E3. cbn [obind].
    destruct Hv as [-> | ->].
    { cbn [Z.eqb]. eexists _, _. split; [reflexivity|]. split; [assumption|].
      split; [|discriminate].
      eapply advanced_trans; [eassumption|]. eapply advanced_trans; eassumption. }
    change (1 =? 0) with false. cbv iota.
    assert (H0 : 0 <= pkt_savedpos p) by (destruct Hin as (_ & ? & _); lia).
    assert (H1 : 0 <= pkt_savedpos (gs_pkt g1)) by (destruct Hin1 as (_ & ? & _); lia).
    destruct (mkstr_after_getstring p p3 g1 n1 Hin1) as (f & Ef & _);
      try assumption; [eapply advanced_trans; eassumption|].
    destruct (mkstr_after_getstring (gs_pkt g1) p3 g2 n2 Hin2) as (l & El & _);
      try assumption.
    rewrite Ef. cbn [obind]. rewrite El. cbn [obind].
    destruct (IH p3 (acc ++ [mk_name f l a']) Hin3) as (r & p' & E & Hin' & Ha' & Hlen).
    exists r, p'. split; [exact E|]. split; [exact Hin'|]. split.
    + eapply advanced_trans; [eassumption|]. eapply advanced_trans; [eassumption|].
      eapply advanced_trans; eassumption.
    + intros l0 El0. rewrite (Hlen l0 El0), length_app. cbn [length]. lia.
Qed.

Lemma status_and_free_safe (pktin : sftp_packet) (s : sftp_state) :
  pkt_in_bounds pktin -> exists v s', status_and_free pktin s = Ok (v, s').
Proof.
  intros Hin. destruct (getuint32_safe pktin Hin) as (r & p1 & E & _).
  destruct (fxp_got_status_run pktin s r p1 E) as (v & pk & ety & msg & Erun & _).
  unfold status_and_free, bind. rewrite Erun. eexists _, _. reflexivity.
Qed.

Lemma recv_handle_safe (what : string) (pktin : sftp_packet) (req : sftp_request)
    (s : sftp_state) :
  pkt_in_bounds pktin ->
  exists r s', recv_handle what pktin req s = Ok (r, s') /\
    (forall h, r = Some h -> last (hstring h) = Some 0 /\ 0 <= hlen h).
Proof.
  intros Hin. unfold recv_handle. unfold bind at 1. unfold log, modify.
  destruct (pkt_type pktin =? SSH_FXP_HANDLE).
  - destruct (getstring_safe pktin Hin) as (g & E & Hin1 & Ha1 & Hc).
    unfold bind at 1. unfold lift at 1. rewrite E.
    destruct Hc as [R | (R & n & Hp & Hl & Hn & Hs)].
    + rewrite R. cbn [Z.eqb]. eexists _, _. split; [reflexivity | discriminate].
    + rewrite R. change (1 =? 0) with false. cbv iota.
      destruct (mkstr_after_getstring pktin (gs_pkt g) g n Hin1 (advanced_refl _))
        as (str & Emk & Hlast); try assumption.
      { destruct Hin as (_ & ? & _). lia. }
      unfold bind at 1. unfold lift at 1. rewrite Emk.
      eexists _, _. split; [reflexivity|].
      intros h Eh. injection Eh as <-. cbn [hstring hlen].
      rewrite Hl. cbn [default]. unfold id. split; assumption.
  - destruct (status_and_free_safe pktin (put_event (EvReqFree req) s) Hin) as (v & s' & E).
    unfold bind. rewrite E. eexists _, _. split; [reflexivity | discriminate].
Qed.

(** X20: the receivers that decode a reply never read outside the packet
    and never fail to return.  On every packet of at most INT_MAX bytes with
    its cursor in bounds, whatever its contents, [fxp_open_recv],
    [fxp_opendir_recv], [fxp_realpath_recv], [fxp_stat_recv],
    [fxp_fstat_recv] and [fxp_readdir_recv] return; a handle that is
    returned has a NUL-terminated string, a path that is returned ends in
    NUL, and a name list that is returned holds exactly [nnames] names. *)
Theorem receivers_stay_in_bounds (sizeof_fxp_name : Z) (pktin : sftp_packet)
    (req : sftp_request) (s : sftp_state) (attrs : fxp_attrs) :
  pkt_in_bounds pktin ->
  (exists r s', fxp_open_recv pktin req s = Ok (r, s') /\
     (forall h, r = Some h -> last (hstring h) = Some 0 /\ 0 <= hlen h)) /\
  (exists r s', fxp_opendir_recv pktin req s = Ok (r, s') /\
     (forall h, r = Some h -> last (hstring h) = Some 0 /\ 0 <= hlen h)) /\
  (exists r s', fxp_realpath_recv pktin req s = Ok (r, s') /\
     (forall path, r = Some path -> last path = Some 0)) /\
  (exists v a s', fxp_stat_recv pktin req attrs s = Ok ((v, a), s') /\ (v = 0 \/ v = 1)) /\
  (exists v a s', fxp_fstat_recv pktin req attrs s = Ok ((v, a), s') /\ (v = 0 \/ v = 1)) /\
  (exists r s', fxp_readdir_recv sizeof_fxp_name pktin req s = Ok (r, s') /\
     (forall l, r = Some l -> 0 <= nnames l /\ Z.of_nat (length (names l)) = nnames l)).
Proof.
  intros Hin.
  pose proof (status_and_free_safe pktin (put_event (EvReqFree req) s) Hin)
    as (v0 & s0 & Estat).
  assert (Hattrs : exists v a s', recv_attrs pktin req attrs s = Ok ((v, a), s') /\
                     (v = 0 \/ v = 1)).
  { unfold recv_attrs. unfold bind at 1. unfold log, modify.
    destruct (pkt_type pktin =? SSH_FXP_ATTRS).
    - destruct (sftp_pkt_getattrs_run_safe pktin attrs Hin) as (v & a' & p' & E & Hv & _).
      unfold bind at 1. unfold lift at 1. rewrite E.
      destruct Hv as [-> | ->].
      + eexists _, _, _. split; [reflexivity | left; reflexivity].
      + eexists _, _, _. split; [reflexivity | right; reflexivity].
    - unfold bind. rewrite Estat. eexists _, _, _. split; [reflexivity | left; reflexivity]. }
  split; [apply recv_handle_safe, Hin|].
  split; [apply recv_handle_safe, Hin|].
  split; [|split; [exact Hattrs | split; [exact Hattrs|]]].
  - unfold fxp_realpath_recv. unfold bind at 1. unfold log, modify.
    destruct (pkt_type pktin =? SSH_FXP_NAME).
    + destruct (getuint32_safe pktin Hin) as (r & p1 & E & Hin1 & Ha1 & _).
      unfold bind at 1. unfold lift at 1. rewrite E.
      destruct r as [count|]; [|eexists _, _; split; [reflexivity | discriminate]].
      destruct (negb (count =? 1)); [eexists _, _; split; [reflexivity | discriminate]|].
      destruct (getstring_safe p1 Hin1) as (g & Eg & Hin2 & Ha2 & Hc).
      unfold bind at 1. unfold lift at 1. rewrite Eg.
      destruct Hc as [R | (R & n & Hp & Hl & Hn & Hs)].
      * rewrite R. cbn [Z.eqb]. eexists _, _. split; [reflexivity | discriminate].
      * rewrite R. change (1 =? 0) with false. cbv iota.
        destruct (mkstr_after_getstring p1 (gs_pkt g) g n Hin2 (advanced_refl _))
          as (str & Emk & Hlast); try assumption.
        { destruct Hin1 as (_ & ? & _). lia. }
        unfold bind at 1. unfold lift at 1. rewrite Emk.
        eexists _, _. split; [reflexivity|]. intros path E'. injection E' as <-. exact Hlast.
    + unfold bind. rewrite Estat. eexists _, _. split; [reflexivity | discriminate].
  - unfold fxp_readdir_recv. unfold bind at 1. unfold log, modify.
    destruct (pkt_type pktin =? SSH_FXP_NAME).
    + destruct (getuint32_safe pktin Hin) as (r & p1 & E & Hin1 & Ha1 & _).
      unfold bind at 1. unfold lift at 1. rewrite E.
      destruct r as [i|]; [|eexists _, _; split; [reflexivity | discriminate]].
      pose proof (getuint32_Some_range _ _ _ E) as Hi.
      destruct (Z.ltb_spec (u32 (pkt_length p1 - pkt_savedpos p1) / 12) i) as [_|Hfit];
        [eexists _, _; split; [reflexivity | discriminate]|].
      destruct (INT_MAX / sizeof_fxp_name <? i);
        [eexists _, _; split; [reflexivity | discriminate]|].
      assert (Hsmall : 0 <= i <= INT_MAX).
      { destruct Hin1 as ([_ Hm] & Hpos & Hmax).
        rewrite u32_small in Hfit by (unfold UINT_MOD in *; lia).
        assert ((pkt_length p1 - pkt_savedpos p1) / 12 <= pkt_length p1 - pkt_savedpos p1)
          by (apply Z.div_le_upper_bound; lia).
        lia. }
      rewrite (s32_small i) by (unfold INT_MAX in Hsmall; lia).
      destruct (readdir_names_safe (Z.to_nat i) p1 [] Hin1) as (r & p2 & En & _ & _ & Hlen).
      unfold bind at 1. unfold log, modify.
      unfold bind at 1. unfold lift at 1. rewrite En.
      destruct r as [l|]; [|eexists _, _; split; [reflexivity | discriminate]].
      eexists _, _. split; [reflexivity|].
      intros l0 E0. injection E0 as <-. cbn [nnames names].
      rewrite (Hlen l eq_refl). cbn [length]. lia.
    + unfold bind. rewrite Estat. eexists _, _. split; [reflexivity | discriminate].
Qed.

Lemma name_reply_example_in_bounds : pkt_in_bounds name_reply_example.
Proof.
  split; [split; [reflexivity | vm_compute; reflexivity]|].
  split; [cbn; lia | vm_compute; discriminate].
Defined.

Lemma receivers_stay_in_bounds_witness :
  exists r s',
    fxp_readdir_recv 48 name_reply_example (mk_request 256 1 None) initial_state
    = Ok (r, s') /\
    (forall l, r = Some l -> 0 <= nnames l /\ Z.of_nat (length (names l)) = nnames l).
Proof.
  apply (receivers_stay_in_bounds 48 name_reply_example (mk_request 256 1 None)
           initial_state attrs0 name_reply_example_in_bounds).
Defined.

(** ** The download engine: starting, stopping, handing out, cleaning up *)







(** *** After an error or the end of the file *)

Lemma xfer_download_queue_stopped (x : fxp_xfer) (s : sftp_state) :
  x_eof x <> 0 \/ x_err x <> 0 -> xfer_download_queue x s = Ok (x, s).
Proof.
  intros Hend. unfold xfer_download_queue.
  assert (Hcond : (req_totalsize x <? req_maxsize x) && (x_eof x =? 0) && (x_err x =? 0)
                  = false).
  { destruct Hend as [H|H]; apply Z.eqb_neq in H; rewrite H;
      rewrite ?andb_false_r; reflexivity. }
  destruct (download_queue_rounds x); cbn [download_queue_loop]; rewrite Hcond; reflexivity.
Qed.

Lemma note_flags (x : fxp_xfer) (r : req) :
  x_eof (note_short_read (note_furthestdata x r) r) = x_eof x /\
  x_err (note_short_read (note_furthestdata x r) r) = x_err x.
Proof.
  unfold note_short_read, note_furthestdata.
  destruct (_ && _); destruct (_ <? _); cbv zeta; try destruct (0 <? _); split; reflexivity.
Qed.

Lemma download_gotpkt_rest_flags (xfer : fxp_xfer) (rr : nat) (r : req) (s : sftp_state) :
  heap s !! rr = Some r ->
  exists v x' s',
    download_gotpkt_rest xfer rr s = Ok ((v, x'), s') /\
    x_eof x' = x_eof xfer /\
    (v = 1 /\ x_err x' = x_err xfer \/ v = -1 /\ x_err x' = 1) /\
    heap s' !! rr = Some (with_rr_complete r 1).
Proof.
  intros Hr. unfold download_gotpkt_rest, bind, load_req, store_req. rewrite Hr.
  cbv beta iota. rewrite Hr.
  unfold set_heap, modify. cbv zeta.
  destruct (note_flags xfer r) as [Heof Herr].
  destruct (0 <? uint64_compare _ _); eexists _, _, _; (split; [reflexivity|]).
  - cbn [x_eof x_err xfer_set_error heap put_heap put_error].
    split; [exact Heof|]. split; [right; split; reflexivity | apply lookup_insert_eq].
  - cbn [heap put_heap].
    split; [exact Heof|]. split; [left; split; [reflexivity | exact Herr]|].
    apply lookup_insert_eq.
Qed.

(** X22: what a reply does to the two flags that stop a download.  For a
    READ reply that correlates with a block of the transfer,
    [xfer_download_gotpkt] returns 1 or -1; a reply that is SSH_FX_EOF or
    carries no data sets [eof]; any other error returns -1; and whenever -1
    is returned [err] is set.  Once [eof] or [err] is set,
    [xfer_download_queue] queues nothing more: it returns with the transfer
    and the state as they are. *)
Theorem download_end_stops_queueing (xfer : fxp_xfer) (pktin : option sftp_packet)
    (s : sftp_state) (rr : nat) (r0 : req) (retlen ety : Z) :
  read_reply_for pktin s rr r0 retlen ety ->
  exists v x' s',
    xfer_download_gotpkt xfer pktin s = Ok ((v, x'), s') /\
    (v = 1 \/ v = -1) /\
    (retlen < 0 /\ ety = SSH_FX_EOF \/ retlen = 0 -> x_eof x' = 1) /\
    (retlen < 0 -> ety <> SSH_FX_EOF -> v = -1) /\
    (v = -1 -> x_err x' = 1) /\
    (v = 1 -> x_err x' = x_err xfer) /\
    (x_eof x' <> 0 \/ x_err x' <> 0 ->
     forall s0, xfer_download_queue x' s0 = Ok (x', s0)).
Proof.
  intros (rq & pk & s1 & buf & s2 & Hfind & Hud & Hr0 & Hrecv & Hety).
  destruct (heap_frame_read_recv _ _ _ _ _ _ _ Hrecv) as [Hheap _].
  set (r1 := with_rr_result r0 retlen buf).
  unfold xfer_download_gotpkt, bind. rewrite Hfind. cbn [fst snd fxp_get_userdata].
  unfold ret at 1. rewrite Hud.
  unfold load_req at 1. rewrite Hr0, Hrecv. cbn [fst snd]. fold r1.
  unfold store_req at 1. rewrite Hheap, Hr0.
  unfold set_heap, modify. unfold fxp_error_type, bind, get, ret.
  cbn [fxp_errtype put_heap]. rewrite <- Hety.
  change (rr_retlen r1) with retlen.
  destruct (((retlen <? 0) && (ety =? SSH_FX_EOF)) || (retlen =? 0)) eqn:Heof.
  - unfold store_req. cbn [heap put_heap]. rewrite lookup_insert_eq.
    unfold set_heap, modify.
    match goal with
    | |- context [download_gotpkt_rest ?x rr ?st] =>
        destruct (download_gotpkt_rest_flags x rr (with_rr_complete r1 (-1)) st)
          as (v & x' & s' & Hrun & Hxe & Hv & _)
    end.
    { cbn [heap put_heap]. apply lookup_insert_eq. }
    rewrite Hrun. exists v, x', s'. split; [reflexivity|].
    cbn [x_eof x_err with_eof] in Hxe, Hv.
    split; [destruct Hv as [[-> _]|[-> _]]; auto|].
    split; [intros _; exact Hxe|].
    split.
    { intros Hneg Hne. exfalso.
      apply orb_true_iff in Heof as [Heof|Heof].
      - apply andb_true_iff in Heof as [_ Heof]. apply Z.eqb_eq in Heof. contradiction.
      - apply Z.eqb_eq in Heof. lia. }
    split; [intros ->; destruct Hv as [[? _]|[_ ?]]; [discriminate | assumption]|].
    split; [intros ->; destruct Hv as [[_ ?]|[? _]]; [assumption | discriminate]|].
    intros Hend s0. apply xfer_download_queue_stopped, Hend.
  - apply orb_false_iff in Heof as [Heof1 Heof2]. apply Z.eqb_neq in Heof2.
    destruct (Z.ltb_spec retlen 0) as [Hneg|Hnn].
    + unfold store_req. cbn [heap put_heap]. rewrite lookup_insert_eq.
      eexists _, _, _. split; [reflexivity|].
      split; [right; reflexivity|].
      split.
      { intros [[_ E]|E]; [|lia]. cbn [andb] in Heof1. apply Z.eqb_neq in Heof1.
        contradiction. }
      split; [reflexivity|]. split; [reflexivity|]. split; [discriminate|].
      intros Hend s0. apply xfer_download_queue_stopped, Hend.
    + match goal with
      | |- context [download_gotpkt_rest ?x rr ?st] =>
          destruct (download_gotpkt_rest_flags x rr r1 st)
            as (v & x' & s' & Hrun & Hxe & Hv & _)
      end.
      { cbn [heap put_heap]. apply lookup_insert_eq. }
      rewrite Hrun. exists v, x', s'. split; [reflexivity|].
      split; [destruct Hv as [[-> _]|[-> _]]; auto|].
      split; [intros [[? _]|?]; lia|].
      split; [intros ?; lia|].
      split; [intros ->; destruct Hv as [[? _]|[_ ?]]; [discriminate | assumption]|].
      split; [intros ->; destruct Hv as [[_ ?]|[? _]]; [assumption | discriminate]|].
      intros Hend s0. apply xfer_download_queue_stopped, Hend.
Qed.

Lemma download_end_stops_queueing_witness :
  exists v x' s',
    xfer_download_gotpkt started_xfer (Some (status_packet 256 4)) started_state
    = Ok ((v, x'), s') /\
    (v = -1 -> x_err x' = 1) /\
    (x_eof x' <> 0 \/ x_err x' <> 0 ->
     forall s0, xfer_download_queue x' s0 = Ok (x', s0)).
Proof.
  destruct (download_end_stops_queueing started_xfer (Some (status_packet 256 4))
              started_state 0%nat first_block (-1) 4)
    as (v & x' & s' & Hrun & _ & _ & _ & Herr & _ & Hstop).
  - eexists _, _, _, _, _.
    split; [vm_compute; reflexivity|].
    split; [reflexivity|]. split; [vm_compute; reflexivity|].
    split; [vm_compute; reflexivity | reflexivity].
  - exists v, x', s'. split; [exact Hrun|]. split; assumption.
Defined.

(** *** Cleaning up *)

Lemma chain_linked h p l : chain h p l -> linked h p l.
Proof.
  revert p. induction l as [|a l IH]; intros p Hc; cbn [chain linked] in *; [exact Hc|].
  destruct Hc as (-> & r & Hr & _ & Hc). split; [reflexivity|].
  exists r. split; [exact Hr | apply IH, Hc].
Qed.

Lemma linked_functional h p l l' : linked h p l -> linked h p l' -> l = l'.
Proof.
  revert p l'. induction l as [|a l IH]; intros p l' H H'.
  - cbn [linked] in H. subst p. destruct l'; [reflexivity|]. destruct H'. discriminate.
  - cbn [linked] in H. destruct H as (-> & r & Hr & H).
    destruct l' as [|b l']; [discriminate|].
    cbn [linked] in H'. destruct H' as (E & r' & Hr' & H'). injection E as <-.
    rewrite Hr in Hr'. injection Hr' as <-. f_equal. eapply IH; eassumption.
Qed.

Lemma linked_suffix h p l1 a l2 :
  linked h p (l1 ++ a :: l2) -> linked h (Some a) (a :: l2).
Proof.
  revert p. induction l1 as [|b l1 IH]; intros p H.
  - cbn [app linked] in *. destruct H as (_ & H). split; [reflexivity | exact H].
  - cbn [app linked] in H. destruct H as (_ & r & _ & H). eapply IH, H.
Qed.

(** A queue that ends at NULL visits no block twice. *)
Lemma linked_NoDup h p l : linked h p l -> NoDup l.
Proof.
  revert p. induction l as [|a l IH]; intros p H; [constructor|].
  cbn [linked] in H. destruct H as (-> & r & Hr & H).
  apply NoDup_cons. split; [|eapply IH, H].
  intros Ha. apply list_elem_of_split in Ha as (l1 & l2 & ->).
  pose proof (linked_suffix _ _ _ _ _ H) as Hs. cbn [linked] in Hs.
  destruct Hs as (_ & r' & Hr' & Hs). rewrite Hr in Hr'. injection Hr' as <-.
  pose proof (linked_functional _ _ _ _ H Hs) as E.
  apply (f_equal length) in E. rewrite length_app in E. cbn [length] in E. lia.
Qed.

Lemma linked_delete h p l a : linked h p l -> a ∉ l -> linked (delete a h) p l.
Proof.
  revert p. induction l as [|b l IH]; intros p H Ha; cbn [linked] in *; [exact H|].
  destruct H as (-> & r & Hr & H). apply not_elem_of_cons in Ha as [Hne Ha].
  split; [reflexivity|]. exists r. rewrite lookup_delete_ne by exact Hne.
  split; [exact Hr | apply IH; assumption].
Qed.

Lemma linked_length_le_size h p l : linked h p l -> (length l <= size h)%nat.
Proof.
  intros H. pose proof (linked_NoDup _ _ _ H) as Hnd. revert h p H Hnd.
  induction l as [|a l IH]; intros h p H Hnd; cbn [length]; [lia|].
  cbn [linked] in H. destruct H as (_ & r & Hr & H).
  apply NoDup_cons in Hnd as [Ha Hnd].
  pose proof (IH (delete a h) _ (linked_delete _ _ _ _ H Ha) Hnd) as Hle.
  rewrite map_size_delete_Some in Hle by (eexists; exact Hr).
  assert (size h <> 0%nat).
  { intros E. apply map_size_empty_inv in E. rewrite E, lookup_empty in Hr. discriminate. }
  lia.
Qed.

Lemma put_heap_same (s : sftp_state) : put_heap (heap s) s = s.
Proof. destruct s. reflexivity. Qed.

Lemma cleanup_loop_spec (l : list nat) :
  forall fuel p s, linked (heap s) p l -> (length l <= fuel)%nat ->
    exists h', cleanup_loop fuel p s = Ok (tt, put_heap h' s) /\
      (forall a, a ∈ l -> h' !! a = None) /\
      (forall a, a ∉ l -> h' !! a = heap s !! a).
Proof.
  induction l as [|b l IH]; intros fuel p s H Hfuel.
  - cbn [linked] in H. subst p. exists (heap s).
    split; [destruct fuel; cbn [cleanup_loop]; rewrite put_heap_same; reflexivity|].
    split; [intros a Ha; apply elem_of_nil in Ha; contradiction | reflexivity].
  - pose proof (linked_NoDup _ _ _ H) as Hnd. apply NoDup_cons in Hnd as [Hb Hnd].
    cbn [linked] in H. destruct H as (-> & r & Hr & H).
    destruct fuel as [|fuel]; [cbn [length] in Hfuel; lia|].
    cbn [cleanup_loop]. unfold bind at 1. unfold load_req. rewrite Hr.
    unfold bind at 1. unfold free_req. rewrite Hr. unfold set_heap, modify.
    destruct (IH fuel (rr_next r) (put_heap (delete b (heap s)) s)) as (h' & E & Hin & Hout).
    { cbn [heap put_heap]. apply linked_delete; assumption. }
    { cbn [length] in Hfuel. lia. }
    exists h'. split; [exact E|]. split.
    + intros a Ha. apply elem_of_cons in Ha as [->|Ha]; [|apply Hin, Ha].
      rewrite (Hout b Hb). cbn [heap put_heap]. apply lookup_delete_eq.
    + intros a Ha. apply not_elem_of_cons in Ha as [Hne Ha].
      rewrite (Hout a Ha). cbn [heap put_heap]. apply lookup_delete_ne. congruence.
Qed.

(** X23: [xfer_cleanup] frees the whole queue and nothing else.  When the
    queue of the transfer is a list that ends at NULL, it returns, every
    block of the queue is gone from memory afterwards, every other block is
    as before, and nothing else changes: in particular the requests of the
    transfer that are still awaiting a reply stay registered. *)
Theorem xfer_cleanup_frees_queue (x : fxp_xfer) (s : sftp_state) (l : list nat) :
  linked (heap s) (x_head x) l ->
  exists h', xfer_cleanup x s = Ok (tt, put_heap h' s) /\
    (forall a, a ∈ l -> h' !! a = None) /\
    (forall a, a ∉ l -> h' !! a = heap s !! a) /\
    sftp_requests (put_heap h' s) = sftp_requests s.
Proof.
  intros H. pose proof (linked_length_le_size _ _ _ H) as Hsz.
  destruct (cleanup_loop_spec l (size (heap s)) (x_head x) s H Hsz) as (h' & E & Hin & Hout).
  exists h'. split; [|split; [exact Hin | split; [exact Hout | reflexivity]]].
  unfold xfer_cleanup, bind, get. exact E.
Qed.

Lemma xfer_cleanup_frees_queue_witness :
  exists h',
    xfer_cleanup (with_queue (xfer_init example_handle (uint64_make 0 0))
                             (Some 3%nat) (Some 5%nat))
                 (put_heap (<[3%nat := mk_req None 10 0 0 (mk_uint64 0 0) (Some 5%nat) None]>
                              (<[5%nat := mk_req None 20 0 0 (mk_uint64 0 10) None
                                                 (Some 3%nat)]> ∅))
                           initial_state)
    = Ok (tt, put_heap h' initial_state) /\
    (forall a, a ∈ [3%nat; 5%nat] -> h' !! a = None).
Proof.
  destruct (xfer_cleanup_frees_queue
              (with_queue (xfer_init example_handle (uint64_make 0 0))
                          (Some 3%nat) (Some 5%nat))
              (put_heap (<[3%nat := mk_req None 10 0 0 (mk_uint64 0 0) (Some 5%nat) None]>
                           (<[5%nat := mk_req None 20 0 0 (mk_uint64 0 10) None
                                              (Some 3%nat)]> ∅))
                        initial_state)
              [3%nat; 5%nat]) as (h' & Hrun & Hin & _).
  - cbn [linked heap put_heap x_head with_queue]. split; [reflexivity|].
    eexists. split; [apply lookup_insert_eq|]. cbn [rr_next linked].
    split; [reflexivity|]. eexists.
    split; [rewrite lookup_insert_ne by discriminate; apply lookup_insert_eq | reflexivity].
  - exists h'. split; [exact Hrun | exact Hin].
Defined.

(** *** Handing out data in order *)

Lemma same_but_prev_refl (r : req) : same_but_prev r r.
Proof. repeat split. Qed.

Lemma same_but_prev_trans (r1 r2 r3 : req) :
  same_but_prev r1 r2 -> same_but_prev r2 r3 -> same_but_prev r1 r3.
Proof.
  intros (A1 & A2 & A3 & A4 & A5 & A6) (B1 & B2 & B3 & B4 & B5 & B6).
  repeat split; congruence.
Qed.

Lemma freed_nil (h : gmap nat req) : freed [] h h.
Proof.
  intros a. rewrite bool_decide_eq_false_2 by apply not_elem_of_nil.
  destruct (h !! a); [apply same_but_prev_refl | exact I].
Qed.

Lemma freed_app (g1 g2 : list nat) (h h1 h2 : gmap nat req) :
  freed g1 h h1 -> freed g2 h1 h2 -> freed (g1 ++ g2) h h2.
Proof.
  intros H1 H2 a. specialize (H1 a). specialize (H2 a).
  destruct (decide (a ∈ g2)) as [Hg2|Hg2].
  - rewrite bool_decide_eq_true_2 in H2 by exact Hg2.
    rewrite bool_decide_eq_true_2 by (apply elem_of_app; right; exact Hg2). exact H2.
  - rewrite bool_decide_eq_false_2 in H2 by exact Hg2.
    destruct (decide (a ∈ g1)) as [Hg1|Hg1].
    + rewrite bool_decide_eq_true_2 in H1 by exact Hg1.
      rewrite bool_decide_eq_true_2 by (apply elem_of_app; left; exact Hg1).
      rewrite H1 in H2. destruct (h2 !! a); [contradiction | reflexivity].
    + rewrite bool_decide_eq_false_2 in H1 by exact Hg1.
      rewrite bool_decide_eq_false_2 by (rewrite elem_of_app; tauto).
      destruct (h !! a), (h1 !! a), (h2 !! a); try contradiction; try exact I.
      eapply same_but_prev_trans; eassumption.
Qed.

Lemma freed_lookup (g : list nat) (h h' : gmap nat req) (a : nat) (r : req) :
  freed g h h' -> a ∉ g -> h !! a = Some r ->
  exists r', h' !! a = Some r' /\ same_but_prev r r'.
Proof.
  intros H Ha Hr. specialize (H a). rewrite bool_decide_eq_false_2 in H by exact Ha.
  rewrite Hr in H. destruct (h' !! a) as [r'|]; [|contradiction].
  exists r'. split; [reflexivity | exact H].
Qed.

Lemma download_data_pop_heap x rr r s x' s' :
  heap s !! rr = Some r -> download_data_pop x rr r s = Ok (x', s') ->
  freed [rr] (heap s) (heap s').
Proof.
  intros Hr H. unfold download_data_pop in H.
  apply bind_Ok in H as (x1 & s1 & Hstep & H). cbv zeta in H.
  apply bind_Ok in H as (u & s2 & Hfree & H). apply ret_Ok in H as [_ ->].
  apply free_req_Ok in Hfree as [_ ->]. cbn [heap put_heap].
  assert (Hs1 : forall a, a <> rr ->
            match heap s !! a, heap s1 !! a with
            | Some q, Some q' => same_but_prev q q'
            | None, None => True
            | _, _ => False
            end).
  { destruct (rr_next r) as [n|].
    - apply bind_Ok in Hstep as (nr & s3 & Hload & Hstep).
      apply load_req_Ok in Hload as [Hn ->].
      apply bind_Ok in Hstep as (u' & s4 & Hstore & Hstep).
      apply store_req_Ok in Hstore as [_ ->]. apply ret_Ok in Hstep as [_ ->].
      intros a _. cbn [heap put_heap].
      destruct (decide (a = n)) as [->|Hne].
      + rewrite Hn, lookup_insert_eq. repeat split.
      + rewrite lookup_insert_ne by congruence.
        destruct (heap s !! a); [apply same_but_prev_refl | exact I].
    - apply ret_Ok in Hstep as [_ ->]. intros a _.
      destruct (heap s !! a); [apply same_but_prev_refl | exact I]. }
  intros a. destruct (decide (a = rr)) as [->|Hne].
  - rewrite bool_decide_eq_true_2 by (apply list_elem_of_singleton; reflexivity).
    apply lookup_delete_eq.
  - rewrite bool_decide_eq_false_2 by (rewrite list_elem_of_singleton; exact Hne).
    rewrite lookup_delete_ne by congruence. apply Hs1, Hne.
Qed.

Lemma queue_head x s a l :
  queue_inv x s (a :: l) ->
  x_head x = Some a /\ exists r, heap s !! a = Some r.
Proof.
  intros (Hc & _). cbn [chain] in Hc. destruct Hc as (E & r & Hr & _).
  split; [exact E | exists r; exact Hr].
Qed.

(** The loop of [xfer_download_data] drops the failed blocks at the head of
    the queue. *)
Lemma download_data_loop_skip (skipped : list nat) :
  forall x s rest rl,
    queue_inv x s (skipped ++ rest) ->
    req_totalsize x = 32768 * Z.of_nat (length (skipped ++ rest)) ->
    (length (skipped ++ rest) <= 32)%nat ->
    Forall (failed_block (heap s)) skipped ->
    exists x1 s1,
      (forall k, download_data_loop (length skipped + k) x None rl s
                 = download_data_loop k x1 None rl s1) /\
      queue_inv x1 s1 rest /\ req_totalsize x1 = 32768 * Z.of_nat (length rest) /\
      freed skipped (heap s) (heap s1).
Proof.
  induction skipped as [|a sk IH]; intros x s rest rl Hq Htot Hlen Hfail.
  - exists x, s. split; [reflexivity|]. split; [exact Hq|]. split; [exact Htot|].
    apply freed_nil.
  - cbn [app] in Hq, Htot, Hlen.
    destruct (queue_head _ _ _ _ Hq) as (Ehead & r & Hr).
    apply Forall_cons in Hfail as [(r' & Hr' & Hneg) Hfail].
    rewrite Hr in Hr'. injection Hr' as <-.
    destruct (download_data_pop_spec _ _ _ _ _ Hq Htot Hlen Hr)
      as (x1 & s1 & Hpop & Hq1 & Htot1 & _).
    pose proof (download_data_pop_heap _ _ _ _ _ _ Hr Hpop) as Hfreed.
    pose proof Hq as (_ & _ & Hnd & _). apply NoDup_cons in Hnd as [Ha _].
    destruct (IH x1 s1 rest rl Hq1 Htot1) as (x2 & s2 & Hloop & Hq2 & Htot2 & Hfreed2).
    { cbn [length] in Hlen. lia. }
    { rewrite Forall_forall in *. intros b Hb. destruct (Hfail b Hb) as (rb & Hrb & Hnb).
      destruct (freed_lookup [a] _ _ b rb Hfreed) as (rb' & Hrb' & Hsame); [|exact Hrb|].
      - rewrite list_elem_of_singleton. intros ->. apply Ha. apply elem_of_app. left. exact Hb.
      - exists rb'. split; [exact Hrb'|]. destruct Hsame as (_ & _ & _ & E & _). lia. }
    exists x2, s2. split; [|split; [exact Hq2 | split; [exact Htot2|]]].
    + intros k. cbn [length Nat.add download_data_loop]. rewrite Ehead.
      unfold bind at 1. unfold load_req. rewrite Hr.
      destruct (Z.eqb_spec (rr_complete r) 0); [lia|].
      destruct (Z.ltb_spec 0 (rr_complete r)); [lia|].
      unfold bind at 1. rewrite Hpop. apply Hloop.
    + change (a :: sk) with ([a] ++ sk). eapply freed_app; eassumption.
Qed.

(** X24: [xfer_download_data] hands blocks out in queue order.  On the
    queue of a download whose first blocks are marked failed, it frees
    those; if the block behind them is complete, it frees that one too and
    returns 1 with its buffer and its returned length; if the queue ends
    there, or the block behind them is still in flight, it returns 0 and
    leaves the rest of the queue as it is.  [req_totalsize] drops by 32768
    for every block freed. *)
Theorem xfer_download_data_in_order (x : fxp_xfer) (s : sftp_state)
    (skipped rest : list nat) :
  Forall (failed_block (heap s)) skipped ->
  (forall rr r b,
     queue_inv x s (skipped ++ rr :: rest) ->
     req_totalsize x = 32768 * Z.of_nat (length (skipped ++ rr :: rest)) ->
     (length (skipped ++ rr :: rest) <= 32)%nat ->
     heap s !! rr = Some r -> 0 < rr_complete r -> rr_buffer r = Some b ->
     exists x' s',
       xfer_download_data x s = Ok ((1, x', Some (b, rr_retlen r)), s') /\
       queue_inv x' s' rest /\ req_totalsize x' = 32768 * Z.of_nat (length rest) /\
       freed (skipped ++ [rr]) (heap s) (heap s')) /\
  (queue_inv x s (skipped ++ rest) ->
   req_totalsize x = 32768 * Z.of_nat (length (skipped ++ rest)) ->
   (length (skipped ++ rest) <= 32)%nat ->
   (rest = [] \/
    exists a rest' r, rest = a :: rest' /\ heap s !! a = Some r /\ rr_complete r = 0) ->
   exists x' s',
     xfer_download_data x s = Ok ((0, x', None), s') /\
     queue_inv x' s' rest /\ req_totalsize x' = 32768 * Z.of_nat (length rest) /\
     freed skipped (heap s) (heap s')).
Proof.
  intros Hfail. split.
  - intros rr r b Hq Htot Hlen Hr Hdone Hbuf.
    destruct (download_data_loop_skip skipped x s (rr :: rest) 0 Hq Htot Hlen Hfail)
      as (x1 & s1 & Hloop & Hq1 & Htot1 & Hfreed1).
    pose proof Hq as (Hc & _ & Hnd & _).
    pose proof (chain_length_le_size _ _ _ Hc Hnd) as Hsz.
    rewrite length_app in Hsz. cbn [length] in Hsz.
    destruct (freed_lookup skipped _ _ rr r Hfreed1) as (r1 & Hr1 & Hsame); [|exact Hr|].
    { intros Hin. apply NoDup_app in Hnd as (_ & Hdis & _).
      apply (Hdis rr Hin). left. }
    destruct Hsame as (Eb & _ & Erl & Ec & _).
    destruct (queue_head _ _ _ _ Hq1) as (Ehead & _).
    assert (Hlen1 : (length (rr :: rest) <= 32)%nat).
    { rewrite length_app in Hlen. lia. }
    destruct (download_data_pop_spec _ _ _ _ _ Hq1 Htot1 Hlen1 Hr1)
      as (x2 & s2 & Hpop & Hq2 & Htot2 & _).
    pose proof (download_data_pop_heap _ _ _ _ _ _ Hr1 Hpop) as Hfreed2.
    exists x2, s2. split; [|split; [exact Hq2 | split; [exact Htot2|]]].
    + unfold xfer_download_data, bind, get.
      replace (size (heap s))
        with (length skipped + S (size (heap s) - length skipped - 1))%nat by lia.
      rewrite Hloop. cbn [download_data_loop]. rewrite Ehead.
      unfold bind at 1. unfold load_req. rewrite Hr1.
      destruct (Z.eqb_spec (rr_complete r1) 0); [lia|].
      destruct (Z.ltb_spec 0 (rr_complete r1)); [|lia].
      unfold bind at 1. rewrite Hpop. rewrite Eb, Hbuf, Erl.
      destruct (size (heap s) - length skipped - 1)%nat; cbn [download_data_loop];
        destruct (x_head x2); reflexivity.
    + eapply freed_app; eassumption.
  - intros Hq Htot Hlen Hrest.
    destruct (download_data_loop_skip skipped x s rest 0 Hq Htot Hlen Hfail)
      as (x1 & s1 & Hloop & Hq1 & Htot1 & Hfreed1).
    pose proof Hq as (Hc & _ & Hnd & _).
    pose proof (chain_length_le_size _ _ _ Hc Hnd) as Hsz.
    rewrite length_app in Hsz.
    exists x1, s1. split; [|split; [exact Hq1 | split; [exact Htot1 | exact Hfreed1]]].
    unfold xfer_download_data, bind, get.
    replace (size (heap s))
      with (length skipped + (size (heap s) - length skipped))%nat by lia.
    rewrite Hloop.
    destruct Hrest as [-> | (a & rest' & r & -> & Hr & Hzero)].
    + destruct Hq1 as (Hc1 & _). cbn [chain] in Hc1.
      destruct (size (heap s) - length skipped)%nat; cbn [download_data_loop];
        rewrite Hc1; reflexivity.
    + destruct (queue_head _ _ _ _ Hq1) as (Ehead & _).
      destruct (freed_lookup skipped _ _ a r Hfreed1) as (r1 & Hr1 & Hsame); [|exact Hr|].
      { intros Hin. apply NoDup_app in Hnd as (_ & Hdis & _).
        apply (Hdis a Hin). left. }
      destruct Hsame as (_ & _ & _ & Ec & _).
      destruct (size (heap s) - length skipped)%nat; cbn [download_data_loop];
        rewrite Ehead; unfold bind, load_req; rewrite Hr1, Ec, Hzero; reflexivity.
Qed.

Lemma failed_then_done_queue :
  queue_inv failed_then_done_xfer failed_then_done ([0%nat] ++ 1%nat :: []).
Proof.
  split; [|split; [reflexivity | split; [|split; [|reflexivity]]]].
  - cbn [chain app x_head failed_then_done_xfer heap failed_then_done].
    split; [reflexivity|]. eexists. split; [apply lookup_insert_eq|].
    split; [reflexivity|]. cbn [rr_next chain]. split; [reflexivity|]. eexists.
    split; [rewrite lookup_insert_ne by discriminate; apply lookup_insert_eq|].
    split; reflexivity.
  - repeat constructor; [intros H; apply list_elem_of_singleton in H; discriminate | intros H; inversion H].
  - intros a [r Ha]. cbn [heap failed_then_done brk] in *.
    destruct a as [|[|a]]; [lia | lia |].
    rewrite !lookup_insert_ne, lookup_empty in Ha by discriminate. discriminate.
Defined.

Lemma xfer_download_data_in_order_witness :
  exists x' s',
    xfer_download_data failed_then_done_xfer failed_then_done
    = Ok ((1, x', Some ([104; 105], 2)), s') /\
    queue_inv x' s' [] /\ req_totalsize x' = 32768 * Z.of_nat (length (@nil nat)) /\
    freed ([0%nat] ++ [1%nat]) (heap failed_then_done) (heap s').
Proof.
  destruct (xfer_download_data_in_order failed_then_done_xfer failed_then_done [0%nat] [])
    as [Hdone _].
  - constructor; [|constructor]. eexists. split; [apply lookup_insert_eq|]. cbn. lia.
  - apply (Hdone 1%nat (mk_req (Some [104; 105]) 32768 2 1 (mk_uint64 0 32768)
                               None (Some 0%nat)) [104; 105]).
    + exact failed_then_done_queue.
    + reflexivity.
    + cbn. lia.
    + cbn [heap failed_then_done]. rewrite lookup_insert_ne by discriminate.
      apply lookup_insert_eq.
    + cbn. lia.
    + reflexivity.
Defined.


(** ** The upload queue *)

Lemma s32_add_l (a b : Z) : s32 (s32 a + b) = s32 (a + b).
Proof.
  unfold s32. f_equal.
  replace ((a + 2 ^ 31) mod UINT_MOD - 2 ^ 31 + b + 2 ^ 31)
    with ((a + 2 ^ 31) mod UINT_MOD + b) by lia.
  replace (a + b + 2 ^ 31) with (a + 2 ^ 31 + b) by lia.
  apply Zplus_mod_idemp_l.
Qed.

Lemma lastp_cons {A} (prev : option A) (a : A) (l : list A) :
  from_option Some prev (last (a :: l)) = from_option Some (Some a) (last l).
Proof. rewrite last_cons. destruct (last l); reflexivity. Qed.

Lemma dseg_in_heap h prev p l q b : dseg h prev p l q -> b ∈ l -> is_Some (h !! b).
Proof.
  revert prev p. induction l as [|a l IH]; intros prev p Hd Hb.
  - apply elem_of_nil in Hb. contradiction.
  - cbn [dseg] in Hd. destruct Hd as (_ & r & Hr & _ & Hd).
    apply elem_of_cons in Hb as [->|Hb]; [eexists; exact Hr | eapply IH; eassumption].
Qed.

Lemma dseg_ext h h' prev p l q :
  (forall a, a ∈ l -> h' !! a = h !! a) -> dseg h prev p l q -> dseg h' prev p l q.
Proof.
  revert prev p. induction l as [|a l IH]; intros prev p Hext Hd; cbn [dseg] in *;
    [exact Hd|].
  destruct Hd as (-> & r & Hr & Hp & Hd). split; [reflexivity|]. exists r.
  rewrite Hext by apply list_elem_of_here. split; [exact Hr|]. split; [exact Hp|].
  apply IH; [|exact Hd]. intros b Hb. apply Hext. apply list_elem_of_further, Hb.
Qed.

Lemma dseg_app h prev p l1 l2 q :
  dseg h prev p (l1 ++ l2) q <->
  exists m, dseg h prev p l1 m /\ dseg h (from_option Some prev (last l1)) m l2 q.
Proof.
  revert prev p. induction l1 as [|a l1 IH]; intros prev p.
  - cbn [app dseg last from_option]. split.
    + intros H. exists p. split; [reflexivity | exact H].
    + intros (m & -> & H). exact H.
  - cbn [app dseg]. rewrite lastp_cons. split.
    + intros (-> & r & Hr & Hp & Hd). apply IH in Hd as (m & H1 & H2).
      exists m. split; [|exact H2]. split; [reflexivity|]. exists r. auto.
    + intros (m & (-> & r & Hr & Hp & H1) & H2). split; [reflexivity|].
      exists r. split; [exact Hr|]. split; [exact Hp|]. apply IH. exists m. auto.
Qed.

Lemma dseg_head h prev p l q : dseg h prev p l q -> l <> [] -> p = head l.
Proof. destruct l as [|a l]; [contradiction|]. intros (-> & _) _. reflexivity. Qed.

Lemma dseg_retarget h prev p l t q q' tr :
  dseg h prev p (l ++ [t]) q -> NoDup (l ++ [t]) -> h !! t = Some tr ->
  dseg (<[t := with_rr_next tr q']> h) prev p (l ++ [t]) q'.
Proof.
  intros Hd Hnd Ht. apply dseg_app in Hd as (m & H1 & H2).
  cbn [dseg] in H2. destruct H2 as (-> & r & Hr & Hp & _).
  rewrite Ht in Hr. injection Hr as <-.
  apply NoDup_app in Hnd as (_ & Hdis & _).
  apply dseg_app. exists (Some t). split.
  - eapply dseg_ext; [|exact H1]. intros a Ha. apply lookup_insert_ne.
    intros ->. apply (Hdis _ Ha). apply list_elem_of_here.
  - cbn [dseg]. split; [reflexivity|]. eexists. rewrite lookup_insert_eq.
    split; [reflexivity|]. split; [exact Hp | reflexivity].
Qed.

Lemma queued_bytes_app h l1 l2 :
  queued_bytes h (l1 ++ l2) = queued_bytes h l1 + queued_bytes h l2.
Proof.
  unfold queued_bytes. induction l1 as [|a l1 IH]; cbn [app foldr]; [reflexivity|].
  rewrite IH. lia.
Qed.

Lemma queued_bytes_ext h h' l :
  (forall a, a ∈ l -> rr_len <$> h' !! a = rr_len <$> h !! a) ->
  queued_bytes h' l = queued_bytes h l.
Proof.
  unfold queued_bytes. induction l as [|a l IH]; intros Hext; cbn [foldr]; [reflexivity|].
  rewrite IH by (intros b Hb; apply Hext, list_elem_of_further, Hb).
  pose proof (Hext a (list_elem_of_here _ _)) as E.
  destruct (h' !! a), (h !! a); cbn in *; congruence.
Qed.

Lemma upload_done_iff x s l : upload_inv x s l -> (xfer_done x = 1 <-> l = []).
Proof.
  intros (Hd & _ & _ & _ & Heof & _). unfold xfer_done. rewrite Heof.
  change (negb (1 =? 0) || negb (x_err x =? 0)) with true. cbn [andb].
  destruct l as [|a l]; cbn [dseg] in Hd.
  - rewrite Hd. rewrite bool_decide_eq_false_2 by (intros [? ?]; discriminate).
    cbn. tauto.
  - destruct Hd as (-> & _). rewrite bool_decide_eq_true_2 by (eexists; reflexivity).
    cbn. split; discriminate.
Qed.

Lemma put_heap_id (s : sftp_state) : put_heap (heap s) s = s.
Proof. destruct s. reflexivity. Qed.

Lemma put_heap_put_heap h h' s : put_heap h (put_heap h' s) = put_heap h s.
Proof. reflexivity. Qed.

Lemma fxp_write_recv_run (pktin : sftp_packet) (req : sftp_request) (s : sftp_state)
    (r : option Z) (p1 : sftp_packet) :
  sftp_pkt_getuint32 pktin = Ok (r, p1) ->
  exists v s',
    fxp_write_recv pktin req s = Ok (v, s') /\
    (v = 1 \/ v = 0) /\
    (v = 1 <-> pkt_type pktin = SSH_FXP_STATUS /\ r = Some SSH_FX_OK) /\
    heap s' = heap s /\ brk s' = brk s /\ sftp_requests s' = sftp_requests s.
Proof.
  intros Hget.
  destruct (fxp_got_status_run pktin (put_event (EvReqFree req) s) r p1 Hget)
    as (v0 & pk & ety & msg & Erun & _ & _ & Hety & _).
  exists (if ety =? SSH_FX_OK then 1 else 0), (put_event (EvPktFree pk)
            (put_error ety msg (put_event (EvReqFree req) s))).
  split.
  { unfold fxp_write_recv, status_and_free, bind, log, modify. rewrite Erun. reflexivity. }
  unfold SSH_FX_OK in *. rewrite <- Hety.
  destruct (Z.eqb_spec ety 0); repeat split; auto; try discriminate; contradiction.
Qed.

(** [prev->next = next], or [xfer->head = next] for the first block. *)
Lemma unlink_prev_run (x : fxp_xfer) (s : sftp_state) (l1 : list nat)
    (prev0 q next : option nat) :
  dseg (heap s) prev0 (x_head x) l1 q -> NoDup l1 ->
  exists x1 h1,
    match last l1 with
    | Some p =>
        bind (load_req p)
             (fun pr => bind (store_req p (with_rr_next pr next)) (fun _ => ret x))
    | None => ret (with_queue x next (x_tail x))
    end s = Ok (x1, put_heap h1 s) /\
    dseg h1 prev0 (x_head x1) l1 next /\
    (forall a, a ∉ l1 -> h1 !! a = heap s !! a) /\
    (forall a, rr_len <$> h1 !! a = rr_len <$> heap s !! a) /\
    x_tail x1 = x_tail x /\ x_eof x1 = x_eof x /\ req_totalsize x1 = req_totalsize x /\
    x_offset x1 = x_offset x.
Proof.
  intros Hd Hnd. destruct (last l1) as [p|] eqn:Hlast.
  - apply last_Some in Hlast as [l' ->].
    destruct (dseg_in_heap _ _ _ _ _ p Hd) as [pr Hpr];
      [apply elem_of_app; right; apply list_elem_of_here|].
    exists x, (<[p := with_rr_next pr next]> (heap s)). split.
    { unfold bind, load_req, store_req. rewrite Hpr. cbv beta iota. rewrite Hpr.
      reflexivity. }
    split; [eapply dseg_retarget; eassumption|].
    split.
    { intros a Ha. apply lookup_insert_ne. intros ->. apply Ha.
      apply elem_of_app; right; apply list_elem_of_here. }
    split; [|repeat split].
    intros a. destruct (decide (a = p)) as [->|Hne].
    + rewrite lookup_insert_eq, Hpr. reflexivity.
    + rewrite lookup_insert_ne by congruence. reflexivity.
  - apply last_None in Hlast as ->. cbn [dseg] in Hd.
    exists (with_queue x next (x_tail x)), (heap s). split.
    { unfold ret. rewrite put_heap_id. reflexivity. }
    cbn [dseg x_head with_queue]. repeat split.
Qed.

(** [next->prev = prev], or [xfer->tail = prev] for the last block. *)
Lemma unlink_next_run (x : fxp_xfer) (s : sftp_state) (l2 : list nat)
    (prev0 next prev' : option nat) :
  dseg (heap s) prev0 next l2 None -> NoDup l2 ->
  exists x2 h2,
    match next with
    | Some n =>
        bind (load_req n)
             (fun nr => bind (store_req n (with_rr_prev nr prev')) (fun _ => ret x))
    | None => ret (with_queue x (x_head x) prev')
    end s = Ok (x2, put_heap h2 s) /\
    dseg h2 prev' next l2 None /\
    (forall a, a ∉ l2 -> h2 !! a = heap s !! a) /\
    (forall a, rr_len <$> h2 !! a = rr_len <$> heap s !! a) /\
    x_head x2 = x_head x /\
    x_tail x2 = match l2 with [] => prev' | _ => x_tail x end /\
    x_eof x2 = x_eof x /\ req_totalsize x2 = req_totalsize x /\
    x_offset x2 = x_offset x.
Proof.
  intros Hd Hnd. destruct l2 as [|n l2]; cbn [dseg] in Hd.
  - subst next. exists (with_queue x (x_head x) prev'), (heap s). split.
    { unfold ret. rewrite put_heap_id. reflexivity. }
    cbn [dseg]. repeat split.
  - destruct Hd as (-> & nr & Hnr & Hp & Hd). apply NoDup_cons in Hnd as [Hn Hnd].
    exists x, (<[n := with_rr_prev nr prev']> (heap s)). split.
    { unfold bind, load_req, store_req. rewrite Hnr. cbv beta iota. rewrite Hnr.
      reflexivity. }
    split.
    { cbn [dseg]. split; [reflexivity|]. eexists. rewrite lookup_insert_eq.
      split; [reflexivity|]. split; [reflexivity|]. cbn [rr_next with_rr_prev].
      eapply dseg_ext; [|exact Hd]. intros a Ha. apply lookup_insert_ne.
      intros ->. contradiction. }
    split.
    { intros a Ha. apply lookup_insert_ne. intros ->. apply Ha, list_elem_of_here. }
    split; [|repeat split].
    intros a. destruct (decide (a = n)) as [->|Hne].
    + rewrite lookup_insert_eq, Hnr. reflexivity.
    + rewrite lookup_insert_ne by congruence. reflexivity.
Qed.

Lemma getuint32_type (p p1 : sftp_packet) (r : option Z) :
  sftp_pkt_getuint32 p = Ok (r, p1) -> pkt_type p1 = pkt_type p.
Proof.
  unfold sftp_pkt_getuint32. intros H.
  destruct (_ <? 4); [injection H as _ <-; reflexivity|].
  destruct (GET_32BIT _ _); [injection H as _ <-; reflexivity | discriminate].
Qed.

Lemma xfer_upload_gotpkt_run (x : fxp_xfer) (s : sftp_state) (l1 l2 : list nat)
    (rr : nat) (p p1 p2 : sftp_packet) (id : Z) (code : option Z)
    (t : list sftp_request) (rq : sftp_request) :
  upload_inv x s (l1 ++ rr :: l2) ->
  sftp_pkt_getuint32 p = Ok (Some id, p1) ->
  sftp_pkt_getuint32 p1 = Ok (code, p2) ->
  sftp_requests s = Some t -> find234 t id = Some rq -> rq_registered rq <> 0 ->
  rq_userdata rq = Some rr ->
  exists v x' s' r,
    xfer_upload_gotpkt x (Some p) s = Ok ((v, x'), s') /\
    heap s !! rr = Some r /\
    (v = 1 \/ v = -1) /\
    (v = 1 <-> pkt_type p = SSH_FXP_STATUS /\ code = Some SSH_FX_OK) /\
    upload_inv x' s' (l1 ++ l2) /\
    req_totalsize x' = s32 (req_totalsize x - rr_len r) /\
    heap s' !! rr = None /\
    x_offset x' = x_offset x /\
    sftp_requests s' = Some (del234 t rq).
Proof.
  intros (Hd & Ht & Hnd & Hdom & Heof & Htot) Hget Hget2 Hreq Hfind Hregd Hud.
  apply dseg_app in Hd as (m & HA & HB).
  replace (from_option Some None (last l1)) with (last l1) in HB
    by (destruct (last l1); reflexivity).
  cbn [dseg] in HB. destruct HB as (-> & r & Hr & Hprev & HB).
  apply NoDup_app in Hnd as (Hnd1 & Hdis & Hnd2). apply NoDup_cons in Hnd2 as [Hrr2 Hnd2].
  assert (Hrr1 : rr ∉ l1) by (intros H; apply (Hdis _ H); apply list_elem_of_here).
  assert (Hdis' : forall a, a ∈ l1 -> a ∉ l2).
  { intros a H1 H2. apply (Hdis _ H1). apply list_elem_of_further, H2. }
  set (s1 := put_requests (Some (del234 t rq)) s).
  destruct (fxp_write_recv_run p1 rq s1 code p2 Hget2)
    as (ok & s2 & Ewr & Hok & Hokiff & Eh2 & Eb2 & Er2).
  change (heap s1) with (heap s) in Eh2. change (brk s1) with (brk s) in Eb2.
  assert (HA2 : dseg (heap s2) None (x_head x) l1 (Some rr)) by (rewrite Eh2; exact HA).
  destruct (unlink_prev_run x s2 l1 None (Some rr) (rr_next r) HA2 Hnd1)
    as (x1 & h1 & E1 & HA1 & Hfr1 & Hlen1 & Et1 & Eeof1 & Etot1 & Eoff1).
  assert (HB1 : dseg (heap (put_heap h1 s2)) (Some rr) (rr_next r) l2 None).
  { cbn [heap put_heap]. eapply dseg_ext; [|exact HB]. intros a Ha.
    rewrite Hfr1, Eh2; [reflexivity|]. intros H. exact (Hdis' _ H Ha). }
  destruct (unlink_next_run x1 (put_heap h1 s2) l2 (Some rr) (rr_next r) (last l1)
              HB1 Hnd2)
    as (x2 & h2 & E2 & HB2 & Hfr2 & Hlen2 & Eh & Et2 & Eeof2 & Etot2 & Eoff2).
  cbn [heap put_heap] in Hfr2, Hlen2.
  assert (Hrr_h2 : h2 !! rr = Some r).
  { rewrite Hfr2, Hfr1, Eh2 by assumption. exact Hr. }
  assert (Hlens : forall a, rr_len <$> h2 !! a = rr_len <$> heap s !! a).
  { intros a. rewrite Hlen2, Hlen1, Eh2. reflexivity. }
  exists (if ok =? 0 then -1 else 1),
    (with_progress x2 (x_offset x2) (s32 (req_totalsize x2 - rr_len r))),
    (put_heap (delete rr h2) (put_heap h2 (put_heap h1 s2))), r.
  split.
  { unfold xfer_upload_gotpkt.
    apply bind_Ok. eexists _, _. split; [apply (sftp_find_request_found s p p1 id t rq); assumption|].
    cbn [fst snd].
    apply bind_Ok. eexists _, _. split; [reflexivity|].
    rewrite Hud. cbv beta iota.
    apply bind_Ok. eexists _, _. split; [exact Ewr|].
    apply bind_Ok. exists r, s2.
    split; [apply load_req_Ok; split; [rewrite Eh2; exact Hr | reflexivity]|].
    cbv zeta. rewrite Hprev.
    apply bind_Ok. eexists _, _. split; [exact E1|].
    apply bind_Ok. eexists _, _. split; [exact E2|].
    apply bind_Ok. exists tt. eexists.
    split; [apply free_req_Ok; split; [eexists; exact Hrr_h2 | reflexivity]|].
    reflexivity. }
  split; [exact Hr|].
  split; [destruct Hok as [-> | ->]; auto|].
  split.
  { rewrite <- (getuint32_type _ _ _ Hget), <- Hokiff.
    destruct Hok as [-> | ->]; cbn; split; intros; try lia; reflexivity. }
  split.
  { split; [|split; [|split; [|split; [|split]]]].
    - cbn [heap put_heap x_head with_progress]. rewrite Eh.
      apply dseg_app. exists (rr_next r). split.
      + eapply dseg_ext; [|exact HA1]. intros a Ha.
        rewrite lookup_delete_ne by (intros ->; contradiction).
        apply Hfr2. exact (Hdis' _ Ha).
      + replace (from_option Some None (last l1)) with (last l1)
          by (destruct (last l1); reflexivity).
        eapply dseg_ext; [|exact HB2]. intros a Ha.
        apply lookup_delete_ne. intros ->. contradiction.
    - cbn [x_tail with_progress]. rewrite Et2, Et1, Ht, !last_app.
      destruct l2 as [|n l2]; [reflexivity|]. rewrite !last_cons.
      destruct (last l2); reflexivity.
    - apply NoDup_app. split; [exact Hnd1|]. split; [exact Hdis' | exact Hnd2].
    - cbn [heap put_heap brk]. rewrite Eb2. intros a [ra Ha]. apply Hdom.
      apply lookup_delete_Some in Ha as [_ Ha].
      pose proof (Hlens a) as E. rewrite Ha in E.
      destruct (heap s !! a); [eexists; reflexivity | discriminate].
    - cbn [x_eof with_progress]. congruence.
    - cbn [req_totalsize with_progress heap put_heap]. rewrite Etot2, Etot1, Htot.
      unfold Z.sub. rewrite s32_add_l. f_equal.
      rewrite (queued_bytes_ext (heap s) (delete rr h2) (l1 ++ l2)).
      + rewrite !queued_bytes_app. unfold queued_bytes at 2. cbn [foldr].
        fold (queued_bytes (heap s) l2). rewrite Hr. cbn [from_option]. lia.
      + intros a Ha. rewrite lookup_delete_ne; [apply Hlens|].
        intros ->. apply elem_of_app in Ha as [Ha|Ha]; contradiction. }
  split; [cbn [req_totalsize with_progress]; congruence|].
  split; [cbn [heap put_heap]; apply lookup_delete_eq|].
  split; [cbn [x_offset with_progress]; congruence|].
  cbn [sftp_requests put_heap]. rewrite Er2. reflexivity.
Qed.



Lemma heap_frame_write_send fh buffer offset len :
  heap_frame (fxp_write_send fh buffer offset len).
Proof.
  unfold fxp_write_send. pose proof heap_frame_alloc. pose proof heap_frame_send. frame.
Qed.





(** X26: [xfer_upload_gotpkt] unlinks the block a reply answers, wherever
    it stands in the queue.  For a reply that names a registered request
    whose user data is a queued block, the call returns 1 when the reply is a
    STATUS packet with code SSH_FX_OK and -1 otherwise; in both cases the
    block is freed, the other blocks stay queued in their order with the
    links closed over the gap, [req_totalsize] drops by the length of the
    block, the offset stays, the request leaves the registry, and
    [xfer_done] answers 1 exactly when that block was the only one. *)
Theorem xfer_upload_gotpkt_unlinks (x : fxp_xfer) (s : sftp_state) (l : list nat)
    (rr : nat) (p p1 p2 : sftp_packet) (id : Z) (code : option Z)
    (t : list sftp_request) (rq : sftp_request) :
  upload_inv x s l ->
  sftp_pkt_getuint32 p = Ok (Some id, p1) ->
  sftp_pkt_getuint32 p1 = Ok (code, p2) ->
  sftp_requests s = Some t -> find234 t id = Some rq -> rq_registered rq <> 0 ->
  rq_userdata rq = Some rr -> rr ∈ l ->
  exists v x' s' r l1 l2,
    l = l1 ++ rr :: l2 /\
    xfer_upload_gotpkt x (Some p) s = Ok ((v, x'), s') /\
    heap s !! rr = Some r /\
    (v = 1 \/ v = -1) /\
    (v = 1 <-> pkt_type p = SSH_FXP_STATUS /\ code = Some SSH_FX_OK) /\
    upload_inv x' s' (l1 ++ l2) /\
    req_totalsize x' = s32 (req_totalsize x - rr_len r) /\
    heap s' !! rr = None /\
    x_offset x' = x_offset x /\
    sftp_requests s' = Some (del234 t rq) /\
    (xfer_done x' = 1 <-> l = [rr]).
Proof.
  intros Hinv Hget Hget2 Hreq Hfind Hregd Hud Hin.
  apply list_elem_of_split in Hin as (l1 & l2 & ->).
  destruct (xfer_upload_gotpkt_run x s l1 l2 rr p p1 p2 id code t rq
              Hinv Hget Hget2 Hreq Hfind Hregd Hud)
    as (v & x' & s' & r & Erun & Hr & Hv & Hviff & Hinv' & Etot & Hgone & Eoff & Er).
  exists v, x', s', r, l1, l2. split; [reflexivity|].
  repeat (split; [assumption|]).
  rewrite (upload_done_iff _ _ _ Hinv'). split.
  - intros E. apply app_eq_nil in E as [-> ->]. reflexivity.
  - intros E. destruct l1 as [|a l1]; cbn [app] in E.
    + injection E as ->. reflexivity.
    + injection E as _ E. destruct l1; discriminate.
Qed.

Lemma three_writes_inv : upload_inv three_writes_xfer three_writes [0; 1; 2]%nat.
Proof.
  split; [|split; [reflexivity | split; [|split; [|split]]]].
  - cbn [dseg x_head three_writes_xfer heap three_writes].
    split; [reflexivity|]. eexists. split; [apply lookup_insert_eq|].
    split; [reflexivity|]. cbn [rr_next]. split; [reflexivity|]. eexists.
    split; [rewrite lookup_insert_ne by discriminate; apply lookup_insert_eq|].
    split; [reflexivity|]. cbn [rr_next]. split; [reflexivity|]. eexists.
    split; [rewrite !lookup_insert_ne by discriminate; apply lookup_insert_eq|].
    split; reflexivity.
  - apply (bool_decide_unpack _). reflexivity.
  - intros a [r Ha]. cbn [heap three_writes brk] in *.
    destruct a as [|[|[|a]]]; [lia | lia | lia |].
    rewrite !lookup_insert_ne, lookup_empty in Ha by discriminate. discriminate.
  - reflexivity.
  - cbn [heap three_writes queued_bytes foldr].
    rewrite lookup_insert_eq.
    rewrite (lookup_insert_ne _ 0%nat 1%nat) by discriminate. rewrite lookup_insert_eq.
    rewrite !(lookup_insert_ne _ _ 2%nat) by discriminate. rewrite lookup_insert_eq.
    reflexivity.
Defined.

Lemma xfer_upload_gotpkt_unlinks_witness :
  exists v x' s' l1 l2,
    [0; 1; 2]%nat = l1 ++ 1%nat :: l2 /\
    xfer_upload_gotpkt three_writes_xfer (Some (status_packet 257 0)) three_writes
    = Ok ((v, x'), s') /\
    v = 1 /\
    upload_inv x' s' (l1 ++ l2) /\
    req_totalsize x' = s32 (9 - 2) /\
    heap s' !! 1%nat = None.
Proof.
  destruct (xfer_upload_gotpkt_unlinks three_writes_xfer three_writes [0; 1; 2]%nat
              1%nat (status_packet 257 0) (with_savedpos (status_packet 257 0) 5)
              (with_savedpos (status_packet 257 0) 9) 257 (Some 0)
              [mk_request 256 1 (Some 0%nat); mk_request 257 1 (Some 1%nat);
               mk_request 258 1 (Some 2%nat)]
              (mk_request 257 1 (Some 1%nat)))
    as (v & x' & s' & r & l1 & l2 & El & Erun & Hr & _ & Hv & Hinv & Etot & Hgone & _).
  - exact three_writes_inv.
  - reflexivity.
  - reflexivity.
  - reflexivity.
  - reflexivity.
  - discriminate.
  - reflexivity.
  - apply (bool_decide_unpack _). reflexivity.
  - exists v, x', s', l1, l2. split; [exact El|]. split; [exact Erun|].
    split; [apply Hv; split; reflexivity|]. split; [exact Hinv|].
    split; [|exact Hgone].
    cbn [heap three_writes] in Hr.
    rewrite lookup_insert_ne, lookup_insert_eq in Hr by discriminate.
    injection Hr as <-. exact Etot.
Defined.





(** ** The requests on path names *)

Lemma sends_intro (mk : sftp_request -> outcome sftp_packet)
    (post : sftp_packet -> sftp_packet) (body : Z -> list Z) (s : sftp_state) :
  link_up s = true -> registry_ok (default [] (sftp_requests s)) ->
  (forall i, exists q, mk (mk_request i 0 None) = Ok q /\
                       pkt_buffer_ok (post q) /\ pkt_fits (post q) /\
                       pkt_data (post q) = body i) ->
  sends s (bind sftp_alloc_request
                (fun req => bind (lift (mk req))
                   (fun pktout => bind (sftp_send (post pktout)) (fun _ => ret req))) s)
        body.
Proof.
  intros Hup Hok Hmk.
  destruct (sftp_alloc_request_runs s _ eq_refl Hok) as (i & Erun & _ & Hfresh & _).
  destruct (Hmk i) as (q & Eq & [Hl Hm] & Hfits & Hd).
  exists i. eexists. exists (post q). split; [|split; [exact Hfresh|]].
  - unfold bind at 1. rewrite Erun. unfold bind at 1, lift. rewrite Eq.
    unfold bind at 1. rewrite sftp_send_up by exact Hup. reflexivity.
  - cbn [sftp_requests wire trace put_event put_wire put_requests].
    split; [reflexivity|]. split; [|split; [exact Hd | split; [exact Hfits | reflexivity]]].
    rewrite <- Hd, Hl, Nat2Z.id, firstn_all. reflexivity.
Qed.

Lemma addstring_str_shape (p : sftp_packet) (str rest : list Z) :
  pkt_buffer_ok p -> pkt_fits p -> Forall (fun c => uchar c <> 0) str ->
  pkt_length p + 4 + Z.of_nat (length str) + 256 <= INT_MAX ->
  exists q,
    sftp_pkt_addstring p (str ++ 0 :: rest) = Ok q /\
    pkt_buffer_ok q /\ pkt_fits q /\
    pkt_data q = pkt_data p ++ wire_string str /\
    pkt_length q = pkt_length p + 4 + Z.of_nat (length str).
Proof.
  intros Hok Hfits Hstr Hroom0.
  assert (Hint : Z.of_nat (length str) <= INT_MAX).
  { destruct Hfits as [[H0 _] _]. lia. }
  assert (Hroom : pkt_length p + 4 + Z.of_nat (length str) < UINT_MOD).
  { unfold INT_MAX, UINT_MOD in *. lia. }
  set (d := str ++ 0 :: rest).
  assert (Hlen : 0 <= Z.of_nat (length str) <= Z.of_nat (length d)).
  { subst d. rewrite length_app. lia. }
  assert (Etake : take (Z.to_nat (Z.of_nat (length str))) d = str).
  { subst d. rewrite Nat2Z.id, take_app_length. reflexivity. }
  exists (sftp_pkt_addstring_data (sftp_pkt_addstring_start p) d (Z.of_nat (length str))).
  split.
  { unfold sftp_pkt_addstring, sftp_pkt_addstring_str. subst d.
    rewrite strlen_spec by exact Hstr. cbn [obind].
    rewrite s32_small by (unfold INT_MAX in Hint; lia).
    unfold sftp_pkt_addstring_data. reflexivity. }
  destruct (addstring_shape p d _ Hok Hlen Hroom) as (Hd & Hql & _).
  destruct (addstring_fits p d _ Hfits (proj1 Hlen) Hroom0) as [Hq _].
  rewrite Etake in Hd. destruct Hok as [Hl Hm].
  split; [|split; [exact Hq | split; [exact Hd | exact Hql]]].
  split; [|lia]. rewrite Hql, Hd, !length_app, Hl. cbn [length PUT_32BIT]. lia.
Qed.

Lemma path_packet_shape (ty : Z) (req : sftp_request) (path rest : list Z) :
  0 <= ty < 256 -> Forall (fun c => uchar c <> 0) path ->
  Z.of_nat (length path) + 9 + 256 <= INT_MAX ->
  exists q,
    path_packet ty req (path ++ 0 :: rest) = Ok q /\
    pkt_buffer_ok q /\ pkt_fits q /\
    pkt_data q = [ty] ++ PUT_32BIT (rq_id req) ++ wire_string path /\
    pkt_length q = 9 + Z.of_nat (length path).
Proof.
  intros Hty Hpath Hint. unfold path_packet. cbv zeta.
  destruct (init_adduint32_shape ty (rq_id req) Hty) as (Hok & Hl & Hd).
  destruct (init_fits ty) as [Hf0 Hl0].
  destruct (adduint32_fits (sftp_pkt_init ty) (rq_id req) Hf0) as [Hf1 _];
    [rewrite Hl0; unfold INT_MAX; lia|].
  destruct (addstring_str_shape _ path rest Hok Hf1 Hpath)
    as (q & Eq & Hq & Hqf & Hqd & Hql).
  { rewrite Hl. lia. }
  exists q. split; [exact Eq|]. split; [exact Hq|]. split; [exact Hqf|].
  rewrite Hqd, Hd, Hql, Hl, <- !app_assoc. split; [reflexivity | lia].
Qed.

Lemma addattrs_wire (p : sftp_packet) (a : fxp_attrs) :
  pkt_data (sftp_pkt_addattrs p a) = pkt_data p ++ wire_attrs a.
Proof.
  rewrite addattrs_data. unfold wire_attrs.
  destruct (Z.land (at_flags a) SSH_FILEXFER_ATTR_SIZE =? 0);
    destruct (Z.land (at_flags a) SSH_FILEXFER_ATTR_UIDGID =? 0);
    destruct (Z.land (at_flags a) SSH_FILEXFER_ATTR_PERMISSIONS =? 0);
    destruct (Z.land (at_flags a) SSH_FILEXFER_ATTR_ACMODTIME =? 0);
    rewrite <- ?app_assoc; reflexivity.
Qed.

Ltac path_sender ty path rest Hpath :=
  let i := fresh "i" in
  let q := fresh "q" in
  let Eq := fresh "Eq" in
  let Hq := fresh "Hq" in
  let Hqf := fresh "Hqf" in
  let Hqd := fresh "Hqd" in
  let Hql := fresh "Hql" in
  intros i;
  destruct (path_packet_shape ty (mk_request i 0 None) path rest
              ltac:(vm_compute; split; [discriminate | reflexivity]) Hpath
              ltac:(lia))
    as (q & Eq & Hq & Hqf & Hqd & Hql);
  cbn [rq_id] in Hqd.

(** X28: what the requests that name a file put on the wire, while they
    stay below 2^31 - 256 bytes.  With the link up, each of
    [fxp_realpath_send], [fxp_open_send], [fxp_opendir_send],
    [fxp_mkdir_send], [fxp_rmdir_send], [fxp_remove_send], [fxp_stat_send],
    [fxp_rename_send], [fxp_setstat_send] and [fxp_fsetstat_send] returns a
    request under a fresh id, not yet registered, and sends one frame: the
    type byte, the id, the path as the bytes before its first NUL with their
    count (the handle string for FSETSTAT), and then the open flags and an
    empty attribute record, the empty attribute record of MKDIR, the second
    path of RENAME, or the attribute record of SETSTAT and FSETSTAT.  The
    packet sent lies inside its buffer and is freed. *)
Theorem requests_on_the_wire (s : sftp_state) (path rest dst rest' h term : list Z)
    (type : Z) (attrs : fxp_attrs) :
  link_up s = true -> registry_ok (default [] (sftp_requests s)) ->
  Forall (fun c => uchar c <> 0) path -> Forall (fun c => uchar c <> 0) dst ->
  Z.of_nat (length path) + Z.of_nat (length dst) + 45 + 256 <= INT_MAX ->
  Z.of_nat (length h) + 41 + 256 <= INT_MAX ->
  let cpath := path ++ 0 :: rest in
  let cdst := dst ++ 0 :: rest' in
  let handle := mk_handle (h ++ term) (Z.of_nat (length h)) in
  sends s (fxp_realpath_send cpath s)
        (fun i => [SSH_FXP_REALPATH] ++ PUT_32BIT i ++ wire_string path) /\
  sends s (fxp_open_send cpath type s)
        (fun i => [SSH_FXP_OPEN] ++ PUT_32BIT i ++ wire_string path
                  ++ PUT_32BIT type ++ PUT_32BIT 0) /\
  sends s (fxp_opendir_send cpath s)
        (fun i => [SSH_FXP_OPENDIR] ++ PUT_32BIT i ++ wire_string path) /\
  sends s (fxp_mkdir_send cpath s)
        (fun i => [SSH_FXP_MKDIR] ++ PUT_32BIT i ++ wire_string path ++ PUT_32BIT 0) /\
  sends s (fxp_rmdir_send cpath s)
        (fun i => [SSH_FXP_RMDIR] ++ PUT_32BIT i ++ wire_string path) /\
  sends s (fxp_remove_send cpath s)
        (fun i => [SSH_FXP_REMOVE] ++ PUT_32BIT i ++ wire_string path) /\
  sends s (fxp_stat_send cpath s)
        (fun i => [SSH_FXP_STAT] ++ PUT_32BIT i ++ wire_string path) /\
  sends s (fxp_rename_send cpath cdst s)
        (fun i => [SSH_FXP_RENAME] ++ PUT_32BIT i ++ wire_string path ++ wire_string dst) /\
  sends s (fxp_setstat_send cpath attrs s)
        (fun i => [SSH_FXP_SETSTAT] ++ PUT_32BIT i ++ wire_string path ++ wire_attrs attrs) /\
  sends s (fxp_fsetstat_send handle attrs s)
        (fun i => [SSH_FXP_FSETSTAT] ++ PUT_32BIT i ++ wire_string h ++ wire_attrs attrs).
Proof.
  intros Hup Hreg Hpath Hdst Hsum Hh cpath cdst handle.
  repeat split.
  - unfold fxp_realpath_send.
    apply (sends_intro (fun req => path_packet SSH_FXP_REALPATH req cpath) (fun p => p)
                       _ s Hup Hreg).
    path_sender SSH_FXP_REALPATH path rest Hpath. exists q. auto.
  - unfold fxp_open_send.
    apply (sends_intro (fun req => path_packet SSH_FXP_OPEN req cpath)
                       (fun p => sftp_pkt_adduint32 (sftp_pkt_adduint32 p type) 0)
                       _ s Hup Hreg).
    path_sender SSH_FXP_OPEN path rest Hpath. exists q. split; [exact Eq|].
    destruct (adduint32_buffer_ok q type Hq) as [Hq1 Hl1];
      [unfold INT_MAX, UINT_MOD in *; lia|].
    destruct (adduint32_buffer_ok _ 0 Hq1) as [Hq2 _];
      [unfold INT_MAX, UINT_MOD in *; lia|].
    destruct (adduint32_fits q type Hqf) as [Hf1 Hfl1]; [lia|].
    destruct (adduint32_fits _ 0 Hf1) as [Hf2 _]; [lia|].
    split; [exact Hq2|]. split; [exact Hf2|].
    rewrite !adduint32_data, Hqd, <- !app_assoc. reflexivity.
  - unfold fxp_opendir_send.
    apply (sends_intro (fun req => path_packet SSH_FXP_OPENDIR req cpath) (fun p => p)
                       _ s Hup Hreg).
    path_sender SSH_FXP_OPENDIR path rest Hpath. exists q. auto.
  - unfold fxp_mkdir_send.
    apply (sends_intro (fun req => path_packet SSH_FXP_MKDIR req cpath)
                       (fun p => sftp_pkt_adduint32 p 0) _ s Hup Hreg).
    path_sender SSH_FXP_MKDIR path rest Hpath. exists q. split; [exact Eq|].
    destruct (adduint32_buffer_ok q 0 Hq) as [Hq1 _];
      [unfold INT_MAX, UINT_MOD in *; lia|].
    destruct (adduint32_fits q 0 Hqf) as [Hf1 _]; [lia|].
    split; [exact Hq1|]. split; [exact Hf1|].
    rewrite adduint32_data, Hqd, <- !app_assoc. reflexivity.
  - unfold fxp_rmdir_send.
    apply (sends_intro (fun req => path_packet SSH_FXP_RMDIR req cpath) (fun p => p)
                       _ s Hup Hreg).
    path_sender SSH_FXP_RMDIR path rest Hpath. exists q. auto.
  - unfold fxp_remove_send.
    apply (sends_intro (fun req => path_packet SSH_FXP_REMOVE req cpath) (fun p => p)
                       _ s Hup Hreg).
    path_sender SSH_FXP_REMOVE path rest Hpath. exists q. auto.
  - unfold fxp_stat_send.
    apply (sends_intro (fun req => path_packet SSH_FXP_STAT req cpath) (fun p => p)
                       _ s Hup Hreg).
    path_sender SSH_FXP_STAT path rest Hpath. exists q. auto.
  - unfold fxp_rename_send.
    apply (sends_intro (fun req => obind (path_packet SSH_FXP_RENAME req cpath)
                                         (fun pktout => sftp_pkt_addstring pktout cdst))
                       (fun p => p) _ s Hup Hreg).
    path_sender SSH_FXP_RENAME path rest Hpath.
    destruct (addstring_str_shape q dst rest' Hq Hqf Hdst)
      as (q2 & Eq2 & Hq2 & Hqf2 & Hqd2 & _); [lia|].
    exists q2. split; [unfold cpath; rewrite Eq; exact Eq2|]. split; [exact Hq2|].
    split; [exact Hqf2|].
    rewrite Hqd2, Hqd, <- !app_assoc. reflexivity.
  - unfold fxp_setstat_send.
    apply (sends_intro (fun req => path_packet SSH_FXP_SETSTAT req cpath)
                       (fun p => sftp_pkt_addattrs p attrs) _ s Hup Hreg).
    path_sender SSH_FXP_SETSTAT path rest Hpath. exists q. split; [exact Eq|].
    split; [apply addattrs_buffer_ok; [exact Hq | unfold INT_MAX, UINT_MOD in *; lia]|].
    split; [apply addattrs_fits; [exact Hqf | lia]|].
    rewrite addattrs_wire, Hqd, <- !app_assoc. reflexivity.
  - unfold fxp_fsetstat_send.
    apply (sends_intro (fun req => Ok (handle_packet SSH_FXP_FSETSTAT req handle))
                       (fun p => sftp_pkt_addattrs p attrs) _ s Hup Hreg).
    intros i.
    destruct (handle_packet_shape SSH_FXP_FSETSTAT (mk_request i 0 None) h term
                ltac:(vm_compute; split; [discriminate | reflexivity])
                ltac:(lia)) as (Hd & Hl & _).
    destruct (handle_packet_fits SSH_FXP_FSETSTAT (mk_request i 0 None) h term
                ltac:(lia)) as [Hf _].
    fold handle in Hd, Hl, Hf. eexists. split; [reflexivity|].
    assert (Hq : pkt_buffer_ok (handle_packet SSH_FXP_FSETSTAT (mk_request i 0 None)
                                              handle)).
    { split; [|rewrite Hl; unfold INT_MAX, UINT_MOD in *; lia].
      rewrite Hl, Hd, !length_app. cbn [length PUT_32BIT]. lia. }
    split; [apply addattrs_buffer_ok;
            [exact Hq | rewrite Hl; unfold INT_MAX, UINT_MOD in *; lia]|].
    split; [apply addattrs_fits; [exact Hf | rewrite Hl; lia]|].
    rewrite addattrs_wire, Hd, <- !app_assoc. reflexivity.
Qed.

Lemma requests_on_the_wire_witness :
  sends initial_state (fxp_realpath_send ([47; 97] ++ 0 :: []) initial_state)
        (fun i => [SSH_FXP_REALPATH] ++ PUT_32BIT i ++ wire_string [47; 97]) /\
  sends initial_state (fxp_rename_send ([47; 97] ++ 0 :: []) ([98] ++ 0 :: [])
                                       initial_state)
        (fun i => [SSH_FXP_RENAME] ++ PUT_32BIT i ++ wire_string [47; 97]
                  ++ wire_string [98]) /\
  sends initial_state
        (fxp_fsetstat_send (mk_handle ([7] ++ [0]) (Z.of_nat (length [7]))) attrs0
                           initial_state)
        (fun i => [SSH_FXP_FSETSTAT] ++ PUT_32BIT i ++ wire_string [7]
                  ++ wire_attrs attrs0).
Proof.
  assert (Hreg : registry_ok (default [] (sftp_requests initial_state))).
  { cbn. repeat constructor. unfold INT_MAX. cbn. lia. }
  assert (Hpath : Forall (fun c => uchar c <> 0) [47; 97]).
  { repeat constructor; vm_compute; discriminate. }
  assert (Hdst : Forall (fun c => uchar c <> 0) [98]).
  { repeat constructor; vm_compute; discriminate. }
  pose proof (requests_on_the_wire initial_state [47; 97] [] [98] [] [7] [0] 1 attrs0
                eq_refl Hreg Hpath Hdst ltac:(vm_compute; discriminate)
                ltac:(vm_compute; discriminate)) as H.
  cbv zeta in H. destruct H as (H1 & _ & _ & _ & _ & _ & _ & H8 & _ & H10).
  split; [exact H1 | split; [exact H8 | exact H10]].
Defined.
